(** * PDCP transmitter and receiver entities

    A shallow embedding of [pdcp_entity_tx] (lib/pdcp/pdcp_entity_tx.cpp) and
    [pdcp_entity_rx] (lib/pdcp/pdcp_entity_rx.cpp).

    - [uint32_t] values are integers of [Z] in [0, 2^32); every operation
      that can leave that range is wrapped with [u32].
    - A [byte_buffer] is a list of bytes, each an integer in [0, 256).
    - The SDU windows are finite maps from slot index to entry.
    - The notifier interfaces ([lower_dn], [upper_dn], [upper_cn]) are
      recorded as an event log carried in the entity, oldest event first.
    - Loops are unrolled by a counter that is computed from the loop bounds,
      so that every operation is a total function. *)

From Stdlib Require Import ZArith List Bool Lia.
From stdpp Require Import base option list gmap.

Local Open Scope Z_scope.

(** ** Machine integers and buffers *)

Definition u32 (z : Z) : Z := z mod 2 ^ 32.

Definition is_u32 (z : Z) : Prop := 0 <= z < 2 ^ 32.

Abbreviation byte_buffer := (list Z).

(** ** Configuration enumerations (srsran/pdcp/pdcp_config.h) *)

Inductive pdcp_sn_size := size12bits | size18bits.
Inductive pdcp_rb_type := srb | drb.
Inductive pdcp_rlc_mode := um | am.
Inductive pdcp_security_direction := uplink | downlink.

(** A discard timer is a finite number of milliseconds or [infinity]. *)
Inductive pdcp_discard_timer := discard_ms (ms : Z) | discard_infinity.

(** t-Reordering is [ms0], a finite non-zero duration, or [infinity]. *)
Inductive pdcp_t_reordering := ms0 | reordering_ms (ms : Z) | infinity.

Record pdcp_max_count := { notify : Z; hard : Z }.

Definition pdcp_sn_size_to_uint (s : pdcp_sn_size) : Z :=
  match s with size12bits => 12 | size18bits => 18 end.

(** ** COUNT arithmetic (pdcp_entity_tx_rx_base.h, pdcp_sn_util.h) *)

(** Modelled from the spec: the helpers [SN], [HFN], [COUNT],
    [pdcp_sn_cardinality] and [pdcp_window_size] are declared in headers that
    are not part of the sources at hand.  Section 3: COUNT is a 32-bit value
    (HFN, SN) where SN occupies the configured low-order bits and HFN the
    remaining high-order bits; the window size is W = 2^(SN_BITS-1). *)
Definition pdcp_sn_cardinality (s : pdcp_sn_size) : Z :=
  Z.shiftl 1 (pdcp_sn_size_to_uint s).

Definition pdcp_window_size (s : pdcp_sn_size) : Z :=
  Z.shiftl 1 (pdcp_sn_size_to_uint s - 1).

Definition SN (s : pdcp_sn_size) (count : Z) : Z :=
  Z.land count (Z.ones (pdcp_sn_size_to_uint s)).

Definition HFN (s : pdcp_sn_size) (count : Z) : Z :=
  Z.shiftr count (pdcp_sn_size_to_uint s).

Definition COUNT (s : pdcp_sn_size) (hfn sn : Z) : Z :=
  Z.lor (u32 (Z.shiftl hfn (pdcp_sn_size_to_uint s))) sn.

(** The nearest-window rule shared by the receiver (lines 151-160 of
    [handle_data_pdu]) and the transmitter ([notification_count_estimation]):
    the first comparison is carried out on [int64_t], hence on plain
    integers; the second one and the HFN updates are [uint32_t]. *)
Definition count_from_sn (s : pdcp_sn_size) (lower sn : Z) : Z :=
  let window_size := pdcp_window_size s in
  let hfn :=
    if sn <? SN s lower - window_size then u32 (HFN s lower + 1)
    else if u32 (SN s lower + window_size) <=? sn then u32 (HFN s lower - 1)
    else HFN s lower in
  COUNT s hfn sn.

(** ** The SDU window (lib/support/sdu_window_impl.h) *)

(** Modelled from the spec: the window container is not part of the sources
    at hand.  Sections 3 and 9: a fixed-capacity store of optional slots,
    indexed by COUNT modulo the capacity; occupancy of the slot is what
    [has_sn] reports, and the callers compare the COUNT stored in the entry
    to tell a live entry from a stale one.  The map below holds the occupied
    slots, keyed by slot index. *)
Section sdu_window.
Context {T : Type}.
Variable capacity : Z.

Definition slot_of (sn : Z) : Z := sn mod capacity.

Definition has_sn (w : gmap Z T) (sn : Z) : bool :=
  match w !! slot_of sn with Some _ => true | None => false end.

Definition window_at (w : gmap Z T) (sn : Z) : option T := w !! slot_of sn.

Definition add_sn (w : gmap Z T) (sn : Z) (x : T) : gmap Z T :=
  <[slot_of sn := x]> w.

Definition remove_sn (w : gmap Z T) (sn : Z) : gmap Z T :=
  delete (slot_of sn) w.

Definition window_clear (w : gmap Z T) : gmap Z T := ∅.

Definition window_size_of (w : gmap Z T) : nat := size w.
End sdu_window.

(** ** Security context (srsran/security/security.h) *)

Inductive integrity_algorithm := nia0 | nia1 | nia2 | nia3.
Inductive ciphering_algorithm := nea0 | nea1 | nea2 | nea3.

Abbreviation sec_key := (list Z).
Abbreviation sec_mac := (list Z).

Definition sec_mac_len : Z := 4.

(** [k_128_int] and [integ_algo] are optional in the source and dereferenced
    under an assertion; the embedding holds their values. *)
Record sec_128_as_config := {
  k_128_int : sec_key;
  k_128_enc : sec_key;
  integ_algo : integrity_algorithm;
  cipher_algo : ciphering_algorithm
}.

(** The NIA and NEA primitives are external collaborators: pure functions of
    key, COUNT, bearer id, direction and message. *)
Record security_primitives := {
  security_nia1 : sec_key -> Z -> Z -> pdcp_security_direction -> byte_buffer -> sec_mac;
  security_nia2 : sec_key -> Z -> Z -> pdcp_security_direction -> byte_buffer -> sec_mac;
  security_nia3 : sec_key -> Z -> Z -> pdcp_security_direction -> byte_buffer -> sec_mac;
  security_nea1 : sec_key -> Z -> Z -> pdcp_security_direction -> byte_buffer -> byte_buffer;
  security_nea2 : sec_key -> Z -> Z -> pdcp_security_direction -> byte_buffer -> byte_buffer;
  security_nea3 : sec_key -> Z -> Z -> pdcp_security_direction -> byte_buffer -> byte_buffer
}.

Record security_context := {
  integrity_enabled : bool;
  ciphering_enabled : bool;
  sec_cfg : sec_128_as_config
}.

(** ** Bit packing (srsran/support/bit_encoding.h) *)

(** Modelled from the spec: [bit_encoder] and [bit_decoder] are not part of
    the sources at hand.  Section 6: fields are packed big-endian, most
    significant bit first; a buffer is a whole number of bytes, so the last
    byte is padded with zero bits. *)
Fixpoint bits_of (nbits : nat) (v : Z) : list bool :=
  match nbits with
  | O => []
  | S n => Z.testbit v (Z.of_nat n) :: bits_of n v
  end.

Definition bits_value (bs : list bool) : Z :=
  fold_left (fun acc (b : bool) => 2 * acc + (if b then 1 else 0)) bs 0.

Definition byte_to_bits (b : Z) : list bool := bits_of 8 b.

Definition bytes_to_bits (buf : byte_buffer) : list bool :=
  flat_map byte_to_bits buf.

Fixpoint bits_to_bytes_aux (fuel : nat) (bs : list bool) : byte_buffer :=
  match fuel with
  | O => []
  | S n =>
      match bs with
      | [] => []
      | _ => bits_value (take 8 (bs ++ replicate 7 false)) :: bits_to_bytes_aux n (drop 8 bs)
      end
  end.

Definition bits_to_bytes (bs : list bool) : byte_buffer :=
  bits_to_bytes_aux (length bs) bs.

(** [unpack n] reads an [n]-bit field.  When fewer than [n] bits remain the
    read fails, the decoder is exhausted and the caller's variable keeps the
    value it was initialised with. *)
Definition unpack (n : nat) (bs : list bool) : option Z * list bool :=
  if (length bs <? n)%nat then (None, [])
  else (Some (bits_value (take n bs)), drop n bs).

(** Modelled from the spec: section 6 gives the maximum size of a control
    PDU, 9000 bytes; the constant itself is declared in a header that is not
    part of the sources at hand. *)
Definition pdcp_control_pdu_max_size : Z := 9000.

(** Outcome of the buffer operations of one call, which fail only when the
    buffer pool is exhausted. *)
Record buffer_env := {
  deep_copy_ok : bool;
  prepend_ok : bool;
  append_ok : bool
}.

Definition buffers_ok : buffer_env :=
  {| deep_copy_ok := true; prepend_ok := true; append_ok := true |}.

(** ** Transmitter entity (pdcp_entity_tx.cpp) *)

Module pdcp_entity_tx.

Record pdcp_custom_config_tx := {
  rlc_sdu_queue : Z;
  warn_on_drop : bool;
  max_count : pdcp_max_count
}.

Record pdcp_tx_config := {
  rb_type : pdcp_rb_type;
  rlc_mode : pdcp_rlc_mode;
  sn_size : pdcp_sn_size;
  direction : pdcp_security_direction;
  discard_timer : option pdcp_discard_timer;
  status_report_required : bool;
  bearer_id : Z;
  custom : pdcp_custom_config_tx
}.

Record pdcp_tx_state := {
  tx_next : Z;
  tx_trans : Z;
  tx_next_ack : Z
}.

(** An entry of the TX window.  [sdu_discard_timer] is the duration of the
    running discard timer, if one was started. *)
Record pdcp_tx_sdu_info := {
  count : Z;
  sdu : byte_buffer;
  sdu_discard_timer : option Z
}.

Record tx_metrics := {
  num_sdus : Z;
  num_sdu_bytes : Z;
  num_pdus : Z;
  num_pdu_bytes : Z;
  num_discard_timeouts : Z
}.

(** Calls made on the lower-layer data notifier and on the upper-layer
    control notifier. *)
Inductive tx_event :=
| on_new_pdu (buf : byte_buffer) (is_retx : bool)
| on_discard_pdu (sn : Z)
| on_protocol_failure
| on_max_count_reached.

Record entity := {
  st : pdcp_tx_state;
  tx_window : gmap Z pdcp_tx_sdu_info;
  max_count_notified : bool;
  max_count_overflow : bool;
  sec : security_context;
  metrics : tx_metrics;
  out : list tx_event
}.

Definition set_st (e : entity) (s : pdcp_tx_state) : entity :=
  {| st := s; tx_window := tx_window e;
     max_count_notified := max_count_notified e;
     max_count_overflow := max_count_overflow e;
     sec := sec e; metrics := metrics e; out := out e |}.

Definition set_tx_window (e : entity) (w : gmap Z pdcp_tx_sdu_info) : entity :=
  {| st := st e; tx_window := w;
     max_count_notified := max_count_notified e;
     max_count_overflow := max_count_overflow e;
     sec := sec e; metrics := metrics e; out := out e |}.

Definition set_max_count_notified (e : entity) (b : bool) : entity :=
  {| st := st e; tx_window := tx_window e;
     max_count_notified := b;
     max_count_overflow := max_count_overflow e;
     sec := sec e; metrics := metrics e; out := out e |}.

Definition set_max_count_overflow (e : entity) (b : bool) : entity :=
  {| st := st e; tx_window := tx_window e;
     max_count_notified := max_count_notified e;
     max_count_overflow := b;
     sec := sec e; metrics := metrics e; out := out e |}.

Definition set_metrics (e : entity) (m : tx_metrics) : entity :=
  {| st := st e; tx_window := tx_window e;
     max_count_notified := max_count_notified e;
     max_count_overflow := max_count_overflow e;
     sec := sec e; metrics := m; out := out e |}.

Definition emit (e : entity) (ev : tx_event) : entity :=
  {| st := st e; tx_window := tx_window e;
     max_count_notified := max_count_notified e;
     max_count_overflow := max_count_overflow e;
     sec := sec e; metrics := metrics e; out := out e ++ [ev] |}.

Definition set_tx_next (s : pdcp_tx_state) (v : Z) : pdcp_tx_state :=
  {| tx_next := v; tx_trans := tx_trans s; tx_next_ack := tx_next_ack s |}.

Definition set_tx_trans (s : pdcp_tx_state) (v : Z) : pdcp_tx_state :=
  {| tx_next := tx_next s; tx_trans := v; tx_next_ack := tx_next_ack s |}.

Definition set_tx_next_ack (s : pdcp_tx_state) (v : Z) : pdcp_tx_state :=
  {| tx_next := tx_next s; tx_trans := tx_trans s; tx_next_ack := v |}.

Definition metrics_add_sdus (e : entity) (n len : Z) : entity :=
  let m := metrics e in
  set_metrics e {| num_sdus := num_sdus m + n; num_sdu_bytes := num_sdu_bytes m + len;
                   num_pdus := num_pdus m; num_pdu_bytes := num_pdu_bytes m;
                   num_discard_timeouts := num_discard_timeouts m |}.

Definition metrics_add_pdus (e : entity) (n len : Z) : entity :=
  let m := metrics e in
  set_metrics e {| num_sdus := num_sdus m; num_sdu_bytes := num_sdu_bytes m;
                   num_pdus := num_pdus m + n; num_pdu_bytes := num_pdu_bytes m + len;
                   num_discard_timeouts := num_discard_timeouts m |}.

Definition metrics_add_discard_timouts (e : entity) (n : Z) : entity :=
  let m := metrics e in
  set_metrics e {| num_sdus := num_sdus m; num_sdu_bytes := num_sdu_bytes m;
                   num_pdus := num_pdus m; num_pdu_bytes := num_pdu_bytes m;
                   num_discard_timeouts := num_discard_timeouts m + n |}.

Section operations.
Variable prims : security_primitives.
Variable cfg : pdcp_tx_config.

Definition is_srb : bool := match rb_type cfg with srb => true | drb => false end.
Definition is_drb : bool := match rb_type cfg with drb => true | srb => false end.
Definition is_um : bool := match rlc_mode cfg with um => true | am => false end.
Definition is_am : bool := match rlc_mode cfg with am => true | um => false end.

Definition window_size : Z := pdcp_window_size (sn_size cfg).

Definition has_discard_timer : bool :=
  match discard_timer cfg with Some _ => true | None => false end.

(** The loop of [discard_pdu]:
    [while (tx_next_ack < tx_next && !has_sn(tx_next_ack)) tx_next_ack++]. *)
Fixpoint advance_tx_next_ack (fuel : nat) (w : gmap Z pdcp_tx_sdu_info) (next ack : Z) : Z :=
  match fuel with
  | O => ack
  | S n =>
      if (ack <? next) && negb (has_sn window_size w ack)
      then advance_tx_next_ack n w next (u32 (ack + 1))
      else ack
  end.

Definition clamp_tx_trans (s : pdcp_tx_state) : pdcp_tx_state :=
  if tx_trans s <? tx_next_ack s then set_tx_trans s (tx_next_ack s) else s.

Definition discard_pdu (e : entity) (c : Z) : entity :=
  if negb has_discard_timer then e
  else if (c <? tx_next_ack (st e)) || (tx_next (st e) <=? c) then e
  else if negb (has_sn window_size (tx_window e) c) then e
  else
    let e := emit e (on_discard_pdu (SN (sn_size cfg) c)) in
    let w := remove_sn window_size (tx_window e) c in
    let e := set_tx_window e w in
    let ack := advance_tx_next_ack
                 (Z.to_nat (tx_next (st e) - tx_next_ack (st e)))
                 w (tx_next (st e)) (tx_next_ack (st e)) in
    let e := set_st e (set_tx_next_ack (st e) ack) in
    set_st e (clamp_tx_trans (st e)).

(** The loop of [stop_discard_timer]: remove every entry from
    [tx_next_ack] up to [highest_count]. *)
Fixpoint stop_timers_loop (fuel : nat) (w : gmap Z pdcp_tx_sdu_info)
         (highest_count ack : Z) : gmap Z pdcp_tx_sdu_info * Z :=
  match fuel with
  | O => (w, ack)
  | S n =>
      if ack <=? highest_count then
        let w := if has_sn window_size w ack then remove_sn window_size w ack else w in
        stop_timers_loop n w highest_count (u32 (ack + 1))
      else (w, ack)
  end.

Definition stop_discard_timer (e : entity) (highest_count : Z) : entity :=
  if negb has_discard_timer then e
  else if (highest_count <? tx_next_ack (st e)) || (tx_next (st e) <=? highest_count) then e
  else
    let '(w, ack) := stop_timers_loop
                       (Z.to_nat (highest_count - tx_next_ack (st e) + 1))
                       (tx_window e) highest_count (tx_next_ack (st e)) in
    let e := set_tx_window e w in
    let e := set_st e (set_tx_next_ack (st e) ack) in
    set_st e (clamp_tx_trans (st e)).

Definition hdr_len : Z :=
  match sn_size cfg with size12bits => 2 | size18bits => 3 end.

Definition write_data_pdu_header (env : buffer_env) (buf : byte_buffer) (hdr_sn : Z)
  : option byte_buffer :=
  if negb (prepend_ok env) then None
  else
    let dc := if is_drb then 0x80 else 0x00 in
    match sn_size cfg with
    | size12bits =>
        Some (Z.lor dc (Z.shiftr (Z.land hdr_sn 0x00000f00) 8)
                :: Z.land hdr_sn 0x000000ff :: buf)
    | size18bits =>
        Some (Z.lor dc (Z.shiftr (Z.land hdr_sn 0x00030000) 16)
                :: Z.shiftr (Z.land hdr_sn 0x0000ff00) 8
                :: Z.land hdr_sn 0x000000ff :: buf)
    end.

Definition integrity_generate (e : entity) (buf : byte_buffer) (c : Z) : sec_mac :=
  let k := k_128_int (sec_cfg (sec e)) in
  match integ_algo (sec_cfg (sec e)) with
  | nia0 => [0; 0; 0; 0]
  | nia1 => security_nia1 prims k c (bearer_id cfg) (direction cfg) buf
  | nia2 => security_nia2 prims k c (bearer_id cfg) (direction cfg) buf
  | nia3 => security_nia3 prims k c (bearer_id cfg) (direction cfg) buf
  end.

Definition cipher_encrypt (e : entity) (buf : byte_buffer) (c : Z) : byte_buffer :=
  let k := k_128_enc (sec_cfg (sec e)) in
  match cipher_algo (sec_cfg (sec e)) with
  | nea1 => security_nea1 prims k c (bearer_id cfg) (direction cfg) buf
  | nea2 => security_nea2 prims k c (bearer_id cfg) (direction cfg) buf
  | nea3 => security_nea3 prims k c (bearer_id cfg) (direction cfg) buf
  | nea0 => buf
  end.

Definition apply_ciphering_and_integrity_protection
           (env : buffer_env) (e : entity) (buf : byte_buffer) (c : Z)
  : option byte_buffer :=
  let mac :=
    if integrity_enabled (sec e) then integrity_generate e buf c else [0; 0; 0; 0] in
  let appended :=
    if is_srb || (is_drb && integrity_enabled (sec e))
    then (if append_ok env then Some (buf ++ mac) else None)
    else Some buf in
  match appended with
  | None => None
  | Some buf =>
      if ciphering_enabled (sec e)
         && negb (match cipher_algo (sec_cfg (sec e)) with nea0 => true | _ => false end)
      then Some (take (Z.to_nat hdr_len) buf
                   ++ cipher_encrypt e (drop (Z.to_nat hdr_len) buf) c)
      else Some buf
  end.

Definition write_data_pdu_to_lower_layers (e : entity) (c : Z) (buf : byte_buffer)
           (is_retx : bool) : entity :=
  let e := metrics_add_pdus e 1 (Z.of_nat (length buf)) in
  emit e (on_new_pdu buf is_retx).

Definition write_control_pdu_to_lower_layers (e : entity) (buf : byte_buffer) : entity :=
  let e := metrics_add_pdus e 1 (Z.of_nat (length buf)) in
  emit e (on_new_pdu buf false).

(** The part of [handle_sdu] that stores the SDU in the TX window
    (lines 109-133). *)
Definition store_in_tx_window (e : entity) (sdu_copy : byte_buffer) : entity :=
  match discard_timer cfg with
  | None => e
  | Some d =>
      let timer := match d with discard_ms ms => Some ms | discard_infinity => None end in
      let e :=
        match window_at window_size (tx_window e) (tx_next (st e)) with
        | Some old => discard_pdu e (count old)
        | None => e
        end in
      set_tx_window e
        (add_sn window_size (tx_window e) (tx_next (st e))
           {| count := tx_next (st e);
              sdu := if is_am then sdu_copy else [];
              sdu_discard_timer := timer |})
  end.

(** The one-shot warning of [handle_sdu] (lines 64-70). *)
Definition notify_max_count (e : entity) : entity :=
  if (notify (max_count (custom cfg)) <=? tx_next (st e))
     && negb (max_count_notified e)
  then set_max_count_notified (emit e on_max_count_reached) true
  else e.

(** The part of [handle_sdu] that builds the PDU, stores the SDU and
    hands the PDU to the lower layers (lines 72-139). *)
Definition transmit_sdu (env : buffer_env) (e : entity) (buf : byte_buffer) : entity :=
  if has_discard_timer && is_am && negb (deep_copy_ok env)
  then emit e on_protocol_failure
  else
    let sdu_copy := if has_discard_timer && is_am then buf else [] in
    match write_data_pdu_header env buf (SN (sn_size cfg) (tx_next (st e))) with
    | None => emit e on_protocol_failure
    | Some buf =>
        match apply_ciphering_and_integrity_protection env e buf (tx_next (st e)) with
        | None => emit e on_protocol_failure
        | Some protected_buf =>
            let e := store_in_tx_window e sdu_copy in
            let e := write_data_pdu_to_lower_layers e (tx_next (st e))
                       protected_buf false in
            set_st e (set_tx_next (st e) (u32 (tx_next (st e) + 1)))
        end
    end.

Definition handle_sdu (env : buffer_env) (e : entity) (buf : byte_buffer) : entity :=
  if tx_next (st e) <? tx_trans (st e) then e
  else if rlc_sdu_queue (custom cfg) <=? u32 (tx_next (st e) - tx_trans (st e)) then e
  else if u32 (window_size - 1) <=? u32 (tx_next (st e) - tx_trans (st e)) then e
  else
    let e := metrics_add_sdus e 1 (Z.of_nat (length buf)) in
    if hard (max_count (custom cfg)) <=? tx_next (st e) then
      if negb (max_count_overflow e)
      then set_max_count_overflow (emit e on_protocol_failure) true
      else e
    else transmit_sdu env (notify_max_count e) buf.

Definition reset (e : entity) : entity :=
  set_tx_window
    (set_st e {| tx_next := 0; tx_trans := 0; tx_next_ack := 0 |})
    (window_clear (tx_window e)).

(** The bitmap walk of [handle_status_report] (lines 265-273). *)
Fixpoint status_bitmap_loop (e : entity) (fmc : Z) (bits : list bool) : entity :=
  match bits with
  | [] => e
  | b :: rest =>
      let fmc := u32 (fmc + 1) in
      status_bitmap_loop (if b then discard_pdu e fmc else e) fmc rest
  end.

Definition handle_status_report (create_ok : bool) (e : entity) (status : byte_buffer)
  : entity :=
  if negb create_ok then e
  else
    let dec := bytes_to_bits status in
    let '(dc, dec) := unpack 1 dec in
    if negb (default 0 dc =? 0) then e
    else
      let '(cpt, dec) := unpack 3 dec in
      if negb (default 0 cpt =? 0) then e
      else
        let '(reserved, dec) := unpack 4 dec in
        if negb (default 0 reserved =? 0) then e
        else
          let '(fmc, dec) := unpack 32 dec in
          let fmc := default 0 fmc in
          let e := fold_left discard_pdu
                     (seqZ (tx_next_ack (st e)) (fmc - tx_next_ack (st e))) e in
          status_bitmap_loop e fmc dec.

(** The loop body of [retransmit_all_pdus]; it stops at the first buffer
    or security failure. *)
Fixpoint retransmit_loop (env : Z -> buffer_env) (counts : list Z) (e : entity) : entity :=
  match counts with
  | [] => e
  | c :: rest =>
      match window_at window_size (tx_window e) c with
      | None => retransmit_loop env rest e
      | Some sdu_info =>
          if negb (deep_copy_ok (env c)) then emit e on_protocol_failure
          else
            match write_data_pdu_header (env c) (sdu sdu_info)
                    (SN (sn_size cfg) (count sdu_info)) with
            | None => emit e on_protocol_failure
            | Some buf =>
                match apply_ciphering_and_integrity_protection (env c) e buf
                        (count sdu_info) with
                | None => emit e on_protocol_failure
                | Some protected_buf =>
                    retransmit_loop env rest
                      (write_data_pdu_to_lower_layers e (count sdu_info)
                         protected_buf true)
                end
            end
      end
  end.

Definition retransmit_all_pdus (env : Z -> buffer_env) (e : entity) : entity :=
  if negb has_discard_timer then e
  else if negb is_am then e
  else
    let e := set_st e (set_tx_trans (st e) (tx_next_ack (st e))) in
    retransmit_loop env
      (seqZ (tx_next_ack (st e)) (tx_next (st e) - tx_next_ack (st e))) e.

Definition notification_count_estimation (e : entity) (notification_sn : Z) : Z :=
  let tx_lower := if has_discard_timer then tx_next_ack (st e) else tx_trans (st e) in
  count_from_sn (sn_size cfg) tx_lower notification_sn.

Definition handle_transmit_notification (e : entity) (notif_sn : Z) : entity :=
  if pdcp_sn_cardinality (sn_size cfg) <=? notif_sn then e
  else
    let notif_count := notification_count_estimation e notif_sn in
    if notif_count <? tx_trans (st e) then e
    else if tx_next (st e) <=? notif_count then e
    else
      let e := set_st e (set_tx_trans (st e) (u32 (notif_count + 1))) in
      if negb has_discard_timer then e
      else if is_um then stop_discard_timer e notif_count
      else e.

Definition handle_delivery_notification (e : entity) (notif_sn : Z) : entity :=
  if pdcp_sn_cardinality (sn_size cfg) <=? notif_sn then e
  else
    let notif_count := notification_count_estimation e notif_sn in
    if tx_next (st e) <=? notif_count then e
    else if negb has_discard_timer then e
    else if is_am then stop_discard_timer e notif_count
    else e.

Definition handle_retransmit_notification (e : entity) (notif_sn : Z) : entity := e.

Definition handle_delivery_retransmitted_notification (e : entity) (notif_sn : Z)
  : entity := e.

(** [discard_callback::operator()]: expiry of the discard timer that was
    started for [discard_count]. *)
Definition discard_callback (e : entity) (discard_count : Z) : entity :=
  discard_pdu (metrics_add_discard_timouts e 1) discard_count.

Definition set_sec (e : entity) (sc : security_context) : entity :=
  {| st := st e; tx_window := tx_window e;
     max_count_notified := max_count_notified e;
     max_count_overflow := max_count_overflow e;
     sec := sc; metrics := metrics e; out := out e |}.

(** Modelled from the spec: [configure_security] is defined in
    pdcp_entity_tx.h, which is not part of the sources at hand.  Section
    4.10: the keys and algorithms of the security context are replaced
    wholesale, independent of the counters; whether integrity protection
    and ciphering are switched on is not part of the new configuration. *)
Definition configure_security (e : entity) (sec_cfg_ : sec_128_as_config) : entity :=
  set_sec e {| integrity_enabled := integrity_enabled (sec e);
               ciphering_enabled := ciphering_enabled (sec e);
               sec_cfg := sec_cfg_ |}.

Definition reestablish (env : Z -> buffer_env) (e : entity) (sec_cfg_ : sec_128_as_config)
  : entity :=
  let e := if is_srb || is_um then reset e else e in
  let e := configure_security e sec_cfg_ in
  if is_am then retransmit_all_pdus env e else e.

(** [send_status_report]: [status_report] is the buffer that the status
    provider, the receiving entity of the bearer, compiles on request. *)
Definition send_status_report (status_report : byte_buffer) (e : entity) : entity :=
  if status_report_required cfg
  then write_control_pdu_to_lower_layers e status_report
  else e.

(** [data_recovery], which the source asserts to be called on AM DRBs
    only. *)
Definition data_recovery (status_report : byte_buffer) (env : Z -> buffer_env) (e : entity)
  : entity :=
  let e := if status_report_required cfg then send_status_report status_report e else e in
  retransmit_all_pdus env e.

End operations.

End pdcp_entity_tx.

(** ** Receiver entity (pdcp_entity_rx.cpp) *)

Module pdcp_entity_rx.

Record pdcp_rx_config := {
  rb_type : pdcp_rb_type;
  rlc_mode : pdcp_rlc_mode;
  sn_size : pdcp_sn_size;
  direction : pdcp_security_direction;
  t_reordering : pdcp_t_reordering;
  bearer_id : Z;
  max_count : pdcp_max_count
}.

Record pdcp_rx_state := {
  rx_next : Z;
  rx_deliv : Z;
  rx_reord : Z
}.

Record pdcp_rx_sdu_info := {
  sdu : byte_buffer;
  count : Z
}.

Record rx_metrics := {
  num_pdus : Z;
  num_pdu_bytes : Z;
  num_dropped_pdus : Z;
  num_sdus : Z;
  num_sdu_bytes : Z;
  num_integrity_verified_pdus : Z;
  num_integrity_failed_pdus : Z;
  num_t_reordering_timeouts : Z
}.

(** Calls made on the upper-layer data and control notifiers and on the
    status handler of the peer transmitter. *)
Inductive rx_event :=
| on_new_sdu (buf : byte_buffer)
| on_max_count_reached
| on_protocol_failure
| on_integrity_failure
| on_status_report (buf : byte_buffer).

Record entity := {
  st : pdcp_rx_state;
  rx_window : gmap Z pdcp_rx_sdu_info;
  reordering_timer_running : bool;
  max_count_notified : bool;
  max_count_overflow : bool;
  sec : security_context;
  metrics : rx_metrics;
  out : list rx_event
}.

Definition set_st (e : entity) (s : pdcp_rx_state) : entity :=
  {| st := s; rx_window := rx_window e;
     reordering_timer_running := reordering_timer_running e;
     max_count_notified := max_count_notified e;
     max_count_overflow := max_count_overflow e;
     sec := sec e; metrics := metrics e; out := out e |}.

Definition set_rx_window (e : entity) (w : gmap Z pdcp_rx_sdu_info) : entity :=
  {| st := st e; rx_window := w;
     reordering_timer_running := reordering_timer_running e;
     max_count_notified := max_count_notified e;
     max_count_overflow := max_count_overflow e;
     sec := sec e; metrics := metrics e; out := out e |}.

Definition set_reordering_timer (e : entity) (running : bool) : entity :=
  {| st := st e; rx_window := rx_window e;
     reordering_timer_running := running;
     max_count_notified := max_count_notified e;
     max_count_overflow := max_count_overflow e;
     sec := sec e; metrics := metrics e; out := out e |}.

Definition set_max_count_notified (e : entity) (b : bool) : entity :=
  {| st := st e; rx_window := rx_window e;
     reordering_timer_running := reordering_timer_running e;
     max_count_notified := b;
     max_count_overflow := max_count_overflow e;
     sec := sec e; metrics := metrics e; out := out e |}.

Definition set_max_count_overflow (e : entity) (b : bool) : entity :=
  {| st := st e; rx_window := rx_window e;
     reordering_timer_running := reordering_timer_running e;
     max_count_notified := max_count_notified e;
     max_count_overflow := b;
     sec := sec e; metrics := metrics e; out := out e |}.

Definition set_metrics (e : entity) (m : rx_metrics) : entity :=
  {| st := st e; rx_window := rx_window e;
     reordering_timer_running := reordering_timer_running e;
     max_count_notified := max_count_notified e;
     max_count_overflow := max_count_overflow e;
     sec := sec e; metrics := m; out := out e |}.

Definition emit (e : entity) (ev : rx_event) : entity :=
  {| st := st e; rx_window := rx_window e;
     reordering_timer_running := reordering_timer_running e;
     max_count_notified := max_count_notified e;
     max_count_overflow := max_count_overflow e;
     sec := sec e; metrics := metrics e; out := out e ++ [ev] |}.

Definition set_rx_next (s : pdcp_rx_state) (v : Z) : pdcp_rx_state :=
  {| rx_next := v; rx_deliv := rx_deliv s; rx_reord := rx_reord s |}.

Definition set_rx_deliv (s : pdcp_rx_state) (v : Z) : pdcp_rx_state :=
  {| rx_next := rx_next s; rx_deliv := v; rx_reord := rx_reord s |}.

Definition set_rx_reord (s : pdcp_rx_state) (v : Z) : pdcp_rx_state :=
  {| rx_next := rx_next s; rx_deliv := rx_deliv s; rx_reord := v |}.

Definition metrics_add_pdus (e : entity) (n len : Z) : entity :=
  let m := metrics e in
  set_metrics e
    {| num_pdus := num_pdus m + n; num_pdu_bytes := num_pdu_bytes m + len;
       num_dropped_pdus := num_dropped_pdus m;
       num_sdus := num_sdus m; num_sdu_bytes := num_sdu_bytes m;
       num_integrity_verified_pdus := num_integrity_verified_pdus m;
       num_integrity_failed_pdus := num_integrity_failed_pdus m;
       num_t_reordering_timeouts := num_t_reordering_timeouts m |}.

Definition metrics_add_dropped_pdus (e : entity) (n : Z) : entity :=
  let m := metrics e in
  set_metrics e
    {| num_pdus := num_pdus m; num_pdu_bytes := num_pdu_bytes m;
       num_dropped_pdus := num_dropped_pdus m + n;
       num_sdus := num_sdus m; num_sdu_bytes := num_sdu_bytes m;
       num_integrity_verified_pdus := num_integrity_verified_pdus m;
       num_integrity_failed_pdus := num_integrity_failed_pdus m;
       num_t_reordering_timeouts := num_t_reordering_timeouts m |}.

Definition metrics_add_sdus (e : entity) (n len : Z) : entity :=
  let m := metrics e in
  set_metrics e
    {| num_pdus := num_pdus m; num_pdu_bytes := num_pdu_bytes m;
       num_dropped_pdus := num_dropped_pdus m;
       num_sdus := num_sdus m + n; num_sdu_bytes := num_sdu_bytes m + len;
       num_integrity_verified_pdus := num_integrity_verified_pdus m;
       num_integrity_failed_pdus := num_integrity_failed_pdus m;
       num_t_reordering_timeouts := num_t_reordering_timeouts m |}.

Definition metrics_add_integrity_verified_pdus (e : entity) (n : Z) : entity :=
  let m := metrics e in
  set_metrics e
    {| num_pdus := num_pdus m; num_pdu_bytes := num_pdu_bytes m;
       num_dropped_pdus := num_dropped_pdus m;
       num_sdus := num_sdus m; num_sdu_bytes := num_sdu_bytes m;
       num_integrity_verified_pdus := num_integrity_verified_pdus m + n;
       num_integrity_failed_pdus := num_integrity_failed_pdus m;
       num_t_reordering_timeouts := num_t_reordering_timeouts m |}.

Definition metrics_add_integrity_failed_pdus (e : entity) (n : Z) : entity :=
  let m := metrics e in
  set_metrics e
    {| num_pdus := num_pdus m; num_pdu_bytes := num_pdu_bytes m;
       num_dropped_pdus := num_dropped_pdus m;
       num_sdus := num_sdus m; num_sdu_bytes := num_sdu_bytes m;
       num_integrity_verified_pdus := num_integrity_verified_pdus m;
       num_integrity_failed_pdus := num_integrity_failed_pdus m + n;
       num_t_reordering_timeouts := num_t_reordering_timeouts m |}.

Definition metrics_add_t_reordering_timeouts (e : entity) (n : Z) : entity :=
  let m := metrics e in
  set_metrics e
    {| num_pdus := num_pdus m; num_pdu_bytes := num_pdu_bytes m;
       num_dropped_pdus := num_dropped_pdus m;
       num_sdus := num_sdus m; num_sdu_bytes := num_sdu_bytes m;
       num_integrity_verified_pdus := num_integrity_verified_pdus m;
       num_integrity_failed_pdus := num_integrity_failed_pdus m;
       num_t_reordering_timeouts := num_t_reordering_timeouts m + n |}.

Section operations.
Variable prims : security_primitives.
Variable cfg : pdcp_rx_config.

Definition is_srb : bool := match rb_type cfg with srb => true | drb => false end.
Definition is_drb : bool := match rb_type cfg with drb => true | srb => false end.
Definition is_um : bool := match rlc_mode cfg with um => true | am => false end.
Definition is_am : bool := match rlc_mode cfg with am => true | um => false end.

Definition window_size : Z := pdcp_window_size (sn_size cfg).

Definition hdr_len_bytes : Z :=
  match sn_size cfg with size12bits => 2 | size18bits => 3 end.

Definition read_data_pdu_header (buf : byte_buffer) : option Z :=
  if Z.of_nat (length buf) <=? hdr_len_bytes then None
  else
    match sn_size cfg, buf with
    | size12bits, b0 :: b1 :: _ =>
        Some (Z.lor (Z.shiftl (Z.land b0 0x0f) 8) (Z.land b1 0xff))
    | size18bits, b0 :: b1 :: b2 :: _ =>
        Some (Z.lor (Z.lor (Z.shiftl (Z.land b0 0x03) 16) (Z.shiftl (Z.land b1 0xff) 8))
                (Z.land b2 0xff))
    | _, _ => None
    end.

Definition discard_data_header (buf : byte_buffer) : byte_buffer :=
  drop (Z.to_nat hdr_len_bytes) buf.

(** [extract_mac] returns the buffer without the MAC-I and the MAC-I; a
    buffer that is too small is left as it is and the MAC keeps its
    initial value. *)
Definition extract_mac (buf : byte_buffer) (mac : sec_mac) : byte_buffer * sec_mac :=
  if Z.of_nat (length buf) <=? sec_mac_len then (buf, mac)
  else (take (length buf - Z.to_nat sec_mac_len) buf,
        drop (length buf - Z.to_nat sec_mac_len) buf).

(** The comparison loop of [integrity_verify], bytes 0 to 3. *)
Fixpoint mac_equal (n : nat) (mac mac_exp : sec_mac) : bool :=
  match n with
  | O => true
  | S k => mac_equal k mac mac_exp
           && (nth k mac 0 =? nth k mac_exp 0)
  end.

Definition expected_mac (e : entity) (buf : byte_buffer) (c : Z) : sec_mac :=
  let k := k_128_int (sec_cfg (sec e)) in
  match integ_algo (sec_cfg (sec e)) with
  | nia0 => [0; 0; 0; 0]
  | nia1 => security_nia1 prims k c (bearer_id cfg) (direction cfg) buf
  | nia2 => security_nia2 prims k c (bearer_id cfg) (direction cfg) buf
  | nia3 => security_nia3 prims k c (bearer_id cfg) (direction cfg) buf
  end.

Definition integrity_verify (e : entity) (buf : byte_buffer) (c : Z) (mac : sec_mac)
  : bool :=
  let mac_exp := expected_mac e buf c in
  match integ_algo (sec_cfg (sec e)) with
  | nia0 => true
  | _ => mac_equal 4 mac mac_exp
  end.

Definition cipher_decrypt (e : entity) (msg : byte_buffer) (c : Z) : byte_buffer :=
  let k := k_128_enc (sec_cfg (sec e)) in
  match cipher_algo (sec_cfg (sec e)) with
  | nea0 => msg
  | nea1 => security_nea1 prims k c (bearer_id cfg) (direction cfg) msg
  | nea2 => security_nea2 prims k c (bearer_id cfg) (direction cfg) msg
  | nea3 => security_nea3 prims k c (bearer_id cfg) (direction cfg) msg
  end.

(** One iteration of the delivery loops: pass the SDU stored at
    [rx_deliv] to the upper layers and remove it from the window. *)
Definition deliver_at_rx_deliv (e : entity) : entity :=
  match window_at window_size (rx_window e) (rx_deliv (st e)) with
  | Some sdu_info =>
      let e := metrics_add_sdus e 1 (Z.of_nat (length (sdu sdu_info))) in
      let e := emit e (on_new_sdu (sdu sdu_info)) in
      set_rx_window e (remove_sn window_size (rx_window e) (rx_deliv (st e)))
  | None => e
  end.

Definition advance_rx_deliv (e : entity) : entity :=
  set_st e (set_rx_deliv (st e) (u32 (rx_deliv (st e) + 1))).

Fixpoint deliver_consecutive_loop (fuel : nat) (e : entity) : entity :=
  match fuel with
  | O => e
  | S n =>
      if negb (rx_deliv (st e) =? rx_next (st e))
         && has_sn window_size (rx_window e) (rx_deliv (st e))
      then deliver_consecutive_loop n (advance_rx_deliv (deliver_at_rx_deliv e))
      else e
  end.

Definition deliver_all_consecutive_counts (e : entity) : entity :=
  deliver_consecutive_loop (Z.to_nat (u32 (rx_next (st e) - rx_deliv (st e)))) e.

(** The first loop of [handle_t_reordering_expire]:
    [while (rx_deliv != rx_reord)]. *)
Fixpoint deliver_below_reord_loop (fuel : nat) (e : entity) : entity :=
  match fuel with
  | O => e
  | S n =>
      if negb (rx_deliv (st e) =? rx_reord (st e))
      then deliver_below_reord_loop n (advance_rx_deliv (deliver_at_rx_deliv e))
      else e
  end.

Definition handle_t_reordering_expire (e : entity) : entity :=
  let e := metrics_add_t_reordering_timeouts e 1 in
  let e := deliver_below_reord_loop
             (Z.to_nat (u32 (rx_reord (st e) - rx_deliv (st e)))) e in
  let e := deliver_all_consecutive_counts e in
  if rx_deliv (st e) <? rx_next (st e) then
    match t_reordering cfg with
    | ms0 => e
    | _ => set_reordering_timer (set_st e (set_rx_reord (st e) (rx_next (st e)))) true
    end
  else e.

(** [reordering_callback::operator()]: the timer that fires is no longer
    running when its callback is invoked. *)
Definition reordering_callback (e : entity) : entity :=
  handle_t_reordering_expire (set_reordering_timer e false).

(** The reordering-timer bookkeeping at the end of [handle_data_pdu]
    (lines 279-294). *)
Definition handle_reordering_timers (e : entity) : entity :=
  let e :=
    if reordering_timer_running e && (rx_reord (st e) <=? rx_deliv (st e))
    then set_reordering_timer e false else e in
  match t_reordering cfg with
  | infinity => e
  | ms0 => handle_t_reordering_expire (set_st e (set_rx_reord (st e) (rx_next (st e))))
  | reordering_ms _ =>
      if negb (reordering_timer_running e) && (rx_deliv (st e) <? rx_next (st e))
      then set_reordering_timer (set_st e (set_rx_reord (st e) (rx_next (st e)))) true
      else e
  end.

(** The part of [handle_data_pdu] that follows the integrity check
    (lines 230-294). *)
Definition store_and_deliver (e : entity) (sdu_buf : byte_buffer) (rcvd_count : Z)
  : entity :=
  let sdu_buf := discard_data_header sdu_buf in
  if rcvd_count <? rx_deliv (st e) then e
  else
    let stale :=
      match window_at window_size (rx_window e) rcvd_count with
      | Some sdu_info => if count sdu_info =? rcvd_count then None
                         else Some (remove_sn window_size (rx_window e) rcvd_count)
      | None => Some (rx_window e)
      end in
    match stale with
    | None => e
    | Some w =>
        let e := set_rx_window e
                   (add_sn window_size w rcvd_count
                      {| sdu := sdu_buf; count := rcvd_count |}) in
        let e := if rx_next (st e) <=? rcvd_count
                 then set_st e (set_rx_next (st e) (u32 (rcvd_count + 1)))
                 else e in
        let e := if rcvd_count =? rx_deliv (st e)
                 then deliver_all_consecutive_counts e else e in
        handle_reordering_timers e
    end.

(** Deciphering and extraction of the MAC-I in [handle_data_pdu]
    (lines 192-210): the header stays in front of the deciphered part. *)
Definition decipher_and_extract_mac (e : entity) (pdu : byte_buffer) (rcvd_count : Z)
  : byte_buffer * sec_mac :=
  let sdu_buf :=
    if ciphering_enabled (sec e)
       && negb (match cipher_algo (sec_cfg (sec e)) with nea0 => true | _ => false end)
    then take (Z.to_nat hdr_len_bytes) pdu
           ++ cipher_decrypt e (drop (Z.to_nat hdr_len_bytes) pdu) rcvd_count
    else pdu in
  if is_srb || (is_drb && integrity_enabled (sec e))
  then extract_mac sdu_buf [0; 0; 0; 0]
  else (sdu_buf, [0; 0; 0; 0]).

(** RCVD_COUNT, resolved against RX_DELIV (lines 151-160). *)
Definition calc_rcvd_count (e : entity) (hdr_sn : Z) : Z :=
  count_from_sn (sn_size cfg) (rx_deliv (st e)) hdr_sn.

Definition handle_data_pdu (e : entity) (pdu : byte_buffer) : entity :=
  if Z.of_nat (length pdu) <=? hdr_len_bytes then metrics_add_dropped_pdus e 1
  else
    match read_data_pdu_header pdu with
    | None => metrics_add_dropped_pdus e 1
    | Some hdr_sn =>
        let rcvd_count := calc_rcvd_count e hdr_sn in
        let e :=
          if (notify (max_count cfg) <? rcvd_count) && negb (max_count_notified e)
          then set_max_count_notified (emit e on_max_count_reached) true
          else e in
        if hard (max_count cfg) <=? rcvd_count then
          if negb (max_count_overflow e)
          then set_max_count_overflow (emit e on_protocol_failure) true
          else e
        else
          let '(sdu_buf, mac) := decipher_and_extract_mac e pdu rcvd_count in
          if integrity_enabled (sec e) then
            if negb (integrity_verify e sdu_buf rcvd_count mac)
            then metrics_add_integrity_failed_pdus e 1
            else store_and_deliver (metrics_add_integrity_verified_pdus e 1)
                   sdu_buf rcvd_count
          else store_and_deliver e sdu_buf rcvd_count
    end.

Definition compile_status_report (e : entity) : byte_buffer :=
  let max_bits := (pdcp_control_pdu_max_size - 5) * 8 in
  let bitmap_begin := u32 (rx_deliv (st e) + 1) in
  let bitmap_end := rx_next (st e) in
  let bitmap_end :=
    if (bitmap_begin <? bitmap_end) && (max_bits <? u32 (bitmap_end - bitmap_begin))
    then u32 (bitmap_begin + max_bits) else bitmap_end in
  bits_to_bytes
    (bits_of 1 0 ++ bits_of 3 0 ++ bits_of 4 0
       ++ bits_of 32 (rx_deliv (st e))
       ++ map (fun i => has_sn window_size (rx_window e) i)
            (seqZ bitmap_begin (bitmap_end - bitmap_begin))).

(** Modelled from the spec: [pdcp_pdu_get_dc] and
    [pdcp_control_pdu_get_cpt] are declared in pdcp_pdu.h, which is not part
    of the sources at hand.  Section 6: the D/C field is the first bit of
    the first byte (1 for data, 0 for control), the control PDU type the
    three bits behind it (0 for a status report). *)
Definition pdcp_pdu_get_dc (hdr_byte : Z) : Z := Z.shiftr (Z.land hdr_byte 0x80) 7.

Definition pdcp_control_pdu_get_cpt (hdr_byte : Z) : Z := Z.land (Z.shiftr hdr_byte 4) 0x07.

(** [handle_control_pdu]: a status report goes to the status handler, the
    transmitting entity of the bearer; any other control PDU is logged and
    dropped. *)
Definition handle_control_pdu (e : entity) (pdu : byte_buffer) : entity :=
  match pdu with
  | [] => e
  | hdr_byte :: _ =>
      if pdcp_control_pdu_get_cpt hdr_byte =? 0
      then emit e (on_status_report pdu)
      else e
  end.

Definition handle_pdu (e : entity) (buf : byte_buffer) : entity :=
  let e := metrics_add_pdus e 1 (Z.of_nat (length buf)) in
  match buf with
  | [] => metrics_add_dropped_pdus e 1
  | hdr_byte :: _ =>
      if is_srb || (pdcp_pdu_get_dc hdr_byte =? 1)
      then handle_data_pdu e buf
      else handle_control_pdu e buf
  end.

(** The loop of [deliver_all_sdus]:
    [for (count = rx_deliv; count < rx_next; count++)]. *)
Fixpoint deliver_all_sdus_loop (counts : list Z) (e : entity) : entity :=
  match counts with
  | [] => e
  | c :: rest =>
      match window_at window_size (rx_window e) c with
      | Some sdu_info =>
          let e := metrics_add_sdus e 1 (Z.of_nat (length (sdu sdu_info))) in
          let e := emit e (on_new_sdu (sdu sdu_info)) in
          deliver_all_sdus_loop rest
            (set_rx_window e (remove_sn window_size (rx_window e) c))
      | None => deliver_all_sdus_loop rest e
      end
  end.

Definition deliver_all_sdus (e : entity) : entity :=
  deliver_all_sdus_loop
    (seqZ (rx_deliv (st e)) (rx_next (st e) - rx_deliv (st e))) e.

(** The loop of [discard_all_sdus]: [while (rx_deliv != rx_next)]. *)
Fixpoint discard_all_sdus_loop (fuel : nat) (e : entity) : entity :=
  match fuel with
  | O => e
  | S n =>
      if negb (rx_deliv (st e) =? rx_next (st e)) then
        let e := if has_sn window_size (rx_window e) (rx_deliv (st e))
                 then set_rx_window e (remove_sn window_size (rx_window e) (rx_deliv (st e)))
                 else e in
        discard_all_sdus_loop n (advance_rx_deliv e)
      else e
  end.

Definition discard_all_sdus (e : entity) : entity :=
  discard_all_sdus_loop (Z.to_nat (u32 (rx_next (st e) - rx_deliv (st e)))) e.

Definition set_sec (e : entity) (sc : security_context) : entity :=
  {| st := st e; rx_window := rx_window e;
     reordering_timer_running := reordering_timer_running e;
     max_count_notified := max_count_notified e;
     max_count_overflow := max_count_overflow e;
     sec := sc; metrics := metrics e; out := out e |}.

(** Modelled from the spec: [configure_security] is defined in
    pdcp_entity_rx.h, which is not part of the sources at hand.  Section
    4.10: the keys and algorithms of the security context are replaced
    wholesale, independent of the counters. *)
Definition configure_security (e : entity) (sec_cfg_ : sec_128_as_config) : entity :=
  set_sec e {| integrity_enabled := integrity_enabled (sec e);
               ciphering_enabled := ciphering_enabled (sec e);
               sec_cfg := sec_cfg_ |}.

Definition reestablish (e : entity) (sec_cfg_ : sec_128_as_config) : entity :=
  let e := if is_srb then discard_all_sdus e else e in
  let e :=
    if is_srb || is_um then
      let e := if reordering_timer_running e then set_reordering_timer e false else e in
      if is_um then deliver_all_sdus e else e
    else e in
  let e :=
    if is_srb || is_um
    then set_st e {| rx_next := 0; rx_deliv := 0; rx_reord := 0 |}
    else e in
  configure_security e sec_cfg_.

End operations.

End pdcp_entity_rx.

(** * Specification vocabulary *)

(** ** Entities at creation *)

Definition tx_entity_init (sc : security_context) : pdcp_entity_tx.entity :=
  {| pdcp_entity_tx.st :=
       {| pdcp_entity_tx.tx_next := 0; pdcp_entity_tx.tx_trans := 0;
          pdcp_entity_tx.tx_next_ack := 0 |};
     pdcp_entity_tx.tx_window := ∅;
     pdcp_entity_tx.max_count_notified := false;
     pdcp_entity_tx.max_count_overflow := false;
     pdcp_entity_tx.sec := sc;
     pdcp_entity_tx.metrics :=
       {| pdcp_entity_tx.num_sdus := 0; pdcp_entity_tx.num_sdu_bytes := 0;
          pdcp_entity_tx.num_pdus := 0; pdcp_entity_tx.num_pdu_bytes := 0;
          pdcp_entity_tx.num_discard_timeouts := 0 |};
     pdcp_entity_tx.out := [] |}.

Definition rx_entity_init (sc : security_context) : pdcp_entity_rx.entity :=
  {| pdcp_entity_rx.st :=
       {| pdcp_entity_rx.rx_next := 0; pdcp_entity_rx.rx_deliv := 0;
          pdcp_entity_rx.rx_reord := 0 |};
     pdcp_entity_rx.rx_window := ∅;
     pdcp_entity_rx.reordering_timer_running := false;
     pdcp_entity_rx.max_count_notified := false;
     pdcp_entity_rx.max_count_overflow := false;
     pdcp_entity_rx.sec := sc;
     pdcp_entity_rx.metrics :=
       {| pdcp_entity_rx.num_pdus := 0; pdcp_entity_rx.num_pdu_bytes := 0;
          pdcp_entity_rx.num_dropped_pdus := 0;
          pdcp_entity_rx.num_sdus := 0; pdcp_entity_rx.num_sdu_bytes := 0;
          pdcp_entity_rx.num_integrity_verified_pdus := 0;
          pdcp_entity_rx.num_integrity_failed_pdus := 0;
          pdcp_entity_rx.num_t_reordering_timeouts := 0 |};
     pdcp_entity_rx.out := [] |}.

(** A security context with integrity protection and ciphering switched
    off, and primitives that are never called in that case. *)
Definition null_security : security_context :=
  {| integrity_enabled := false; ciphering_enabled := false;
     sec_cfg := {| k_128_int := []; k_128_enc := [];
                   integ_algo := nia0; cipher_algo := nea0 |} |}.

Definition null_primitives : security_primitives :=
  {| security_nia1 := fun _ _ _ _ _ => [0; 0; 0; 0];
     security_nia2 := fun _ _ _ _ _ => [0; 0; 0; 0];
     security_nia3 := fun _ _ _ _ _ => [0; 0; 0; 0];
     security_nea1 := fun _ _ _ _ buf => buf;
     security_nea2 := fun _ _ _ _ buf => buf;
     security_nea3 := fun _ _ _ _ buf => buf |}.

(** ** The disambiguation window *)

(** A COUNT lies in the disambiguation window around a reference COUNT when
    it is at most one window size below it and less than one window size
    above it. *)
Definition in_count_window (s : pdcp_sn_size) (ref c : Z) : Prop :=
  ref - pdcp_window_size s <= c < ref + pdcp_window_size s.

(** ** Transmitter: configurations, ordering and steps *)

(** The thresholds and the queue limit are [uint32_t] fields. *)
Definition tx_config_ok (cfg : pdcp_entity_tx.pdcp_tx_config) : Prop :=
  is_u32 (pdcp_entity_tx.rlc_sdu_queue (pdcp_entity_tx.custom cfg))
  /\ is_u32 (notify (pdcp_entity_tx.max_count (pdcp_entity_tx.custom cfg)))
  /\ is_u32 (hard (pdcp_entity_tx.max_count (pdcp_entity_tx.custom cfg))).

(** The ordering TX_NEXT_ACK <= TX_TRANS <= TX_NEXT of three [uint32_t]
    state variables. *)
Definition tx_ordered (s : pdcp_entity_tx.pdcp_tx_state) : Prop :=
  0 <= pdcp_entity_tx.tx_next_ack s
  /\ pdcp_entity_tx.tx_next_ack s <= pdcp_entity_tx.tx_trans s
  /\ pdcp_entity_tx.tx_trans s <= pdcp_entity_tx.tx_next s
  /\ pdcp_entity_tx.tx_next s < 2 ^ 32.

(** The public operations of the transmitter, as steps. *)
Inductive tx_step (prims : security_primitives) (cfg : pdcp_entity_tx.pdcp_tx_config)
  : pdcp_entity_tx.entity -> pdcp_entity_tx.entity -> Prop :=
| tx_step_sdu env e buf :
    tx_step prims cfg e (pdcp_entity_tx.handle_sdu prims cfg env e buf)
| tx_step_transmit_notification e sn :
    tx_step prims cfg e (pdcp_entity_tx.handle_transmit_notification cfg e sn)
| tx_step_delivery_notification e sn :
    tx_step prims cfg e (pdcp_entity_tx.handle_delivery_notification cfg e sn)
| tx_step_status_report ok e status :
    tx_step prims cfg e (pdcp_entity_tx.handle_status_report cfg ok e status)
| tx_step_discard_timer e c :
    tx_step prims cfg e (pdcp_entity_tx.discard_callback cfg e c)
| tx_step_retransmit env e :
    tx_step prims cfg e (pdcp_entity_tx.retransmit_all_pdus prims cfg env e)
| tx_step_reset e :
    tx_step prims cfg e (pdcp_entity_tx.reset e).

Inductive tx_reachable (prims : security_primitives) (cfg : pdcp_entity_tx.pdcp_tx_config)
  : pdcp_entity_tx.entity -> Prop :=
| tx_reachable_init sc : tx_reachable prims cfg (tx_entity_init sc)
| tx_reachable_step e e' :
    tx_reachable prims cfg e -> tx_step prims cfg e e' -> tx_reachable prims cfg e'.

(** ** Receiver: steps *)

(** The events that drive the receiver, as steps: a data PDU from the lower
    layers and the expiry of the reordering timer, which can only expire
    while it is running.  In-order delivery runs inside both. *)
Inductive rx_step (prims : security_primitives) (cfg : pdcp_entity_rx.pdcp_rx_config)
  : pdcp_entity_rx.entity -> pdcp_entity_rx.entity -> Prop :=
| rx_step_data_pdu e pdu :
    rx_step prims cfg e (pdcp_entity_rx.handle_data_pdu prims cfg e pdu)
| rx_step_reordering_expiry e :
    pdcp_entity_rx.reordering_timer_running e = true ->
    rx_step prims cfg e (pdcp_entity_rx.reordering_callback cfg e).

Inductive rx_reachable (prims : security_primitives) (cfg : pdcp_entity_rx.pdcp_rx_config)
  : pdcp_entity_rx.entity -> Prop :=
| rx_reachable_init sc : rx_reachable prims cfg (rx_entity_init sc)
| rx_reachable_step e e' :
    rx_reachable prims cfg e -> rx_step prims cfg e e' -> rx_reachable prims cfg e'.

(** ** Occupied slots *)

(** Every occupied slot of a window has an index below the capacity. *)
Definition slots_in_range {T : Type} (capacity : Z) (w : gmap Z T) : Prop :=
  forall k x, w !! k = Some x -> 0 <= k < capacity.

Definition tx_slots_ok (cfg : pdcp_entity_tx.pdcp_tx_config) (e : pdcp_entity_tx.entity)
  : Prop :=
  slots_in_range (pdcp_entity_tx.window_size cfg) (pdcp_entity_tx.tx_window e).

Definition rx_slots_ok (cfg : pdcp_entity_rx.pdcp_rx_config) (e : pdcp_entity_rx.entity)
  : Prop :=
  slots_in_range (pdcp_entity_rx.window_size cfg) (pdcp_entity_rx.rx_window e).

(** ** Transmitter: sequences of SDUs *)

(** A sequence of [handle_sdu] calls, each with its buffer and the outcome
    of its buffer operations, and no other event in between. *)
Definition handle_sdus (prims : security_primitives) (cfg : pdcp_entity_tx.pdcp_tx_config)
           (e : pdcp_entity_tx.entity) (sdus : list (buffer_env * byte_buffer))
  : pdcp_entity_tx.entity :=
  fold_left (fun e (x : buffer_env * byte_buffer) =>
               pdcp_entity_tx.handle_sdu prims cfg x.1 e x.2) sdus e.

(** The three guards at the head of [handle_sdu] let the SDU through. *)
Definition tx_admits (cfg : pdcp_entity_tx.pdcp_tx_config) (s : pdcp_entity_tx.pdcp_tx_state)
  : bool :=
  negb (pdcp_entity_tx.tx_next s <? pdcp_entity_tx.tx_trans s)
  && negb (pdcp_entity_tx.rlc_sdu_queue (pdcp_entity_tx.custom cfg)
             <=? u32 (pdcp_entity_tx.tx_next s - pdcp_entity_tx.tx_trans s))
  && negb (u32 (pdcp_entity_tx.window_size cfg - 1)
             <=? u32 (pdcp_entity_tx.tx_next s - pdcp_entity_tx.tx_trans s)).

Definition is_protocol_failure (ev : pdcp_entity_tx.tx_event) : bool :=
  match ev with pdcp_entity_tx.on_protocol_failure => true | _ => false end.

Definition count_protocol_failures (l : list pdcp_entity_tx.tx_event) : nat :=
  length (List.filter is_protocol_failure l).

(** The data PDU that carries an SDU under a given COUNT: header with the
    SN of the COUNT, then integrity protection and ciphering with the
    COUNT, all buffer operations succeeding. *)
Definition data_pdu_for (prims : security_primitives) (cfg : pdcp_entity_tx.pdcp_tx_config)
           (e : pdcp_entity_tx.entity) (c : Z) (sdu : byte_buffer) : byte_buffer :=
  match pdcp_entity_tx.write_data_pdu_header cfg buffers_ok sdu
          (SN (pdcp_entity_tx.sn_size cfg) c) with
  | Some buf =>
      default [] (pdcp_entity_tx.apply_ciphering_and_integrity_protection
                    prims cfg buffers_ok e buf c)
  | None => []
  end.

(** The PDUs handed to the lower layers when consecutive COUNTs, starting
    at [c], are assigned to a list of SDUs. *)
Fixpoint pdus_from (prims : security_primitives) (cfg : pdcp_entity_tx.pdcp_tx_config)
         (e : pdcp_entity_tx.entity) (c : Z) (sdus : list byte_buffer)
  : list pdcp_entity_tx.tx_event :=
  match sdus with
  | [] => []
  | sdu :: rest =>
      pdcp_entity_tx.on_new_pdu (data_pdu_for prims cfg e c sdu) false
        :: pdus_from prims cfg e (c + 1) rest
  end.

(** SDUs submitted while every buffer operation succeeds. *)
Definition with_buffers_ok (sdus : list byte_buffer) : list (buffer_env * byte_buffer) :=
  map (fun sdu => (buffers_ok, sdu)) sdus.

(** The state of an entity that started as [e0] with its counters at zero
    after the SDUs [sent] went through: the counters, the occupied slots,
    and the PDUs handed down so far. *)
Definition burst_state (prims : security_primitives) (cfg : pdcp_entity_tx.pdcp_tx_config)
           (e0 : pdcp_entity_tx.entity) (sent : list byte_buffer) (e : pdcp_entity_tx.entity)
  : Prop :=
  pdcp_entity_tx.st e =
    {| pdcp_entity_tx.tx_next := Z.of_nat (length sent);
       pdcp_entity_tx.tx_trans := 0; pdcp_entity_tx.tx_next_ack := 0 |}
  /\ (forall j x, pdcp_entity_tx.tx_window e !! j = Some x -> 0 <= j < Z.of_nat (length sent))
  /\ pdcp_entity_tx.sec e = pdcp_entity_tx.sec e0
  /\ pdcp_entity_tx.out e = pdcp_entity_tx.out e0 ++ pdus_from prims cfg e0 0 sent.

(** ** Transmitter: buffered COUNTs and status reports *)

(** The entry that the TX window holds for a COUNT: the slot of the COUNT is
    occupied and the entry stored there carries this COUNT. *)
Definition tx_entry (cfg : pdcp_entity_tx.pdcp_tx_config) (e : pdcp_entity_tx.entity) (c : Z)
  : option pdcp_entity_tx.pdcp_tx_sdu_info :=
  match pdcp_entity_tx.tx_window e !! slot_of (pdcp_entity_tx.window_size cfg) c with
  | Some info => if pdcp_entity_tx.count info =? c then Some info else None
  | None => None
  end.

(** A transmitter whose window agrees with its counters: the counters are
    ordered, the COUNTs from TX_NEXT_ACK up to TX_NEXT span at most one
    window, every entry sits in the slot of its COUNT and its COUNT lies in
    that span, and without a discard timer nothing is stored. *)
Definition tx_window_consistent (cfg : pdcp_entity_tx.pdcp_tx_config)
           (e : pdcp_entity_tx.entity) : Prop :=
  tx_ordered (pdcp_entity_tx.st e)
  /\ pdcp_entity_tx.tx_next (pdcp_entity_tx.st e)
       - pdcp_entity_tx.tx_next_ack (pdcp_entity_tx.st e)
     <= pdcp_entity_tx.window_size cfg
  /\ map_Forall
       (fun k info =>
          pdcp_entity_tx.tx_next_ack (pdcp_entity_tx.st e) <= pdcp_entity_tx.count info
          /\ pdcp_entity_tx.count info < pdcp_entity_tx.tx_next (pdcp_entity_tx.st e)
          /\ k = slot_of (pdcp_entity_tx.window_size cfg) (pdcp_entity_tx.count info))
       (pdcp_entity_tx.tx_window e)
  /\ (pdcp_entity_tx.has_discard_timer cfg = false -> pdcp_entity_tx.tx_window e = ∅).


(** A status report on the wire (section 6): one header byte with D/C = 0,
    CPT = 0 and reserved bits 0, the 32-bit FMC, then the bitmap. *)
Definition status_report_fields (status : byte_buffer) (fmc : Z) (bitmap : list bool) : Prop :=
  is_u32 fmc
  /\ bytes_to_bits status = bits_of 1 0 ++ bits_of 3 0 ++ bits_of 4 0 ++ bits_of 32 fmc ++ bitmap.


(** The COUNTs that the bitmap walk of [handle_status_report] discards, in
    the order of the walk. *)
Fixpoint bitmap_counts (fmc : Z) (bitmap : list bool) : list Z :=
  match bitmap with
  | [] => []
  | b :: rest => (if b then [u32 (fmc + 1)] else []) ++ bitmap_counts (u32 (fmc + 1)) rest
  end.

(** ** Receiver: invariants *)

Definition rx_config_ok (cfg : pdcp_entity_rx.pdcp_rx_config) : Prop :=
  is_u32 (notify (pdcp_entity_rx.max_count cfg)) /\ is_u32 (hard (pdcp_entity_rx.max_count cfg)).

(** RX_DELIV <= RX_NEXT, both [uint32_t], and every entry of the RX window
    sits in the slot of its COUNT and has a COUNT of at least RX_DELIV. *)
Definition rx_window_above_deliv (cfg : pdcp_entity_rx.pdcp_rx_config)
           (e : pdcp_entity_rx.entity) : Prop :=
  0 <= pdcp_entity_rx.rx_deliv (pdcp_entity_rx.st e)
  /\ pdcp_entity_rx.rx_deliv (pdcp_entity_rx.st e) <= pdcp_entity_rx.rx_next (pdcp_entity_rx.st e)
  /\ pdcp_entity_rx.rx_next (pdcp_entity_rx.st e) < 2 ^ 32
  /\ map_Forall
       (fun k info =>
          pdcp_entity_rx.rx_deliv (pdcp_entity_rx.st e) <= pdcp_entity_rx.count info
          /\ k = slot_of (pdcp_entity_rx.window_size cfg) (pdcp_entity_rx.count info))
       (pdcp_entity_rx.rx_window e).

(** While the reordering timer runs, RX_DELIV < RX_REORD <= RX_NEXT; with
    t-Reordering of 0 ms the timer never runs. *)
Definition rx_timer_consistent (cfg : pdcp_entity_rx.pdcp_rx_config)
           (e : pdcp_entity_rx.entity) : Prop :=
  (pdcp_entity_rx.reordering_timer_running e = true ->
   pdcp_entity_rx.rx_deliv (pdcp_entity_rx.st e) < pdcp_entity_rx.rx_reord (pdcp_entity_rx.st e)
   /\ pdcp_entity_rx.rx_reord (pdcp_entity_rx.st e)
      <= pdcp_entity_rx.rx_next (pdcp_entity_rx.st e))
  /\ (pdcp_entity_rx.t_reordering cfg = ms0 -> pdcp_entity_rx.reordering_timer_running e = false).

Definition rx_inv (cfg : pdcp_entity_rx.pdcp_rx_config) (e : pdcp_entity_rx.entity) : Prop :=
  rx_window_above_deliv cfg e /\ rx_timer_consistent cfg e.

(** The header of a data PDU of a DRB, as [write_data_pdu_header] of the
    transmitter lays it out. *)
Definition data_pdu_header (s : pdcp_sn_size) (sn : Z) : byte_buffer :=
  match s with
  | size12bits => [Z.lor 0x80 (Z.shiftr (Z.land sn 0x00000f00) 8); Z.land sn 0x000000ff]
  | size18bits => [Z.lor 0x80 (Z.shiftr (Z.land sn 0x00030000) 16);
                   Z.shiftr (Z.land sn 0x0000ff00) 8; Z.land sn 0x000000ff]
  end.

(** A security context with integrity protection switched on, and
    primitives whose MAC is the same four bytes for every message. *)
Definition integrity_security (algo : integrity_algorithm) : security_context :=
  {| integrity_enabled := true; ciphering_enabled := false;
     sec_cfg := {| k_128_int := [1]; k_128_enc := [];
                   integ_algo := algo; cipher_algo := nea0 |} |}.

Definition constant_mac_primitives (mac : sec_mac) : security_primitives :=
  {| security_nia1 := fun _ _ _ _ _ => mac;
     security_nia2 := fun _ _ _ _ _ => mac;
     security_nia3 := fun _ _ _ _ _ => mac;
     security_nea1 := fun _ _ _ _ buf => buf;
     security_nea2 := fun _ _ _ _ buf => buf;
     security_nea3 := fun _ _ _ _ buf => buf |}.


(** ** Receiver: accepted PDUs *)

(** A data PDU that a receiver with security context [sc] accepts under the
    COUNT [c]: it is longer than its header, its header carries [c] as SN,
    and its MAC-I verifies when integrity protection is on. *)
Definition rx_pdu_valid (prims : security_primitives) (cfg : pdcp_entity_rx.pdcp_rx_config)
           (sc : security_context) (pdu : byte_buffer) (c : Z) : Prop :=
  pdcp_entity_rx.hdr_len_bytes cfg < Z.of_nat (length pdu)
  /\ pdcp_entity_rx.read_data_pdu_header cfg pdu = Some c
  /\ (integrity_enabled sc = true ->
      pdcp_entity_rx.integrity_verify prims cfg (rx_entity_init sc)
        (pdcp_entity_rx.decipher_and_extract_mac prims cfg (rx_entity_init sc) pdu c).1 c
        (pdcp_entity_rx.decipher_and_extract_mac prims cfg (rx_entity_init sc) pdu c).2
      = true).

(** The SDU that such a PDU carries: deciphered, without MAC-I and without
    header. *)
Definition rx_sdu_of (prims : security_primitives) (cfg : pdcp_entity_rx.pdcp_rx_config)
           (sc : security_context) (pdu : byte_buffer) (c : Z) : byte_buffer :=
  pdcp_entity_rx.discard_data_header cfg
    (pdcp_entity_rx.decipher_and_extract_mac prims cfg (rx_entity_init sc) pdu c).1.

(** ** Receiver: status reports *)

(** The number of bits in the bitmap of a status report: one for every
    COUNT from RX_DELIV + 1 up to RX_NEXT, cut at the bits that fit a
    control PDU behind its five header bytes. *)
Definition status_bitmap_length (deliv next : Z) : Z :=
  let bitmap_begin := u32 (deliv + 1) in
  if bitmap_begin <? next
  then Z.min (next - bitmap_begin) ((pdcp_control_pdu_max_size - 5) * 8)
  else 0.

(** ** Example configurations *)

Definition tx_config_example (s : pdcp_sn_size) (mode : pdcp_rlc_mode)
           (timer : option pdcp_discard_timer) (queue : Z) (limits : pdcp_max_count)
  : pdcp_entity_tx.pdcp_tx_config :=
  {| pdcp_entity_tx.rb_type := drb;
     pdcp_entity_tx.rlc_mode := mode;
     pdcp_entity_tx.sn_size := s;
     pdcp_entity_tx.direction := downlink;
     pdcp_entity_tx.discard_timer := timer;
     pdcp_entity_tx.status_report_required := false;
     pdcp_entity_tx.bearer_id := 1;
     pdcp_entity_tx.custom :=
       {| pdcp_entity_tx.rlc_sdu_queue := queue;
          pdcp_entity_tx.warn_on_drop := false;
          pdcp_entity_tx.max_count := limits |} |}.

Definition rx_config_example (s : pdcp_sn_size) (mode : pdcp_rlc_mode)
           (t : pdcp_t_reordering) (limits : pdcp_max_count)
  : pdcp_entity_rx.pdcp_rx_config :=
  {| pdcp_entity_rx.rb_type := drb;
     pdcp_entity_rx.rlc_mode := mode;
     pdcp_entity_rx.sn_size := s;
     pdcp_entity_rx.direction := uplink;
     pdcp_entity_rx.t_reordering := t;
     pdcp_entity_rx.bearer_id := 1;
     pdcp_entity_rx.max_count := limits |}.

Definition tx_entity_at (next trans ack : Z) : pdcp_entity_tx.entity :=
  pdcp_entity_tx.set_st (tx_entity_init null_security)
    {| pdcp_entity_tx.tx_next := next; pdcp_entity_tx.tx_trans := trans;
       pdcp_entity_tx.tx_next_ack := ack |}.

Definition rx_entity_at (next deliv reord : Z) : pdcp_entity_rx.entity :=
  pdcp_entity_rx.set_st (rx_entity_init null_security)
    {| pdcp_entity_rx.rx_next := next; pdcp_entity_rx.rx_deliv := deliv;
       pdcp_entity_rx.rx_reord := reord |}.

(** * Specification vocabulary: bearers, runs and logs *)

(** ** The two ends of a bearer and their security primitives *)

(** A transmitter and a receiver are configured for the same bearer and
    the same direction of transfer: the fields that shape a PDU and that
    enter the security algorithms agree. *)
Definition bearer_match (cfg_tx : pdcp_entity_tx.pdcp_tx_config)
           (cfg_rx : pdcp_entity_rx.pdcp_rx_config) : Prop :=
  pdcp_entity_tx.rb_type cfg_tx = pdcp_entity_rx.rb_type cfg_rx
  /\ pdcp_entity_tx.sn_size cfg_tx = pdcp_entity_rx.sn_size cfg_rx
  /\ pdcp_entity_tx.direction cfg_tx = pdcp_entity_rx.direction cfg_rx
  /\ pdcp_entity_tx.bearer_id cfg_tx = pdcp_entity_rx.bearer_id cfg_rx.

(** The integrity algorithms return a MAC of four bytes. *)
Definition mac_primitives_ok (prims : security_primitives) : Prop :=
  forall k c b d m,
    length (security_nia1 prims k c b d m) = 4%nat
    /\ length (security_nia2 prims k c b d m) = 4%nat
    /\ length (security_nia3 prims k c b d m) = 4%nat.

(** The ciphering algorithms add a key stream: applied twice with the same
    key, COUNT, bearer and direction they give back the message, and they
    keep its length. *)
Definition cipher_primitives_ok (prims : security_primitives) : Prop :=
  forall k c b d m,
    (security_nea1 prims k c b d (security_nea1 prims k c b d m) = m
     /\ length (security_nea1 prims k c b d m) = length m)
    /\ (security_nea2 prims k c b d (security_nea2 prims k c b d m) = m
        /\ length (security_nea2 prims k c b d m) = length m)
    /\ (security_nea3 prims k c b d (security_nea3 prims k c b d m) = m
        /\ length (security_nea3 prims k c b d m) = length m).

(** The PDUs that a log of the transmitter handed to the lower layers. *)
Definition tx_pdus (l : list pdcp_entity_tx.tx_event) : list byte_buffer :=
  omap (fun ev => match ev with
                  | pdcp_entity_tx.on_new_pdu buf _ => Some buf
                  | _ => None
                  end) l.

(** The SDUs that a log of the receiver passed to the upper layers. *)
Definition rx_sdus (l : list pdcp_entity_rx.rx_event) : list byte_buffer :=
  omap (fun ev => match ev with
                  | pdcp_entity_rx.on_new_sdu buf => Some buf
                  | _ => None
                  end) l.

(** The TX window after [handle_sdu] stored an SDU under the COUNT TX_NEXT
    in a free slot. *)
Definition tx_stored (cfg : pdcp_entity_tx.pdcp_tx_config) (e : pdcp_entity_tx.entity)
           (buf : byte_buffer) : gmap Z pdcp_entity_tx.pdcp_tx_sdu_info :=
  match pdcp_entity_tx.discard_timer cfg with
  | Some d =>
      add_sn (pdcp_entity_tx.window_size cfg) (pdcp_entity_tx.tx_window e)
        (pdcp_entity_tx.tx_next (pdcp_entity_tx.st e))
        {| pdcp_entity_tx.count := pdcp_entity_tx.tx_next (pdcp_entity_tx.st e);
           pdcp_entity_tx.sdu := if pdcp_entity_tx.is_am cfg then buf else [];
           pdcp_entity_tx.sdu_discard_timer :=
             match d with discard_ms ms => Some ms | discard_infinity => None end |}
  | None => pdcp_entity_tx.tx_window e
  end.

(** The PDUs that [retransmit_all_pdus] hands to the lower layers while
    every buffer operation succeeds: one for every COUNT of the list whose
    slot is occupied, built from the stored SDU and the stored COUNT. *)
Fixpoint retransmissions (prims : security_primitives) (cfg : pdcp_entity_tx.pdcp_tx_config)
         (e : pdcp_entity_tx.entity) (counts : list Z) : list pdcp_entity_tx.tx_event :=
  match counts with
  | [] => []
  | c :: rest =>
      match window_at (pdcp_entity_tx.window_size cfg) (pdcp_entity_tx.tx_window e) c with
      | Some info =>
          [pdcp_entity_tx.on_new_pdu
             (data_pdu_for prims cfg e (pdcp_entity_tx.count info) (pdcp_entity_tx.sdu info))
             true]
      | None => []
      end ++ retransmissions prims cfg e rest
  end.

(** The COUNTs from TX_NEXT_ACK up to TX_NEXT, in ascending order. *)
Definition tx_window_counts (e : pdcp_entity_tx.entity) : list Z :=
  seqZ (pdcp_entity_tx.tx_next_ack (pdcp_entity_tx.st e))
    (pdcp_entity_tx.tx_next (pdcp_entity_tx.st e)
     - pdcp_entity_tx.tx_next_ack (pdcp_entity_tx.st e)).

(** Every buffer operation of a retransmission run succeeds. *)
Definition all_buffers_ok : Z -> buffer_env := fun _ => buffers_ok.

(** A buffer operation of the call fails where [transmit_sdu] or
    [retransmit_all_pdus] needs it: the deep copy of the SDU, the room for
    the header, or the room for the MAC-I. *)
Definition tx_buffers_fail (cfg : pdcp_entity_tx.pdcp_tx_config) (e : pdcp_entity_tx.entity)
           (needs_copy : bool) (env : buffer_env) : bool :=
  (needs_copy && negb (deep_copy_ok env))
  || negb (prepend_ok env)
  || ((pdcp_entity_tx.is_srb cfg
       || (pdcp_entity_tx.is_drb cfg && integrity_enabled (pdcp_entity_tx.sec e)))
      && negb (append_ok env)).

(** ** Receiver: stored COUNTs *)

(** The entry that the RX window holds for a COUNT: the slot of the COUNT is
    occupied and the entry stored there carries this COUNT. *)
Definition rx_entry (cfg : pdcp_entity_rx.pdcp_rx_config) (e : pdcp_entity_rx.entity) (c : Z)
  : option pdcp_entity_rx.pdcp_rx_sdu_info :=
  match pdcp_entity_rx.rx_window e !! slot_of (pdcp_entity_rx.window_size cfg) c with
  | Some info => if pdcp_entity_rx.count info =? c then Some info else None
  | None => None
  end.

(** Every stored COUNT is below RX_NEXT. *)
Definition rx_window_below_next (e : pdcp_entity_rx.entity) : Prop :=
  map_Forall
    (fun _ info => pdcp_entity_rx.count info < pdcp_entity_rx.rx_next (pdcp_entity_rx.st e))
    (pdcp_entity_rx.rx_window e).

(** The receiver invariant with the upper edge of the window. *)
Definition rx_state_ok (cfg : pdcp_entity_rx.pdcp_rx_config) (e : pdcp_entity_rx.entity)
  : Prop :=
  rx_inv cfg e /\ rx_window_below_next e.

(** The public operations of the receiver, as steps: a PDU from the lower
    layers, the expiry of the reordering timer while it runs, and a
    re-establishment. *)
Inductive rx_operation (prims : security_primitives) (cfg : pdcp_entity_rx.pdcp_rx_config)
  : pdcp_entity_rx.entity -> pdcp_entity_rx.entity -> Prop :=
| rx_operation_pdu e buf :
    rx_operation prims cfg e (pdcp_entity_rx.handle_pdu prims cfg e buf)
| rx_operation_reordering_expiry e :
    pdcp_entity_rx.reordering_timer_running e = true ->
    rx_operation prims cfg e (pdcp_entity_rx.reordering_callback cfg e)
| rx_operation_reestablish e sec_cfg_ :
    rx_operation prims cfg e (pdcp_entity_rx.reestablish cfg e sec_cfg_).

Inductive rx_run (prims : security_primitives) (cfg : pdcp_entity_rx.pdcp_rx_config)
  : pdcp_entity_rx.entity -> Prop :=
| rx_run_init sc : rx_run prims cfg (rx_entity_init sc)
| rx_run_step e e' :
    rx_run prims cfg e -> rx_operation prims cfg e e' -> rx_run prims cfg e'.

(** The SDUs stored for a list of COUNTs, in the order of the list. *)
Definition rx_stored_sdus (cfg : pdcp_entity_rx.pdcp_rx_config) (e : pdcp_entity_rx.entity)
           (counts : list Z) : list byte_buffer :=
  flat_map (fun c => match rx_entry cfg e c with
                     | Some info => [pdcp_entity_rx.sdu info]
                     | None => []
                     end) counts.

(** The COUNTs from RX_DELIV up to RX_NEXT, in ascending order. *)
Definition rx_window_counts (e : pdcp_entity_rx.entity) : list Z :=
  seqZ (pdcp_entity_rx.rx_deliv (pdcp_entity_rx.st e))
    (pdcp_entity_rx.rx_next (pdcp_entity_rx.st e)
     - pdcp_entity_rx.rx_deliv (pdcp_entity_rx.st e)).

(** What the delivery paths of the receiver have in common: RX_NEXT, the
    security context and the one-shot flags stay, the window only loses
    entries, and the upper layers get SDUs, each counted in the metrics. *)
Definition rx_delivery (e e' : pdcp_entity_rx.entity) : Prop :=
  pdcp_entity_rx.rx_next (pdcp_entity_rx.st e') = pdcp_entity_rx.rx_next (pdcp_entity_rx.st e)
  /\ pdcp_entity_rx.sec e' = pdcp_entity_rx.sec e
  /\ pdcp_entity_rx.max_count_notified e' = pdcp_entity_rx.max_count_notified e
  /\ pdcp_entity_rx.max_count_overflow e' = pdcp_entity_rx.max_count_overflow e
  /\ (forall k x, pdcp_entity_rx.rx_window e' !! k = Some x ->
                  pdcp_entity_rx.rx_window e !! k = Some x)
  /\ exists sdus,
       pdcp_entity_rx.out e' = pdcp_entity_rx.out e ++ map pdcp_entity_rx.on_new_sdu sdus
       /\ pdcp_entity_rx.num_sdus (pdcp_entity_rx.metrics e')
          = pdcp_entity_rx.num_sdus (pdcp_entity_rx.metrics e) + Z.of_nat (length sdus)
       /\ pdcp_entity_rx.num_sdu_bytes (pdcp_entity_rx.metrics e')
          = pdcp_entity_rx.num_sdu_bytes (pdcp_entity_rx.metrics e)
            + Z.of_nat (length (concat sdus)).

(** ** Receiver: the log and the metrics *)

Definition is_rx_max_count_reached (ev : pdcp_entity_rx.rx_event) : bool :=
  match ev with pdcp_entity_rx.on_max_count_reached => true | _ => false end.

Definition is_rx_protocol_failure (ev : pdcp_entity_rx.rx_event) : bool :=
  match ev with pdcp_entity_rx.on_protocol_failure => true | _ => false end.

Definition is_rx_integrity_failure (ev : pdcp_entity_rx.rx_event) : bool :=
  match ev with pdcp_entity_rx.on_integrity_failure => true | _ => false end.

Definition rx_count (p : pdcp_entity_rx.rx_event -> bool) (l : list pdcp_entity_rx.rx_event)
  : nat :=
  length (List.filter p l).

(** The number of calls that a one-shot flag accounts for between two
    states: one when the flag went up, none otherwise. *)
Definition flag_raised (before after : bool) : nat :=
  if negb before && after then 1%nat else 0%nat.

(** What an operation of the receiver adds to the log, told by the one-shot
    flags and the SDU counters of the metrics. *)
Definition rx_log_step (e e' : pdcp_entity_rx.entity) : Prop :=
  exists new,
    pdcp_entity_rx.out e' = pdcp_entity_rx.out e ++ new
    /\ rx_count is_rx_max_count_reached new
       = flag_raised (pdcp_entity_rx.max_count_notified e)
           (pdcp_entity_rx.max_count_notified e')
    /\ (pdcp_entity_rx.max_count_notified e = true ->
        pdcp_entity_rx.max_count_notified e' = true)
    /\ rx_count is_rx_protocol_failure new
       = flag_raised (pdcp_entity_rx.max_count_overflow e)
           (pdcp_entity_rx.max_count_overflow e')
    /\ (pdcp_entity_rx.max_count_overflow e = true ->
        pdcp_entity_rx.max_count_overflow e' = true)
    /\ rx_count is_rx_integrity_failure new = 0%nat
    /\ pdcp_entity_rx.num_sdus (pdcp_entity_rx.metrics e')
       = pdcp_entity_rx.num_sdus (pdcp_entity_rx.metrics e)
         + Z.of_nat (length (rx_sdus new))
    /\ pdcp_entity_rx.num_sdu_bytes (pdcp_entity_rx.metrics e')
       = pdcp_entity_rx.num_sdu_bytes (pdcp_entity_rx.metrics e)
         + Z.of_nat (length (concat (rx_sdus new))).

(** The log of a receiver agrees with its flags and its metrics. *)
Definition rx_log_ok (e : pdcp_entity_rx.entity) : Prop :=
  rx_count is_rx_max_count_reached (pdcp_entity_rx.out e)
  = (if pdcp_entity_rx.max_count_notified e then 1%nat else 0%nat)
  /\ rx_count is_rx_protocol_failure (pdcp_entity_rx.out e)
     = (if pdcp_entity_rx.max_count_overflow e then 1%nat else 0%nat)
  /\ rx_count is_rx_integrity_failure (pdcp_entity_rx.out e) = 0%nat
  /\ pdcp_entity_rx.num_sdus (pdcp_entity_rx.metrics e)
     = Z.of_nat (length (rx_sdus (pdcp_entity_rx.out e)))
  /\ pdcp_entity_rx.num_sdu_bytes (pdcp_entity_rx.metrics e)
     = Z.of_nat (length (concat (rx_sdus (pdcp_entity_rx.out e)))).

(** The configuration of the receiving entity at the other end of the
    bearer of a transmitter. *)
Definition peer_rx_config (cfg_tx : pdcp_entity_tx.pdcp_tx_config) (t : pdcp_t_reordering)
           (limits : pdcp_max_count) : pdcp_entity_rx.pdcp_rx_config :=
  {| pdcp_entity_rx.rb_type := pdcp_entity_tx.rb_type cfg_tx;
     pdcp_entity_rx.rlc_mode := pdcp_entity_tx.rlc_mode cfg_tx;
     pdcp_entity_rx.sn_size := pdcp_entity_tx.sn_size cfg_tx;
     pdcp_entity_rx.direction := pdcp_entity_tx.direction cfg_tx;
     pdcp_entity_rx.t_reordering := t;
     pdcp_entity_rx.bearer_id := pdcp_entity_tx.bearer_id cfg_tx;
     pdcp_entity_rx.max_count := limits |}.

(** ** Transmitter: the log and the metrics *)

Definition is_tx_max_count_reached (ev : pdcp_entity_tx.tx_event) : bool :=
  match ev with pdcp_entity_tx.on_max_count_reached => true | _ => false end.

Definition tx_count (p : pdcp_entity_tx.tx_event -> bool) (l : list pdcp_entity_tx.tx_event)
  : nat :=
  length (List.filter p l).

(** What an operation of the transmitter adds to the log, told by the
    one-shot flags and the PDU counters of the metrics. *)
Definition tx_log_step (e e' : pdcp_entity_tx.entity) : Prop :=
  exists new,
    pdcp_entity_tx.out e' = pdcp_entity_tx.out e ++ new
    /\ tx_count is_tx_max_count_reached new
       = flag_raised (pdcp_entity_tx.max_count_notified e)
           (pdcp_entity_tx.max_count_notified e')
    /\ (pdcp_entity_tx.max_count_notified e = true ->
        pdcp_entity_tx.max_count_notified e' = true)
    /\ (pdcp_entity_tx.max_count_overflow e = true ->
        pdcp_entity_tx.max_count_overflow e' = true)
    /\ pdcp_entity_tx.num_pdus (pdcp_entity_tx.metrics e')
       = pdcp_entity_tx.num_pdus (pdcp_entity_tx.metrics e)
         + Z.of_nat (length (tx_pdus new))
    /\ pdcp_entity_tx.num_pdu_bytes (pdcp_entity_tx.metrics e')
       = pdcp_entity_tx.num_pdu_bytes (pdcp_entity_tx.metrics e)
         + Z.of_nat (length (concat (tx_pdus new))).

(** The log of a transmitter agrees with its flag and its metrics. *)
Definition tx_log_ok (e : pdcp_entity_tx.entity) : Prop :=
  tx_count is_tx_max_count_reached (pdcp_entity_tx.out e)
  = (if pdcp_entity_tx.max_count_notified e then 1%nat else 0%nat)
  /\ pdcp_entity_tx.num_pdus (pdcp_entity_tx.metrics e)
     = Z.of_nat (length (tx_pdus (pdcp_entity_tx.out e)))
  /\ pdcp_entity_tx.num_pdu_bytes (pdcp_entity_tx.metrics e)
     = Z.of_nat (length (concat (tx_pdus (pdcp_entity_tx.out e)))).

(** The public operations of the transmitter: the steps of [tx_step], a
    re-establishment, a status report of the receiving entity sent on
    request, and a data recovery. *)
Inductive tx_operation (prims : security_primitives) (cfg : pdcp_entity_tx.pdcp_tx_config)
  : pdcp_entity_tx.entity -> pdcp_entity_tx.entity -> Prop :=
| tx_operation_step e e' :
    tx_step prims cfg e e' -> tx_operation prims cfg e e'
| tx_operation_reestablish env e sec_cfg_ :
    tx_operation prims cfg e (pdcp_entity_tx.reestablish prims cfg env e sec_cfg_)
| tx_operation_send_status_report report e :
    tx_operation prims cfg e (pdcp_entity_tx.send_status_report cfg report e)
| tx_operation_data_recovery report env e :
    tx_operation prims cfg e (pdcp_entity_tx.data_recovery prims cfg report env e).

Inductive tx_run (prims : security_primitives) (cfg : pdcp_entity_tx.pdcp_tx_config)
  : pdcp_entity_tx.entity -> Prop :=
| tx_run_init sc : tx_run prims cfg (tx_entity_init sc)
| tx_run_step e e' :
    tx_run prims cfg e -> tx_operation prims cfg e e' -> tx_run prims cfg e'.

(** * Properties *)

(** ** COUNT arithmetic *)

Section count_arithmetic.
Variable s : pdcp_sn_size.

Lemma sn_bits_range : 12 <= pdcp_sn_size_to_uint s <= 18.
Proof. destruct s; simpl; lia. Qed.

Lemma cardinality_pow2 : pdcp_sn_cardinality s = 2 ^ pdcp_sn_size_to_uint s.
Proof. destruct s; reflexivity. Qed.

Lemma cardinality_twice_window : pdcp_sn_cardinality s = 2 * pdcp_window_size s.
Proof. destruct s; reflexivity. Qed.

Lemma window_size_pos : 0 < pdcp_window_size s.
Proof. destruct s; reflexivity. Qed.

Lemma window_size_u32 : pdcp_window_size s < 2 ^ 32.
Proof. destruct s; reflexivity. Qed.

Lemma cardinality_divides_u32 :
  2 ^ 32 = pdcp_sn_cardinality s * 2 ^ (32 - pdcp_sn_size_to_uint s).
Proof. destruct s; reflexivity. Qed.

Lemma SN_mod (c : Z) : SN s c = c mod pdcp_sn_cardinality s.
Proof.
  unfold SN. rewrite Z.land_ones, cardinality_pow2; [reflexivity|].
  pose proof sn_bits_range; lia.
Qed.

Lemma HFN_div (c : Z) : HFN s c = c / pdcp_sn_cardinality s.
Proof.
  unfold HFN. rewrite Z.shiftr_div_pow2, cardinality_pow2; [reflexivity|].
  pose proof sn_bits_range; lia.
Qed.

Lemma SN_range (c : Z) : 0 <= SN s c < pdcp_sn_cardinality s.
Proof.
  rewrite SN_mod. apply Z.mod_pos_bound.
  rewrite cardinality_twice_window. pose proof window_size_pos. lia.
Qed.

Lemma count_split (c : Z) : c = HFN s c * pdcp_sn_cardinality s + SN s c.
Proof.
  rewrite SN_mod, HFN_div.
  pose proof (Z.div_mod c (pdcp_sn_cardinality s)) as H.
  pose proof window_size_pos. rewrite cardinality_twice_window in *. lia.
Qed.

(** Joining a multiple of the SN cardinality with an SN is an addition:
    the two have no bit in common. *)
Lemma lor_disjoint (k sn : Z) :
  0 <= sn < pdcp_sn_cardinality s ->
  Z.lor (k * pdcp_sn_cardinality s) sn = k * pdcp_sn_cardinality s + sn.
Proof.
  intros Hsn. rewrite <- Z.add_lor_land.
  assert (Z.land (k * pdcp_sn_cardinality s) sn = 0) as ->; [|lia].
  apply Z.bits_inj'. intros i Hi.
  rewrite Z.land_spec, Z.bits_0, cardinality_pow2.
  destruct (Z.lt_ge_cases i (pdcp_sn_size_to_uint s)) as [Hlt|Hge].
  - rewrite Z.mul_pow2_bits_low by assumption. reflexivity.
  - rewrite <- (Z.mod_small sn (2 ^ pdcp_sn_size_to_uint s))
      by (rewrite <- cardinality_pow2; assumption).
    rewrite Z.mod_pow2_bits_high; [apply andb_false_r|].
    pose proof sn_bits_range; lia.
Qed.

(** [COUNT] on an HFN that fits the high-order bits. *)
Lemma COUNT_add (hfn sn : Z) :
  0 <= hfn < 2 ^ (32 - pdcp_sn_size_to_uint s) ->
  0 <= sn < pdcp_sn_cardinality s ->
  COUNT s hfn sn = hfn * pdcp_sn_cardinality s + sn.
Proof.
  intros Hh Hsn. unfold COUNT.
  rewrite Z.shiftl_mul_pow2 by (pose proof sn_bits_range; lia).
  rewrite <- cardinality_pow2.
  unfold u32. rewrite Z.mod_small.
  - apply lor_disjoint; assumption.
  - rewrite cardinality_divides_u32.
    pose proof window_size_pos. rewrite cardinality_twice_window in *. nia.
Qed.

Lemma HFN_range (c : Z) :
  is_u32 c -> 0 <= HFN s c < 2 ^ (32 - pdcp_sn_size_to_uint s).
Proof.
  intros [H0 H1]. rewrite HFN_div.
  pose proof window_size_pos as Hw.
  assert (0 < pdcp_sn_cardinality s) as Hc
      by (rewrite cardinality_twice_window; lia).
  split.
  - apply Z.div_pos; lia.
  - apply Z.div_lt_upper_bound; [lia|].
    rewrite <- cardinality_divides_u32. assumption.
Qed.

Lemma COUNT_HFN_SN (c : Z) : is_u32 c -> COUNT s (HFN s c) (SN s c) = c.
Proof.
  intros Hc. rewrite COUNT_add by auto using HFN_range, SN_range.
  symmetry. apply count_split.
Qed.

Lemma count_from_sn_window (ref c : Z) :
  is_u32 ref -> is_u32 c -> in_count_window s ref c ->
  count_from_sn s ref (SN s c) = c.
Proof.
  intros Hr Hc [Hlo Hhi].
  pose proof window_size_pos as Hw.
  pose proof cardinality_twice_window as Hcard.
  pose proof (count_split c) as Hsc. pose proof (count_split ref) as Hsr.
  pose proof (SN_range c) as Hnc. pose proof (SN_range ref) as Hnr.
  pose proof (HFN_range c Hc) as Hhc. pose proof (HFN_range ref Hr) as Hhr.
  pose proof window_size_u32 as Hw32.
  pose proof cardinality_divides_u32 as H32.
  assert (2 ^ (32 - pdcp_sn_size_to_uint s) <= 2 ^ 32) as Hk by nia.
  unfold count_from_sn.
  assert (u32 (SN s ref + pdcp_window_size s) = SN s ref + pdcp_window_size s) as ->.
  { unfold u32. apply Z.mod_small. destruct s; simpl in *; lia. }
  assert (HFN s c = HFN s ref \/ HFN s c = HFN s ref + 1 \/ HFN s c = HFN s ref - 1)
    as Hcases by nia.
  destruct (Z.ltb_spec (SN s c) (SN s ref - pdcp_window_size s)) as [H1|H1].
  - assert (HFN s c = HFN s ref + 1) as Heq by nia.
    rewrite <- Heq. unfold u32. rewrite Z.mod_small by lia.
    apply COUNT_HFN_SN; assumption.
  - destruct (Z.leb_spec (SN s ref + pdcp_window_size s) (SN s c)) as [H2|H2].
    + assert (HFN s c = HFN s ref - 1) as Heq by nia.
      rewrite <- Heq. unfold u32. rewrite Z.mod_small by lia.
      apply COUNT_HFN_SN; assumption.
    + assert (HFN s c = HFN s ref) as Heq by nia.
      rewrite <- Heq. apply COUNT_HFN_SN; assumption.
Qed.

End count_arithmetic.

(** C1: for both SN sizes, resolving the SN of a COUNT that lies in the
    disambiguation window around a reference COUNT returns that COUNT; the
    receiver resolves against RX_DELIV, the transmitter against its lower
    edge (TX_NEXT_ACK with a discard timer, TX_TRANS without). *)
Theorem count_resolution_returns_count (s : pdcp_sn_size) (ref c : Z) :
  is_u32 ref -> is_u32 c -> in_count_window s ref c ->
  (forall (cfg : pdcp_entity_rx.pdcp_rx_config) (e : pdcp_entity_rx.entity),
      pdcp_entity_rx.sn_size cfg = s ->
      pdcp_entity_rx.rx_deliv (pdcp_entity_rx.st e) = ref ->
      pdcp_entity_rx.calc_rcvd_count cfg e (SN s c) = c)
  /\ (forall (cfg : pdcp_entity_tx.pdcp_tx_config) (e : pdcp_entity_tx.entity),
         pdcp_entity_tx.sn_size cfg = s ->
         (if pdcp_entity_tx.has_discard_timer cfg
          then pdcp_entity_tx.tx_next_ack (pdcp_entity_tx.st e)
          else pdcp_entity_tx.tx_trans (pdcp_entity_tx.st e)) = ref ->
         pdcp_entity_tx.notification_count_estimation cfg e (SN s c) = c).
Proof.
  intros Hr Hc Hw. split.
  - intros cfg e <- <-. unfold pdcp_entity_rx.calc_rcvd_count.
    apply count_from_sn_window; assumption.
  - intros cfg e <- <-. unfold pdcp_entity_tx.notification_count_estimation.
    apply count_from_sn_window; assumption.
Qed.

Lemma count_resolution_returns_count_witness :
  is_u32 4090 /\ is_u32 4100 /\ in_count_window size12bits 4090 4100
  /\ pdcp_entity_rx.calc_rcvd_count
       (rx_config_example size12bits um (reordering_ms 50) {| notify := 10000; hard := 20000 |})
       (rx_entity_at 4095 4090 0) (SN size12bits 4100) = 4100
  /\ pdcp_entity_tx.notification_count_estimation
       (tx_config_example size12bits um None 4096 {| notify := 10000; hard := 20000 |})
       (tx_entity_at 4101 4090 0) (SN size12bits 4100) = 4100.
Proof.
  assert (is_u32 4090) as H1 by (unfold is_u32; lia).
  assert (is_u32 4100) as H2 by (unfold is_u32; lia).
  assert (in_count_window size12bits 4090 4100) as H3
      by (unfold in_count_window; change (pdcp_window_size size12bits) with 2048; lia).
  destruct (count_resolution_returns_count size12bits 4090 4100 H1 H2 H3) as [Hrx Htx].
  split; [exact H1|]. split; [exact H2|]. split; [exact H3|].
  split; [apply Hrx; reflexivity | apply Htx; reflexivity].
Defined.

(** ** Transmitter: the ordering of the state variables *)

Section tx_ordering.
Import pdcp_entity_tx.
Variable prims : security_primitives.
Variable cfg : pdcp_tx_config.

Lemma u32_small (z : Z) : 0 <= z < 2 ^ 32 -> u32 z = z.
Proof. intros H. unfold u32. apply Z.mod_small. exact H. Qed.

Lemma advance_tx_next_ack_range fuel (w : gmap Z pdcp_tx_sdu_info) next ack :
  0 <= ack <= next -> next < 2 ^ 32 ->
  ack <= advance_tx_next_ack cfg fuel w next ack <= next.
Proof.
  revert ack. induction fuel as [|fuel IH]; intros ack Hack Hnext; simpl; [lia|].
  destruct (Z.ltb_spec ack next) as [Hlt|Hge]; simpl; [|lia].
  destruct (has_sn (window_size cfg) w ack); simpl; [lia|].
  rewrite u32_small by lia.
  specialize (IH (ack + 1)). lia.
Qed.

Lemma clamp_tx_trans_ordered (s : pdcp_tx_state) :
  0 <= tx_next_ack s <= tx_next s -> tx_trans s <= tx_next s -> tx_next s < 2 ^ 32 ->
  tx_ordered (clamp_tx_trans s).
Proof.
  intros Ha Ht Hn. unfold clamp_tx_trans, tx_ordered.
  destruct (Z.ltb_spec (tx_trans s) (tx_next_ack s)); simpl; lia.
Qed.

Lemma discard_pdu_tx_next (e : entity) (c : Z) :
  tx_next (st (discard_pdu cfg e c)) = tx_next (st e).
Proof.
  unfold discard_pdu.
  destruct (negb (has_discard_timer cfg)); [reflexivity|].
  destruct (_ || _); [reflexivity|].
  destruct (negb _); [reflexivity|].
  cbn. unfold clamp_tx_trans. cbn.
  match goal with |- context [if ?b then _ else _] => destruct b end; reflexivity.
Qed.

Lemma discard_pdu_ordered (e : entity) (c : Z) :
  tx_ordered (st e) -> tx_ordered (st (discard_pdu cfg e c)).
Proof.
  intros Hord. unfold discard_pdu.
  destruct (negb (has_discard_timer cfg)); [exact Hord|].
  destruct (_ || _); [exact Hord|].
  destruct (negb _); [exact Hord|].
  cbn. destruct Hord as (H0 & H1 & H2 & H3).
  match goal with |- context [advance_tx_next_ack cfg ?f ?w ?n ?a] =>
    pose proof (advance_tx_next_ack_range f w n a) as Hr end.
  apply clamp_tx_trans_ordered; cbn; lia.
Qed.

Lemma stop_timers_loop_ack fuel (w : gmap Z pdcp_tx_sdu_info) highest ack :
  0 <= ack -> highest + 1 < 2 ^ 32 ->
  Z.of_nat fuel = highest - ack + 1 ->
  (stop_timers_loop cfg fuel w highest ack).2 = highest + 1.
Proof.
  revert w ack. induction fuel as [|fuel IH]; intros w ack Hack Hh Hf; simpl.
  - lia.
  - destruct (Z.leb_spec ack highest) as [Hle|Hgt]; [|lia].
    rewrite u32_small by lia. apply IH; lia.
Qed.

Lemma stop_discard_timer_ordered (e : entity) (highest : Z) :
  tx_ordered (st e) -> tx_ordered (st (stop_discard_timer cfg e highest)).
Proof.
  intros Hord. unfold stop_discard_timer.
  destruct (negb (has_discard_timer cfg)); [exact Hord|].
  destruct (Z.ltb_spec highest (tx_next_ack (st e))) as [|Hlo]; [exact Hord|].
  destruct (Z.leb_spec (tx_next (st e)) highest) as [|Hhi]; [exact Hord|].
  simpl. destruct Hord as (H0 & H1 & H2 & H3).
  match goal with |- context [stop_timers_loop cfg ?f ?w ?h ?a] =>
    pose proof (stop_timers_loop_ack f w h a) as Hr;
    destruct (stop_timers_loop cfg f w h a) as [w' ack'] end.
  simpl in Hr. rewrite Hr by lia. cbn.
  apply clamp_tx_trans_ordered; cbn; lia.
Qed.

Lemma fold_discard_pdu_ordered (l : list Z) (e : entity) :
  tx_ordered (st e) -> tx_ordered (st (fold_left (discard_pdu cfg) l e)).
Proof.
  revert e. induction l as [|c l IH]; intros e He; simpl; [exact He|].
  apply IH, discard_pdu_ordered, He.
Qed.

Lemma status_bitmap_loop_ordered (bits : list bool) (e : entity) (fmc : Z) :
  tx_ordered (st e) -> tx_ordered (st (status_bitmap_loop cfg e fmc bits)).
Proof.
  revert e fmc. induction bits as [|b bits IH]; intros e fmc He; simpl; [exact He|].
  apply IH. destruct b; [apply discard_pdu_ordered|]; exact He.
Qed.

Lemma handle_status_report_ordered ok (e : entity) (status : byte_buffer) :
  tx_ordered (st e) -> tx_ordered (st (handle_status_report cfg ok e status)).
Proof.
  intros He. unfold handle_status_report.
  destruct (negb ok); [exact He|].
  destruct (unpack 1 _) as [dc dec1]. destruct (negb _); [exact He|].
  destruct (unpack 3 _) as [cpt dec2]. destruct (negb _); [exact He|].
  destruct (unpack 4 _) as [rsv dec3]. destruct (negb _); [exact He|].
  destruct (unpack 32 _) as [fmc dec4].
  apply status_bitmap_loop_ordered, fold_discard_pdu_ordered, He.
Qed.

Lemma retransmit_loop_st env (l : list Z) (e : entity) :
  st (retransmit_loop prims cfg env l e) = st e.
Proof.
  revert e. induction l as [|c l IH]; intros e; simpl; [reflexivity|].
  destruct (window_at _ _ _); [|apply IH].
  destruct (negb _); [reflexivity|].
  destruct (write_data_pdu_header _ _ _ _); [|reflexivity].
  destruct (apply_ciphering_and_integrity_protection _ _ _ _ _ _); [|reflexivity].
  rewrite IH. reflexivity.
Qed.

Lemma retransmit_all_pdus_ordered env (e : entity) :
  tx_ordered (st e) -> tx_ordered (st (retransmit_all_pdus prims cfg env e)).
Proof.
  intros He. unfold retransmit_all_pdus.
  destruct (negb (has_discard_timer cfg)); [exact He|].
  destruct (negb (is_am cfg)); [exact He|].
  rewrite retransmit_loop_st. cbn. unfold tx_ordered in *. cbn. lia.
Qed.

Lemma store_in_tx_window_st (e : entity) (buf : byte_buffer) :
  tx_ordered (st e) ->
  tx_ordered (st (store_in_tx_window cfg e buf))
  /\ tx_next (st (store_in_tx_window cfg e buf)) = tx_next (st e).
Proof.
  intros He. unfold store_in_tx_window.
  destruct (discard_timer cfg) as [d|]; [|auto].
  destruct (window_at _ _ _) as [old|]; cbn; [|auto].
  split; [apply discard_pdu_ordered, He | apply discard_pdu_tx_next].
Qed.

Lemma notify_max_count_st (e : entity) : st (notify_max_count cfg e) = st e.
Proof. unfold notify_max_count. destruct (_ && _); reflexivity. Qed.

Lemma transmit_sdu_ordered env (e : entity) (buf : byte_buffer) :
  tx_next (st e) + 1 < 2 ^ 32 -> tx_ordered (st e) ->
  tx_ordered (st (transmit_sdu prims cfg env e buf)).
Proof.
  intros Hlt He. unfold transmit_sdu.
  destruct (_ && negb _); [exact He|].
  destruct (write_data_pdu_header _ _ _ _); [|exact He].
  destruct (apply_ciphering_and_integrity_protection _ _ _ _ _ _); [|exact He].
  cbn.
  destruct (store_in_tx_window_st e (if has_discard_timer cfg && is_am cfg then buf else [])
              He) as [(H0 & H1 & H2 & H3) Hn].
  unfold tx_ordered. cbn. rewrite Hn in *.
  rewrite u32_small by lia. lia.
Qed.

Lemma handle_sdu_ordered env (e : entity) (buf : byte_buffer) :
  tx_config_ok cfg -> tx_ordered (st e) ->
  tx_ordered (st (handle_sdu prims cfg env e buf)).
Proof.
  intros (_ & _ & Hhard) He. unfold handle_sdu.
  destruct (_ <? _); [exact He|].
  destruct (_ <=? _); [exact He|].
  destruct (_ <=? _); [exact He|].
  cbn.
  destruct (Z.leb_spec (hard (max_count (custom cfg))) (tx_next (st e))) as [|Hlt].
  { destruct (negb _); exact He. }
  apply transmit_sdu_ordered; rewrite notify_max_count_st; cbn; [|exact He].
  destruct Hhard. lia.
Qed.

Lemma handle_transmit_notification_ordered (e : entity) (sn : Z) :
  tx_ordered (st e) -> tx_ordered (st (handle_transmit_notification cfg e sn)).
Proof.
  intros He. unfold handle_transmit_notification.
  destruct (_ <=? _); [exact He|].
  destruct (Z.ltb_spec (notification_count_estimation cfg e sn) (tx_trans (st e)));
    [exact He|].
  destruct (Z.leb_spec (tx_next (st e)) (notification_count_estimation cfg e sn));
    [exact He|].
  assert (tx_ordered
            (st (set_st e (set_tx_trans (st e)
                             (u32 (notification_count_estimation cfg e sn + 1)))))) as He'.
  { destruct He as (Ha & Hb & Hc & Hd). unfold tx_ordered. cbn.
    rewrite u32_small by lia. lia. }
  destruct (negb _); [exact He'|].
  destruct (is_um cfg); [apply stop_discard_timer_ordered|]; exact He'.
Qed.

Lemma handle_delivery_notification_ordered (e : entity) (sn : Z) :
  tx_ordered (st e) -> tx_ordered (st (handle_delivery_notification cfg e sn)).
Proof.
  intros He. unfold handle_delivery_notification.
  destruct (_ <=? _); [exact He|].
  destruct (_ <=? _); [exact He|].
  destruct (negb _); [exact He|].
  destruct (is_am cfg); [apply stop_discard_timer_ordered|]; exact He.
Qed.

(** What [discard_pdu] does to the counters: TX_NEXT stays, TX_NEXT_ACK moves
    up and not beyond TX_NEXT, and TX_TRANS is raised to TX_NEXT_ACK where
    it fell behind. *)
Lemma discard_pdu_counters (e : entity) (c : Z) :
  tx_ordered (st e) ->
  let e' := discard_pdu cfg e c in
  tx_next (st e') = tx_next (st e)
  /\ tx_next_ack (st e) <= tx_next_ack (st e') <= tx_next (st e')
  /\ tx_trans (st e') = Z.max (tx_trans (st e)) (tx_next_ack (st e')).
Proof.
  intros (H0 & H1 & H2 & H3). cbv zeta. unfold discard_pdu.
  destruct (negb (has_discard_timer cfg)); [lia|].
  destruct (_ || _); [lia|].
  destruct (negb _); [lia|].
  cbn [st set_st set_tx_window emit tx_window].
  match goal with |- context [advance_tx_next_ack cfg ?f ?w ?n ?a] =>
    pose proof (advance_tx_next_ack_range f w n a) as Hr;
    set (ack' := advance_tx_next_ack cfg f w n a) in * end.
  specialize (Hr ltac:(lia) ltac:(lia)).
  unfold clamp_tx_trans. cbn [tx_trans tx_next_ack tx_next set_tx_next_ack set_tx_trans].
  destruct (Z.ltb_spec (tx_trans (st e)) ack');
    cbn [tx_trans tx_next_ack tx_next set_tx_next_ack set_tx_trans]; lia.
Qed.

(** What [stop_discard_timer] does to the counters when the COUNT lies
    between TX_NEXT_ACK and TX_NEXT: TX_NEXT_ACK moves behind the COUNT, and
    TX_TRANS is raised to TX_NEXT_ACK where it fell behind.  For any other
    COUNT, and without a discard timer, the counters stay. *)
Lemma stop_discard_timer_counters (e : entity) (highest : Z) :
  tx_ordered (st e) ->
  let e' := stop_discard_timer cfg e highest in
  tx_next (st e') = tx_next (st e)
  /\ tx_next_ack (st e) <= tx_next_ack (st e') <= tx_next (st e')
  /\ tx_trans (st e') = Z.max (tx_trans (st e)) (tx_next_ack (st e'))
  /\ (has_discard_timer cfg = true ->
      tx_next_ack (st e) <= highest < tx_next (st e) ->
      tx_next_ack (st e') = highest + 1).
Proof.
  intros (H0 & H1 & H2 & H3). cbv zeta. unfold stop_discard_timer.
  destruct (has_discard_timer cfg); cbn [negb]; [|repeat split; try lia; discriminate].
  destruct (Z.ltb_spec highest (tx_next_ack (st e))) as [|Hlo]; [cbn [orb]; lia|].
  destruct (Z.leb_spec (tx_next (st e)) highest) as [|Hhi]; [cbn [orb]; lia|].
  cbn [orb].
  match goal with |- context [stop_timers_loop cfg ?f ?w ?h ?a] =>
    pose proof (stop_timers_loop_ack f w h a) as Hr;
    destruct (stop_timers_loop cfg f w h a) as [w' ack'] end.
  cbn [snd] in Hr. rewrite Hr by lia.
  cbn [st set_st set_tx_window].
  unfold clamp_tx_trans. cbn [tx_trans tx_next_ack tx_next set_tx_next_ack set_tx_trans].
  destruct (Z.ltb_spec (tx_trans (st e)) (highest + 1));
    cbn [tx_trans tx_next_ack tx_next set_tx_next_ack set_tx_trans]; lia.
Qed.

(** A transmit notification moves TX_TRANS behind the COUNT of the
    notification when its SN is in range and the COUNT lies between TX_TRANS
    and TX_NEXT, and changes nothing otherwise. *)
Lemma handle_transmit_notification_counters (e : entity) (sn : Z) :
  tx_ordered (st e) ->
  let c := notification_count_estimation cfg e sn in
  let e' := handle_transmit_notification cfg e sn in
  (sn < pdcp_sn_cardinality (sn_size cfg) -> tx_trans (st e) <= c < tx_next (st e) ->
   tx_trans (st e') = c + 1 /\ tx_next (st e') = tx_next (st e))
  /\ (~ (sn < pdcp_sn_cardinality (sn_size cfg) /\ tx_trans (st e) <= c < tx_next (st e)) ->
      e' = e).
Proof.
  intros Hord c e'. pose proof Hord as (H0 & H1 & H2 & H3).
  subst e'. unfold handle_transmit_notification. fold c.
  destruct (Z.leb_spec (pdcp_sn_cardinality (sn_size cfg)) sn) as [Hbig|Hsn];
    [split; [lia|reflexivity]|].
  destruct (Z.ltb_spec c (tx_trans (st e))) as [Hlow|Hlo]; [split; [lia|reflexivity]|].
  destruct (Z.leb_spec (tx_next (st e)) c) as [Hhigh|Hhi]; [split; [lia|reflexivity]|].
  split; [|intros Hnot; exfalso; apply Hnot; lia].
  intros _ _. rewrite u32_small by lia.
  set (e1 := set_st e (set_tx_trans (st e) (c + 1))).
  assert (tx_ordered (st e1)) as Hord1 by (unfold tx_ordered; cbn; lia).
  destruct (has_discard_timer cfg) eqn:Htimer; cbn [negb]; [|split; reflexivity].
  destruct (is_um cfg); [|split; reflexivity].
  destruct (stop_discard_timer_counters e1 c Hord1) as (S1 & S2 & S3 & S4).
  cbv zeta in S4. specialize (S4 Htimer). rewrite S4 in S3 by (cbn; lia).
  rewrite S1, S3. cbn. split; lia.
Qed.

End tx_ordering.

Lemma store_in_tx_window_tx_next cfg (e : pdcp_entity_tx.entity) (buf : byte_buffer) :
  pdcp_entity_tx.tx_next (pdcp_entity_tx.st (pdcp_entity_tx.store_in_tx_window cfg e buf))
  = pdcp_entity_tx.tx_next (pdcp_entity_tx.st e).
Proof.
  unfold pdcp_entity_tx.store_in_tx_window.
  destruct (pdcp_entity_tx.discard_timer cfg); [|reflexivity].
  destruct (window_at _ _ _); cbn; [apply discard_pdu_tx_next|reflexivity].
Qed.

Lemma transmit_sdu_tx_next prims cfg env (e : pdcp_entity_tx.entity) (buf : byte_buffer) :
  pdcp_entity_tx.tx_next (pdcp_entity_tx.st (pdcp_entity_tx.transmit_sdu prims cfg env e buf))
  = pdcp_entity_tx.tx_next (pdcp_entity_tx.st e)
  \/ pdcp_entity_tx.tx_next (pdcp_entity_tx.st (pdcp_entity_tx.transmit_sdu prims cfg env e buf))
     = u32 (pdcp_entity_tx.tx_next (pdcp_entity_tx.st e) + 1).
Proof.
  unfold pdcp_entity_tx.transmit_sdu.
  destruct (_ && negb _); [left; reflexivity|].
  destruct (pdcp_entity_tx.write_data_pdu_header _ _ _ _); [|left; reflexivity].
  destruct (pdcp_entity_tx.apply_ciphering_and_integrity_protection _ _ _ _ _ _);
    [|left; reflexivity].
  right. cbn. rewrite store_in_tx_window_tx_next. reflexivity.
Qed.

Lemma handle_sdu_tx_next prims cfg env (e : pdcp_entity_tx.entity) (buf : byte_buffer) :
  tx_config_ok cfg -> 0 <= pdcp_entity_tx.tx_next (pdcp_entity_tx.st e) ->
  pdcp_entity_tx.tx_next (pdcp_entity_tx.st (pdcp_entity_tx.handle_sdu prims cfg env e buf))
  = pdcp_entity_tx.tx_next (pdcp_entity_tx.st e)
  \/ pdcp_entity_tx.tx_next (pdcp_entity_tx.st (pdcp_entity_tx.handle_sdu prims cfg env e buf))
     = pdcp_entity_tx.tx_next (pdcp_entity_tx.st e) + 1.
Proof.
  intros (_ & _ & Hhard) Hpos. unfold pdcp_entity_tx.handle_sdu.
  destruct (_ <? _); [auto|].
  destruct (_ <=? _); [auto|].
  destruct (_ <=? _); [auto|].
  cbn. destruct (Z.leb_spec (hard (pdcp_entity_tx.max_count (pdcp_entity_tx.custom cfg)))
                   (pdcp_entity_tx.tx_next (pdcp_entity_tx.st e))) as [|Hlt];
    [destruct (negb _); auto|].
  match goal with |- context [pdcp_entity_tx.transmit_sdu prims cfg env ?x buf] =>
    pose proof (transmit_sdu_tx_next prims cfg env x buf) as H;
    rewrite notify_max_count_st in H end.
  cbn in H. rewrite u32_small in H by (destruct Hhard; lia). exact H.
Qed.

(** C10: every public operation of the transmitter preserves
    TX_NEXT_ACK <= TX_TRANS <= TX_NEXT.  [handle_sdu] changes TX_NEXT only
    by incrementing it.  A transmit notification sets TX_TRANS to the COUNT
    of the notification plus one when its SN is in range and
    TX_TRANS <= COUNT < TX_NEXT, and changes nothing otherwise.
    [discard_pdu] and [stop_discard_timer], the paths that advance
    TX_NEXT_ACK, never move it back, keep it at most TX_NEXT, leave
    TX_NEXT alone, and raise TX_TRANS to TX_NEXT_ACK where it fell
    behind. *)
Theorem tx_operations_preserve_ordering prims cfg (e : pdcp_entity_tx.entity) :
  tx_config_ok cfg ->
  tx_ordered (pdcp_entity_tx.st e) ->
  (forall e', tx_step prims cfg e e' -> tx_ordered (pdcp_entity_tx.st e'))
  /\ (forall env buf,
        let e' := pdcp_entity_tx.handle_sdu prims cfg env e buf in
        pdcp_entity_tx.tx_next (pdcp_entity_tx.st e') = pdcp_entity_tx.tx_next (pdcp_entity_tx.st e)
        \/ pdcp_entity_tx.tx_next (pdcp_entity_tx.st e')
           = pdcp_entity_tx.tx_next (pdcp_entity_tx.st e) + 1)
  /\ (forall sn,
        let c := pdcp_entity_tx.notification_count_estimation cfg e sn in
        let e' := pdcp_entity_tx.handle_transmit_notification cfg e sn in
        (sn < pdcp_sn_cardinality (pdcp_entity_tx.sn_size cfg) ->
         pdcp_entity_tx.tx_trans (pdcp_entity_tx.st e) <= c
           < pdcp_entity_tx.tx_next (pdcp_entity_tx.st e) ->
         pdcp_entity_tx.tx_trans (pdcp_entity_tx.st e') = c + 1
         /\ pdcp_entity_tx.tx_next (pdcp_entity_tx.st e')
            = pdcp_entity_tx.tx_next (pdcp_entity_tx.st e))
        /\ (~ (sn < pdcp_sn_cardinality (pdcp_entity_tx.sn_size cfg)
               /\ pdcp_entity_tx.tx_trans (pdcp_entity_tx.st e) <= c
                    < pdcp_entity_tx.tx_next (pdcp_entity_tx.st e)) ->
            e' = e))
  /\ (forall c,
        let e' := pdcp_entity_tx.discard_pdu cfg e c in
        pdcp_entity_tx.tx_next (pdcp_entity_tx.st e') = pdcp_entity_tx.tx_next (pdcp_entity_tx.st e)
        /\ pdcp_entity_tx.tx_next_ack (pdcp_entity_tx.st e)
             <= pdcp_entity_tx.tx_next_ack (pdcp_entity_tx.st e')
             <= pdcp_entity_tx.tx_next (pdcp_entity_tx.st e')
        /\ pdcp_entity_tx.tx_trans (pdcp_entity_tx.st e')
           = Z.max (pdcp_entity_tx.tx_trans (pdcp_entity_tx.st e))
               (pdcp_entity_tx.tx_next_ack (pdcp_entity_tx.st e')))
  /\ (forall highest,
        let e' := pdcp_entity_tx.stop_discard_timer cfg e highest in
        pdcp_entity_tx.tx_next (pdcp_entity_tx.st e') = pdcp_entity_tx.tx_next (pdcp_entity_tx.st e)
        /\ pdcp_entity_tx.tx_next_ack (pdcp_entity_tx.st e)
             <= pdcp_entity_tx.tx_next_ack (pdcp_entity_tx.st e')
             <= pdcp_entity_tx.tx_next (pdcp_entity_tx.st e')
        /\ pdcp_entity_tx.tx_trans (pdcp_entity_tx.st e')
           = Z.max (pdcp_entity_tx.tx_trans (pdcp_entity_tx.st e))
               (pdcp_entity_tx.tx_next_ack (pdcp_entity_tx.st e'))).
Proof.
  intros Hcfg He. split; [|split; [|split; [|split]]].
  - intros e' Hstep. destruct Hstep.
    + apply handle_sdu_ordered; assumption.
    + apply handle_transmit_notification_ordered; assumption.
    + apply handle_delivery_notification_ordered; assumption.
    + apply handle_status_report_ordered; assumption.
    + apply discard_pdu_ordered. exact He.
    + apply retransmit_all_pdus_ordered; assumption.
    + unfold tx_ordered. cbn. lia.
  - intros env buf e'.
    apply handle_sdu_tx_next; [exact Hcfg|].
    destruct He as (Ha & Hb & Hc & Hd). lia.
  - intros sn. exact (handle_transmit_notification_counters cfg e sn He).
  - intros c. exact (discard_pdu_counters cfg e c He).
  - intros highest e'.
    destruct (stop_discard_timer_counters cfg e highest He) as (S1 & S2 & S3 & _).
    split; [exact S1|]. split; [exact S2|exact S3].
Qed.

Lemma tx_operations_preserve_ordering_witness :
  let cfg := tx_config_example size12bits um (Some (discard_ms 100)) 4096
               {| notify := 1000000; hard := 2000000 |} in
  let e := handle_sdus null_primitives cfg (tx_entity_init null_security)
             (with_buffers_ok [[1]; [2]; [3]; [4]]) in
  let e1 := pdcp_entity_tx.handle_transmit_notification cfg e 1 in
  let e2 := pdcp_entity_tx.handle_transmit_notification cfg e 7 in
  let e3 := pdcp_entity_tx.discard_pdu cfg e 0 in
  let e4 := pdcp_entity_tx.handle_sdu null_primitives cfg buffers_ok e1 [5] in
  tx_config_ok cfg
  /\ pdcp_entity_tx.st e
     = {| pdcp_entity_tx.tx_next := 4; pdcp_entity_tx.tx_trans := 0;
          pdcp_entity_tx.tx_next_ack := 0 |}
  /\ tx_ordered (pdcp_entity_tx.st e1)
  /\ pdcp_entity_tx.st e1
     = {| pdcp_entity_tx.tx_next := 4; pdcp_entity_tx.tx_trans := 2;
          pdcp_entity_tx.tx_next_ack := 2 |}
  /\ e2 = e
  /\ pdcp_entity_tx.st e3
     = {| pdcp_entity_tx.tx_next := 4; pdcp_entity_tx.tx_trans := 1;
          pdcp_entity_tx.tx_next_ack := 1 |}
  /\ tx_ordered (pdcp_entity_tx.st e4)
  /\ pdcp_entity_tx.tx_next (pdcp_entity_tx.st e4) = 5.
Proof.
  intros cfg e e1 e2 e3 e4.
  assert (tx_config_ok cfg) as Hcfg by (unfold tx_config_ok, is_u32; cbn; lia).
  assert (tx_ordered (pdcp_entity_tx.st e)) as He
      by (vm_compute; repeat split; discriminate).
  destruct (tx_operations_preserve_ordering null_primitives cfg e Hcfg He)
    as (Hstep & _ & Hnotif & _ & _).
  assert (tx_ordered (pdcp_entity_tx.st e1)) as He1
      by (apply Hstep; apply tx_step_transmit_notification).
  destruct (tx_operations_preserve_ordering null_primitives cfg e1 Hcfg He1)
    as (Hstep1 & _).
  destruct (Hnotif 7) as [_ Hnone].
  split; [exact Hcfg|]. split; [vm_compute; reflexivity|]. split; [exact He1|].
  split; [vm_compute; reflexivity|].
  split; [apply Hnone; vm_compute; intros [_ [_ H]]; discriminate|].
  split; [vm_compute; reflexivity|].
  split; [apply Hstep1; apply tx_step_sdu|vm_compute; reflexivity].
Defined.

(** ** The windows never outgrow their capacity *)

Section window_bound.
Context {T : Type}.
Variable capacity : Z.
Hypothesis capacity_pos : 0 < capacity.

Lemma slot_of_range (sn : Z) : 0 <= slot_of capacity sn < capacity.
Proof. unfold slot_of. apply Z.mod_pos_bound. exact capacity_pos. Qed.

Lemma slots_in_range_empty : slots_in_range capacity (∅ : gmap Z T).
Proof. intros k x Hk. rewrite lookup_empty in Hk. discriminate. Qed.

Lemma slots_in_range_add (w : gmap Z T) (sn : Z) (x : T) :
  slots_in_range capacity w -> slots_in_range capacity (add_sn capacity w sn x).
Proof.
  intros Hw k y. unfold add_sn.
  destruct (decide (slot_of capacity sn = k)) as [<-|Hne].
  - intros _. apply slot_of_range.
  - rewrite lookup_insert_ne by exact Hne. apply Hw.
Qed.

Lemma slots_in_range_remove (w : gmap Z T) (sn : Z) :
  slots_in_range capacity w -> slots_in_range capacity (remove_sn capacity w sn).
Proof.
  intros Hw k y. unfold remove_sn. intros Hk.
  apply lookup_delete_Some in Hk as [_ Hk]. exact (Hw k y Hk).
Qed.

Lemma slots_in_range_size (w : gmap Z T) :
  slots_in_range capacity w -> (size w <= Z.to_nat capacity)%nat.
Proof.
  intros Hw. rewrite <- size_dom.
  assert (dom w ⊆ list_to_set (C := gset Z) (seqZ 0 capacity)) as Hsub.
  { intros k Hk. apply elem_of_dom in Hk as [x Hx].
    apply elem_of_list_to_set, elem_of_seqZ. specialize (Hw k x Hx). lia. }
  apply subseteq_size in Hsub.
  rewrite size_list_to_set in Hsub by apply NoDup_seqZ.
  rewrite length_seqZ in Hsub. exact Hsub.
Qed.

End window_bound.

Section tx_window_bound.
Import pdcp_entity_tx.
Variable prims : security_primitives.
Variable cfg : pdcp_tx_config.

Lemma tx_window_size_pos : 0 < window_size cfg.
Proof. apply window_size_pos. Qed.

Lemma discard_pdu_slots (e : entity) (c : Z) :
  tx_slots_ok cfg e -> tx_slots_ok cfg (discard_pdu cfg e c).
Proof.
  intros He. unfold discard_pdu.
  destruct (negb (has_discard_timer cfg)); [exact He|].
  destruct (_ || _); [exact He|].
  destruct (negb _); [exact He|].
  unfold tx_slots_ok. cbn. apply slots_in_range_remove. exact He.
Qed.

Lemma stop_timers_loop_slots fuel (w : gmap Z pdcp_tx_sdu_info) highest ack :
  slots_in_range (window_size cfg) w ->
  slots_in_range (window_size cfg) (stop_timers_loop cfg fuel w highest ack).1.
Proof.
  revert w ack. induction fuel as [|fuel IH]; intros w ack Hw; simpl; [exact Hw|].
  destruct (ack <=? highest); [|exact Hw].
  apply IH. destruct (has_sn _ _ _); [apply slots_in_range_remove|]; exact Hw.
Qed.

Lemma stop_discard_timer_slots (e : entity) (highest : Z) :
  tx_slots_ok cfg e -> tx_slots_ok cfg (stop_discard_timer cfg e highest).
Proof.
  intros He. unfold stop_discard_timer.
  destruct (negb (has_discard_timer cfg)); [exact He|].
  destruct (_ || _); [exact He|].
  match goal with |- context [stop_timers_loop cfg ?f ?w ?h ?a] =>
    pose proof (stop_timers_loop_slots f w h a He) as Hr;
    destruct (stop_timers_loop cfg f w h a) as [w' ack'] end.
  unfold tx_slots_ok. cbn. exact Hr.
Qed.

Lemma store_in_tx_window_slots (e : entity) (buf : byte_buffer) :
  tx_slots_ok cfg e -> tx_slots_ok cfg (store_in_tx_window cfg e buf).
Proof.
  intros He. unfold store_in_tx_window.
  destruct (discard_timer cfg) as [d|]; [|exact He].
  unfold tx_slots_ok. cbn.
  apply slots_in_range_add; [apply tx_window_size_pos|].
  destruct (window_at _ _ _); [apply discard_pdu_slots|]; exact He.
Qed.

Lemma notify_max_count_window (e : entity) : tx_window (notify_max_count cfg e) = tx_window e.
Proof. unfold notify_max_count. destruct (_ && _); reflexivity. Qed.

Lemma handle_sdu_slots env (e : entity) (buf : byte_buffer) :
  tx_slots_ok cfg e -> tx_slots_ok cfg (handle_sdu prims cfg env e buf).
Proof.
  intros He. unfold handle_sdu.
  destruct (_ <? _); [exact He|].
  destruct (_ <=? _); [exact He|].
  destruct (_ <=? _); [exact He|].
  cbn. destruct (_ <=? _); [destruct (negb _); exact He|].
  match goal with |- context [transmit_sdu prims cfg env ?x buf] =>
    assert (tx_slots_ok cfg x) as Hx
      by (unfold tx_slots_ok; rewrite notify_max_count_window; exact He);
    generalize dependent x end.
  intros x Hx. unfold transmit_sdu.
  destruct (_ && negb _); [exact Hx|].
  destruct (write_data_pdu_header _ _ _ _); [|exact Hx].
  destruct (apply_ciphering_and_integrity_protection _ _ _ _ _ _); [|exact Hx].
  unfold tx_slots_ok. cbn. apply store_in_tx_window_slots. exact Hx.
Qed.

Lemma fold_discard_pdu_slots (l : list Z) (e : entity) :
  tx_slots_ok cfg e -> tx_slots_ok cfg (fold_left (discard_pdu cfg) l e).
Proof.
  revert e. induction l as [|c l IH]; intros e He; simpl; [exact He|].
  apply IH, discard_pdu_slots, He.
Qed.

Lemma status_bitmap_loop_slots (bits : list bool) (e : entity) (fmc : Z) :
  tx_slots_ok cfg e -> tx_slots_ok cfg (status_bitmap_loop cfg e fmc bits).
Proof.
  revert e fmc. induction bits as [|b bits IH]; intros e fmc He; simpl; [exact He|].
  apply IH. destruct b; [apply discard_pdu_slots|]; exact He.
Qed.

Lemma handle_status_report_slots ok (e : entity) (status : byte_buffer) :
  tx_slots_ok cfg e -> tx_slots_ok cfg (handle_status_report cfg ok e status).
Proof.
  intros He. unfold handle_status_report.
  destruct (negb ok); [exact He|].
  destruct (unpack 1 _) as [dc dec1]. destruct (negb _); [exact He|].
  destruct (unpack 3 _) as [cpt dec2]. destruct (negb _); [exact He|].
  destruct (unpack 4 _) as [rsv dec3]. destruct (negb _); [exact He|].
  destruct (unpack 32 _) as [fmc dec4].
  apply status_bitmap_loop_slots, fold_discard_pdu_slots, He.
Qed.

Lemma retransmit_loop_window env (l : list Z) (e : entity) :
  tx_window (retransmit_loop prims cfg env l e) = tx_window e.
Proof.
  revert e. induction l as [|c l IH]; intros e; simpl; [reflexivity|].
  destruct (window_at _ _ _); [|apply IH].
  destruct (negb _); [reflexivity|].
  destruct (write_data_pdu_header _ _ _ _); [|reflexivity].
  destruct (apply_ciphering_and_integrity_protection _ _ _ _ _ _); [|reflexivity].
  rewrite IH. reflexivity.
Qed.

Lemma tx_step_slots (e e' : entity) :
  tx_step prims cfg e e' -> tx_slots_ok cfg e -> tx_slots_ok cfg e'.
Proof.
  intros Hstep He. destruct Hstep.
  - apply handle_sdu_slots, He.
  - unfold handle_transmit_notification.
    destruct (_ <=? _); [exact He|]. destruct (_ <? _); [exact He|].
    destruct (_ <=? _); [exact He|]. destruct (negb _); [exact He|].
    destruct (is_um cfg); [apply stop_discard_timer_slots|]; exact He.
  - unfold handle_delivery_notification.
    destruct (_ <=? _); [exact He|]. destruct (_ <=? _); [exact He|].
    destruct (negb _); [exact He|].
    destruct (is_am cfg); [apply stop_discard_timer_slots|]; exact He.
  - apply handle_status_report_slots, He.
  - apply discard_pdu_slots. exact He.
  - unfold retransmit_all_pdus.
    destruct (negb _); [exact He|]. destruct (negb _); [exact He|].
    unfold tx_slots_ok. rewrite retransmit_loop_window. exact He.
  - unfold tx_slots_ok. cbn. apply slots_in_range_empty.
Qed.

Lemma tx_reachable_slots (e : entity) : tx_reachable prims cfg e -> tx_slots_ok cfg e.
Proof.
  induction 1 as [sc|e e' _ IH Hstep].
  - apply slots_in_range_empty.
  - exact (tx_step_slots e e' Hstep IH).
Qed.

(** A full transmit window makes [handle_sdu] return without any effect. *)
Lemma handle_sdu_window_full env (e : entity) (buf : byte_buffer) :
  0 <= tx_trans (st e) -> tx_next (st e) < 2 ^ 32 ->
  window_size cfg - 1 <= tx_next (st e) - tx_trans (st e) ->
  handle_sdu prims cfg env e buf = e.
Proof.
  intros Ht Hn Hfull. unfold handle_sdu.
  pose proof tx_window_size_pos as Hpos.
  pose proof (window_size_u32 (sn_size cfg)) as Hw32. fold (window_size cfg) in Hw32.
  destruct (_ <? _); [reflexivity|].
  destruct (_ <=? _); [reflexivity|].
  rewrite !u32_small by lia.
  destruct (Z.leb_spec (window_size cfg - 1) (tx_next (st e) - tx_trans (st e)));
    [reflexivity|lia].
Qed.

End tx_window_bound.

Section rx_window_bound.
Import pdcp_entity_rx.
Variable prims : security_primitives.
Variable cfg : pdcp_rx_config.

Lemma rx_window_size_pos : 0 < window_size cfg.
Proof. apply window_size_pos. Qed.

Lemma deliver_at_rx_deliv_slots (e : entity) :
  rx_slots_ok cfg e -> rx_slots_ok cfg (advance_rx_deliv (deliver_at_rx_deliv cfg e)).
Proof.
  intros He. unfold deliver_at_rx_deliv.
  destruct (window_at _ _ _); [|exact He].
  unfold rx_slots_ok. cbn. apply slots_in_range_remove. exact He.
Qed.

Lemma deliver_consecutive_loop_slots fuel (e : entity) :
  rx_slots_ok cfg e -> rx_slots_ok cfg (deliver_consecutive_loop cfg fuel e).
Proof.
  revert e. induction fuel as [|fuel IH]; intros e He; simpl; [exact He|].
  destruct (_ && _); [|exact He].
  apply IH, deliver_at_rx_deliv_slots, He.
Qed.

Lemma deliver_below_reord_loop_slots fuel (e : entity) :
  rx_slots_ok cfg e -> rx_slots_ok cfg (deliver_below_reord_loop cfg fuel e).
Proof.
  revert e. induction fuel as [|fuel IH]; intros e He; simpl; [exact He|].
  destruct (negb _); [|exact He].
  apply IH, deliver_at_rx_deliv_slots, He.
Qed.

Lemma handle_t_reordering_expire_slots (e : entity) :
  rx_slots_ok cfg e -> rx_slots_ok cfg (handle_t_reordering_expire cfg e).
Proof.
  intros He. unfold handle_t_reordering_expire.
  match goal with |- context [deliver_all_consecutive_counts cfg ?x] =>
    assert (rx_slots_ok cfg (deliver_all_consecutive_counts cfg x)) as Hx
      by (apply deliver_consecutive_loop_slots, deliver_below_reord_loop_slots; exact He);
    generalize dependent (deliver_all_consecutive_counts cfg x) end.
  intros x Hx. destruct (_ <? _); [|exact Hx].
  destruct (t_reordering cfg); exact Hx.
Qed.

Lemma handle_reordering_timers_slots (e : entity) :
  rx_slots_ok cfg e -> rx_slots_ok cfg (handle_reordering_timers cfg e).
Proof.
  intros He. unfold handle_reordering_timers.
  set (e1 := if _ && _ then _ else _).
  assert (rx_slots_ok cfg e1) as H1 by (subst e1; destruct (_ && _); exact He).
  clearbody e1.
  destruct (t_reordering cfg).
  - apply handle_t_reordering_expire_slots. exact H1.
  - destruct (_ && _); exact H1.
  - exact H1.
Qed.

Lemma store_and_deliver_slots (e : entity) (buf : byte_buffer) (c : Z) :
  rx_slots_ok cfg e -> rx_slots_ok cfg (store_and_deliver cfg e buf c).
Proof.
  intros He. unfold store_and_deliver.
  destruct (_ <? _); [exact He|].
  set (stale := match window_at _ _ _ with Some _ => _ | None => _ end).
  assert (forall w, stale = Some w -> slots_in_range (window_size cfg) w) as Hst.
  { subst stale. intros w. destruct (window_at _ _ _) as [info|].
    - destruct (_ =? _); [discriminate|]. intros [= <-].
      apply slots_in_range_remove. exact He.
    - intros [= <-]. exact He. }
  destruct stale as [w|]; [|exact He].
  apply handle_reordering_timers_slots.
  set (e1 := set_rx_window _ _).
  assert (rx_slots_ok cfg e1) as H1.
  { subst e1. unfold rx_slots_ok. cbn.
    apply slots_in_range_add; [apply rx_window_size_pos|]. apply Hst. reflexivity. }
  clearbody e1.
  set (e2 := if rx_next (st e1) <=? c then _ else _).
  assert (rx_slots_ok cfg e2) as H2 by (subst e2; destruct (_ <=? _); exact H1).
  clearbody e2.
  destruct (_ =? _); [apply deliver_consecutive_loop_slots|]; exact H2.
Qed.

Lemma handle_data_pdu_slots (e : entity) (pdu : byte_buffer) :
  rx_slots_ok cfg e -> rx_slots_ok cfg (handle_data_pdu prims cfg e pdu).
Proof.
  intros He. unfold handle_data_pdu.
  destruct (_ <=? _); [exact He|].
  destruct (read_data_pdu_header _ _) as [hdr_sn|]; [|exact He].
  set (e1 := if _ && _ then _ else _).
  assert (rx_slots_ok cfg e1) as H1 by (subst e1; destruct (_ && _); exact He).
  clearbody e1.
  destruct (_ <=? _); [destruct (negb _); exact H1|].
  destruct (decipher_and_extract_mac _ _ _ _ _) as [sdu_buf mac].
  destruct (integrity_enabled _).
  - destruct (negb _); [exact H1|]. apply store_and_deliver_slots. exact H1.
  - apply store_and_deliver_slots. exact H1.
Qed.

Lemma rx_reachable_slots (e : entity) : rx_reachable prims cfg e -> rx_slots_ok cfg e.
Proof.
  induction 1 as [sc|e e' _ IH Hstep].
  - apply slots_in_range_empty.
  - destruct Hstep.
    + apply handle_data_pdu_slots, IH.
    + apply handle_t_reordering_expire_slots. exact IH.
Qed.

End rx_window_bound.

(** C3: [handle_sdu] rejects the SDU, leaving the entity as it was, when
    TX_NEXT - TX_TRANS >= Window_Size - 1; and neither the TX window of a
    reachable transmitter nor the RX window of a reachable receiver ever
    holds more than Window_Size entries. *)
Theorem window_full_rejected_and_windows_bounded
        (prims : security_primitives)
        (cfg_tx : pdcp_entity_tx.pdcp_tx_config) (cfg_rx : pdcp_entity_rx.pdcp_rx_config) :
  (forall env (e : pdcp_entity_tx.entity) (buf : byte_buffer),
      is_u32 (pdcp_entity_tx.tx_next (pdcp_entity_tx.st e)) ->
      is_u32 (pdcp_entity_tx.tx_trans (pdcp_entity_tx.st e)) ->
      pdcp_entity_tx.window_size cfg_tx - 1
        <= pdcp_entity_tx.tx_next (pdcp_entity_tx.st e)
           - pdcp_entity_tx.tx_trans (pdcp_entity_tx.st e) ->
      pdcp_entity_tx.handle_sdu prims cfg_tx env e buf = e)
  /\ (forall e : pdcp_entity_tx.entity,
         tx_reachable prims cfg_tx e ->
         (size (pdcp_entity_tx.tx_window e)
          <= Z.to_nat (pdcp_window_size (pdcp_entity_tx.sn_size cfg_tx)))%nat)
  /\ (forall e : pdcp_entity_rx.entity,
         rx_reachable prims cfg_rx e ->
         (size (pdcp_entity_rx.rx_window e)
          <= Z.to_nat (pdcp_window_size (pdcp_entity_rx.sn_size cfg_rx)))%nat).
Proof.
  split; [|split].
  - intros env e buf [_ Hn] [Ht _] Hfull.
    apply handle_sdu_window_full; assumption.
  - intros e He. apply slots_in_range_size, (tx_reachable_slots prims cfg_tx e He).
  - intros e He. apply slots_in_range_size, (rx_reachable_slots prims cfg_rx e He).
Qed.

Lemma window_full_rejected_and_windows_bounded_witness :
  let cfg_tx := tx_config_example size12bits am (Some (discard_ms 100)) 4096
                  {| notify := 1000000; hard := 2000000 |} in
  let cfg_rx := rx_config_example size12bits am (reordering_ms 50)
                  {| notify := 1000000; hard := 2000000 |} in
  let full := tx_entity_at 2047 0 0 in
  let e_tx := pdcp_entity_tx.handle_sdu null_primitives cfg_tx buffers_ok
                (tx_entity_init null_security) [1; 2; 3] in
  let e_rx := pdcp_entity_rx.handle_data_pdu null_primitives cfg_rx
                (rx_entity_init null_security) [128; 1; 7] in
  pdcp_entity_tx.window_size cfg_tx - 1
    <= pdcp_entity_tx.tx_next (pdcp_entity_tx.st full)
       - pdcp_entity_tx.tx_trans (pdcp_entity_tx.st full)
  /\ pdcp_entity_tx.handle_sdu null_primitives cfg_tx buffers_ok full [9] = full
  /\ tx_reachable null_primitives cfg_tx e_tx
  /\ (size (pdcp_entity_tx.tx_window e_tx) <= 2048)%nat
  /\ rx_reachable null_primitives cfg_rx e_rx
  /\ (size (pdcp_entity_rx.rx_window e_rx) <= 2048)%nat.
Proof.
  intros cfg_tx cfg_rx full e_tx e_rx.
  destruct (window_full_rejected_and_windows_bounded null_primitives cfg_tx cfg_rx)
    as (Hfull & Htx & Hrx).
  assert (pdcp_entity_tx.window_size cfg_tx - 1
          <= pdcp_entity_tx.tx_next (pdcp_entity_tx.st full)
             - pdcp_entity_tx.tx_trans (pdcp_entity_tx.st full)) as H1
      by (vm_compute; discriminate).
  assert (tx_reachable null_primitives cfg_tx e_tx) as H2
      by (eapply tx_reachable_step; [apply tx_reachable_init | apply tx_step_sdu]).
  assert (rx_reachable null_primitives cfg_rx e_rx) as H3
      by (eapply rx_reachable_step; [apply rx_reachable_init | apply rx_step_data_pdu]).
  split; [exact H1|].
  split; [apply Hfull; [unfold is_u32; cbn; lia | unfold is_u32; cbn; lia | exact H1]|].
  split; [exact H2|]. split; [exact (Htx e_tx H2)|].
  split; [exact H3|]. exact (Hrx e_rx H3).
Defined.

(** ** Transmitter: COUNT exhaustion *)

Section tx_max_count.
Import pdcp_entity_tx.
Variable prims : security_primitives.
Variable cfg : pdcp_tx_config.

(** What one [handle_sdu] call does once TX_NEXT has reached the hard
    maximum COUNT. *)
Lemma handle_sdu_at_max_count env (e : entity) (buf : byte_buffer) :
  hard (max_count (custom cfg)) <= tx_next (st e) ->
  handle_sdu prims cfg env e buf =
    if tx_admits cfg (st e) then
      if max_count_overflow e
      then metrics_add_sdus e 1 (Z.of_nat (length buf))
      else set_max_count_overflow
             (emit (metrics_add_sdus e 1 (Z.of_nat (length buf))) on_protocol_failure) true
    else e.
Proof.
  intros Hhard. unfold handle_sdu, tx_admits.
  destruct (_ <? _); [reflexivity|].
  destruct (_ <=? _); [reflexivity|].
  destruct (_ <=? _); [reflexivity|].
  cbn. destruct (Z.leb_spec (hard (max_count (custom cfg))) (tx_next (st e))); [|lia].
  destruct (max_count_overflow e); reflexivity.
Qed.

Lemma handle_sdus_at_max_count (sdus : list (buffer_env * byte_buffer)) (e : entity) :
  hard (max_count (custom cfg)) <= tx_next (st e) ->
  st (handle_sdus prims cfg e sdus) = st e
  /\ tx_window (handle_sdus prims cfg e sdus) = tx_window e
  /\ out (handle_sdus prims cfg e sdus) =
       out e ++ (if negb (max_count_overflow e) && tx_admits cfg (st e)
                    && negb (bool_decide (sdus = []))
                 then [on_protocol_failure] else [])
  /\ (max_count_overflow e = true -> max_count_overflow (handle_sdus prims cfg e sdus) = true).
Proof.
  revert e. induction sdus as [|[env buf] sdus IH]; intros e Hhard.
  - cbn. rewrite andb_false_r, app_nil_r. auto.
  - unfold handle_sdus in *. cbn [fold_left fst snd].
    pose proof (handle_sdu_at_max_count env e buf Hhard) as Hone.
    set (e1 := handle_sdu prims cfg env e buf) in *.
    assert (st e1 = st e) as Hst.
    { rewrite Hone. destruct (tx_admits _ _); [destruct (max_count_overflow e)|]; reflexivity. }
    assert (tx_window e1 = tx_window e) as Hw.
    { rewrite Hone. destruct (tx_admits _ _); [destruct (max_count_overflow e)|]; reflexivity. }
    destruct (IH e1) as (IH1 & IH2 & IH3 & IH4); [rewrite Hst; exact Hhard|].
    rewrite IH1, IH2, IH3, Hst, Hw.
    split; [reflexivity|]. split; [reflexivity|]. split.
    + rewrite (bool_decide_eq_false_2 (_ :: _ = [])) by (intros Hx; discriminate Hx).
      cbn [negb]. rewrite andb_true_r.
      rewrite Hone.
      destruct (tx_admits cfg (st e)) eqn:Hadm.
      * destruct (max_count_overflow e) eqn:Hov; cbn.
        -- rewrite Hov. cbn. rewrite app_nil_r. reflexivity.
        -- rewrite <- app_assoc. reflexivity.
      * rewrite !andb_false_r. cbn. rewrite app_nil_r. reflexivity.
    + intros Hov. apply IH4. rewrite Hone.
      destruct (tx_admits _ _); [rewrite Hov|]; auto.
Qed.

End tx_max_count.

(** C2 (as amended): once TX_NEXT has reached the hard maximum COUNT, any
    number of [handle_sdu] calls leaves TX_NEXT, TX_TRANS, TX_NEXT_ACK and
    the TX window as they were and hands nothing to the lower layer;
    [on_protocol_failure] is signalled at most once, namely when the
    overflow flag is clear, at least one SDU is submitted and the guards on
    the state, the queue limit and the window let SDUs through; a flag that
    is set stays set. *)
Theorem max_count_reached_drops_sdus
        (prims : security_primitives) (cfg : pdcp_entity_tx.pdcp_tx_config)
        (e : pdcp_entity_tx.entity) (sdus : list (buffer_env * byte_buffer)) :
  hard (pdcp_entity_tx.max_count (pdcp_entity_tx.custom cfg))
    <= pdcp_entity_tx.tx_next (pdcp_entity_tx.st e) ->
  pdcp_entity_tx.st (handle_sdus prims cfg e sdus) = pdcp_entity_tx.st e
  /\ pdcp_entity_tx.tx_window (handle_sdus prims cfg e sdus) = pdcp_entity_tx.tx_window e
  /\ pdcp_entity_tx.out (handle_sdus prims cfg e sdus) =
       pdcp_entity_tx.out e
       ++ (if negb (pdcp_entity_tx.max_count_overflow e)
              && tx_admits cfg (pdcp_entity_tx.st e)
              && negb (bool_decide (sdus = []))
           then [pdcp_entity_tx.on_protocol_failure] else [])
  /\ (pdcp_entity_tx.max_count_overflow e = true ->
      pdcp_entity_tx.max_count_overflow (handle_sdus prims cfg e sdus) = true).
Proof. intros Hhard. apply handle_sdus_at_max_count. exact Hhard. Qed.

Lemma max_count_reached_drops_sdus_witness :
  let cfg := tx_config_example size12bits um None 4096 {| notify := 5; hard := 7 |} in
  let e := tx_entity_at 7 7 0 in
  let e' := handle_sdus null_primitives cfg e
              [(buffers_ok, [1]); (buffers_ok, [2]); (buffers_ok, [3])] in
  hard (pdcp_entity_tx.max_count (pdcp_entity_tx.custom cfg))
    <= pdcp_entity_tx.tx_next (pdcp_entity_tx.st e)
  /\ pdcp_entity_tx.st e' = pdcp_entity_tx.st e
  /\ pdcp_entity_tx.tx_window e' = pdcp_entity_tx.tx_window e
  /\ pdcp_entity_tx.out e' = [pdcp_entity_tx.on_protocol_failure].
Proof.
  intros cfg e e'.
  assert (hard (pdcp_entity_tx.max_count (pdcp_entity_tx.custom cfg))
          <= pdcp_entity_tx.tx_next (pdcp_entity_tx.st e)) as H by (cbn; lia).
  destruct (max_count_reached_drops_sdus null_primitives cfg e
              [(buffers_ok, [1]); (buffers_ok, [2]); (buffers_ok, [3])] H)
    as (H1 & H2 & H3 & _).
  split; [exact H|]. split; [exact H1|]. split; [exact H2|]. exact H3.
Defined.

(** Counterexample to C2 as stated: with a queue limit of 2 and a hard
    maximum COUNT of 2, two SDUs take TX_NEXT to the hard maximum; the
    queue guard then drops every further SDU before the COUNT check, and
    [on_protocol_failure] is not signalled at all. *)
Lemma max_count_failure_not_signalled_behind_queue_guard :
  let cfg := tx_config_example size12bits um None 2 {| notify := 2; hard := 2 |} in
  let e := handle_sdus null_primitives cfg (tx_entity_init null_security)
             [(buffers_ok, [1]); (buffers_ok, [2])] in
  let e' := handle_sdus null_primitives cfg e
              [(buffers_ok, [3]); (buffers_ok, [4]); (buffers_ok, [5])] in
  hard (pdcp_entity_tx.max_count (pdcp_entity_tx.custom cfg))
    <= pdcp_entity_tx.tx_next (pdcp_entity_tx.st e)
  /\ pdcp_entity_tx.max_count_overflow e = false
  /\ count_protocol_failures (pdcp_entity_tx.out e') = 0%nat
  /\ count_protocol_failures (pdcp_entity_tx.out e') <> 1%nat.
Proof.
  intros cfg e e'. split; [vm_compute; discriminate|].
  split; [vm_compute; reflexivity|].
  split; [vm_compute; reflexivity|]. vm_compute. discriminate.
Qed.

(** ** Transmitter: a burst of SDUs on a fresh entity *)

Section tx_burst.
Import pdcp_entity_tx.
Variable prims : security_primitives.
Variable cfg : pdcp_tx_config.

Lemma apply_security_sec env (e1 e2 : entity) (buf : byte_buffer) (c : Z) :
  sec e1 = sec e2 ->
  apply_ciphering_and_integrity_protection prims cfg env e1 buf c
  = apply_ciphering_and_integrity_protection prims cfg env e2 buf c.
Proof.
  intros Hsec.
  unfold apply_ciphering_and_integrity_protection, integrity_generate, cipher_encrypt.
  rewrite Hsec. reflexivity.
Qed.

Lemma write_data_pdu_header_ok (buf : byte_buffer) (sn : Z) :
  is_Some (write_data_pdu_header cfg buffers_ok buf sn).
Proof. unfold write_data_pdu_header. cbn. destruct (sn_size cfg); eauto. Qed.

Lemma apply_security_ok (e : entity) (buf : byte_buffer) (c : Z) :
  is_Some (apply_ciphering_and_integrity_protection prims cfg buffers_ok e buf c).
Proof.
  unfold apply_ciphering_and_integrity_protection. cbn.
  destruct (is_srb cfg || _); destruct (_ && negb _); eauto.
Qed.

Lemma pdus_from_app (e0 : entity) (c : Z) (l1 l2 : list byte_buffer) :
  pdus_from prims cfg e0 c (l1 ++ l2)
  = pdus_from prims cfg e0 c l1 ++ pdus_from prims cfg e0 (c + Z.of_nat (length l1)) l2.
Proof.
  revert c. induction l1 as [|b l1 IH]; intros c; cbn [pdus_from app length].
  - rewrite Z.add_0_r. reflexivity.
  - rewrite IH. f_equal. f_equal. f_equal. lia.
Qed.

Hypothesis sn12 : sn_size cfg = size12bits.
Hypothesis queue_large : 2047 <= rlc_sdu_queue (custom cfg).
Hypothesis notify_large : 2047 <= notify (max_count (custom cfg)).
Hypothesis hard_large : 2047 <= hard (max_count (custom cfg)).

Lemma window_size_12 : window_size cfg = 2048.
Proof. unfold window_size. rewrite sn12. reflexivity. Qed.

Lemma transmit_sdu_burst_step (e0 e : entity) (sent : list byte_buffer) (buf : byte_buffer) :
  burst_state prims cfg e0 sent e -> (length sent < 2047)%nat ->
  burst_state prims cfg e0 (sent ++ [buf]) (transmit_sdu prims cfg buffers_ok e buf).
Proof.
  intros (Hst & Hw & Hsec & Hout) Hlen.
  set (k := Z.of_nat (length sent)) in *.
  assert (0 <= k < 2047) as Hk by (subst k; lia).
  unfold transmit_sdu. cbn [deep_copy_ok buffers_ok negb].
  rewrite andb_false_r. rewrite Hst. cbn [tx_next].
  destruct (write_data_pdu_header_ok buf (SN (sn_size cfg) k)) as [hdr Hhdr].
  rewrite Hhdr.
  destruct (apply_security_ok e hdr k) as [pdu Hpdu]. rewrite Hpdu.
  assert (data_pdu_for prims cfg e0 k buf = pdu) as Hdata.
  { unfold data_pdu_for. rewrite Hhdr.
    rewrite <- (apply_security_sec buffers_ok e e0 hdr k Hsec), Hpdu. reflexivity. }
  assert (window_at 2048 (tx_window e) k = None) as Hfree.
  { unfold window_at, slot_of. rewrite Z.mod_small by lia.
    destruct (tx_window e !! k) as [x|] eqn:Hx; [|reflexivity].
    apply Hw in Hx. lia. }
  unfold store_in_tx_window. rewrite window_size_12.
  rewrite Hst. cbn [tx_next]. rewrite Hfree.
  unfold burst_state. rewrite length_app. cbn [length].
  replace (Z.of_nat (length sent + 1)) with (k + 1) by (subst k; lia).
  destruct (discard_timer cfg) as [d|].
  - cbn. rewrite Hst. cbn. rewrite u32_small by lia.
    split; [reflexivity|]. split; [|split; [exact Hsec|]].
    + intros j x. unfold add_sn, slot_of. rewrite Z.mod_small by lia.
      destruct (decide (k = j)) as [<-|Hne]; [lia|].
      rewrite lookup_insert_ne by exact Hne. intros Hj. apply Hw in Hj. lia.
    + rewrite Hout, pdus_from_app, <- app_assoc. cbn [pdus_from].
      rewrite Z.add_0_l. fold k. rewrite Hdata. reflexivity.
  - cbn. rewrite Hst. cbn. rewrite u32_small by lia.
    split; [reflexivity|]. split; [|split; [exact Hsec|]].
    + intros j x Hj. apply Hw in Hj. lia.
    + rewrite Hout, pdus_from_app, <- app_assoc. cbn [pdus_from].
      rewrite Z.add_0_l. fold k. rewrite Hdata. reflexivity.
Qed.

Lemma handle_sdu_burst_step (e0 e : entity) (sent : list byte_buffer) (buf : byte_buffer) :
  burst_state prims cfg e0 sent e -> (length sent < 2047)%nat ->
  burst_state prims cfg e0 (sent ++ [buf]) (handle_sdu prims cfg buffers_ok e buf).
Proof.
  intros He Hlen. pose proof He as (Hst & Hw & Hsec & Hout).
  set (k := Z.of_nat (length sent)) in *.
  assert (0 <= k < 2047) as Hk by (subst k; lia).
  unfold handle_sdu. rewrite Hst. cbn [tx_next tx_trans tx_next_ack].
  rewrite window_size_12, Z.sub_0_r.
  rewrite !u32_small by lia.
  destruct (Z.ltb_spec k 0); [lia|].
  destruct (Z.leb_spec (rlc_sdu_queue (custom cfg)) k); [lia|].
  destruct (Z.leb_spec (2048 - 1) k); [lia|].
  cbn [st metrics_add_sdus set_metrics]. rewrite Hst. cbn [tx_next].
  destruct (Z.leb_spec (hard (max_count (custom cfg))) k); [lia|].
  set (e1 := metrics_add_sdus e 1 (Z.of_nat (length buf))).
  assert (burst_state prims cfg e0 sent e1) as He1 by exact He.
  assert (notify_max_count cfg e1 = e1) as ->.
  { unfold notify_max_count. change (st e1) with (st e). rewrite Hst. cbn [tx_next].
    destruct (Z.leb_spec (notify (max_count (custom cfg))) k); [lia|reflexivity]. }
  apply transmit_sdu_burst_step; assumption.
Qed.

Lemma handle_sdus_burst (e0 : entity) (bufs sent : list byte_buffer) (e : entity) :
  burst_state prims cfg e0 sent e -> (length sent + length bufs <= 2047)%nat ->
  burst_state prims cfg e0 (sent ++ bufs) (handle_sdus prims cfg e (with_buffers_ok bufs)).
Proof.
  revert sent e. induction bufs as [|buf bufs IH]; intros sent e He Hlen.
  - rewrite app_nil_r. exact He.
  - cbn [length] in Hlen.
    replace (sent ++ buf :: bufs) with ((sent ++ [buf]) ++ bufs)
      by (rewrite <- app_assoc; reflexivity).
    unfold handle_sdus, with_buffers_ok. cbn [map fold_left fst snd].
    apply IH.
    + apply handle_sdu_burst_step; [exact He|lia].
    + rewrite length_app. cbn [length]. lia.
Qed.

Lemma handle_sdus_burst_full (e0 : entity) (bufs sent : list byte_buffer) (e : entity) :
  burst_state prims cfg e0 sent e -> length sent = 2047%nat ->
  handle_sdus prims cfg e (with_buffers_ok bufs) = e.
Proof.
  intros (Hst & _) Hlen. induction bufs as [|buf bufs IH]; [reflexivity|].
  unfold handle_sdus, with_buffers_ok in *. cbn [map fold_left fst snd].
  rewrite (handle_sdu_window_full prims cfg buffers_ok e buf); [exact IH|..];
    rewrite Hst; cbn [tx_next tx_trans]; rewrite ?window_size_12; lia.
Qed.

Lemma handle_sdus_app (e : entity) (l1 l2 : list (buffer_env * byte_buffer)) :
  handle_sdus prims cfg e (l1 ++ l2) = handle_sdus prims cfg (handle_sdus prims cfg e l1) l2.
Proof. unfold handle_sdus. apply fold_left_app. Qed.

Lemma burst_state_init (sc : security_context) :
  burst_state prims cfg (tx_entity_init sc) [] (tx_entity_init sc).
Proof.
  split; [reflexivity|]. split; [|split; reflexivity].
  intros j x Hj. cbn in Hj. rewrite lookup_empty in Hj. discriminate.
Qed.

(** From a fresh entity and with no other event, the first 2047 SDUs take
    the COUNTs 0 to 2046 in order and every later SDU is dropped. *)
Lemma handle_sdus_fresh (sc : security_context) (bufs : list byte_buffer) :
  burst_state prims cfg (tx_entity_init sc) (take 2047 bufs)
    (handle_sdus prims cfg (tx_entity_init sc) (with_buffers_ok bufs)).
Proof.
  rewrite <- (take_drop 2047 bufs) at 2.
  unfold with_buffers_ok. rewrite map_app. fold (with_buffers_ok (take 2047 bufs)).
  fold (with_buffers_ok (drop 2047 bufs)). rewrite handle_sdus_app.
  pose proof (handle_sdus_burst (tx_entity_init sc) (take 2047 bufs) [] _
                (burst_state_init sc)) as Hb.
  cbn [app length] in Hb. specialize (Hb ltac:(rewrite length_take; lia)).
  destruct (decide (length (take 2047 bufs) = 2047%nat)) as [Hfull|Hshort].
  - rewrite (handle_sdus_burst_full _ (drop 2047 bufs) _ _ Hb Hfull). exact Hb.
  - rewrite length_take in Hshort.
    assert (drop 2047 bufs = []) as -> by (apply drop_ge; lia).
    exact Hb.
Qed.

End tx_burst.

(** C9 (as amended): on a fresh transmitter with 12-bit SNs, a queue limit
    and COUNT thresholds of at least 2047 and buffer operations that
    succeed, 4095 SDUs submitted with no other event in between: the first
    2047 SDUs are sent with the COUNTs 0 to 2046 in order, each COUNT
    once; the window-full guard drops the other 2048; TX_NEXT ends at
    2047. *)
Theorem burst_of_4095_sdus_fills_window
        (prims : security_primitives) (cfg : pdcp_entity_tx.pdcp_tx_config)
        (sc : security_context) (bufs : list byte_buffer) :
  pdcp_entity_tx.sn_size cfg = size12bits ->
  2047 <= pdcp_entity_tx.rlc_sdu_queue (pdcp_entity_tx.custom cfg) ->
  2047 <= notify (pdcp_entity_tx.max_count (pdcp_entity_tx.custom cfg)) ->
  2047 <= hard (pdcp_entity_tx.max_count (pdcp_entity_tx.custom cfg)) ->
  length bufs = 4095%nat ->
  let e' := handle_sdus prims cfg (tx_entity_init sc) (with_buffers_ok bufs) in
  pdcp_entity_tx.tx_next (pdcp_entity_tx.st e') = 2047
  /\ pdcp_entity_tx.out e' = pdus_from prims cfg (tx_entity_init sc) 0 (take 2047 bufs)
  /\ length (pdcp_entity_tx.out e') = 2047%nat.
Proof.
  intros Hsn Hq Hn Hh Hlen e'.
  destruct (handle_sdus_fresh prims cfg Hsn Hq Hn Hh sc bufs) as (Hst & _ & _ & Hout).
  fold e' in Hst, Hout. rewrite Hst, Hout. cbn [pdcp_entity_tx.tx_next tx_entity_init
                                                 pdcp_entity_tx.out app].
  rewrite length_take, Hlen. split; [reflexivity|]. split; [reflexivity|].
  assert (forall l c, length (pdus_from prims cfg (tx_entity_init sc) c l) = length l) as Hl.
  { induction l as [|b l IH]; intros c; cbn; [reflexivity|]. rewrite IH. reflexivity. }
  rewrite Hl, length_take, Hlen. reflexivity.
Qed.

Lemma burst_of_4095_sdus_fills_window_witness :
  let cfg := tx_config_example size12bits am (Some (discard_ms 100)) 4096
               {| notify := 4294967295; hard := 4294967295 |} in
  let bufs := replicate 4095 [170] in
  let e' := handle_sdus null_primitives cfg (tx_entity_init null_security)
              (with_buffers_ok bufs) in
  pdcp_entity_tx.sn_size cfg = size12bits
  /\ 2047 <= pdcp_entity_tx.rlc_sdu_queue (pdcp_entity_tx.custom cfg)
  /\ 2047 <= notify (pdcp_entity_tx.max_count (pdcp_entity_tx.custom cfg))
  /\ 2047 <= hard (pdcp_entity_tx.max_count (pdcp_entity_tx.custom cfg))
  /\ length bufs = 4095%nat
  /\ pdcp_entity_tx.tx_next (pdcp_entity_tx.st e') = 2047
  /\ length (pdcp_entity_tx.out e') = 2047%nat.
Proof.
  intros cfg bufs e'.
  assert (pdcp_entity_tx.sn_size cfg = size12bits) as H1 by reflexivity.
  assert (2047 <= pdcp_entity_tx.rlc_sdu_queue (pdcp_entity_tx.custom cfg)) as H2
      by (cbn; lia).
  assert (2047 <= notify (pdcp_entity_tx.max_count (pdcp_entity_tx.custom cfg))) as H3
      by (cbn; lia).
  assert (2047 <= hard (pdcp_entity_tx.max_count (pdcp_entity_tx.custom cfg))) as H4
      by (cbn; lia).
  assert (length bufs = 4095%nat) as H5 by (subst bufs; apply length_replicate).
  destruct (burst_of_4095_sdus_fills_window null_primitives cfg null_security bufs
              H1 H2 H3 H4 H5) as (R1 & _ & R3).
  split; [exact H1|]. split; [exact H2|]. split; [exact H3|]. split; [exact H4|].
  split; [exact H5|]. split; [exact R1 | exact R3].
Defined.

(** Counterexample to C9 as stated: with the window of 2048 COUNTs of the
    12-bit SN and no transmit notification, the 2048th SDU and all later
    ones are dropped; after 4095 submissions TX_NEXT is 2047, not 4095. *)
Lemma burst_of_4095_sdus_is_not_all_sent :
  let cfg := tx_config_example size12bits um None 4096
               {| notify := 4294967295; hard := 4294967295 |} in
  let e' := handle_sdus null_primitives cfg (tx_entity_init null_security)
              (with_buffers_ok (replicate 4095 [170])) in
  pdcp_entity_tx.tx_next (pdcp_entity_tx.st e') = 2047
  /\ pdcp_entity_tx.tx_next (pdcp_entity_tx.st e') <> 4095
  /\ length (pdcp_entity_tx.out e') = 2047%nat.
Proof.
  intros cfg e'.
  assert (pdcp_entity_tx.tx_next (pdcp_entity_tx.st e') = 2047) as H
      by (vm_compute; reflexivity).
  split; [exact H|]. split; [rewrite H; discriminate|]. vm_compute. reflexivity.
Qed.

(** ** Bit packing *)

Lemma bits_value_acc (bs : list bool) (acc : Z) :
  fold_left (fun a (b : bool) => 2 * a + (if b then 1 else 0)) bs acc
  = acc * 2 ^ Z.of_nat (length bs) + bits_value bs.
Proof.
  unfold bits_value. revert acc. induction bs as [|b bs IH]; intros acc.
  - cbn. lia.
  - cbn [fold_left length]. rewrite IH, (IH (2 * 0 + _)).
    rewrite Nat2Z.inj_succ, Z.pow_succ_r by lia. lia.
Qed.

Lemma bits_value_cons (b : bool) (bs : list bool) :
  bits_value (b :: bs) = Z.b2z b * 2 ^ Z.of_nat (length bs) + bits_value bs.
Proof.
  unfold bits_value at 1. cbn [fold_left]. rewrite bits_value_acc.
  destruct b; cbn [Z.b2z]; lia.
Qed.

Lemma length_bits_of (n : nat) (v : Z) : length (bits_of n v) = n.
Proof. induction n as [|n IH]; cbn; [reflexivity|]. rewrite IH. reflexivity. Qed.

Lemma bits_value_bits_of (n : nat) (v : Z) :
  bits_value (bits_of n v) = v mod 2 ^ Z.of_nat n.
Proof.
  induction n as [|n IH].
  - cbn. rewrite Z.mod_1_r. reflexivity.
  - cbn [bits_of]. rewrite bits_value_cons, length_bits_of, IH.
    rewrite Z.testbit_spec' by lia.
    rewrite Nat2Z.inj_succ, Z.pow_succ_r by lia.
    rewrite (Z.mul_comm 2), Z.rem_mul_r by lia. lia.
Qed.

Lemma unpack_field (n : nat) (v : Z) (rest : list bool) :
  0 <= v < 2 ^ Z.of_nat n ->
  unpack n (bits_of n v ++ rest) = (Some v, rest).
Proof.
  intros Hv. unfold unpack.
  rewrite length_app, length_bits_of.
  destruct (Nat.ltb_spec (n + length rest) n) as [|_]; [lia|].
  rewrite take_app_length' by (symmetry; apply length_bits_of).
  rewrite drop_app_length' by (symmetry; apply length_bits_of).
  rewrite bits_value_bits_of, Z.mod_small by exact Hv. reflexivity.
Qed.

(** ** Transmitter: status reports *)

Lemma mod_eq_close (w a b : Z) :
  0 < w -> a mod w = b mod w -> - w < a - b < w -> a = b.
Proof.
  intros Hw Hm Hd.
  pose proof (Z.div_mod a w ltac:(lia)) as Ha.
  pose proof (Z.div_mod b w ltac:(lia)) as Hb.
  assert (a - b = w * (a / w - b / w)) as Hab by lia.
  assert (a / w - b / w = 0) by nia. lia.
Qed.

Section tx_status_report.
Import pdcp_entity_tx.
Variable cfg : pdcp_tx_config.

Lemma advance_tx_next_ack_skips fuel (w : gmap Z pdcp_tx_sdu_info) next ack c :
  0 <= ack -> next < 2 ^ 32 ->
  ack <= c < advance_tx_next_ack cfg fuel w next ack ->
  has_sn (window_size cfg) w c = false.
Proof.
  revert ack. induction fuel as [|fuel IH]; intros ack Hack Hnext Hc; simpl in Hc; [lia|].
  destruct (Z.ltb_spec ack next) as [Hlt|Hge]; simpl in Hc; [|lia].
  destruct (has_sn (window_size cfg) w ack) eqn:Hhas; simpl in Hc; [lia|].
  rewrite u32_small in Hc by lia.
  destruct (Z.eq_dec c ack) as [->|Hne]; [exact Hhas|].
  apply (IH (ack + 1)); lia.
Qed.

(** In a consistent window, an occupied slot holds the entry of the one
    COUNT of the span that maps to it. *)
Lemma consistent_entry (e : entity) (c : Z) :
  tx_window_consistent cfg e ->
  tx_next_ack (st e) <= c < tx_next (st e) ->
  has_sn (window_size cfg) (tx_window e) c = true ->
  exists info, tx_window e !! slot_of (window_size cfg) c = Some info /\ count info = c.
Proof.
  intros (Hord & Hspan & Hall & _) Hc Hhas. unfold has_sn in Hhas.
  destruct (tx_window e !! slot_of (window_size cfg) c) as [info|] eqn:Hlk; [|discriminate].
  exists info. split; [reflexivity|].
  destruct (Hall _ _ Hlk) as (Hlo & Hhi & Hslot).
  pose proof (tx_window_size_pos cfg) as Hpos.
  apply (mod_eq_close (window_size cfg)); [exact Hpos| |lia].
  unfold slot_of in Hslot. symmetry. exact Hslot.
Qed.

Lemma tx_entry_None_outside (e : entity) (c : Z) :
  tx_window_consistent cfg e ->
  ~ (tx_next_ack (st e) <= c < tx_next (st e)) ->
  tx_entry cfg e c = None.
Proof.
  intros (_ & _ & Hall & _) Hc. unfold tx_entry.
  destruct (tx_window e !! slot_of (window_size cfg) c) as [info|] eqn:Hlk; [|reflexivity].
  destruct (Z.eqb_spec (count info) c) as [Heq|]; [|reflexivity].
  destruct (Hall _ _ Hlk) as (Hlo & Hhi & _). lia.
Qed.

(** [discard_pdu] on a consistent transmitter: the entry of the COUNT, if
    there is one, leaves the window and the lower layer is told; nothing
    else changes in the window; the transmitter stays consistent. *)
Lemma discard_pdu_consistent (e : entity) (c : Z) :
  tx_window_consistent cfg e ->
  tx_window_consistent cfg (discard_pdu cfg e c)
  /\ tx_next (st (discard_pdu cfg e c)) = tx_next (st e)
  /\ tx_next_ack (st e) <= tx_next_ack (st (discard_pdu cfg e c))
  /\ (forall c', tx_entry cfg (discard_pdu cfg e c) c'
                 = if decide (c' = c) then None else tx_entry cfg e c')
  /\ out (discard_pdu cfg e c)
     = out e ++ match tx_entry cfg e c with
              | Some _ => [on_discard_pdu (SN (sn_size cfg) c)]
              | None => []
              end.
Proof.
  intros Hcons. pose proof Hcons as (Hord & Hspan & Hall & Hnone).
  pose proof (tx_window_size_pos cfg) as Hpos.
  assert (discard_pdu cfg e c = e -> tx_entry cfg e c = None ->
          tx_window_consistent cfg (discard_pdu cfg e c)
          /\ tx_next (st (discard_pdu cfg e c)) = tx_next (st e)
          /\ tx_next_ack (st e) <= tx_next_ack (st (discard_pdu cfg e c))
          /\ (forall c', tx_entry cfg (discard_pdu cfg e c) c'
                         = if decide (c' = c) then None else tx_entry cfg e c')
          /\ out (discard_pdu cfg e c)
             = out e ++ match tx_entry cfg e c with
                        | Some _ => [on_discard_pdu (SN (sn_size cfg) c)]
                        | None => []
                        end) as Hnoop.
  { intros -> Hent. rewrite Hent, app_nil_r.
    split; [exact Hcons|]. split; [reflexivity|]. split; [lia|]. split; [|reflexivity].
    intros c'. destruct (decide (c' = c)) as [->|]; [exact Hent|reflexivity]. }
  unfold discard_pdu in *.
  destruct (has_discard_timer cfg) eqn:Htimer; cbn [negb] in *.
  2:{ apply Hnoop; [reflexivity|]. unfold tx_entry. rewrite (Hnone eq_refl), lookup_empty.
      reflexivity. }
  destruct (Z.ltb_spec c (tx_next_ack (st e))) as [Hlow|Hlow]; cbn [orb] in *.
  { apply Hnoop; [reflexivity|]. apply tx_entry_None_outside; [exact Hcons|lia]. }
  destruct (Z.leb_spec (tx_next (st e)) c) as [Hhigh|Hhigh].
  { apply Hnoop; [reflexivity|]. apply tx_entry_None_outside; [exact Hcons|lia]. }
  destruct (has_sn (window_size cfg) (tx_window e) c) eqn:Hhas; cbn [negb] in *.
  2:{ apply Hnoop; [reflexivity|]. unfold tx_entry. unfold has_sn in Hhas.
      destruct (tx_window e !! slot_of (window_size cfg) c); [discriminate|reflexivity]. }
  clear Hnoop.
  destruct (consistent_entry e c Hcons ltac:(lia) Hhas) as (info & Hlk & Hcount).
  assert (tx_entry cfg e c = Some info) as Hent.
  { unfold tx_entry. rewrite Hlk, Hcount, Z.eqb_refl. reflexivity. }
  rewrite Hent. cbn [st set_st set_tx_window emit tx_window out tx_next set_tx_next_ack
                     tx_next_ack tx_trans].
  set (w' := remove_sn (window_size cfg) (tx_window e) c).
  set (ack' := advance_tx_next_ack cfg _ w' (tx_next (st e)) (tx_next_ack (st e))).
  destruct Hord as (H0 & H1 & H2 & H3).
  pose proof (advance_tx_next_ack_range cfg
                (Z.to_nat (tx_next (st e) - tx_next_ack (st e))) w'
                (tx_next (st e)) (tx_next_ack (st e)) ltac:(lia) H3) as Hrange.
  fold ack' in Hrange.
  assert (forall s, tx_next (clamp_tx_trans s) = tx_next s
                    /\ tx_next_ack (clamp_tx_trans s) = tx_next_ack s) as Hclamp.
  { intros s. unfold clamp_tx_trans. destruct (_ <? _); split; reflexivity. }
  destruct (Hclamp (set_tx_next_ack (st e) ack')) as [Hcn Hca].
  cbn [set_tx_next_ack tx_next tx_next_ack] in Hcn, Hca.
  split; [|split; [exact Hcn|split; [rewrite Hca; lia|split; [|reflexivity]]]].
  - unfold tx_window_consistent.
    cbn [st set_st set_tx_window emit tx_window out].
    rewrite Hcn, Hca.
    split; [apply clamp_tx_trans_ordered; cbn; lia|].
    split; [lia|]. split; [|intros Hf; rewrite Htimer in Hf; discriminate].
    intros k x Hk. subst w'. unfold remove_sn in Hk.
    apply lookup_delete_Some in Hk as [Hne Hk].
    destruct (Hall _ _ Hk) as (Hlo & Hhi & Hslot).
    split; [|split; [exact Hhi|exact Hslot]].
    destruct (Z.lt_ge_cases (count x) ack') as [Hlt|]; [|lia].
    exfalso.
    pose proof (advance_tx_next_ack_skips
                  (Z.to_nat (tx_next (st e) - tx_next_ack (st e)))
                  (remove_sn (window_size cfg) (tx_window e) c)
                  (tx_next (st e)) (tx_next_ack (st e)) (count x) H0 H3 ltac:(lia)) as Hskip.
    unfold has_sn, remove_sn in Hskip. rewrite <- Hslot in Hskip.
    rewrite lookup_delete_ne in Hskip by exact Hne.
    rewrite Hk in Hskip. discriminate.
  - intros c'. unfold tx_entry. cbn [tx_window set_st set_tx_window]. subst w'.
    unfold remove_sn.
    destruct (decide (c' = c)) as [->|Hne].
    + rewrite lookup_delete_eq. reflexivity.
    + destruct (decide (slot_of (window_size cfg) c = slot_of (window_size cfg) c'))
        as [Heq|Hslot].
      * rewrite <- Heq, lookup_delete_eq, Hlk, Hcount.
        destruct (Z.eqb_spec c c'); [congruence|reflexivity].
      * rewrite lookup_delete_ne by exact Hslot. reflexivity.
Qed.

Lemma fold_discard_pdu_consistent (l : list Z) (e : entity) :
  tx_window_consistent cfg e ->
  tx_window_consistent cfg (fold_left (discard_pdu cfg) l e)
  /\ tx_next (st (fold_left (discard_pdu cfg) l e)) = tx_next (st e)
  /\ (forall c, tx_entry cfg (fold_left (discard_pdu cfg) l e) c
                = if decide (c ∈ l) then None else tx_entry cfg e c)
  /\ (exists new, out (fold_left (discard_pdu cfg) l e) = out e ++ new)
  /\ (forall c, c ∈ l -> tx_entry cfg e c <> None ->
                on_discard_pdu (SN (sn_size cfg) c) ∈ out (fold_left (discard_pdu cfg) l e)).
Proof.
  revert e. induction l as [|c0 l IH]; intros e He.
  - cbn [fold_left]. split; [exact He|]. split; [reflexivity|].
    split; [|split; [exists []; rewrite app_nil_r; reflexivity|]].
    + intros c. destruct (decide (c ∈ [])) as [Hin|]; [|reflexivity].
      apply elem_of_nil in Hin. destruct Hin.
    + intros c Hin. apply elem_of_nil in Hin. destruct Hin.
  - cbn [fold_left].
    destruct (discard_pdu_consistent e c0 He) as (He1 & Hn1 & _ & Hent1 & Hout1).
    destruct (IH _ He1) as (He2 & Hn2 & Hent2 & [new Hout2] & Hev2).
    split; [exact He2|]. split; [rewrite Hn2; exact Hn1|]. split; [|split].
    + intros c. rewrite Hent2, Hent1.
      destruct (decide (c ∈ l)) as [Hin|Hnin].
      * rewrite decide_True by (apply elem_of_cons; auto). reflexivity.
      * destruct (decide (c = c0)) as [->|Hne].
        -- rewrite decide_True by (apply elem_of_cons; auto). reflexivity.
        -- rewrite decide_False; [reflexivity|].
           intros Hin. apply elem_of_cons in Hin as [|]; auto.
    + rewrite Hout2, Hout1, <- app_assoc. eexists. reflexivity.
    + intros c Hin Hsome.
      destruct (decide (c = c0)) as [->|Hne].
      * rewrite Hout2, Hout1.
        destruct (tx_entry cfg e c0); [|congruence].
        apply elem_of_app. left. apply elem_of_app. right. apply list_elem_of_singleton.
        reflexivity.
      * apply Hev2.
        -- apply elem_of_cons in Hin as [|]; [contradiction|assumption].
        -- rewrite Hent1, decide_False by exact Hne. exact Hsome.
Qed.

Lemma status_bitmap_loop_fold (bits : list bool) (e : entity) (fmc : Z) :
  status_bitmap_loop cfg e fmc bits = fold_left (discard_pdu cfg) (bitmap_counts fmc bits) e.
Proof.
  revert e fmc. induction bits as [|b bits IH]; intros e fmc; [reflexivity|].
  cbn [status_bitmap_loop bitmap_counts]. rewrite IH, fold_left_app.
  destruct b; reflexivity.
Qed.

Lemma u32_succ_add (fmc k : Z) : u32 (u32 (fmc + 1) + 1 + k) = u32 (fmc + 1 + (k + 1)).
Proof.
  unfold u32. rewrite <- (Z.add_assoc (_ mod _)), Zplus_mod_idemp_l. f_equal. lia.
Qed.

Lemma elem_of_bitmap_counts (bits : list bool) (fmc c : Z) :
  c ∈ bitmap_counts fmc bits
  <-> exists i : nat, bits !! i = Some true /\ c = u32 (fmc + 1 + Z.of_nat i).
Proof.
  revert fmc. induction bits as [|b bits IH]; intros fmc; cbn [bitmap_counts].
  - split; [intros Hin; apply elem_of_nil in Hin; destruct Hin|].
    intros (i & Hi & _). rewrite lookup_nil in Hi. discriminate.
  - rewrite elem_of_app, IH. split.
    + intros [Hhead|(i & Hi & Hc)].
      * destruct b; [|apply elem_of_nil in Hhead; destruct Hhead].
        apply list_elem_of_singleton in Hhead. exists 0%nat. split; [reflexivity|].
        rewrite Hhead. f_equal. lia.
      * exists (S i). split; [exact Hi|]. rewrite Hc, u32_succ_add. f_equal. lia.
    + intros ([|i] & Hi & Hc).
      * cbn in Hi. injection Hi as ->. left. apply list_elem_of_singleton.
        rewrite Hc. f_equal. lia.
      * right. exists i. split; [exact Hi|]. rewrite Hc, u32_succ_add. f_equal. lia.
Qed.

(** A well-formed report takes [handle_status_report] through the two
    discard loops. *)
Lemma handle_status_report_fold (e : entity) (status : byte_buffer) (fmc : Z)
      (bitmap : list bool) :
  status_report_fields status fmc bitmap ->
  handle_status_report cfg true e status
  = fold_left (discard_pdu cfg)
      (seqZ (tx_next_ack (st e)) (fmc - tx_next_ack (st e)) ++ bitmap_counts fmc bitmap) e.
Proof.
  intros [Hfmc Hbits]. unfold handle_status_report. cbn [negb]. rewrite Hbits.
  rewrite (unpack_field 1 0) by (cbn; lia). cbn [default Z.eqb negb].
  rewrite (unpack_field 3 0) by (cbn; lia). cbn [default Z.eqb negb].
  rewrite (unpack_field 4 0) by (cbn; lia). cbn [default Z.eqb negb].
  rewrite (unpack_field 32 fmc) by exact Hfmc. cbn [default].
  rewrite status_bitmap_loop_fold, fold_left_app. reflexivity.
Qed.

End tx_status_report.


(** ** Receiver: RX_DELIV, RX_NEXT and the window *)

Section rx_invariant.
Import pdcp_entity_rx.
Variable prims : security_primitives.
Variable cfg : pdcp_rx_config.

(** One iteration of a delivery loop, below RX_NEXT. *)
Lemma deliver_step_above_deliv (e : entity) :
  rx_window_above_deliv cfg e ->
  rx_deliv (st e) < rx_next (st e) ->
  let e' := advance_rx_deliv (deliver_at_rx_deliv cfg e) in
  rx_window_above_deliv cfg e'
  /\ rx_deliv (st e') = rx_deliv (st e) + 1
  /\ rx_next (st e') = rx_next (st e)
  /\ rx_reord (st e') = rx_reord (st e)
  /\ reordering_timer_running e' = reordering_timer_running e.
Proof.
  intros (H0 & H1 & H2 & Hall) Hlt e'. subst e'.
  unfold deliver_at_rx_deliv, window_at.
  destruct (rx_window e !! slot_of (window_size cfg) (rx_deliv (st e))) as [info|] eqn:Hlk.
  - unfold rx_window_above_deliv. cbn. rewrite u32_small by lia.
    split; [|split; [|split; [|split; [|auto]]]]; try lia.
    split; [lia|]. split; [lia|]. split; [lia|].
    intros k x Hk. unfold remove_sn in Hk.
    apply lookup_delete_Some in Hk as [Hne Hk].
    destruct (Hall _ _ Hk) as [Hge Hslot]. split; [|exact Hslot].
    destruct (Z.eq_dec (count x) (rx_deliv (st e))) as [Heq|]; [|lia].
    rewrite Heq in Hslot. congruence.
  - unfold rx_window_above_deliv. cbn. rewrite u32_small by lia.
    split; [|split; [|split; [|split; [|auto]]]]; try lia.
    split; [lia|]. split; [lia|]. split; [lia|].
    intros k x Hk. destruct (Hall _ _ Hk) as [Hge Hslot]. split; [|exact Hslot].
    destruct (Z.eq_dec (count x) (rx_deliv (st e))) as [Heq|]; [|lia].
    rewrite Heq in Hslot. congruence.
Qed.

Lemma deliver_consecutive_loop_above_deliv fuel (e : entity) :
  rx_window_above_deliv cfg e ->
  let e' := deliver_consecutive_loop cfg fuel e in
  rx_window_above_deliv cfg e'
  /\ rx_deliv (st e) <= rx_deliv (st e')
  /\ rx_next (st e') = rx_next (st e)
  /\ rx_reord (st e') = rx_reord (st e)
  /\ reordering_timer_running e' = reordering_timer_running e.
Proof.
  revert e. induction fuel as [|fuel IH]; intros e He; cbn zeta.
  - cbn [deliver_consecutive_loop].
    split; [exact He|]. split; [lia|]. split; [reflexivity|]. split; reflexivity.
  - cbn [deliver_consecutive_loop].
    destruct (Z.eqb_spec (rx_deliv (st e)) (rx_next (st e))) as [Heq|Hne]; cbn [negb andb].
    { split; [exact He|]. split; [lia|]. split; [reflexivity|]. split; reflexivity. }
    destruct (has_sn _ _ _).
    2:{ split; [exact He|]. split; [lia|]. split; [reflexivity|]. split; reflexivity. }
    pose proof He as (H0 & H1 & H2 & _).
    destruct (deliver_step_above_deliv e He ltac:(lia)) as (He1 & Hd1 & Hn1 & Hr1 & Ht1).
    destruct (IH _ He1) as (He2 & Hd2 & Hn2 & Hr2 & Ht2).
    split; [exact He2|]. split; [lia|]. split; [congruence|]. split; congruence.
Qed.

Lemma deliver_below_reord_loop_above_deliv fuel (e : entity) :
  rx_window_above_deliv cfg e ->
  rx_deliv (st e) <= rx_reord (st e) <= rx_next (st e) ->
  Z.of_nat fuel = rx_reord (st e) - rx_deliv (st e) ->
  let e' := deliver_below_reord_loop cfg fuel e in
  rx_window_above_deliv cfg e'
  /\ rx_deliv (st e') = rx_reord (st e)
  /\ rx_next (st e') = rx_next (st e)
  /\ rx_reord (st e') = rx_reord (st e)
  /\ reordering_timer_running e' = reordering_timer_running e.
Proof.
  revert e. induction fuel as [|fuel IH]; intros e He Hr Hf; cbn zeta.
  - cbn [deliver_below_reord_loop].
    split; [exact He|]. split; [lia|]. split; [reflexivity|]. split; reflexivity.
  - cbn [deliver_below_reord_loop].
    destruct (Z.eqb_spec (rx_deliv (st e)) (rx_reord (st e))) as [Heq|Hne]; [lia|].
    cbn [negb].
    destruct (deliver_step_above_deliv e He ltac:(lia)) as (He1 & Hd1 & Hn1 & Hr1 & Ht1).
    destruct (IH _ He1) as (He2 & Hd2 & Hn2 & Hr2 & Ht2); [lia|lia|].
    split; [exact He2|]. split; [congruence|]. split; [congruence|]. split; congruence.
Qed.

Lemma handle_t_reordering_expire_inv (e : entity) :
  rx_window_above_deliv cfg e ->
  rx_deliv (st e) <= rx_reord (st e) <= rx_next (st e) ->
  reordering_timer_running e = false ->
  rx_inv cfg (handle_t_reordering_expire cfg e).
Proof.
  intros He Hr Hoff. unfold handle_t_reordering_expire.
  set (e1 := metrics_add_t_reordering_timeouts e 1).
  assert (rx_window_above_deliv cfg e1) as He1 by exact He.
  change (st e1) with (st e).
  destruct (deliver_below_reord_loop_above_deliv
              (Z.to_nat (u32 (rx_reord (st e) - rx_deliv (st e)))) e1 He1 Hr)
    as (He2 & Hd2 & Hn2 & Hr2 & Ht2).
  { change (st e1) with (st e). destruct He as (H0 & H1 & H2 & _).
    rewrite u32_small by lia. lia. }
  set (e2 := deliver_below_reord_loop cfg _ e1) in *.
  unfold deliver_all_consecutive_counts.
  destruct (deliver_consecutive_loop_above_deliv
              (Z.to_nat (u32 (rx_next (st e2) - rx_deliv (st e2)))) e2 He2)
    as (He3 & Hd3 & Hn3 & Hr3 & Ht3).
  set (e3 := deliver_consecutive_loop cfg _ e2) in *.
  assert (reordering_timer_running e3 = false) as Hoff3
      by (rewrite Ht3, Ht2; exact Hoff).
  destruct (Z.ltb_spec (rx_deliv (st e3)) (rx_next (st e3))) as [Hlt|Hge].
  - destruct (t_reordering cfg) eqn:Ht.
    + split; [exact He3|]. split; [rewrite Hoff3; discriminate|auto].
    + split; [exact He3|]. split; cbn; [intros _; lia|intros Hms; congruence].
    + split; [exact He3|]. split; cbn; [intros _; lia|intros Hms; congruence].
  - split; [exact He3|]. split; [rewrite Hoff3; discriminate|auto].
Qed.

Lemma handle_reordering_timers_inv (e : entity) :
  rx_window_above_deliv cfg e ->
  (reordering_timer_running e = true -> rx_reord (st e) <= rx_next (st e)) ->
  (t_reordering cfg = ms0 -> reordering_timer_running e = false) ->
  rx_inv cfg (handle_reordering_timers cfg e).
Proof.
  intros He Hr Hms0. unfold handle_reordering_timers.
  set (e1 := if _ && _ then _ else _).
  assert (rx_window_above_deliv cfg e1 /\ st e1 = st e
          /\ (reordering_timer_running e1 = true ->
              rx_deliv (st e) < rx_reord (st e) <= rx_next (st e))
          /\ (t_reordering cfg = ms0 -> reordering_timer_running e1 = false)) as H1.
  { subst e1. destruct (reordering_timer_running e) eqn:Hrun; cbn [andb].
    - destruct (Z.leb_spec (rx_reord (st e)) (rx_deliv (st e))).
      + split; [exact He|]. split; [reflexivity|]. split; [discriminate|auto].
      + split; [exact He|]. split; [reflexivity|]. rewrite Hrun. split; [|exact Hms0].
        intros _. specialize (Hr eq_refl). lia.
    - split; [exact He|]. split; [reflexivity|]. rewrite Hrun. split; [discriminate|auto]. }
  clearbody e1. destruct H1 as (He1 & Hst1 & Hrun1 & Hms1).
  pose proof He1 as (H0 & H1 & H2 & _). rewrite Hst1 in H0, H1, H2.
  destruct (t_reordering cfg) eqn:Ht.
  - apply handle_t_reordering_expire_inv.
    + exact He1.
    + cbn. rewrite Hst1. lia.
    + apply Hms1. reflexivity.
  - destruct (reordering_timer_running e1) eqn:Hrun; cbn [negb andb].
    + split; [exact He1|]. split; [rewrite Hst1, Hrun; exact Hrun1|intros Hms; congruence].
    + destruct (Z.ltb_spec (rx_deliv (st e1)) (rx_next (st e1))) as [Hlt|Hge].
      * split; [exact He1|].
        split; cbn; [intros _; rewrite Hst1 in *; lia|intros Hms; congruence].
      * split; [exact He1|]. split; [rewrite Hrun; discriminate|intros Hms; congruence].
  - split; [exact He1|]. split; [rewrite Hst1; exact Hrun1|intros Hms; congruence].
Qed.

Lemma store_and_deliver_inv (e : entity) (buf : byte_buffer) (c : Z) :
  rx_inv cfg e -> c + 1 < 2 ^ 32 ->
  rx_inv cfg (store_and_deliver cfg e buf c).
Proof.
  intros [He [Hrun Hms0]] Hc. unfold store_and_deliver.
  destruct (Z.ltb_spec c (rx_deliv (st e))) as [|Hge]; [split; [exact He|split; assumption]|].
  set (stale := match window_at _ _ _ with Some _ => _ | None => _ end).
  pose proof He as (H0 & H1 & H2 & Hall).
  assert (forall w, stale = Some w ->
            map_Forall (fun k info => rx_deliv (st e) <= count info
                                      /\ k = slot_of (window_size cfg) (count info)) w)
    as Hst.
  { subst stale. intros w. destruct (window_at _ _ _) as [info|].
    - destruct (_ =? _); [discriminate|]. intros [= <-].
      intros k x Hk. unfold remove_sn in Hk.
      apply lookup_delete_Some in Hk as [_ Hk]. exact (Hall _ _ Hk).
    - intros [= <-]. exact Hall. }
  destruct stale as [w|]; [|split; [exact He|split; assumption]].
  specialize (Hst w eq_refl).
  set (e1 := set_rx_window e _).
  set (e2 := if rx_next (st e1) <=? c then _ else _).
  assert (rx_window_above_deliv cfg e2
          /\ reordering_timer_running e2 = reordering_timer_running e
          /\ rx_deliv (st e2) = rx_deliv (st e)
          /\ rx_reord (st e2) = rx_reord (st e)
          /\ rx_next (st e) <= rx_next (st e2)) as (He2 & Ht2 & Hd2 & Hr2 & Hn2).
  { assert (map_Forall (fun k info => rx_deliv (st e) <= count info
                                      /\ k = slot_of (window_size cfg) (count info))
              (rx_window e1)) as Hall1.
    { subst e1. cbn. unfold add_sn. intros k x Hk.
      apply lookup_insert_Some in Hk as [[<- <-]|[_ Hk]].
      - cbn. split; [lia|reflexivity].
      - exact (Hst _ _ Hk). }
    subst e2. change (st e1) with (st e).
    destruct (Z.leb_spec (rx_next (st e)) c).
    - split; [|split; [reflexivity|split; [reflexivity|split; [reflexivity|]]]].
      + unfold rx_window_above_deliv. cbn. rewrite u32_small by lia.
        split; [lia|]. split; [lia|]. split; [lia|]. exact Hall1.
      + cbn. rewrite u32_small by lia. lia.
    - split; [|split; [reflexivity|split; [reflexivity|split; [reflexivity|cbn; lia]]]].
      unfold rx_window_above_deliv. cbn.
      split; [lia|]. split; [lia|]. split; [lia|]. exact Hall1. }
  clearbody e2.
  set (e3 := if c =? rx_deliv (st e2) then _ else _).
  assert (rx_window_above_deliv cfg e3
          /\ reordering_timer_running e3 = reordering_timer_running e2
          /\ rx_reord (st e3) = rx_reord (st e2)
          /\ rx_next (st e3) = rx_next (st e2)) as (He3 & Ht3 & Hr3 & Hn3).
  { subst e3. destruct (c =? rx_deliv (st e2)).
    - unfold deliver_all_consecutive_counts.
      destruct (deliver_consecutive_loop_above_deliv
                  (Z.to_nat (u32 (rx_next (st e2) - rx_deliv (st e2)))) e2 He2)
        as (Ha & _ & Hb & Hc' & Hd).
      auto.
    - auto. }
  clearbody e3.
  apply handle_reordering_timers_inv.
  - exact He3.
  - rewrite Ht3, Ht2, Hr3, Hr2, Hn3. intros Hon. specialize (Hrun Hon). lia.
  - rewrite Ht3, Ht2. exact Hms0.
Qed.

Lemma handle_data_pdu_inv (e : entity) (pdu : byte_buffer) :
  rx_config_ok cfg -> rx_inv cfg e -> rx_inv cfg (handle_data_pdu prims cfg e pdu).
Proof.
  intros [_ [_ Hhard]] He. unfold handle_data_pdu.
  destruct (_ <=? _); [exact He|].
  destruct (read_data_pdu_header _ _) as [hdr_sn|]; [|exact He].
  set (e1 := if _ && _ then _ else _).
  assert (rx_inv cfg e1) as H1 by (subst e1; destruct (_ && _); exact He).
  clearbody e1.
  destruct (Z.leb_spec (hard (max_count cfg)) (calc_rcvd_count cfg e hdr_sn)) as [|Hlt];
    [destruct (negb _); exact H1|].
  destruct (decipher_and_extract_mac _ _ _ _ _) as [sdu_buf mac].
  destruct (integrity_enabled _).
  - destruct (negb _); [exact H1|]. apply store_and_deliver_inv; [exact H1|lia].
  - apply store_and_deliver_inv; [exact H1|lia].
Qed.

Lemma rx_step_inv (e e' : entity) :
  rx_config_ok cfg -> rx_inv cfg e -> rx_step prims cfg e e' -> rx_inv cfg e'.
Proof.
  intros Hcfg He Hstep. destruct Hstep as [e pdu|e Hrun].
  - apply handle_data_pdu_inv; assumption.
  - destruct He as [Hw [Ht Hms0]]. specialize (Ht Hrun).
    apply handle_t_reordering_expire_inv; [exact Hw|cbn; lia|reflexivity].
Qed.

Lemma rx_reachable_inv (e : entity) :
  rx_config_ok cfg -> rx_reachable prims cfg e -> rx_inv cfg e.
Proof.
  intros Hcfg. induction 1 as [sc|e e' _ IH Hstep].
  - split; [|split; [discriminate|reflexivity]].
    unfold rx_window_above_deliv. cbn.
    split; [lia|]. split; [lia|]. split; [lia|].
    intros k x Hk. rewrite lookup_empty in Hk. discriminate.
  - exact (rx_step_inv e e' Hcfg IH Hstep).
Qed.

End rx_invariant.

(** C8: in every state that the receiver reaches through data PDUs and
    expiries of the reordering timer, RX_DELIV <= RX_NEXT and the RX window
    holds no entry with a COUNT below RX_DELIV; [handle_data_pdu], in-order
    delivery and the expiry of the reordering timer each preserve the
    invariant that carries this. *)
Theorem rx_deliv_bounded_and_window_above
        (prims : security_primitives) (cfg : pdcp_entity_rx.pdcp_rx_config) :
  rx_config_ok cfg ->
  (forall e : pdcp_entity_rx.entity,
      rx_reachable prims cfg e ->
      pdcp_entity_rx.rx_deliv (pdcp_entity_rx.st e) <= pdcp_entity_rx.rx_next (pdcp_entity_rx.st e)
      /\ map_Forall
           (fun _ info =>
              pdcp_entity_rx.rx_deliv (pdcp_entity_rx.st e) <= pdcp_entity_rx.count info)
           (pdcp_entity_rx.rx_window e))
  /\ (forall (e : pdcp_entity_rx.entity) (pdu : byte_buffer),
         rx_inv cfg e -> rx_inv cfg (pdcp_entity_rx.handle_data_pdu prims cfg e pdu))
  /\ (forall e : pdcp_entity_rx.entity,
         rx_window_above_deliv cfg e ->
         rx_window_above_deliv cfg (pdcp_entity_rx.deliver_all_consecutive_counts cfg e))
  /\ (forall e : pdcp_entity_rx.entity,
         rx_inv cfg e -> pdcp_entity_rx.reordering_timer_running e = true ->
         rx_inv cfg (pdcp_entity_rx.reordering_callback cfg e)).
Proof.
  intros Hcfg. split; [|split; [|split]].
  - intros e He.
    destruct (rx_reachable_inv prims cfg e Hcfg He) as [(H0 & H1 & H2 & Hall) _].
    split; [exact H1|]. intros k x Hk. exact (proj1 (Hall k x Hk)).
  - intros e pdu He. apply handle_data_pdu_inv; assumption.
  - intros e He. unfold pdcp_entity_rx.deliver_all_consecutive_counts.
    apply (deliver_consecutive_loop_above_deliv cfg _ e He).
  - intros e He Hrun.
    apply (rx_step_inv prims cfg e _ Hcfg He). apply rx_step_reordering_expiry. exact Hrun.
Qed.

Lemma rx_deliv_bounded_and_window_above_witness :
  let cfg := rx_config_example size12bits am (reordering_ms 50)
               {| notify := 4294967295; hard := 4294967295 |} in
  let e1 := pdcp_entity_rx.handle_data_pdu null_primitives cfg
              (rx_entity_init null_security) [128; 0; 10] in
  let e2 := pdcp_entity_rx.handle_data_pdu null_primitives cfg e1 [128; 3; 13] in
  let e3 := pdcp_entity_rx.reordering_callback cfg e2 in
  rx_config_ok cfg
  /\ rx_reachable null_primitives cfg e3
  /\ pdcp_entity_rx.rx_deliv (pdcp_entity_rx.st e3) <= pdcp_entity_rx.rx_next (pdcp_entity_rx.st e3)
  /\ pdcp_entity_rx.rx_deliv (pdcp_entity_rx.st e3) = 4.
Proof.
  intros cfg e1 e2 e3.
  assert (rx_config_ok cfg) as Hcfg by (unfold rx_config_ok, is_u32; cbn; lia).
  assert (rx_reachable null_primitives cfg e3) as Hreach.
  { eapply rx_reachable_step; [eapply rx_reachable_step;
      [eapply rx_reachable_step; [apply rx_reachable_init|apply rx_step_data_pdu]
      |apply rx_step_data_pdu]|].
    apply rx_step_reordering_expiry. vm_compute. reflexivity. }
  destruct (rx_deliv_bounded_and_window_above null_primitives cfg Hcfg) as [Hinv _].
  split; [exact Hcfg|]. split; [exact Hreach|].
  split; [exact (proj1 (Hinv e3 Hreach))|]. vm_compute. reflexivity.
Defined.

(** ** Receiver: reordering *)

Section rx_reordering.
Import pdcp_entity_rx.
Variable prims : security_primitives.
Variable cfg : pdcp_rx_config.

Lemma integrity_verify_sec (e1 e2 : entity) (buf : byte_buffer) (c : Z) (mac : sec_mac) :
  sec e1 = sec e2 ->
  integrity_verify prims cfg e1 buf c mac = integrity_verify prims cfg e2 buf c mac.
Proof. intros H. unfold integrity_verify, expected_mac. rewrite H. reflexivity. Qed.

Lemma decipher_and_extract_mac_sec (e1 e2 : entity) (pdu : byte_buffer) (c : Z) :
  sec e1 = sec e2 ->
  decipher_and_extract_mac prims cfg e1 pdu c = decipher_and_extract_mac prims cfg e2 pdu c.
Proof. intros H. unfold decipher_and_extract_mac, cipher_decrypt. rewrite H. reflexivity. Qed.

(** A valid data PDU with a COUNT below the thresholds goes to the window
    after deciphering and integrity verification. *)
Lemma handle_data_pdu_valid (sc : security_context) (e : entity) (pdu : byte_buffer) (c : Z) :
  sec e = sc ->
  rx_pdu_valid prims cfg sc pdu c ->
  calc_rcvd_count cfg e c = c ->
  c <= notify (max_count cfg) ->
  c < hard (max_count cfg) ->
  handle_data_pdu prims cfg e pdu =
    store_and_deliver cfg
      (if integrity_enabled sc then metrics_add_integrity_verified_pdus e 1 else e)
      (decipher_and_extract_mac prims cfg (rx_entity_init sc) pdu c).1 c.
Proof.
  intros Hsec (Hlen & Hhdr & Hmac) Hcount Hnotify Hhard. unfold handle_data_pdu.
  destruct (Z.leb_spec (Z.of_nat (length pdu)) (hdr_len_bytes cfg)); [lia|].
  rewrite Hhdr, Hcount.
  destruct (Z.ltb_spec (notify (max_count cfg)) c); [lia|]. cbn [andb].
  destruct (Z.leb_spec (hard (max_count cfg)) c); [lia|].
  assert (sec e = sec (rx_entity_init sc)) as Hsec0 by exact Hsec.
  rewrite (decipher_and_extract_mac_sec e (rx_entity_init sc) pdu c Hsec0).
  destruct (decipher_and_extract_mac prims cfg (rx_entity_init sc) pdu c) as [sdu_buf mac].
  cbn [fst snd] in *. rewrite Hsec.
  destruct (integrity_enabled sc); [|reflexivity].
  rewrite (integrity_verify_sec e (rx_entity_init sc) sdu_buf c mac Hsec0).
  rewrite (Hmac eq_refl). reflexivity.
Qed.

End rx_reordering.

Lemma read_data_pdu_header_of (cfg : pdcp_entity_rx.pdcp_rx_config) (sn : Z)
      (payload : byte_buffer) :
  payload <> [] -> 0 <= sn < 256 ->
  pdcp_entity_rx.hdr_len_bytes cfg
    < Z.of_nat (length (data_pdu_header (pdcp_entity_rx.sn_size cfg) sn ++ payload))
  /\ pdcp_entity_rx.read_data_pdu_header cfg
       (data_pdu_header (pdcp_entity_rx.sn_size cfg) sn ++ payload) = Some sn.
Proof.
  intros Hp Hsn. destruct payload as [|b payload]; [contradiction|].
  assert (Z.land sn 255 = sn) as Hlow.
  { change 255 with (Z.ones 8). rewrite Z.land_ones by lia. apply Z.mod_small. lia. }
  assert (Z.shiftr (Z.land sn 3840) 8 = 0 /\ Z.shiftr (Z.land sn 196608) 16 = 0
          /\ Z.shiftr (Z.land sn 65280) 8 = 0) as (Hh1 & Hh2 & Hh3).
  { rewrite <- Hlow, <- !Z.land_assoc.
    change (Z.land 255 3840) with 0. change (Z.land 255 196608) with 0.
    change (Z.land 255 65280) with 0.
    rewrite Z.land_0_r. repeat split; reflexivity. }
  unfold pdcp_entity_rx.read_data_pdu_header, pdcp_entity_rx.hdr_len_bytes, data_pdu_header.
  destruct (pdcp_entity_rx.sn_size cfg); cbn [app length].
  - split; [lia|].
    destruct (Z.leb_spec (Z.of_nat (S (S (S (length payload))))) 2); [lia|].
    rewrite Hh1, !Hlow.
    change (Z.shiftl (Z.land (Z.lor 128 0) 15) 8) with 0. reflexivity.
  - split; [lia|].
    destruct (Z.leb_spec (Z.of_nat (S (S (S (S (length payload)))))) 3); [lia|].
    rewrite Hh2, Hh3, !Hlow.
    change (Z.shiftl (Z.land (Z.lor 128 0) 3) 16) with 0.
    change (Z.shiftl (Z.land 0 255) 8) with 0. reflexivity.
Qed.

(** C7 (Scenario 2): a fresh receiver with a finite, non-zero t-Reordering
    receives valid PDUs with COUNT 0, 1 and 3.  SDUs 0 and 1 are delivered
    at once; PDU 3 starts the reordering timer with RX_REORD = 4 and its SDU
    stays in the window; the expiry of the timer steps over the missing
    COUNT 2, delivers SDU 3 and leaves RX_DELIV = 4. *)
Theorem reordering_delivers_after_gap
        (prims : security_primitives) (cfg : pdcp_entity_rx.pdcp_rx_config)
        (sc : security_context) (ms : Z) (pdu0 pdu1 pdu3 : byte_buffer) :
  pdcp_entity_rx.t_reordering cfg = reordering_ms ms ->
  3 <= notify (pdcp_entity_rx.max_count cfg) ->
  3 < hard (pdcp_entity_rx.max_count cfg) ->
  rx_pdu_valid prims cfg sc pdu0 0 ->
  rx_pdu_valid prims cfg sc pdu1 1 ->
  rx_pdu_valid prims cfg sc pdu3 3 ->
  let e1 := pdcp_entity_rx.handle_data_pdu prims cfg (rx_entity_init sc) pdu0 in
  let e2 := pdcp_entity_rx.handle_data_pdu prims cfg e1 pdu1 in
  let e3 := pdcp_entity_rx.handle_data_pdu prims cfg e2 pdu3 in
  let e4 := pdcp_entity_rx.reordering_callback cfg e3 in
  let sdu0 := rx_sdu_of prims cfg sc pdu0 0 in
  let sdu1 := rx_sdu_of prims cfg sc pdu1 1 in
  let sdu3 := rx_sdu_of prims cfg sc pdu3 3 in
  pdcp_entity_rx.out e1 = [pdcp_entity_rx.on_new_sdu sdu0]
  /\ pdcp_entity_rx.out e2 = [pdcp_entity_rx.on_new_sdu sdu0; pdcp_entity_rx.on_new_sdu sdu1]
  /\ pdcp_entity_rx.reordering_timer_running e2 = false
  /\ pdcp_entity_rx.out e3 = [pdcp_entity_rx.on_new_sdu sdu0; pdcp_entity_rx.on_new_sdu sdu1]
  /\ pdcp_entity_rx.reordering_timer_running e3 = true
  /\ pdcp_entity_rx.st e3
     = {| pdcp_entity_rx.rx_next := 4; pdcp_entity_rx.rx_deliv := 2;
          pdcp_entity_rx.rx_reord := 4 |}
  /\ pdcp_entity_rx.out e4
     = [pdcp_entity_rx.on_new_sdu sdu0; pdcp_entity_rx.on_new_sdu sdu1;
        pdcp_entity_rx.on_new_sdu sdu3]
  /\ pdcp_entity_rx.rx_deliv (pdcp_entity_rx.st e4) = 4
  /\ pdcp_entity_rx.rx_window e4 = ∅
  /\ pdcp_entity_rx.reordering_timer_running e4 = false.
Proof.
  intros Htimer Hnotify Hhard Hv0 Hv1 Hv3 e1 e2 e3 e4 sdu0 sdu1 sdu3.
  subst sdu0 sdu1 sdu3. unfold rx_sdu_of.
  set (d0 := (pdcp_entity_rx.decipher_and_extract_mac prims cfg (rx_entity_init sc) pdu0 0).1).
  set (d1 := (pdcp_entity_rx.decipher_and_extract_mac prims cfg (rx_entity_init sc) pdu1 1).1).
  set (d3 := (pdcp_entity_rx.decipher_and_extract_mac prims cfg (rx_entity_init sc) pdu3 3).1).
  assert (e1 = pdcp_entity_rx.store_and_deliver cfg
                 (if integrity_enabled sc
                  then pdcp_entity_rx.metrics_add_integrity_verified_pdus (rx_entity_init sc) 1
                  else rx_entity_init sc) d0 0) as He1.
  { subst e1 d0. apply handle_data_pdu_valid; try assumption; try reflexivity; try lia.
    unfold pdcp_entity_rx.calc_rcvd_count.
    destruct (pdcp_entity_rx.sn_size cfg); reflexivity. }
  assert (pdcp_entity_rx.sec e1 = sc /\ pdcp_entity_rx.calc_rcvd_count cfg e1 1 = 1) as [Hs1 Hc1].
  { rewrite He1. clear -Htimer. unfold pdcp_entity_rx.calc_rcvd_count.
    destruct cfg as [rb mode s dir t bid limits]. cbn in Htimer. subst t.
    destruct sc as [[|] ce scfg]; destruct s; split; reflexivity. }
  assert (e2 = pdcp_entity_rx.store_and_deliver cfg
                 (if integrity_enabled sc
                  then pdcp_entity_rx.metrics_add_integrity_verified_pdus e1 1
                  else e1) d1 1) as He2.
  { subst e2 d1. apply handle_data_pdu_valid; try assumption; lia. }
  assert (pdcp_entity_rx.sec e2 = sc /\ pdcp_entity_rx.calc_rcvd_count cfg e2 3 = 3) as [Hs2 Hc3].
  { rewrite He2, He1. clear -Htimer. unfold pdcp_entity_rx.calc_rcvd_count.
    destruct cfg as [rb mode s dir t bid limits]. cbn in Htimer. subst t.
    destruct sc as [[|] ce scfg]; destruct s; split; reflexivity. }
  assert (e3 = pdcp_entity_rx.store_and_deliver cfg
                 (if integrity_enabled sc
                  then pdcp_entity_rx.metrics_add_integrity_verified_pdus e2 1
                  else e2) d3 3) as He3.
  { subst e3 d3. apply handle_data_pdu_valid; try assumption; lia. }
  subst e4. rewrite He3, He2, He1. clear -Htimer. clearbody d0 d1 d3.
  destruct cfg as [rb mode s dir t bid limits]. cbn in Htimer. subst t.
  destruct sc as [[|] ce scfg]; destruct s; vm_compute; repeat split; reflexivity.
Qed.

Lemma reordering_delivers_after_gap_witness :
  let cfg := rx_config_example size12bits um (reordering_ms 50)
               {| notify := 1000; hard := 2000 |} in
  let pdu0 := data_pdu_header size12bits 0 ++ [10] in
  let pdu1 := data_pdu_header size12bits 1 ++ [11] in
  let pdu3 := data_pdu_header size12bits 3 ++ [13] in
  let e1 := pdcp_entity_rx.handle_data_pdu null_primitives cfg (rx_entity_init null_security)
              pdu0 in
  let e2 := pdcp_entity_rx.handle_data_pdu null_primitives cfg e1 pdu1 in
  let e3 := pdcp_entity_rx.handle_data_pdu null_primitives cfg e2 pdu3 in
  let e4 := pdcp_entity_rx.reordering_callback cfg e3 in
  pdcp_entity_rx.t_reordering cfg = reordering_ms 50
  /\ 3 <= notify (pdcp_entity_rx.max_count cfg)
  /\ 3 < hard (pdcp_entity_rx.max_count cfg)
  /\ rx_pdu_valid null_primitives cfg null_security pdu0 0
  /\ rx_pdu_valid null_primitives cfg null_security pdu1 1
  /\ rx_pdu_valid null_primitives cfg null_security pdu3 3
  /\ pdcp_entity_rx.out e3 = [pdcp_entity_rx.on_new_sdu [10]; pdcp_entity_rx.on_new_sdu [11]]
  /\ pdcp_entity_rx.rx_reord (pdcp_entity_rx.st e3) = 4
  /\ pdcp_entity_rx.out e4
     = [pdcp_entity_rx.on_new_sdu [10]; pdcp_entity_rx.on_new_sdu [11];
        pdcp_entity_rx.on_new_sdu [13]]
  /\ pdcp_entity_rx.rx_deliv (pdcp_entity_rx.st e4) = 4.
Proof.
  intros cfg pdu0 pdu1 pdu3 e1 e2 e3 e4.
  assert (pdcp_entity_rx.t_reordering cfg = reordering_ms 50) as Ht by reflexivity.
  assert (3 <= notify (pdcp_entity_rx.max_count cfg)) as Hn by (cbn; lia).
  assert (3 < hard (pdcp_entity_rx.max_count cfg)) as Hh by (cbn; lia).
  assert (forall sn payload, payload <> [] -> 0 <= sn < 256 ->
            rx_pdu_valid null_primitives cfg null_security
              (data_pdu_header size12bits sn ++ payload) sn) as Hvalid.
  { intros sn payload Hp Hsn.
    destruct (read_data_pdu_header_of cfg sn payload Hp Hsn) as [Hlen Hhdr].
    split; [exact Hlen|]. split; [exact Hhdr|]. discriminate. }
  assert (rx_pdu_valid null_primitives cfg null_security pdu0 0) as H0
      by (apply Hvalid; [discriminate|lia]).
  assert (rx_pdu_valid null_primitives cfg null_security pdu1 1) as H1
      by (apply Hvalid; [discriminate|lia]).
  assert (rx_pdu_valid null_primitives cfg null_security pdu3 3) as H3
      by (apply Hvalid; [discriminate|lia]).
  destruct (reordering_delivers_after_gap null_primitives cfg null_security 50
              pdu0 pdu1 pdu3 Ht Hn Hh H0 H1 H3)
    as (_ & _ & _ & R3 & _ & R5 & R6 & R7 & _).
  split; [exact Ht|]. split; [exact Hn|]. split; [exact Hh|].
  split; [exact H0|]. split; [exact H1|]. split; [exact H3|].
  split; [exact R3|]. split; [|split; [exact R6|exact R7]].
  fold e1 e2 e3 in R5. rewrite R5. reflexivity.
Defined.

(** ** Receiver: integrity failures *)

Section rx_integrity.
Import pdcp_entity_rx.
Variable prims : security_primitives.
Variable cfg : pdcp_rx_config.



End rx_integrity.




(** ** Bit packing: bytes and bits *)

Lemma bits_value_range (bs : list bool) : 0 <= bits_value bs < 2 ^ Z.of_nat (length bs).
Proof.
  induction bs as [|b bs IH].
  - cbn. lia.
  - rewrite bits_value_cons. cbn [length].
    rewrite Nat2Z.inj_succ, Z.pow_succ_r by lia.
    destruct b; cbn [Z.b2z]; lia.
Qed.

Lemma bits_of_low (n : nat) (v k : Z) :
  bits_of n (v + k * 2 ^ Z.of_nat n) = bits_of n v.
Proof.
  induction n as [|n IH] in k |- *; [reflexivity|].
  cbn [bits_of]. f_equal.
  - rewrite <- (Z.mod_pow2_bits_low (v + _) (Z.of_nat (S n))) by lia.
    rewrite <- (Z.mod_pow2_bits_low v (Z.of_nat (S n))) by lia.
    rewrite Z.mod_add by lia. reflexivity.
  - rewrite Nat2Z.inj_succ, Z.pow_succ_r by lia.
    replace (k * (2 * 2 ^ Z.of_nat n)) with ((k * 2) * 2 ^ Z.of_nat n) by lia.
    apply IH.
Qed.

Lemma bits_of_bits_value (bs : list bool) : bits_of (length bs) (bits_value bs) = bs.
Proof.
  induction bs as [|b bs IH]; [reflexivity|].
  cbn [length bits_of]. rewrite bits_value_cons.
  pose proof (bits_value_range bs) as Hr. f_equal.
  - rewrite Z.add_comm.
    destruct b; cbn [Z.b2z].
    + rewrite Z.mul_1_l. replace (bits_value bs + 2 ^ Z.of_nat (length bs))
        with (bits_value bs + 1 * 2 ^ Z.of_nat (length bs)) by lia.
      rewrite Z.testbit_eqb by lia.
      rewrite Z.div_add by lia. rewrite Z.div_small by lia. reflexivity.
    + rewrite Z.mul_0_l, Z.add_0_r.
      rewrite Z.testbit_eqb by lia. rewrite Z.div_small by lia. reflexivity.
  - rewrite Z.add_comm, bits_of_low. exact IH.
Qed.

Lemma bits_to_bytes_aux_nil (fuel : nat) : bits_to_bytes_aux fuel [] = [].
Proof. destruct fuel; reflexivity. Qed.

Lemma bytes_to_bits_aux (fuel : nat) (bs : list bool) :
  (length bs <= fuel)%nat ->
  bytes_to_bits (bits_to_bytes_aux fuel bs)
  = bs ++ replicate ((8 - length bs mod 8) mod 8) false.
Proof.
  revert bs. induction fuel as [|fuel IH]; intros bs Hlen.
  - destruct bs; [reflexivity|cbn in Hlen; lia].
  - destruct bs as [|b0 bs]; [reflexivity|].
    cbn [bits_to_bytes_aux]. set (l := b0 :: bs) in *.
    assert (1 <= length l)%nat as Hpos by (subst l; cbn; lia).
    unfold bytes_to_bits. cbn [flat_map]. fold (bytes_to_bits (bits_to_bytes_aux fuel (drop 8 l))).
    assert (length (take 8 (l ++ replicate 7 false)) = 8%nat) as Hchunk.
    { rewrite length_take, length_app, length_replicate. lia. }
    unfold byte_to_bits. rewrite <- Hchunk at 1. rewrite bits_of_bits_value.
    destruct (le_lt_dec 8 (length l)) as [Hlong|Hshort].
    + rewrite IH by (rewrite length_drop; lia).
      rewrite take_app_le by lia. rewrite app_assoc, take_drop.
      rewrite length_drop. f_equal. f_equal.
      replace (length l) with ((length l - 8) + 1 * 8)%nat at 2 by lia.
      rewrite Nat.Div0.mod_add. reflexivity.
    + rewrite drop_ge by lia. rewrite bits_to_bytes_aux_nil. cbn [flat_map].
      rewrite app_nil_r.
      rewrite take_app_ge by lia.
      rewrite (Nat.mod_small (length l) 8) by lia.
      rewrite (Nat.mod_small (8 - length l) 8) by lia.
      f_equal. rewrite take_replicate. f_equal. lia.
Qed.

(** Packing bits into a buffer and reading the buffer back gives the bits,
    followed by the zero bits that fill the last byte. *)
Lemma bytes_to_bits_to_bytes (bs : list bool) :
  bytes_to_bits (bits_to_bytes bs) = bs ++ replicate ((8 - length bs mod 8) mod 8) false.
Proof. apply bytes_to_bits_aux. lia. Qed.


(** ** Receiver: status report compilation *)

Section rx_status_report.
Import pdcp_entity_rx.
Variable cfg : pdcp_rx_config.

Lemma status_bitmap_counts (e : entity) :
  is_u32 (rx_deliv (st e)) -> is_u32 (rx_next (st e)) ->
  let max_bits := (pdcp_control_pdu_max_size - 5) * 8 in
  let bitmap_begin := u32 (rx_deliv (st e) + 1) in
  let bitmap_end :=
    if (bitmap_begin <? rx_next (st e)) && (max_bits <? u32 (rx_next (st e) - bitmap_begin))
    then u32 (bitmap_begin + max_bits) else rx_next (st e) in
  map (fun i => has_sn (window_size cfg) (rx_window e) i)
    (seqZ bitmap_begin (bitmap_end - bitmap_begin))
  = map (fun i => has_sn (window_size cfg) (rx_window e) (u32 (rx_deliv (st e) + 1 + i)))
      (seqZ 0 (status_bitmap_length (rx_deliv (st e)) (rx_next (st e)))).
Proof.
  intros Hd Hn max_bits bitmap_begin bitmap_end.
  assert (max_bits = 71960) as Hmax by reflexivity.
  assert (0 <= bitmap_begin < 2 ^ 32) as Hb
      by (subst bitmap_begin; unfold u32; apply Z.mod_pos_bound; lia).
  assert (bitmap_end - bitmap_begin <= 0 /\ status_bitmap_length (rx_deliv (st e)) (rx_next (st e)) = 0
          \/ bitmap_begin < rx_next (st e)
             /\ bitmap_end - bitmap_begin = status_bitmap_length (rx_deliv (st e)) (rx_next (st e))
             /\ bitmap_end <= rx_next (st e)) as Hcases.
  { subst bitmap_end. unfold status_bitmap_length. fold bitmap_begin. fold max_bits.
    clearbody max_bits.
    destruct (Z.ltb_spec bitmap_begin (rx_next (st e))) as [Hlt|Hge]; cbn [andb].
    - right. split; [exact Hlt|]. destruct Hn as [_ Hn].
      rewrite (u32_small (rx_next (st e) - bitmap_begin)) by lia.
      destruct (Z.ltb_spec max_bits (rx_next (st e) - bitmap_begin)) as [Hcut|Hfit].
      + rewrite u32_small by lia. lia.
      + lia.
    - left. lia. }
  destruct Hcases as [[Hempty ->]|(Hlt & <- & Hend)].
  - rewrite seqZ_nil by exact Hempty. reflexivity.
  - rewrite <- (Z.add_0_r bitmap_begin) at 1.
    rewrite <- (fmap_add_seqZ bitmap_begin 0).
    change (map ?f (?g <$> ?l)) with (map f (map g l)). rewrite map_map.
    apply map_ext_in. intros i Hi.
    apply list_elem_of_In, elem_of_seqZ in Hi. f_equal.
    subst bitmap_begin. unfold u32 in *.
    rewrite <- (Zplus_mod_idemp_l (rx_deliv (st e) + 1) i).
    symmetry. apply Z.mod_small. destruct Hn. lia.
Qed.

End rx_status_report.


(** * Properties of the data path, the notifications and the re-establishment *)

(** ** Data PDUs: the header and the protection, there and back *)

Lemma testbit_small (c n k : Z) : 0 <= c < 2 ^ k -> k <= n -> Z.testbit c n = false.
Proof.
  intros Hc Hn. destruct (Z.eq_dec c 0) as [->|Hne]; [apply Z.bits_0|].
  apply Z.bits_above_log2; [lia|].
  assert (Z.log2 c < k); [|lia].
  apply Z.log2_lt_pow2; lia.
Qed.

Lemma header_sn_12 (dc sn : Z) :
  Z.land dc 0x0f = 0 -> 
  Z.lor (Z.shiftl (Z.land (Z.lor dc (Z.shiftr (Z.land sn 0x00000f00) 8)) 0x0f) 8)
        (Z.land (Z.land sn 0x000000ff) 0xff)
  = Z.land sn (Z.ones 12).
Proof.
  intros Hdc.
  rewrite Z.land_lor_distr_l, Hdc, Z.lor_0_l.
  apply Z.bits_inj'. intros n Hn.
  rewrite Z.lor_spec, !Z.land_spec, Z.shiftl_spec by lia.
  destruct (Z.lt_ge_cases n 8) as [H8|H8].
  - rewrite (Z.testbit_neg_r _ (n - 8)) by lia.
    change 255 with (Z.ones 8). rewrite !Z.ones_spec_low by lia.
    rewrite ?andb_true_r. simpl. rewrite ?andb_true_r. reflexivity.
  - rewrite !Z.land_spec, Z.shiftr_spec, !Z.land_spec by lia.
    rewrite (testbit_small 255 n 8) by lia.
    rewrite !andb_false_r, orb_false_r.
    replace (n - 8 + 8) with n by lia.
    destruct (Z.lt_ge_cases n 12) as [H12|H12].
    + rewrite Z.ones_spec_low by lia.
      change 15 with (Z.ones 4). rewrite Z.ones_spec_low by lia.
      change 3840 with (Z.shiftl (Z.ones 4) 8).
      rewrite Z.shiftl_spec by lia. rewrite Z.ones_spec_low by lia.
      rewrite !andb_true_r. reflexivity.
    + rewrite Z.ones_spec_high by lia.
      rewrite (testbit_small 15 (n - 8) 4) by lia.
      rewrite !andb_false_r. reflexivity.
Qed.

Lemma header_sn_18 (dc sn : Z) :
  Z.land dc 0x03 = 0 -> 
  Z.lor (Z.lor (Z.shiftl (Z.land (Z.lor dc (Z.shiftr (Z.land sn 0x00030000) 16)) 0x03) 16)
               (Z.shiftl (Z.land (Z.shiftr (Z.land sn 0x0000ff00) 8) 0xff) 8))
        (Z.land (Z.land sn 0x000000ff) 0xff)
  = Z.land sn (Z.ones 18).
Proof.
  intros Hdc.
  rewrite Z.land_lor_distr_l, Hdc, Z.lor_0_l.
  apply Z.bits_inj'. intros n Hn.
  rewrite !Z.lor_spec, !Z.land_spec, !Z.shiftl_spec by lia.
  destruct (Z.lt_ge_cases n 8) as [H8|H8].
  - rewrite (Z.testbit_neg_r _ (n - 8)), (Z.testbit_neg_r _ (n - 16)) by lia.
    change 255 with (Z.ones 8). rewrite !Z.ones_spec_low by lia.
    rewrite !andb_true_r. simpl. rewrite ?andb_true_r. reflexivity.
  - rewrite (testbit_small 255 n 8) by lia.
    rewrite !andb_false_r, orb_false_r.
    rewrite (Z.land_spec _ 255), (Z.shiftr_spec _ 8), Z.land_spec by lia.
    replace (n - 8 + 8) with n by lia.
    destruct (Z.lt_ge_cases n 16) as [H16|H16].
    + rewrite (Z.testbit_neg_r _ (n - 16)) by lia.
      rewrite Z.ones_spec_low by lia.
      change 255 with (Z.ones 8). rewrite Z.ones_spec_low by lia.
      change 65280 with (Z.shiftl (Z.ones 8) 8).
      rewrite Z.land_spec, Z.shiftl_spec by lia. rewrite Z.ones_spec_low by lia.
      rewrite !andb_true_r, andb_false_l. reflexivity.
    + rewrite (testbit_small 255 (n - 8) 8) by lia.
      rewrite !andb_false_r, orb_false_r.
      rewrite Z.shiftr_spec, Z.land_spec by lia.
      replace (n - 16 + 16) with n by lia.
      destruct (Z.lt_ge_cases n 18) as [H18|H18].
      * rewrite Z.ones_spec_low by lia.
        change 3 with (Z.ones 2). rewrite Z.ones_spec_low by lia.
        change 196608 with (Z.shiftl (Z.ones 2) 16).
        rewrite Z.shiftl_spec by lia. rewrite Z.ones_spec_low by lia.
        rewrite !andb_true_r. reflexivity.
      * rewrite Z.ones_spec_high by lia.
        rewrite (testbit_small 3 (n - 16) 2) by lia.
        rewrite !andb_false_r. reflexivity.
Qed.

Section pdu_round_trip.
Variable prims : security_primitives.
Variable cfg_tx : pdcp_entity_tx.pdcp_tx_config.
Variable cfg_rx : pdcp_entity_rx.pdcp_rx_config.
Hypothesis Hmatch : bearer_match cfg_tx cfg_rx.

Lemma hdr_len_match : pdcp_entity_tx.hdr_len cfg_tx = pdcp_entity_rx.hdr_len_bytes cfg_rx.
Proof.
  destruct Hmatch as (_ & Hs & _). unfold pdcp_entity_tx.hdr_len, pdcp_entity_rx.hdr_len_bytes.
  rewrite Hs. reflexivity.
Qed.

Lemma write_data_pdu_header_read (buf : byte_buffer) (sn : Z) :
  pdcp_entity_tx.sn_size cfg_tx = pdcp_entity_rx.sn_size cfg_rx ->
  exists hdr,
    pdcp_entity_tx.write_data_pdu_header cfg_tx buffers_ok buf sn = Some (hdr ++ buf)
    /\ Z.of_nat (length hdr) = pdcp_entity_tx.hdr_len cfg_tx
    /\ (forall rest, rest <> [] ->
          pdcp_entity_rx.read_data_pdu_header cfg_rx (hdr ++ rest)
          = Some (SN (pdcp_entity_rx.sn_size cfg_rx) sn))
    /\ pdcp_entity_rx.read_data_pdu_header cfg_rx hdr = None
    /\ hdr = take (Z.to_nat (pdcp_entity_tx.hdr_len cfg_tx)) (hdr ++ buf).
Proof.
  intros Hs.
  unfold pdcp_entity_tx.write_data_pdu_header, pdcp_entity_tx.hdr_len,
    pdcp_entity_rx.read_data_pdu_header, pdcp_entity_rx.hdr_len_bytes, SN.
  rewrite <- Hs. cbn [buffers_ok prepend_ok negb].
  assert (Z.land (if pdcp_entity_tx.is_drb cfg_tx then 128 else 0) 15 = 0
          /\ Z.land (if pdcp_entity_tx.is_drb cfg_tx then 128 else 0) 3 = 0) as [Hd1 Hd2]
      by (destruct (pdcp_entity_tx.is_drb cfg_tx); split; reflexivity).
  set (dc := if pdcp_entity_tx.is_drb cfg_tx then 128 else 0) in *.
  destruct (pdcp_entity_tx.sn_size cfg_tx);
    [exists [Z.lor dc (Z.shiftr (Z.land sn 3840) 8); Z.land sn 255]
    |exists [Z.lor dc (Z.shiftr (Z.land sn 196608) 16); Z.shiftr (Z.land sn 65280) 8;
             Z.land sn 255]];
    (split; [reflexivity|]).
  - split; [reflexivity|]. split; [|split; reflexivity].
    intros [|r rest] Hr; [contradiction|]. cbn [app length pdcp_sn_size_to_uint].
    destruct (Z.leb_spec (Z.of_nat (S (S (S (length rest))))) 2); [lia|].
    f_equal. apply header_sn_12. exact Hd1.
  - split; [reflexivity|]. split; [|split; reflexivity].
    intros [|r rest] Hr; [contradiction|]. cbn [app length pdcp_sn_size_to_uint].
    destruct (Z.leb_spec (Z.of_nat (S (S (S (S (length rest)))))) 3); [lia|].
    f_equal. apply header_sn_18. exact Hd2.
Qed.

Lemma write_data_pdu_header_app (buf : byte_buffer) (sn : Z) :
  exists hdr,
    pdcp_entity_tx.write_data_pdu_header cfg_tx buffers_ok buf sn = Some (hdr ++ buf)
    /\ Z.of_nat (length hdr) = pdcp_entity_tx.hdr_len cfg_tx
    /\ (forall rest, rest <> [] ->
          pdcp_entity_rx.read_data_pdu_header cfg_rx (hdr ++ rest)
          = Some (SN (pdcp_entity_rx.sn_size cfg_rx) sn))
    /\ pdcp_entity_rx.read_data_pdu_header cfg_rx hdr = None
    /\ hdr = take (Z.to_nat (pdcp_entity_tx.hdr_len cfg_tx)) (hdr ++ buf).
Proof. destruct Hmatch as (_ & Hs & _). exact (write_data_pdu_header_read buf sn Hs). Qed.

Hypothesis Hmac : mac_primitives_ok prims.
Hypothesis Hciph : cipher_primitives_ok prims.

Lemma cipher_round_trip (e_tx : pdcp_entity_tx.entity) (e_rx : pdcp_entity_rx.entity)
      (m : byte_buffer) (c : Z) :
  pdcp_entity_tx.sec e_tx = pdcp_entity_rx.sec e_rx ->
  pdcp_entity_rx.cipher_decrypt prims cfg_rx e_rx
    (pdcp_entity_tx.cipher_encrypt prims cfg_tx e_tx m c) c = m
  /\ length (pdcp_entity_tx.cipher_encrypt prims cfg_tx e_tx m c) = length m.
Proof.
  intros Hsec. destruct Hmatch as (_ & _ & Hd & Hb).
  unfold pdcp_entity_rx.cipher_decrypt, pdcp_entity_tx.cipher_encrypt.
  rewrite <- Hsec, <- Hd, <- Hb.
  destruct (Hciph (k_128_enc (sec_cfg (pdcp_entity_tx.sec e_tx))) c
              (pdcp_entity_tx.bearer_id cfg_tx) (pdcp_entity_tx.direction cfg_tx) m)
    as ([? ?] & [? ?] & [? ?]).
  destruct (cipher_algo (sec_cfg (pdcp_entity_tx.sec e_tx))); split; auto.
Qed.

Lemma expected_mac_generate (e_tx : pdcp_entity_tx.entity) (e_rx : pdcp_entity_rx.entity)
      (buf : byte_buffer) (c : Z) :
  pdcp_entity_tx.sec e_tx = pdcp_entity_rx.sec e_rx ->
  pdcp_entity_rx.expected_mac prims cfg_rx e_rx buf c
  = pdcp_entity_tx.integrity_generate prims cfg_tx e_tx buf c.
Proof.
  intros Hsec. destruct Hmatch as (_ & _ & Hd & Hb).
  unfold pdcp_entity_rx.expected_mac, pdcp_entity_tx.integrity_generate.
  rewrite <- Hsec, <- Hd, <- Hb. reflexivity.
Qed.

Lemma length_integrity_generate (e_tx : pdcp_entity_tx.entity) (buf : byte_buffer) (c : Z) :
  length (pdcp_entity_tx.integrity_generate prims cfg_tx e_tx buf c) = 4%nat.
Proof.
  unfold pdcp_entity_tx.integrity_generate.
  destruct (Hmac (k_128_int (sec_cfg (pdcp_entity_tx.sec e_tx))) c
              (pdcp_entity_tx.bearer_id cfg_tx) (pdcp_entity_tx.direction cfg_tx) buf)
    as (? & ? & ?).
  destruct (integ_algo (sec_cfg (pdcp_entity_tx.sec e_tx))); auto.
Qed.

Lemma mac_equal_refl (n : nat) (mac : sec_mac) : pdcp_entity_rx.mac_equal n mac mac = true.
Proof.
  induction n as [|n IH]; [reflexivity|]. cbn. rewrite IH, Z.eqb_refl. reflexivity.
Qed.

Lemma extract_mac_app (buf : byte_buffer) (mac mac0 : sec_mac) :
  buf <> [] -> length mac = 4%nat ->
  pdcp_entity_rx.extract_mac (buf ++ mac) mac0 = (buf, mac).
Proof.
  intros Hb Hm. unfold pdcp_entity_rx.extract_mac, sec_mac_len.
  rewrite length_app, Hm.
  destruct buf as [|b buf]; [contradiction|]. cbn [length].
  destruct (Z.leb_spec (Z.of_nat (S (length buf) + 4)) 4); [lia|].
  replace (S (length buf) + 4 - Z.to_nat 4)%nat with (length (b :: buf))
    by (cbn [length]; lia).
  rewrite take_app_length, drop_app_length. reflexivity.
Qed.

Lemma data_pdu_for_unprotect (e_tx : pdcp_entity_tx.entity) (e_rx : pdcp_entity_rx.entity)
      (c : Z) (sdu : byte_buffer) :
  pdcp_entity_tx.sec e_tx = pdcp_entity_rx.sec e_rx ->
  sdu <> [] ->
  let pdu := data_pdu_for prims cfg_tx e_tx c sdu in
  let d := pdcp_entity_rx.decipher_and_extract_mac prims cfg_rx e_rx pdu c in
  pdcp_entity_rx.hdr_len_bytes cfg_rx < Z.of_nat (length pdu)
  /\ pdcp_entity_rx.read_data_pdu_header cfg_rx pdu
     = Some (SN (pdcp_entity_rx.sn_size cfg_rx) c)
  /\ (integrity_enabled (pdcp_entity_rx.sec e_rx) = true ->
      pdcp_entity_rx.integrity_verify prims cfg_rx e_rx d.1 c d.2 = true)
  /\ pdcp_entity_rx.discard_data_header cfg_rx d.1 = sdu.
Proof.
  intros Hsec Hsdu pdu d.
  destruct (write_data_pdu_header_app sdu (SN (pdcp_entity_tx.sn_size cfg_tx) c))
    as (hdr & Hw & Hlen & Hread & _ & _).
  pose proof hdr_len_match as Hhl.
  assert (Z.to_nat (pdcp_entity_tx.hdr_len cfg_tx) = length hdr) as Hn by lia.
  assert (Z.to_nat (pdcp_entity_rx.hdr_len_bytes cfg_rx) = length hdr) as Hn' by lia.
  set (mac := if integrity_enabled (pdcp_entity_tx.sec e_tx)
              then pdcp_entity_tx.integrity_generate prims cfg_tx e_tx (hdr ++ sdu) c
              else [0; 0; 0; 0]).
  assert (length mac = 4%nat) as Hmaclen.
  { unfold mac. destruct (integrity_enabled (pdcp_entity_tx.sec e_tx));
      [apply length_integrity_generate|reflexivity]. }
  set (appended := pdcp_entity_tx.is_srb cfg_tx
                   || (pdcp_entity_tx.is_drb cfg_tx && integrity_enabled (pdcp_entity_tx.sec e_tx))).
  set (body := if appended then sdu ++ mac else sdu).
  assert (body <> []) as Hbody.
  { unfold body. destruct appended; [|exact Hsdu].
    destruct sdu; [contradiction|discriminate]. }
  set (ciphered := ciphering_enabled (pdcp_entity_tx.sec e_tx)
                   && negb (match cipher_algo (sec_cfg (pdcp_entity_tx.sec e_tx)) with
                            | nea0 => true | _ => false end)).
  set (wire := if ciphered then pdcp_entity_tx.cipher_encrypt prims cfg_tx e_tx body c
               else body).
  assert (pdu = hdr ++ wire) as Hpdu.
  { unfold pdu, data_pdu_for. rewrite Hw.
    unfold pdcp_entity_tx.apply_ciphering_and_integrity_protection.
    cbn [buffers_ok append_ok]. fold mac. fold appended.
    replace (if appended then Some ((hdr ++ sdu) ++ mac) else Some (hdr ++ sdu))
      with (Some (hdr ++ body))
      by (unfold body; destruct appended; [rewrite <- app_assoc|]; reflexivity).
    fold ciphered. rewrite Hn, take_app_length, drop_app_length.
    unfold wire. destruct ciphered; reflexivity. }
  assert (wire <> []) as Hwire.
  { unfold wire. destruct ciphered; [|exact Hbody].
    destruct (cipher_round_trip e_tx e_rx body c Hsec) as [_ Hl].
    intros Hnil. rewrite Hnil in Hl. destruct body; [contradiction|discriminate]. }
  assert (d = if appended then (hdr ++ sdu, mac) else (hdr ++ sdu, [0; 0; 0; 0])) as Hd.
  { unfold d, pdcp_entity_rx.decipher_and_extract_mac.
    destruct Hmatch as (Hrb & _).
    unfold pdcp_entity_rx.is_srb, pdcp_entity_rx.is_drb. rewrite <- Hrb, <- Hsec.
    fold (pdcp_entity_tx.is_srb cfg_tx) (pdcp_entity_tx.is_drb cfg_tx).
    fold ciphered. fold appended.
    rewrite Hpdu, Hn', take_app_length, drop_app_length.
    replace (if ciphered
             then hdr ++ pdcp_entity_rx.cipher_decrypt prims cfg_rx e_rx wire c
             else hdr ++ wire) with (hdr ++ body).
    2:{ unfold wire. destruct ciphered; [|reflexivity].
        destruct (cipher_round_trip e_tx e_rx body c Hsec) as [-> _]. reflexivity. }
    unfold body. destruct appended; [|reflexivity].
    rewrite app_assoc. apply extract_mac_app; [|exact Hmaclen].
    destruct hdr; [cbn in Hlen; unfold pdcp_entity_tx.hdr_len in Hlen;
                   destruct (pdcp_entity_tx.sn_size cfg_tx); lia|discriminate]. }
  split; [|split; [|split]].
  - rewrite Hpdu, length_app. destruct wire; [contradiction|]. cbn [length]. lia.
  - rewrite Hpdu, (Hread wire Hwire). destruct Hmatch as (_ & Hs & _). rewrite <- Hs.
    f_equal. unfold SN. rewrite <- Z.land_assoc, Z.land_diag. reflexivity.
  - intros Hie. rewrite <- Hsec in Hie.
    assert (appended = true) as Happ.
    { unfold appended, pdcp_entity_tx.is_srb, pdcp_entity_tx.is_drb. rewrite Hie.
      destruct (pdcp_entity_tx.rb_type cfg_tx); reflexivity. }
    rewrite Hd, Happ. cbn [fst snd].
    unfold pdcp_entity_rx.integrity_verify.
    rewrite (expected_mac_generate e_tx e_rx) by exact Hsec.
    unfold mac. rewrite Hie.
    destruct (integ_algo (sec_cfg (pdcp_entity_rx.sec e_rx))); auto using mac_equal_refl.
  - replace d.1 with (hdr ++ sdu) by (rewrite Hd; destruct appended; reflexivity).
    unfold pdcp_entity_rx.discard_data_header. rewrite Hn'. apply drop_app_length.
Qed.

End pdu_round_trip.

Lemma bearer_match_peer (cfg_tx : pdcp_entity_tx.pdcp_tx_config) (t : pdcp_t_reordering)
      (limits : pdcp_max_count) :
  bearer_match cfg_tx (peer_rx_config cfg_tx t limits).
Proof. repeat split. Qed.

Lemma constant_mac_primitives_ok (mac : sec_mac) :
  length mac = 4%nat ->
  mac_primitives_ok (constant_mac_primitives mac)
  /\ cipher_primitives_ok (constant_mac_primitives mac).
Proof. intros Hlen. split; intros k c b d m; cbn; auto. Qed.

(** X1: a data PDU header written by [write_data_pdu_header] is read back
    by [read_data_pdu_header] of an entity with the same SN size as the SN
    that was written, reduced to the SN size, and [discard_data_header]
    returns the payload behind it. *)
Theorem data_pdu_header_round_trip
        (cfg_tx : pdcp_entity_tx.pdcp_tx_config) (cfg_rx : pdcp_entity_rx.pdcp_rx_config)
        (sdu : byte_buffer) (sn : Z) :
  pdcp_entity_tx.sn_size cfg_tx = pdcp_entity_rx.sn_size cfg_rx ->
  sdu <> [] ->
  exists pdu,
    pdcp_entity_tx.write_data_pdu_header cfg_tx buffers_ok sdu sn = Some pdu
    /\ Z.of_nat (length pdu) = pdcp_entity_rx.hdr_len_bytes cfg_rx + Z.of_nat (length sdu)
    /\ pdcp_entity_rx.read_data_pdu_header cfg_rx pdu
       = Some (SN (pdcp_entity_rx.sn_size cfg_rx) sn)
    /\ pdcp_entity_rx.discard_data_header cfg_rx pdu = sdu.
Proof.
  intros Hs Hsdu.
  destruct (write_data_pdu_header_read cfg_tx cfg_rx sdu sn Hs)
    as (hdr & Hw & Hlen & Hread & _ & _).
  assert (pdcp_entity_tx.hdr_len cfg_tx = pdcp_entity_rx.hdr_len_bytes cfg_rx) as Hhl
      by (unfold pdcp_entity_tx.hdr_len, pdcp_entity_rx.hdr_len_bytes; rewrite Hs; reflexivity).
  exists (hdr ++ sdu). split; [exact Hw|]. split; [rewrite length_app; lia|].
  split; [exact (Hread sdu Hsdu)|].
  unfold pdcp_entity_rx.discard_data_header.
  replace (Z.to_nat (pdcp_entity_rx.hdr_len_bytes cfg_rx)) with (length hdr) by lia.
  apply drop_app_length.
Qed.

Lemma data_pdu_header_round_trip_witness :
  let cfg_tx := tx_config_example size18bits am None 4096
                  {| notify := 4294967295; hard := 4294967295 |} in
  let cfg_rx := rx_config_example size18bits am (reordering_ms 50)
                  {| notify := 4294967295; hard := 4294967295 |} in
  exists pdu,
    pdcp_entity_tx.write_data_pdu_header cfg_tx buffers_ok [1; 2; 3] 300000 = Some pdu
    /\ Z.of_nat (length pdu) = pdcp_entity_rx.hdr_len_bytes cfg_rx + 3
    /\ pdcp_entity_rx.read_data_pdu_header cfg_rx pdu = Some 37856
    /\ pdcp_entity_rx.discard_data_header cfg_rx pdu = [1; 2; 3].
Proof.
  intros cfg_tx cfg_rx.
  apply (data_pdu_header_round_trip cfg_tx cfg_rx [1; 2; 3] 300000);
    [reflexivity|discriminate].
Defined.

(** X2: a data PDU that the transmitter builds for a non-empty SDU under a
    COUNT is accepted by the receiver of the same bearer that holds the
    same security context and resolves the same COUNT: the PDU is longer
    than its header, its header carries the SN of the COUNT, its MAC-I
    verifies when integrity protection is on, and deciphering, removing
    the MAC-I and discarding the header give back the SDU.  The security
    primitives are any whose ciphers are involutions that keep the length
    and whose MACs are four bytes long. *)
Theorem protected_pdu_round_trip
        (prims : security_primitives)
        (cfg_tx : pdcp_entity_tx.pdcp_tx_config) (cfg_rx : pdcp_entity_rx.pdcp_rx_config)
        (e_tx : pdcp_entity_tx.entity) (e_rx : pdcp_entity_rx.entity)
        (c : Z) (sdu : byte_buffer) :
  bearer_match cfg_tx cfg_rx ->
  mac_primitives_ok prims -> cipher_primitives_ok prims ->
  pdcp_entity_tx.sec e_tx = pdcp_entity_rx.sec e_rx ->
  sdu <> [] ->
  exists hdr_buf pdu,
    pdcp_entity_tx.write_data_pdu_header cfg_tx buffers_ok sdu
      (SN (pdcp_entity_tx.sn_size cfg_tx) c) = Some hdr_buf
    /\ pdcp_entity_tx.apply_ciphering_and_integrity_protection prims cfg_tx buffers_ok
         e_tx hdr_buf c = Some pdu
    /\ pdcp_entity_rx.hdr_len_bytes cfg_rx < Z.of_nat (length pdu)
    /\ pdcp_entity_rx.read_data_pdu_header cfg_rx pdu
       = Some (SN (pdcp_entity_rx.sn_size cfg_rx) c)
    /\ (integrity_enabled (pdcp_entity_rx.sec e_rx) = true ->
        pdcp_entity_rx.integrity_verify prims cfg_rx e_rx
          (pdcp_entity_rx.decipher_and_extract_mac prims cfg_rx e_rx pdu c).1 c
          (pdcp_entity_rx.decipher_and_extract_mac prims cfg_rx e_rx pdu c).2 = true)
    /\ pdcp_entity_rx.discard_data_header cfg_rx
         (pdcp_entity_rx.decipher_and_extract_mac prims cfg_rx e_rx pdu c).1 = sdu.
Proof.
  intros Hmatch Hmac Hciph Hsec Hsdu.
  pose proof (data_pdu_for_unprotect prims cfg_tx cfg_rx Hmatch Hmac Hciph e_tx e_rx c sdu
                Hsec Hsdu) as Hrt.
  cbv zeta in Hrt. unfold data_pdu_for in Hrt.
  destruct (write_data_pdu_header_ok cfg_tx sdu (SN (pdcp_entity_tx.sn_size cfg_tx) c))
    as [hdr_buf Hw].
  rewrite Hw in Hrt.
  destruct (apply_security_ok prims cfg_tx e_tx hdr_buf c) as [pdu Hp].
  rewrite Hp in Hrt. cbn [default] in Hrt.
  exists hdr_buf, pdu. split; [exact Hw|]. split; [exact Hp|]. exact Hrt.
Qed.

Lemma protected_pdu_round_trip_witness :
  let prims := constant_mac_primitives [1; 2; 3; 4] in
  let cfg_tx := tx_config_example size12bits am (Some (discard_ms 100)) 4096
                  {| notify := 4294967295; hard := 4294967295 |} in
  let cfg_rx := peer_rx_config cfg_tx (reordering_ms 50)
                  {| notify := 4294967295; hard := 4294967295 |} in
  let e_tx := tx_entity_init (integrity_security nia2) in
  let e_rx := rx_entity_init (integrity_security nia2) in
  let pdu := [131; 136; 7; 8; 1; 2; 3; 4] in
  pdcp_entity_tx.apply_ciphering_and_integrity_protection prims cfg_tx buffers_ok e_tx
    [131; 136; 7; 8] 5000 = Some pdu
  /\ pdcp_entity_rx.read_data_pdu_header cfg_rx pdu = Some 904
  /\ pdcp_entity_rx.integrity_verify prims cfg_rx e_rx
       (pdcp_entity_rx.decipher_and_extract_mac prims cfg_rx e_rx pdu 5000).1 5000
       (pdcp_entity_rx.decipher_and_extract_mac prims cfg_rx e_rx pdu 5000).2 = true
  /\ pdcp_entity_rx.discard_data_header cfg_rx
       (pdcp_entity_rx.decipher_and_extract_mac prims cfg_rx e_rx pdu 5000).1 = [7; 8].
Proof.
  intros prims cfg_tx cfg_rx e_tx e_rx pdu.
  destruct (constant_mac_primitives_ok [1; 2; 3; 4] eq_refl) as [Hmac Hciph].
  destruct (protected_pdu_round_trip prims cfg_tx cfg_rx e_tx e_rx 5000 [7; 8]
              (bearer_match_peer cfg_tx _ _) Hmac Hciph eq_refl ltac:(discriminate))
    as (hdr_buf & pdu' & Hw & Hp & _ & Hread & Hver & Hsdu).
  vm_compute in Hw. injection Hw as <-.
  vm_compute in Hp. injection Hp as <-.
  split; [reflexivity|]. split; [exact Hread|]. split; [exact (Hver eq_refl)|exact Hsdu].
Defined.

(** ** Transmitter: one SDU, one PDU *)

Section tx_send.
Import pdcp_entity_tx.
Variable prims : security_primitives.
Variable cfg : pdcp_tx_config.

Lemma handle_sdu_sends (e : entity) (buf : byte_buffer) :
  tx_config_ok cfg ->
  0 <= tx_next (st e) ->
  tx_admits cfg (st e) = true ->
  tx_next (st e) < hard (max_count (custom cfg)) ->
  has_sn (window_size cfg) (tx_window e) (tx_next (st e)) = false ->
  let e' := handle_sdu prims cfg buffers_ok e buf in
  out e' = out e
           ++ (if (notify (max_count (custom cfg)) <=? tx_next (st e))
                  && negb (max_count_notified e)
               then [on_max_count_reached] else [])
           ++ [on_new_pdu (data_pdu_for prims cfg e (tx_next (st e)) buf) false]
  /\ st e' = set_tx_next (st e) (tx_next (st e) + 1)
  /\ tx_window e' = tx_stored cfg e buf
  /\ sec e' = sec e
  /\ num_sdus (metrics e') = num_sdus (metrics e) + 1
  /\ num_pdus (metrics e') = num_pdus (metrics e) + 1.
Proof.
  intros (_ & _ & Hhard) H0 Hadm Hlt Hfree e'.
  unfold tx_admits in Hadm. apply andb_prop in Hadm as [Hadm Hg3].
  apply andb_prop in Hadm as [Hg1 Hg2].
  apply negb_true_iff in Hg1, Hg2, Hg3.
  unfold e', handle_sdu. rewrite Hg1, Hg2, Hg3.
  cbn [st metrics_add_sdus set_metrics].
  destruct (Z.leb_spec (hard (max_count (custom cfg))) (tx_next (st e))); [lia|].
  set (e1 := metrics_add_sdus e 1 (Z.of_nat (length buf))).
  set (e2 := notify_max_count cfg e1).
  assert (st e2 = st e /\ tx_window e2 = tx_window e /\ sec e2 = sec e
          /\ metrics e2 = metrics e1
          /\ out e2 = out e ++ (if (notify (max_count (custom cfg)) <=? tx_next (st e))
                                   && negb (max_count_notified e)
                                then [on_max_count_reached] else []))
    as (Hst2 & Hw2 & Hsec2 & Hm2 & Hout2).
  { unfold e2, notify_max_count. change (st e1) with (st e).
    change (max_count_notified e1) with (max_count_notified e).
    destruct (_ && _); cbn; rewrite ?app_nil_r; auto. }
  unfold transmit_sdu. cbn [deep_copy_ok buffers_ok negb]. rewrite andb_false_r.
  rewrite Hst2.
  destruct (write_data_pdu_header_ok cfg buf (SN (sn_size cfg) (tx_next (st e))))
    as [hdr Hhdr].
  rewrite Hhdr.
  destruct (apply_security_ok prims cfg e2 hdr (tx_next (st e))) as [pdu Hpdu].
  rewrite Hpdu.
  assert (data_pdu_for prims cfg e (tx_next (st e)) buf = pdu) as Hdata.
  { unfold data_pdu_for. rewrite Hhdr.
    rewrite <- (apply_security_sec prims cfg buffers_ok e2 e hdr _ Hsec2), Hpdu.
    reflexivity. }
  assert (window_at (window_size cfg) (tx_window e2) (tx_next (st e2)) = None) as Hnone.
  { rewrite Hw2, Hst2. unfold has_sn in Hfree. unfold window_at.
    destruct (tx_window e !! slot_of (window_size cfg) (tx_next (st e))); [discriminate|].
    reflexivity. }
  unfold store_in_tx_window, tx_stored. rewrite Hnone, Hw2, Hst2.
  unfold is_u32 in Hhard.
  unfold has_discard_timer.
  destruct (discard_timer cfg) as [d|]; destruct (is_am cfg);
    cbn; rewrite ?Hst2, ?Hout2, ?Hsec2, ?Hm2, ?Hw2;
    cbn; rewrite u32_small by lia; rewrite Hdata, <- app_assoc;
    repeat split; reflexivity.
Qed.

End tx_send.

(** ** Receiver: a PDU in sequence *)

Ltac rx_simpl :=
  cbn [pdcp_entity_rx.st pdcp_entity_rx.rx_window pdcp_entity_rx.reordering_timer_running
       pdcp_entity_rx.max_count_notified pdcp_entity_rx.max_count_overflow
       pdcp_entity_rx.sec pdcp_entity_rx.metrics pdcp_entity_rx.out
       pdcp_entity_rx.rx_next pdcp_entity_rx.rx_deliv pdcp_entity_rx.rx_reord
       pdcp_entity_rx.set_st pdcp_entity_rx.set_rx_window
       pdcp_entity_rx.set_reordering_timer pdcp_entity_rx.set_max_count_notified
       pdcp_entity_rx.set_max_count_overflow pdcp_entity_rx.set_metrics
       pdcp_entity_rx.set_sec pdcp_entity_rx.emit
       pdcp_entity_rx.set_rx_next pdcp_entity_rx.set_rx_deliv pdcp_entity_rx.set_rx_reord
       pdcp_entity_rx.metrics_add_sdus pdcp_entity_rx.metrics_add_pdus
       pdcp_entity_rx.metrics_add_dropped_pdus
       pdcp_entity_rx.metrics_add_integrity_verified_pdus
       pdcp_entity_rx.metrics_add_integrity_failed_pdus
       pdcp_entity_rx.metrics_add_t_reordering_timeouts
       pdcp_entity_rx.advance_rx_deliv
       pdcp_entity_rx.num_pdus pdcp_entity_rx.num_pdu_bytes pdcp_entity_rx.num_dropped_pdus
       pdcp_entity_rx.num_sdus pdcp_entity_rx.num_sdu_bytes
       pdcp_entity_rx.num_integrity_verified_pdus pdcp_entity_rx.num_integrity_failed_pdus
       pdcp_entity_rx.num_t_reordering_timeouts
       pdcp_entity_rx.sdu pdcp_entity_rx.count
       negb andb orb fst snd].

Section rx_in_sync.
Import pdcp_entity_rx.
Variable prims : security_primitives.
Variable cfg : pdcp_rx_config.

Lemma handle_reordering_timers_idle (e : entity) :
  reordering_timer_running e = false ->
  rx_deliv (st e) = rx_next (st e) ->
  let e' := handle_reordering_timers cfg e in
  out e' = out e
  /\ rx_deliv (st e') = rx_deliv (st e)
  /\ rx_next (st e') = rx_next (st e)
  /\ rx_window e' = rx_window e
  /\ reordering_timer_running e' = false
  /\ sec e' = sec e
  /\ max_count_notified e' = max_count_notified e
  /\ max_count_overflow e' = max_count_overflow e
  /\ num_sdus (metrics e') = num_sdus (metrics e)
  /\ num_sdu_bytes (metrics e') = num_sdu_bytes (metrics e).
Proof.
  intros Ht Hd e'. unfold e', handle_reordering_timers. rewrite Ht. cbn [andb negb].
  rewrite Hd, Z.ltb_irrefl.
  destruct (t_reordering cfg);
    [|cbn [negb andb]; rewrite ?Ht; repeat split; auto..].
  unfold handle_t_reordering_expire. rx_simpl.
  rewrite Hd, Z.sub_diag. change (Z.to_nat (u32 0)) with 0%nat.
  cbn [deliver_below_reord_loop]. unfold deliver_all_consecutive_counts. rx_simpl.
  rewrite Hd, Z.sub_diag. change (Z.to_nat (u32 0)) with 0%nat.
  cbn [deliver_consecutive_loop]. rx_simpl. rewrite ?Hd, Z.ltb_irrefl. rx_simpl.
  rewrite ?Ht. repeat split; auto.
Qed.

Lemma store_and_deliver_in_sync (e : entity) (buf : byte_buffer) (c : Z) :
  rx_deliv (st e) = c -> rx_next (st e) = c ->
  has_sn (window_size cfg) (rx_window e) c = false ->
  reordering_timer_running e = false ->
  0 <= c -> c + 1 < 2 ^ 32 ->
  let e' := store_and_deliver cfg e buf c in
  out e' = out e ++ [on_new_sdu (discard_data_header cfg buf)]
  /\ rx_deliv (st e') = c + 1
  /\ rx_next (st e') = c + 1
  /\ rx_window e' = rx_window e
  /\ reordering_timer_running e' = false
  /\ sec e' = sec e
  /\ max_count_notified e' = max_count_notified e
  /\ max_count_overflow e' = max_count_overflow e
  /\ num_sdus (metrics e') = num_sdus (metrics e) + 1
  /\ num_sdu_bytes (metrics e')
     = num_sdu_bytes (metrics e) + Z.of_nat (length (discard_data_header cfg buf)).
Proof.
  intros Hd Hn Hfree Ht H0 H1 e'.
  assert (rx_window e !! slot_of (window_size cfg) c = None) as Hnone.
  { unfold has_sn in Hfree. destruct (rx_window e !! _); [discriminate|reflexivity]. }
  set (info := {| sdu := discard_data_header cfg buf; count := c |}).
  set (e2 := set_st (set_rx_window e (add_sn (window_size cfg) (rx_window e) c info))
               (set_rx_next (st e) (c + 1))).
  set (e3 := advance_rx_deliv
               (set_rx_window
                  (emit (metrics_add_sdus e2 1 (Z.of_nat (length (sdu info))))
                     (on_new_sdu (sdu info)))
                  (rx_window e))).
  assert (e' = handle_reordering_timers cfg e3) as He'.
  { unfold e', store_and_deliver. rewrite Hd, Z.ltb_irrefl.
    unfold window_at. rewrite Hnone. rx_simpl. rewrite Hn, Z.leb_refl. rx_simpl.
    rewrite Hd, Z.eqb_refl. rewrite (u32_small (c + 1)) by lia.
    fold info. fold e2. f_equal.
    unfold deliver_all_consecutive_counts.
    replace (rx_next (st e2) - rx_deliv (st e2)) with 1
      by (unfold e2; rx_simpl; lia).
    change (Z.to_nat (u32 1)) with 1%nat. cbn [deliver_consecutive_loop].
    assert (rx_deliv (st e2) = c) as Hd2 by (unfold e2; rx_simpl; exact Hd).
    assert (rx_next (st e2) = c + 1) as Hn2 by reflexivity.
    rewrite Hd2, Hn2.
    destruct (Z.eqb_spec c (c + 1)); [lia|]. cbn [negb andb].
    assert (rx_window e2 !! slot_of (window_size cfg) c = Some info) as Hin
        by (unfold e2, add_sn; rx_simpl; apply lookup_insert_eq).
    unfold has_sn. rewrite Hin.
    unfold deliver_at_rx_deliv, window_at. rewrite Hd2, Hin. unfold e3. f_equal.
    unfold set_rx_window. f_equal.
    unfold remove_sn, e2, add_sn. rx_simpl. rewrite ?Hd. apply delete_insert_id. exact Hnone. }
  assert (reordering_timer_running e3 = false) as Ht3 by (unfold e3, e2; rx_simpl; exact Ht).
  assert (rx_deliv (st e3) = rx_next (st e3)) as Hd3.
  { unfold e3, e2. rx_simpl. rewrite Hd. apply u32_small. lia. }
  destruct (handle_reordering_timers_idle e3 Ht3 Hd3)
    as (R1 & R2 & R3 & R4 & R5 & R6 & R7 & R8 & R9 & R10).
  rewrite He', R1, R2, R3, R4, R5, R6, R7, R8, R9, R10.
  unfold e3, e2. rx_simpl. rewrite Hd, (u32_small (c + 1)) by lia.
  repeat split; reflexivity.
Qed.

(** The entity behind the COUNT thresholds of [handle_data_pdu] for a PDU
    that passes the hard one. *)
Lemma handle_data_pdu_accepts (e : entity) (pdu : byte_buffer) (sn : Z) :
  hdr_len_bytes cfg < Z.of_nat (length pdu) ->
  read_data_pdu_header cfg pdu = Some sn ->
  let c := calc_rcvd_count cfg e sn in
  let d := decipher_and_extract_mac prims cfg e pdu c in
  c < hard (max_count cfg) ->
  (integrity_enabled (sec e) = true -> integrity_verify prims cfg e d.1 c d.2 = true) ->
  handle_data_pdu prims cfg e pdu
  = store_and_deliver cfg
      (let e1 := if (notify (max_count cfg) <? c) && negb (max_count_notified e)
                 then set_max_count_notified (emit e on_max_count_reached) true
                 else e in
       if integrity_enabled (sec e) then metrics_add_integrity_verified_pdus e1 1 else e1)
      d.1 c.
Proof.
  intros Hlen Hhdr c d Hhard Hmac. unfold handle_data_pdu.
  destruct (Z.leb_spec (Z.of_nat (length pdu)) (hdr_len_bytes cfg)); [lia|].
  rewrite Hhdr. fold c.
  set (e1 := if (notify (max_count cfg) <? c) && negb (max_count_notified e)
             then set_max_count_notified (emit e on_max_count_reached) true
             else e).
  destruct (Z.leb_spec (hard (max_count cfg)) c); [lia|].
  assert (sec e1 = sec e) as Hsec by (unfold e1; destruct (_ && _); reflexivity).
  rewrite (decipher_and_extract_mac_sec prims cfg e1 e pdu c Hsec). fold d.
  destruct d as [sdu_buf mac] eqn:Hd. cbn [fst snd] in *. rewrite Hsec.
  destruct (integrity_enabled (sec e)); [|reflexivity].
  rewrite (integrity_verify_sec prims cfg e1 e sdu_buf c mac Hsec).
  rewrite (Hmac eq_refl). reflexivity.
Qed.

End rx_in_sync.

Lemma rx_sdus_app (l1 l2 : list pdcp_entity_rx.rx_event) :
  rx_sdus (l1 ++ l2) = rx_sdus l1 ++ rx_sdus l2.
Proof. apply omap_app. Qed.

Lemma tx_pdus_app (l1 l2 : list pdcp_entity_tx.tx_event) :
  tx_pdus (l1 ++ l2) = tx_pdus l1 ++ tx_pdus l2.
Proof. apply omap_app. Qed.

Section hop.
Variable prims : security_primitives.
Variable cfg_tx : pdcp_entity_tx.pdcp_tx_config.
Variable cfg_rx : pdcp_entity_rx.pdcp_rx_config.
Hypothesis Hmatch : bearer_match cfg_tx cfg_rx.
Hypothesis Hmac : mac_primitives_ok prims.
Hypothesis Hciph : cipher_primitives_ok prims.

Lemma handle_data_pdu_in_sync (e_tx : pdcp_entity_tx.entity) (e_rx : pdcp_entity_rx.entity)
      (c : Z) (sdu : byte_buffer) :
  pdcp_entity_tx.sec e_tx = pdcp_entity_rx.sec e_rx ->
  sdu <> [] ->
  pdcp_entity_rx.rx_deliv (pdcp_entity_rx.st e_rx) = c ->
  pdcp_entity_rx.rx_next (pdcp_entity_rx.st e_rx) = c ->
  has_sn (pdcp_entity_rx.window_size cfg_rx) (pdcp_entity_rx.rx_window e_rx) c = false ->
  pdcp_entity_rx.reordering_timer_running e_rx = false ->
  0 <= c -> c + 1 < 2 ^ 32 ->
  c < hard (pdcp_entity_rx.max_count cfg_rx) ->
  let e' := pdcp_entity_rx.handle_data_pdu prims cfg_rx e_rx
              (data_pdu_for prims cfg_tx e_tx c sdu) in
  rx_sdus (pdcp_entity_rx.out e') = rx_sdus (pdcp_entity_rx.out e_rx) ++ [sdu]
  /\ pdcp_entity_rx.rx_deliv (pdcp_entity_rx.st e') = c + 1
  /\ pdcp_entity_rx.rx_next (pdcp_entity_rx.st e') = c + 1
  /\ pdcp_entity_rx.rx_window e' = pdcp_entity_rx.rx_window e_rx
  /\ pdcp_entity_rx.reordering_timer_running e' = false
  /\ pdcp_entity_rx.sec e' = pdcp_entity_rx.sec e_rx
  /\ pdcp_entity_rx.num_sdus (pdcp_entity_rx.metrics e')
     = pdcp_entity_rx.num_sdus (pdcp_entity_rx.metrics e_rx) + 1
  /\ (c <= notify (pdcp_entity_rx.max_count cfg_rx) ->
      pdcp_entity_rx.out e' = pdcp_entity_rx.out e_rx ++ [pdcp_entity_rx.on_new_sdu sdu]).
Proof.
  intros Hsec Hsdu Hd Hn Hfree Ht H0 H1 Hhard e'.
  destruct (data_pdu_for_unprotect prims cfg_tx cfg_rx Hmatch Hmac Hciph e_tx e_rx c sdu
              Hsec Hsdu) as (Hlen & Hread & Hver & Hsdu').
  assert (pdcp_entity_rx.calc_rcvd_count cfg_rx e_rx (SN (pdcp_entity_rx.sn_size cfg_rx) c) = c)
    as Hc.
  { unfold pdcp_entity_rx.calc_rcvd_count. rewrite Hd.
    apply count_from_sn_window; unfold is_u32, in_count_window;
      pose proof (window_size_pos (pdcp_entity_rx.sn_size cfg_rx)); lia. }
  pose proof (handle_data_pdu_accepts prims cfg_rx e_rx _ _ Hlen Hread) as Hacc.
  cbv zeta in Hacc. rewrite Hc in Hacc. specialize (Hacc Hhard Hver).
  set (e1 := if (notify (pdcp_entity_rx.max_count cfg_rx) <? c)
                && negb (pdcp_entity_rx.max_count_notified e_rx)
             then pdcp_entity_rx.set_max_count_notified
                    (pdcp_entity_rx.emit e_rx pdcp_entity_rx.on_max_count_reached) true
             else e_rx) in *.
  set (e2 := if integrity_enabled (pdcp_entity_rx.sec e_rx)
             then pdcp_entity_rx.metrics_add_integrity_verified_pdus e1 1 else e1) in *.
  assert (pdcp_entity_rx.st e2 = pdcp_entity_rx.st e_rx
          /\ pdcp_entity_rx.rx_window e2 = pdcp_entity_rx.rx_window e_rx
          /\ pdcp_entity_rx.reordering_timer_running e2
             = pdcp_entity_rx.reordering_timer_running e_rx
          /\ pdcp_entity_rx.sec e2 = pdcp_entity_rx.sec e_rx
          /\ pdcp_entity_rx.num_sdus (pdcp_entity_rx.metrics e2)
             = pdcp_entity_rx.num_sdus (pdcp_entity_rx.metrics e_rx)
          /\ rx_sdus (pdcp_entity_rx.out e2) = rx_sdus (pdcp_entity_rx.out e_rx)
          /\ (c <= notify (pdcp_entity_rx.max_count cfg_rx) ->
              pdcp_entity_rx.out e2 = pdcp_entity_rx.out e_rx))
    as (Hst2 & Hw2 & Ht2 & Hsec2 & Hm2 & Hout2 & Hout2').
  { unfold e2, e1.
    destruct (integrity_enabled (pdcp_entity_rx.sec e_rx));
      destruct (Z.ltb_spec (notify (pdcp_entity_rx.max_count cfg_rx)) c);
      destruct (pdcp_entity_rx.max_count_notified e_rx); cbn;
      rewrite ?rx_sdus_app, ?app_nil_r; repeat split; auto; lia. }
  destruct (store_and_deliver_in_sync cfg_rx e2
              (pdcp_entity_rx.decipher_and_extract_mac prims cfg_rx e_rx
                 (data_pdu_for prims cfg_tx e_tx c sdu) c).1 c)
    as (R1 & R2 & R3 & R4 & R5 & R6 & _ & _ & R9 & _);
    rewrite ?Hst2, ?Hw2, ?Ht2; auto.
  fold e' in Hacc. rewrite <- Hacc in *. rewrite Hsdu' in R1.
  rewrite R1, R2, R3, R4, R5, R6, R9, rx_sdus_app, Hout2, Hw2, Hsec2, Hm2.
  repeat split; try reflexivity.
  intros Hle. rewrite (Hout2' Hle). reflexivity.
Qed.

End hop.

(** ** From the transmitter to the receiver *)

Section tx_stream.
Import pdcp_entity_tx.
Variable prims : security_primitives.
Variable cfg : pdcp_tx_config.
Hypothesis Hcfg : tx_config_ok cfg.

Lemma handle_sdu_stream_step (e0 e : entity) (sent : list byte_buffer) (buf : byte_buffer) :
  burst_state prims cfg e0 sent e ->
  Z.of_nat (length sent) < window_size cfg - 1 ->
  Z.of_nat (length sent) < rlc_sdu_queue (custom cfg) ->
  Z.of_nat (length sent) < notify (max_count (custom cfg)) ->
  Z.of_nat (length sent) < hard (max_count (custom cfg)) ->
  burst_state prims cfg e0 (sent ++ [buf]) (handle_sdu prims cfg buffers_ok e buf).
Proof.
  intros (Hst & Hw & Hsec & Hout) HW Hq Hn Hh.
  set (k := Z.of_nat (length sent)) in *.
  assert (0 <= k) as Hk0 by (subst k; lia).
  pose proof (window_size_u32 (sn_size cfg)) as HWu. fold (window_size cfg) in HWu.
  assert (slot_of (window_size cfg) k = k) as Hslot
      by (unfold slot_of; apply Z.mod_small; lia).
  destruct (handle_sdu_sends prims cfg e buf Hcfg) as (R1 & R2 & R3 & R4 & _).
  - rewrite Hst. exact Hk0.
  - unfold tx_admits. rewrite Hst. cbn [tx_next tx_trans]. rewrite Z.sub_0_r.
    rewrite !u32_small by lia.
    destruct (Z.ltb_spec k 0); [lia|].
    destruct (Z.leb_spec (rlc_sdu_queue (custom cfg)) k); [lia|].
    destruct (Z.leb_spec (window_size cfg - 1) k); [lia|]. reflexivity.
  - rewrite Hst. exact Hh.
  - rewrite Hst. cbn [tx_next]. unfold has_sn. rewrite Hslot.
    destruct (tx_window e !! k) as [x|] eqn:Hx; [|reflexivity].
    apply Hw in Hx. lia.
  - rewrite Hst in R1, R2. cbn [tx_next] in R1, R2.
    destruct (Z.leb_spec (notify (max_count (custom cfg))) k); [lia|].
    cbn [andb app] in R1.
    unfold burst_state. rewrite length_app. cbn [length].
    replace (Z.of_nat (length sent + 1)) with (k + 1) by (subst k; lia).
    split; [exact R2|]. split; [|split].
    + intros j x. rewrite R3. unfold tx_stored. rewrite Hst. cbn [tx_next].
      destruct (discard_timer cfg) as [d|].
      * unfold add_sn. rewrite Hslot.
        destruct (decide (k = j)) as [<-|Hne]; [lia|].
        rewrite lookup_insert_ne by exact Hne. intros Hj. apply Hw in Hj. lia.
      * intros Hj. apply Hw in Hj. lia.
    + rewrite R4. exact Hsec.
    + rewrite R1, Hout, pdus_from_app, <- app_assoc. cbn [pdus_from].
      rewrite Z.add_0_l. fold k. f_equal. f_equal. f_equal.
      unfold data_pdu_for.
      destruct (write_data_pdu_header cfg buffers_ok buf (SN (sn_size cfg) k)); [|reflexivity].
      rewrite (apply_security_sec prims cfg buffers_ok e e0 _ k Hsec). reflexivity.
Qed.

Lemma handle_sdus_stream (e0 : entity) (bufs sent : list byte_buffer) (e : entity) :
  burst_state prims cfg e0 sent e ->
  Z.of_nat (length sent + length bufs) <= window_size cfg - 1 ->
  Z.of_nat (length sent + length bufs) <= rlc_sdu_queue (custom cfg) ->
  Z.of_nat (length sent + length bufs) <= notify (max_count (custom cfg)) ->
  Z.of_nat (length sent + length bufs) <= hard (max_count (custom cfg)) ->
  burst_state prims cfg e0 (sent ++ bufs) (handle_sdus prims cfg e (with_buffers_ok bufs)).
Proof.
  revert sent e. induction bufs as [|buf bufs IH]; intros sent e He HW Hq Hn Hh.
  - rewrite app_nil_r. exact He.
  - cbn [length] in HW, Hq, Hn, Hh.
    replace (sent ++ buf :: bufs) with ((sent ++ [buf]) ++ bufs)
      by (rewrite <- app_assoc; reflexivity).
    unfold handle_sdus, with_buffers_ok. cbn [map fold_left fst snd].
    apply IH; rewrite ?length_app; cbn [length];
      try (replace (length sent + 1 + length bufs)%nat
             with (length sent + S (length bufs))%nat by lia; assumption).
    apply handle_sdu_stream_step; [exact He|lia..].
Qed.

End tx_stream.

Lemma tx_pdus_cons (buf : byte_buffer) (is_retx : bool) (l : list pdcp_entity_tx.tx_event) :
  tx_pdus (pdcp_entity_tx.on_new_pdu buf is_retx :: l) = buf :: tx_pdus l.
Proof. reflexivity. Qed.

Lemma tx_pdus_pdus_from prims cfg (e0 : pdcp_entity_tx.entity) (c : Z)
      (sdus : list byte_buffer) :
  tx_pdus (pdus_from prims cfg e0 c sdus)
  = imap (fun i sdu => data_pdu_for prims cfg e0 (c + Z.of_nat i) sdu) sdus.
Proof.
  revert c. induction sdus as [|sdu sdus IH]; intros c; [reflexivity|].
  cbn [pdus_from imap]. rewrite tx_pdus_cons, Z.add_0_r. f_equal.
  rewrite IH.
  apply imap_ext. intros i x _. cbn. f_equal. lia.
Qed.

Lemma pdcp_pdu_get_dc_data (x : Z) : pdcp_entity_rx.pdcp_pdu_get_dc (Z.lor 128 x) = 1.
Proof.
  unfold pdcp_entity_rx.pdcp_pdu_get_dc. apply Z.bits_inj'. intros n Hn.
  rewrite Z.shiftr_spec, Z.land_spec, Z.lor_spec by lia.
  change 128 with (2 ^ 7). change 1 with (2 ^ 0).
  rewrite !Z.pow2_bits_eqb by lia.
  destruct (Z.eqb_spec 7 (n + 7)), (Z.eqb_spec 0 n); try lia; try reflexivity.
Qed.

Section end_to_end.
Variable prims : security_primitives.
Variable cfg_tx : pdcp_entity_tx.pdcp_tx_config.
Variable cfg_rx : pdcp_entity_rx.pdcp_rx_config.
Hypothesis Hmatch : bearer_match cfg_tx cfg_rx.

(** The header of a data PDU is sent in the clear: on a DRB its first byte
    carries D/C = 1. *)
Lemma data_pdu_for_dc (e : pdcp_entity_tx.entity) (c : Z) (sdu : byte_buffer) :
  pdcp_entity_tx.is_drb cfg_tx = true ->
  exists b rest,
    data_pdu_for prims cfg_tx e c sdu = b :: rest
    /\ pdcp_entity_rx.pdcp_pdu_get_dc b = 1.
Proof.
  intros Hdrb. unfold data_pdu_for, pdcp_entity_tx.write_data_pdu_header.
  cbn [buffers_ok prepend_ok negb]. rewrite Hdrb.
  unfold pdcp_entity_tx.apply_ciphering_and_integrity_protection, pdcp_entity_tx.hdr_len.
  cbn [buffers_ok append_ok negb].
  set (appended := pdcp_entity_tx.is_srb cfg_tx || _).
  set (ciphered := ciphering_enabled _ && _).
  destruct (pdcp_entity_tx.sn_size cfg_tx); cbn [pdcp_sn_size_to_uint Z.eqb];
    destruct appended; cbn [negb andb];
    destruct ciphered; cbn [default Z.to_nat Pos.to_nat Pos.iter_op Init.Nat.add take app];
    eexists _, _; (split; [reflexivity|apply pdcp_pdu_get_dc_data]).
Qed.

Lemma handle_pdu_data_pdu_for (e_tx : pdcp_entity_tx.entity) (e_rx : pdcp_entity_rx.entity)
      (c : Z) (sdu : byte_buffer) :
  let pdu := data_pdu_for prims cfg_tx e_tx c sdu in
  pdu <> [] ->
  pdcp_entity_rx.handle_pdu prims cfg_rx e_rx pdu
  = pdcp_entity_rx.handle_data_pdu prims cfg_rx
      (pdcp_entity_rx.metrics_add_pdus e_rx 1 (Z.of_nat (length pdu))) pdu.
Proof.
  intros pdu Hne. unfold pdcp_entity_rx.handle_pdu.
  destruct Hmatch as (Hrb & _).
  unfold pdcp_entity_rx.is_srb. rewrite <- Hrb.
  destruct (pdcp_entity_tx.rb_type cfg_tx) eqn:Hty.
  - destruct pdu; [contradiction|reflexivity].
  - destruct (data_pdu_for_dc e_tx c sdu) as (b & rest & Hpdu & Hdc).
    { unfold pdcp_entity_tx.is_drb. rewrite Hty. reflexivity. }
    fold pdu in Hpdu. clearbody pdu. subst pdu. cbn [orb]. rewrite Hdc. reflexivity.
Qed.

Hypothesis Hmac : mac_primitives_ok prims.
Hypothesis Hciph : cipher_primitives_ok prims.

Lemma handle_pdu_in_sync (e_tx : pdcp_entity_tx.entity) (e_rx : pdcp_entity_rx.entity)
      (c : Z) (sdu : byte_buffer) :
  pdcp_entity_tx.sec e_tx = pdcp_entity_rx.sec e_rx ->
  sdu <> [] ->
  pdcp_entity_rx.rx_deliv (pdcp_entity_rx.st e_rx) = c ->
  pdcp_entity_rx.rx_next (pdcp_entity_rx.st e_rx) = c ->
  has_sn (pdcp_entity_rx.window_size cfg_rx) (pdcp_entity_rx.rx_window e_rx) c = false ->
  pdcp_entity_rx.reordering_timer_running e_rx = false ->
  0 <= c -> c + 1 < 2 ^ 32 ->
  c < hard (pdcp_entity_rx.max_count cfg_rx) ->
  let e' := pdcp_entity_rx.handle_pdu prims cfg_rx e_rx
              (data_pdu_for prims cfg_tx e_tx c sdu) in
  rx_sdus (pdcp_entity_rx.out e') = rx_sdus (pdcp_entity_rx.out e_rx) ++ [sdu]
  /\ pdcp_entity_rx.rx_deliv (pdcp_entity_rx.st e') = c + 1
  /\ pdcp_entity_rx.rx_next (pdcp_entity_rx.st e') = c + 1
  /\ pdcp_entity_rx.rx_window e' = pdcp_entity_rx.rx_window e_rx
  /\ pdcp_entity_rx.reordering_timer_running e' = false
  /\ pdcp_entity_rx.sec e' = pdcp_entity_rx.sec e_rx
  /\ pdcp_entity_rx.num_sdus (pdcp_entity_rx.metrics e')
     = pdcp_entity_rx.num_sdus (pdcp_entity_rx.metrics e_rx) + 1
  /\ (c <= notify (pdcp_entity_rx.max_count cfg_rx) ->
      pdcp_entity_rx.out e' = pdcp_entity_rx.out e_rx ++ [pdcp_entity_rx.on_new_sdu sdu]).
Proof.
  intros Hsec Hsdu Hd Hn Hfree Ht H0 H1 Hh. cbv zeta.
  rewrite handle_pdu_data_pdu_for.
  - apply (handle_data_pdu_in_sync prims cfg_tx cfg_rx Hmatch Hmac Hciph e_tx
             (pdcp_entity_rx.metrics_add_pdus e_rx 1 _) c sdu); assumption.
  - destruct (data_pdu_for_unprotect prims cfg_tx cfg_rx Hmatch Hmac Hciph e_tx e_rx c sdu
                Hsec Hsdu) as (Hlen & _).
    intros Hnil. rewrite Hnil in Hlen. cbn in Hlen.
    unfold pdcp_entity_rx.hdr_len_bytes in Hlen.
    destruct (pdcp_entity_rx.sn_size cfg_rx); cbn in Hlen; lia.
Qed.

Lemma handle_pdus_in_sync (e_tx : pdcp_entity_tx.entity) (sdus : list byte_buffer)
      (c : Z) (e_rx : pdcp_entity_rx.entity) :
  pdcp_entity_tx.sec e_tx = pdcp_entity_rx.sec e_rx ->
  Forall (fun sdu => sdu <> []) sdus ->
  pdcp_entity_rx.rx_deliv (pdcp_entity_rx.st e_rx) = c ->
  pdcp_entity_rx.rx_next (pdcp_entity_rx.st e_rx) = c ->
  pdcp_entity_rx.rx_window e_rx = ∅ ->
  pdcp_entity_rx.reordering_timer_running e_rx = false ->
  0 <= c -> c + Z.of_nat (length sdus) < 2 ^ 32 ->
  c + Z.of_nat (length sdus) <= hard (pdcp_entity_rx.max_count cfg_rx) ->
  let e' := fold_left (pdcp_entity_rx.handle_pdu prims cfg_rx)
              (tx_pdus (pdus_from prims cfg_tx e_tx c sdus)) e_rx in
  rx_sdus (pdcp_entity_rx.out e') = rx_sdus (pdcp_entity_rx.out e_rx) ++ sdus
  /\ pdcp_entity_rx.rx_deliv (pdcp_entity_rx.st e') = c + Z.of_nat (length sdus)
  /\ pdcp_entity_rx.rx_next (pdcp_entity_rx.st e') = c + Z.of_nat (length sdus)
  /\ pdcp_entity_rx.rx_window e' = ∅
  /\ pdcp_entity_rx.reordering_timer_running e' = false.
Proof.
  revert c e_rx. induction sdus as [|sdu sdus IH]; intros c e_rx Hsec Hne Hd Hn Hw Ht H0 H1 Hh.
  - cbn. rewrite app_nil_r, Z.add_0_r. auto.
  - apply Forall_cons in Hne as [Hsdu Hne]. cbn [length] in H1, Hh.
    cbn [pdus_from]. rewrite tx_pdus_cons. cbn [fold_left].
    destruct (handle_pdu_in_sync e_tx e_rx c sdu)
      as (R1 & R2 & R3 & R4 & R5 & R6 & _); auto; try lia.
    { unfold has_sn. rewrite Hw, lookup_empty. reflexivity. }
    set (e1 := pdcp_entity_rx.handle_pdu prims cfg_rx e_rx
                 (data_pdu_for prims cfg_tx e_tx c sdu)) in *.
    destruct (IH (c + 1) e1) as (S1 & S2 & S3 & S4 & S5); auto; try lia.
    { rewrite R6. exact Hsec. }
    { rewrite R4. exact Hw. }
    cbv zeta. rewrite S1, S2, S3, S4, S5, R1, <- app_assoc. cbn [length app].
    repeat split; try reflexivity; lia.
Qed.

End end_to_end.

(** ** Transmitter: notifications of the lower layers and discards *)

Section tx_notifications.
Import pdcp_entity_tx.
Variable cfg : pdcp_tx_config.

Lemma stop_timers_loop_window fuel (w : gmap Z pdcp_tx_sdu_info) highest ack :
  0 <= ack -> highest + 1 < 2 ^ 32 ->
  Z.of_nat fuel = highest - ack + 1 ->
  let w' := (stop_timers_loop cfg fuel w highest ack).1 in
  (forall c, ack <= c <= highest -> w' !! slot_of (window_size cfg) c = None)
  /\ (forall k, (forall c, ack <= c <= highest -> slot_of (window_size cfg) c <> k) ->
                w' !! k = w !! k)
  /\ (forall k x, w' !! k = Some x -> w !! k = Some x).
Proof.
  revert w ack. induction fuel as [|fuel IH]; intros w ack H0 Hh Hfuel; cbn zeta.
  - cbn [stop_timers_loop fst]. split; [intros c Hc; lia|]. split; auto.
  - cbn [stop_timers_loop]. destruct (Z.leb_spec ack highest) as [Hle|]; [|lia].
    rewrite u32_small by lia.
    set (w1 := if has_sn (window_size cfg) w ack then remove_sn (window_size cfg) w ack else w).
    assert (forall k, w1 !! k = if decide (k = slot_of (window_size cfg) ack) then None
                                else w !! k) as Hw1.
    { intros k. unfold w1, has_sn, remove_sn.
      destruct (w !! slot_of (window_size cfg) ack) eqn:Hlk.
      - destruct (decide (k = _)) as [->|Hne];
          [apply lookup_delete_eq|apply lookup_delete_ne; congruence].
      - destruct (decide (k = _)) as [->|Hne]; [exact Hlk|reflexivity]. }
    destruct (IH w1 (ack + 1)) as (I1 & I2 & I3); [lia..|].
    split; [|split].
    + intros c Hc. destruct (Z.eq_dec c ack) as [->|Hne]; [|apply I1; lia].
      destruct ((stop_timers_loop cfg fuel w1 highest (ack + 1)).1
                  !! slot_of (window_size cfg) ack) as [x|] eqn:Hx; [|reflexivity].
      apply I3 in Hx. rewrite Hw1 in Hx. destruct (decide _); [discriminate|congruence].
    + intros k Hk. rewrite I2 by (intros c Hc; apply Hk; lia).
      rewrite Hw1. destruct (decide _) as [->|]; [|reflexivity].
      exfalso. apply (Hk ack); [lia|reflexivity].
    + intros k x Hx. apply I3 in Hx. rewrite Hw1 in Hx.
      destruct (decide _); [discriminate|exact Hx].
Qed.

Lemma stop_discard_timer_consistent (e : entity) (highest : Z) :
  tx_window_consistent cfg e -> has_discard_timer cfg = true ->
  tx_next_ack (st e) <= highest < tx_next (st e) ->
  let e' := stop_discard_timer cfg e highest in
  tx_window_consistent cfg e'
  /\ tx_next_ack (st e') = highest + 1
  /\ tx_trans (st e') = Z.max (tx_trans (st e)) (highest + 1)
  /\ tx_next (st e') = tx_next (st e)
  /\ (forall c, tx_entry cfg e' c = if decide (c <= highest) then None else tx_entry cfg e c)
  /\ out e' = out e
  /\ metrics e' = metrics e.
Proof.
  intros Hcons Htimer Hh e'. pose proof Hcons as (Hord & Hspan & Hall & _).
  destruct Hord as (H0 & H1 & H2 & H3).
  pose proof (tx_window_size_pos cfg) as Hpos.
  unfold e', stop_discard_timer. rewrite Htimer. cbn [negb].
  destruct (Z.ltb_spec highest (tx_next_ack (st e))); [lia|].
  destruct (Z.leb_spec (tx_next (st e)) highest); [lia|]. cbn [orb].
  pose proof (stop_timers_loop_ack cfg (Z.to_nat (highest - tx_next_ack (st e) + 1))
                (tx_window e) highest (tx_next_ack (st e)) H0 ltac:(lia) ltac:(lia)) as Hack.
  destruct (stop_timers_loop_window (Z.to_nat (highest - tx_next_ack (st e) + 1))
              (tx_window e) highest (tx_next_ack (st e)) H0 ltac:(lia) ltac:(lia))
    as (I1 & I2 & I3).
  destruct (stop_timers_loop cfg _ (tx_window e) highest (tx_next_ack (st e)))
    as [w' ack'] eqn:Hloop.
  cbn [fst snd] in Hack, I1, I2, I3. subst ack'.
  cbn [st set_st set_tx_window tx_window out metrics set_tx_next_ack].
  assert (clamp_tx_trans (set_tx_next_ack (st e) (highest + 1))
          = {| tx_next := tx_next (st e);
               tx_trans := Z.max (tx_trans (st e)) (highest + 1);
               tx_next_ack := highest + 1 |}) as ->.
  { unfold clamp_tx_trans. cbn [set_tx_next_ack tx_trans tx_next_ack tx_next set_tx_trans].
    destruct (Z.ltb_spec (tx_trans (st e)) (highest + 1)); unfold set_tx_trans, set_tx_next_ack; cbn [tx_next tx_trans tx_next_ack]; f_equal; lia. }
  cbn [tx_next tx_trans tx_next_ack].
  assert (forall k x, w' !! k = Some x ->
                      highest + 1 <= count x /\ count x < tx_next (st e)
                      /\ k = slot_of (window_size cfg) (count x)) as Hall'.
  { intros k x Hx. pose proof (I3 _ _ Hx) as Hx0.
    destruct (Hall _ _ Hx0) as (Hlo & Hhi & Hslot).
    split; [|split; assumption].
    destruct (Z.lt_ge_cases highest (count x)) as [|Hle]; [lia|].
    rewrite Hslot in Hx. rewrite (I1 (count x)) in Hx by lia. discriminate. }
  split; [|split; [reflexivity|split; [reflexivity|split; [reflexivity|split;
                                                            [|split; reflexivity]]]]].
  - unfold tx_window_consistent. cbn [st set_st set_tx_window tx_window].
    split; [unfold tx_ordered; cbn; lia|]. split; [cbn; lia|].
    split; [|intros Hf; rewrite Htimer in Hf; discriminate].
    intros k x Hx. cbn [tx_next tx_next_ack]. apply Hall' in Hx. exact Hx.
  - intros c. unfold tx_entry. cbn [tx_window set_st set_tx_window].
    destruct (w' !! slot_of (window_size cfg) c) as [x|] eqn:Hx.
    + pose proof (I3 _ _ Hx) as Hx0. rewrite Hx0.
      destruct (Z.eqb_spec (count x) c) as [Heq|Hne];
        destruct (decide (c <= highest)) as [Hle|Hgt]; try reflexivity.
      destruct (Hall' _ _ Hx) as (Hlo & _). lia.
    + destruct (decide (c <= highest)) as [Hle|Hgt]; [reflexivity|].
      destruct (tx_window e !! slot_of (window_size cfg) c) as [y|] eqn:Hy; [|reflexivity].
      destruct (Z.eqb_spec (count y) c) as [Heq|Hne]; [|reflexivity].
      exfalso. destruct (Hall _ _ Hy) as (Hlo & Hhi & _).
      rewrite I2 in Hx; [congruence|].
      intros c' Hc' Hslot. unfold slot_of in Hslot.
      assert (c' = c); [|lia].
      apply (mod_eq_close (window_size cfg)); [exact Hpos|exact Hslot|lia].
Qed.


Lemma notification_count_in_window (e : entity) (c : Z) :
  tx_ordered (st e) ->
  let lower := if has_discard_timer cfg then tx_next_ack (st e) else tx_trans (st e) in
  tx_next (st e) - lower <= window_size cfg ->
  lower <= c < tx_next (st e) ->
  notification_count_estimation cfg e (SN (sn_size cfg) c) = c
  /\ SN (sn_size cfg) c < pdcp_sn_cardinality (sn_size cfg).
Proof.
  intros (H0 & H1 & H2 & H3) lower Hspan Hc.
  split; [|apply SN_range].
  unfold notification_count_estimation. fold lower.
  assert (0 <= lower <= tx_next (st e)) by (unfold lower; destruct (has_discard_timer cfg); lia).
  apply count_from_sn_window; unfold is_u32, in_count_window; unfold window_size in Hspan; lia.
Qed.

(** [handle_delivery_notification] on an AM bearer with discard timers: the
    COUNT of the notification is resolved against TX_NEXT_ACK and every
    entry up to it leaves the window. *)
Lemma handle_delivery_notification_am (e : entity) (c : Z) :
  tx_window_consistent cfg e -> has_discard_timer cfg = true -> is_am cfg = true ->
  tx_next_ack (st e) <= c < tx_next (st e) ->
  handle_delivery_notification cfg e (SN (sn_size cfg) c) = stop_discard_timer cfg e c.
Proof.
  intros (Hord & Hspan & _) Htimer Ham Hc.
  destruct (notification_count_in_window e c Hord) as [Hcount Hsn];
    rewrite ?Htimer; [exact Hspan|exact Hc|].
  unfold handle_delivery_notification.
  destruct (Z.leb_spec (pdcp_sn_cardinality (sn_size cfg)) (SN (sn_size cfg) c)); [lia|].
  rewrite Hcount.
  destruct (Z.leb_spec (tx_next (st e)) c); [lia|].
  rewrite Htimer, Ham. reflexivity.
Qed.

Lemma handle_transmit_notification_in_window (e : entity) (c : Z) :
  tx_ordered (st e) ->
  tx_next (st e) - (if has_discard_timer cfg then tx_next_ack (st e) else tx_trans (st e))
    <= window_size cfg ->
  tx_trans (st e) <= c < tx_next (st e) ->
  handle_transmit_notification cfg e (SN (sn_size cfg) c)
  = let e1 := set_st e (set_tx_trans (st e) (c + 1)) in
    if has_discard_timer cfg && is_um cfg then stop_discard_timer cfg e1 c else e1.
Proof.
  intros Hord Hspan Hc. pose proof Hord as (H0 & H1 & H2 & H3).
  destruct (notification_count_in_window e c Hord Hspan) as [Hcount Hsn].
  { destruct (has_discard_timer cfg); lia. }
  unfold handle_transmit_notification.
  destruct (Z.leb_spec (pdcp_sn_cardinality (sn_size cfg)) (SN (sn_size cfg) c)); [lia|].
  rewrite Hcount.
  destruct (Z.ltb_spec c (tx_trans (st e))); [lia|].
  destruct (Z.leb_spec (tx_next (st e)) c); [lia|].
  rewrite u32_small by lia. cbv zeta.
  destruct (has_discard_timer cfg); destruct (is_um cfg); reflexivity.
Qed.


Lemma advance_tx_next_ack_stops fuel (w : gmap Z pdcp_tx_sdu_info) next ack :
  0 <= ack <= next -> next < 2 ^ 32 -> next - ack <= Z.of_nat fuel ->
  advance_tx_next_ack cfg fuel w next ack = next
  \/ has_sn (window_size cfg) w (advance_tx_next_ack cfg fuel w next ack) = true.
Proof.
  revert ack. induction fuel as [|fuel IH]; intros ack Hack Hnext Hfuel;
    cbn [advance_tx_next_ack].
  - left. lia.
  - destruct (Z.ltb_spec ack next) as [Hlt|Hge]; cbn [andb]; [|left; lia].
    destruct (has_sn (window_size cfg) w ack) eqn:Hhas; cbn [negb]; [right; exact Hhas|].
    rewrite u32_small by lia. apply IH; lia.
Qed.

Lemma discard_pdu_absent (e : entity) (c : Z) :
  has_sn (window_size cfg) (tx_window e) c = false -> discard_pdu cfg e c = e.
Proof.
  intros Hhas. unfold discard_pdu. rewrite Hhas. cbn [negb].
  destruct (negb _); [reflexivity|]. destruct (_ || _); reflexivity.
Qed.

Lemma discard_pdu_idempotent (e : entity) (c : Z) :
  discard_pdu cfg (discard_pdu cfg e c) c = discard_pdu cfg e c.
Proof.
  assert (discard_pdu cfg e c = e
          \/ has_sn (window_size cfg) (tx_window (discard_pdu cfg e c)) c = false) as [H|H].
  { unfold discard_pdu.
    destruct (negb (has_discard_timer cfg)); [left; reflexivity|].
    destruct (_ || _); [left; reflexivity|].
    destruct (negb (has_sn _ _ _)); [left; reflexivity|].
    right. cbn [tx_window set_st set_tx_window emit].
    unfold has_sn, remove_sn. rewrite lookup_delete_eq. reflexivity. }
  - rewrite H. exact H.
  - apply discard_pdu_absent. exact H.
Qed.

(** When [discard_pdu] removes an entry, TX_NEXT_ACK ends at TX_NEXT or at
    a COUNT whose slot is occupied. *)
Lemma discard_pdu_lower_edge (e : entity) (c : Z) :
  tx_ordered (st e) -> has_discard_timer cfg = true ->
  tx_next_ack (st e) <= c < tx_next (st e) ->
  has_sn (window_size cfg) (tx_window e) c = true ->
  let e' := discard_pdu cfg e c in
  tx_next_ack (st e') = tx_next (st e')
  \/ has_sn (window_size cfg) (tx_window e') (tx_next_ack (st e')) = true.
Proof.
  intros (H0 & H1 & H2 & H3) Htimer Hc Hhas e'.
  unfold e', discard_pdu. rewrite Htimer, Hhas. cbn [negb].
  destruct (Z.ltb_spec c (tx_next_ack (st e))); [lia|].
  destruct (Z.leb_spec (tx_next (st e)) c); [lia|]. cbn [orb].
  cbn [st set_st set_tx_window emit tx_window tx_next tx_next_ack set_tx_next_ack].
  assert (forall s, tx_next (clamp_tx_trans s) = tx_next s
                    /\ tx_next_ack (clamp_tx_trans s) = tx_next_ack s) as Hclamp.
  { intros s. unfold clamp_tx_trans. destruct (_ <? _); split; reflexivity. }
  destruct (Hclamp (set_tx_next_ack (st e)
                      (advance_tx_next_ack cfg
                         (Z.to_nat (tx_next (st e) - tx_next_ack (st e)))
                         (remove_sn (window_size cfg) (tx_window e) c)
                         (tx_next (st e)) (tx_next_ack (st e))))) as [-> ->].
  cbn [set_tx_next_ack tx_next tx_next_ack].
  apply advance_tx_next_ack_stops; lia.
Qed.

End tx_notifications.

(** ** Transmitter: the stored entries in every reachable state *)

Section tx_entries.
Import pdcp_entity_tx.
Variable prims : security_primitives.
Variable cfg : pdcp_tx_config.












End tx_entries.




(** ** Transmitter: retransmission *)

Section tx_retransmit.
Import pdcp_entity_tx.
Variable prims : security_primitives.
Variable cfg : pdcp_tx_config.

Lemma data_pdu_for_sec (e1 e2 : entity) (c : Z) (buf : byte_buffer) :
  sec e1 = sec e2 -> data_pdu_for prims cfg e1 c buf = data_pdu_for prims cfg e2 c buf.
Proof.
  intros Hsec. unfold data_pdu_for.
  destruct (write_data_pdu_header cfg buffers_ok buf (SN (sn_size cfg) c)); [|reflexivity].
  rewrite (apply_security_sec prims cfg buffers_ok e1 e2 _ c Hsec). reflexivity.
Qed.

Lemma retransmissions_frame (e1 e2 : entity) (counts : list Z) :
  tx_window e1 = tx_window e2 -> sec e1 = sec e2 ->
  retransmissions prims cfg e1 counts = retransmissions prims cfg e2 counts.
Proof.
  intros Hw Hsec. induction counts as [|c counts IH]; [reflexivity|].
  cbn [retransmissions]. rewrite IH, Hw.
  destruct (window_at _ _ c); [|reflexivity].
  rewrite (data_pdu_for_sec e1 e2 _ _ Hsec). reflexivity.
Qed.

Lemma retransmit_loop_ok (counts : list Z) (e : entity) :
  let e' := retransmit_loop prims cfg all_buffers_ok counts e in
  out e' = out e ++ retransmissions prims cfg e counts
  /\ st e' = st e /\ tx_window e' = tx_window e /\ sec e' = sec e
  /\ max_count_notified e' = max_count_notified e
  /\ max_count_overflow e' = max_count_overflow e
  /\ num_pdus (metrics e')
     = num_pdus (metrics e) + Z.of_nat (length (retransmissions prims cfg e counts))
  /\ num_sdus (metrics e') = num_sdus (metrics e)
  /\ num_discard_timeouts (metrics e') = num_discard_timeouts (metrics e).
Proof.
  revert e. induction counts as [|c counts IH]; intros e; cbn zeta.
  - cbn. rewrite app_nil_r, Z.add_0_r. repeat split; reflexivity.
  - cbn [retransmit_loop retransmissions].
    destruct (window_at (window_size cfg) (tx_window e) c) as [info|] eqn:Hat.
    + cbn [all_buffers_ok buffers_ok deep_copy_ok negb].
      destruct (write_data_pdu_header_ok cfg (sdu info) (SN (sn_size cfg) (count info)))
        as [hdr Hhdr].
      change (write_data_pdu_header cfg (all_buffers_ok c))
        with (write_data_pdu_header cfg buffers_ok).
      rewrite Hhdr.
      destruct (apply_security_ok prims cfg e hdr (count info)) as [pdu Hpdu].
      change (apply_ciphering_and_integrity_protection prims cfg (all_buffers_ok c))
        with (apply_ciphering_and_integrity_protection prims cfg buffers_ok).
      rewrite Hpdu.
      assert (data_pdu_for prims cfg e (count info) (sdu info) = pdu) as Hdata.
      { unfold data_pdu_for. rewrite Hhdr, Hpdu. reflexivity. }
      set (e1 := write_data_pdu_to_lower_layers e (count info) pdu true).
      destruct (IH e1) as (R1 & R2 & R3 & R4 & R5 & R6 & R7 & R8 & R9).
      rewrite (retransmissions_frame e1 e counts) in R1, R7 by reflexivity.
      rewrite R1, R2, R3, R4, R5, R6, R7, R8, R9, Hdata. cbn [app length].
      unfold e1. cbn. rewrite <- app_assoc. repeat split; try reflexivity. lia.
    + cbn [app]. apply IH.
Qed.

Lemma retransmit_all_pdus_ok (e : entity) :
  has_discard_timer cfg = true -> is_am cfg = true ->
  let e' := retransmit_all_pdus prims cfg all_buffers_ok e in
  out e' = out e ++ retransmissions prims cfg e (tx_window_counts e)
  /\ st e' = set_tx_trans (st e) (tx_next_ack (st e))
  /\ tx_window e' = tx_window e /\ sec e' = sec e
  /\ max_count_notified e' = max_count_notified e
  /\ max_count_overflow e' = max_count_overflow e
  /\ num_pdus (metrics e')
     = num_pdus (metrics e)
       + Z.of_nat (length (retransmissions prims cfg e (tx_window_counts e)))
  /\ num_sdus (metrics e') = num_sdus (metrics e).
Proof.
  intros Htimer Ham e'. unfold e', retransmit_all_pdus. rewrite Htimer, Ham. cbn [negb].
  set (e1 := set_st e (set_tx_trans (st e) (tx_next_ack (st e)))).
  destruct (retransmit_loop_ok
              (seqZ (tx_next_ack (st e1)) (tx_next (st e1) - tx_next_ack (st e1))) e1)
    as (R1 & R2 & R3 & R4 & R5 & R6 & R7 & R8 & _).
  change (seqZ (tx_next_ack (st e1)) (tx_next (st e1) - tx_next_ack (st e1)))
    with (tx_window_counts e) in *.
  rewrite (retransmissions_frame e1 e) in R1, R7 by reflexivity.
  rewrite R1, R2, R3, R4, R5, R6, R7, R8. repeat split; reflexivity.
Qed.

(** In a consistent window every stored SDU is among the retransmissions,
    under its own COUNT. *)
Lemma retransmissions_cover (e : entity) (c : Z) (info : pdcp_tx_sdu_info) :
  tx_window_consistent cfg e ->
  tx_entry cfg e c = Some info ->
  on_new_pdu (data_pdu_for prims cfg e c (sdu info)) true
    ∈ retransmissions prims cfg e (tx_window_counts e).
Proof.
  intros Hcons Hent.
  assert (tx_next_ack (st e) <= c < tx_next (st e)) as Hc.
  { destruct (Z.le_gt_cases (tx_next_ack (st e)) c);
      [destruct (Z.lt_ge_cases c (tx_next (st e))); [lia|]|];
      rewrite tx_entry_None_outside in Hent by (assumption || lia); discriminate. }
  unfold tx_entry in Hent.
  destruct (tx_window e !! slot_of (window_size cfg) c) as [x|] eqn:Hlk; [|discriminate].
  destruct (Z.eqb_spec (count x) c) as [Hcount|]; [|discriminate].
  injection Hent as ->.
  assert (c ∈ tx_window_counts e) as Hin by (apply elem_of_seqZ; lia).
  revert Hin. generalize (tx_window_counts e). intros l.
  induction l as [|c' l IH]; intros Hin; [inversion Hin|].
  cbn [retransmissions]. apply elem_of_cons in Hin as [<-|Hin].
  - unfold window_at. rewrite Hlk, Hcount. apply elem_of_app. left. apply list_elem_of_singleton. reflexivity.
  - apply elem_of_app. right. apply IH. exact Hin.
Qed.

End tx_retransmit.

(** ** Transmitter: failing buffer operations *)

Section tx_failures.
Import pdcp_entity_tx.
Variable prims : security_primitives.
Variable cfg : pdcp_tx_config.

(** Header writing and protection under a failing buffer operation. *)
Lemma protect_buffer_failure (env : buffer_env) (e : entity) (buf : byte_buffer) (c : Z) :
  tx_buffers_fail cfg e false env = true ->
  match write_data_pdu_header cfg env buf (SN (sn_size cfg) c) with
  | Some hdr => apply_ciphering_and_integrity_protection prims cfg env e hdr c
  | None => None
  end = None.
Proof.
  unfold tx_buffers_fail, write_data_pdu_header, apply_ciphering_and_integrity_protection.
  cbn [andb orb]. intros Hfail.
  destruct (prepend_ok env); cbn [negb orb] in *; [|reflexivity].
  destruct (is_srb cfg || is_drb cfg && integrity_enabled (sec e));
    cbn [andb] in Hfail; [|discriminate].
  destruct (append_ok env); [discriminate|].
  destruct (sn_size cfg); reflexivity.
Qed.

Lemma transmit_sdu_buffer_failure (env : buffer_env) (e : entity) (buf : byte_buffer) :
  tx_buffers_fail cfg e (has_discard_timer cfg && is_am cfg) env = true ->
  transmit_sdu prims cfg env e buf = emit e on_protocol_failure.
Proof.
  intros Hfail. unfold transmit_sdu.
  destruct (has_discard_timer cfg && is_am cfg && negb (deep_copy_ok env)) eqn:Hcopy;
    [reflexivity|].
  assert (tx_buffers_fail cfg e false env = true) as Hfail'.
  { unfold tx_buffers_fail in *. rewrite Hcopy in Hfail. exact Hfail. }
  pose proof (protect_buffer_failure env e buf (tx_next (st e)) Hfail') as Hp.
  destruct (write_data_pdu_header cfg env buf _); [|reflexivity].
  rewrite Hp. reflexivity.
Qed.

Lemma handle_sdu_buffer_failure (env : buffer_env) (e : entity) (buf : byte_buffer) :
  tx_admits cfg (st e) = true ->
  tx_next (st e) < hard (max_count (custom cfg)) ->
  tx_buffers_fail cfg e (has_discard_timer cfg && is_am cfg) env = true ->
  let e' := handle_sdu prims cfg env e buf in
  out e' = out e
           ++ (if (notify (max_count (custom cfg)) <=? tx_next (st e))
                  && negb (max_count_notified e)
               then [on_max_count_reached] else [])
           ++ [on_protocol_failure]
  /\ st e' = st e
  /\ tx_window e' = tx_window e
  /\ sec e' = sec e
  /\ max_count_overflow e' = max_count_overflow e
  /\ num_sdus (metrics e') = num_sdus (metrics e) + 1
  /\ num_pdus (metrics e') = num_pdus (metrics e).
Proof.
  intros Hadm Hlt Hfail e'.
  unfold tx_admits in Hadm. apply andb_prop in Hadm as [Hadm Hg3].
  apply andb_prop in Hadm as [Hg1 Hg2].
  apply negb_true_iff in Hg1, Hg2, Hg3.
  unfold e', handle_sdu. rewrite Hg1, Hg2, Hg3.
  cbn [st metrics_add_sdus set_metrics].
  destruct (Z.leb_spec (hard (max_count (custom cfg))) (tx_next (st e))); [lia|].
  set (e1 := metrics_add_sdus e 1 (Z.of_nat (length buf))).
  set (e2 := notify_max_count cfg e1).
  assert (sec e2 = sec e) as Hsec
      by (unfold e2, notify_max_count; destruct ((_ <=? _) && negb _); reflexivity).
  rewrite transmit_sdu_buffer_failure
    by (unfold tx_buffers_fail in *; rewrite Hsec; exact Hfail).
  unfold e2, notify_max_count. change (st e1) with (st e).
  change (max_count_notified e1) with (max_count_notified e).
  destruct ((_ <=? _) && negb _); cbn; rewrite <- ?app_assoc; repeat split; reflexivity.
Qed.

Lemma retransmit_loop_app (env : Z -> buffer_env) (l1 l2 : list Z) (e : entity) :
  (forall c, c ∈ l1 -> env c = buffers_ok) ->
  retransmit_loop prims cfg env (l1 ++ l2) e
  = retransmit_loop prims cfg env l2 (retransmit_loop prims cfg all_buffers_ok l1 e).
Proof.
  revert e. induction l1 as [|c l1 IH]; intros e Hok; [reflexivity|].
  cbn [app retransmit_loop]. rewrite (Hok c) by (left; reflexivity).
  change (all_buffers_ok c) with buffers_ok.
  assert (forall c', c' ∈ l1 -> env c' = buffers_ok) as Hok'
      by (intros; apply Hok; right; assumption).
  destruct (window_at _ _ c); [|apply IH; exact Hok'].
  cbn [buffers_ok deep_copy_ok negb].
  destruct (write_data_pdu_header _ _ _ _) as [hdr|] eqn:Hhdr.
  2:{ destruct (write_data_pdu_header_ok cfg (sdu p) (SN (sn_size cfg) (count p))) as [? Hx].
      change {| deep_copy_ok := true; prepend_ok := true; append_ok := true |}
        with buffers_ok in Hhdr. congruence. }
  destruct (apply_ciphering_and_integrity_protection _ _ _ _ _ _) as [pdu|] eqn:Hpdu.
  2:{ destruct (apply_security_ok prims cfg e hdr (count p)) as [? Hx].
      change {| deep_copy_ok := true; prepend_ok := true; append_ok := true |}
        with buffers_ok in Hpdu. congruence. }
  apply IH. exact Hok'.
Qed.

Lemma retransmit_loop_failure (env : Z -> buffer_env) (c : Z) (rest : list Z) (e : entity)
      (info : pdcp_tx_sdu_info) :
  window_at (window_size cfg) (tx_window e) c = Some info ->
  tx_buffers_fail cfg e true (env c) = true ->
  retransmit_loop prims cfg env (c :: rest) e = emit e on_protocol_failure.
Proof.
  intros Hat Hfail. cbn [retransmit_loop]. rewrite Hat.
  destruct (negb (deep_copy_ok (env c))) eqn:Hcopy; [reflexivity|].
  assert (tx_buffers_fail cfg e false (env c) = true) as Hfail'.
  { unfold tx_buffers_fail in *. cbn [andb orb] in *. rewrite Hcopy in Hfail. exact Hfail. }
  pose proof (protect_buffer_failure (env c) e (sdu info) (count info) Hfail') as Hp.
  destruct (write_data_pdu_header cfg (env c) (sdu info) _); [|reflexivity].
  rewrite Hp. reflexivity.
Qed.

(** [retransmit_all_pdus] stops at the first stored SDU whose buffer
    operations fail: the PDUs before it have gone down, the upper layer gets
    a protocol failure and nothing behind it is retransmitted. *)
Lemma retransmit_all_pdus_failure (env : Z -> buffer_env) (e : entity)
      (before : list Z) (c : Z) (rest : list Z) (info : pdcp_tx_sdu_info) :
  has_discard_timer cfg = true -> is_am cfg = true ->
  tx_window_counts e = before ++ c :: rest ->
  (forall c', c' ∈ before -> env c' = buffers_ok) ->
  window_at (window_size cfg) (tx_window e) c = Some info ->
  tx_buffers_fail cfg e true (env c) = true ->
  let e' := retransmit_all_pdus prims cfg env e in
  out e' = out e ++ retransmissions prims cfg e before ++ [on_protocol_failure]
  /\ st e' = set_tx_trans (st e) (tx_next_ack (st e))
  /\ tx_window e' = tx_window e.
Proof.
  intros Htimer Ham Hcounts Hok Hat Hfail e'.
  unfold e', retransmit_all_pdus. rewrite Htimer, Ham. cbn [negb].
  set (e1 := set_st e (set_tx_trans (st e) (tx_next_ack (st e)))).
  change (seqZ (tx_next_ack (st e1)) (tx_next (st e1) - tx_next_ack (st e1)))
    with (tx_window_counts e).
  rewrite Hcounts, retransmit_loop_app by exact Hok.
  destruct (retransmit_loop_ok prims cfg before e1) as (R1 & R2 & R3 & R4 & _).
  set (e2 := retransmit_loop prims cfg all_buffers_ok before e1) in *.
  rewrite (retransmit_loop_failure env c rest e2 info).
  - cbn [out st tx_window emit]. rewrite R1, R2, R3.
    rewrite (retransmissions_frame prims cfg e1 e) by reflexivity.
    rewrite <- app_assoc. repeat split; reflexivity.
  - rewrite R3. exact Hat.
  - unfold tx_buffers_fail in *. rewrite R4. exact Hfail.
Qed.

End tx_failures.

(** ** Transmitter: re-establishment, data recovery and status reports *)

Section tx_reestablish.
Import pdcp_entity_tx.
Variable prims : security_primitives.
Variable cfg : pdcp_tx_config.

Lemma reestablish_resets (env : Z -> buffer_env) (e : entity) (sec_cfg_ : sec_128_as_config) :
  is_srb cfg || is_um cfg = true ->
  reestablish prims cfg env e sec_cfg_ = configure_security (reset e) sec_cfg_.
Proof.
  intros Hreset. unfold reestablish, retransmit_all_pdus. rewrite Hreset.
  destruct (is_am cfg); [|reflexivity].
  destruct (has_discard_timer cfg); reflexivity.
Qed.

Lemma reestablish_keeps (env : Z -> buffer_env) (e : entity) (sec_cfg_ : sec_128_as_config) :
  is_srb cfg || is_um cfg = false ->
  reestablish prims cfg env e sec_cfg_
  = retransmit_all_pdus prims cfg env (configure_security e sec_cfg_).
Proof.
  intros Hkeep. unfold reestablish. rewrite Hkeep.
  assert (is_am cfg = true) as ->; [|reflexivity].
  apply orb_false_elim in Hkeep as [_ Hum]. unfold is_um in Hum. unfold is_am.
  destruct (rlc_mode cfg); [discriminate|reflexivity].
Qed.

Lemma data_recovery_ok (report : byte_buffer) (e : entity) :
  has_discard_timer cfg = true -> is_am cfg = true ->
  let e' := data_recovery prims cfg report all_buffers_ok e in
  let status := if status_report_required cfg then [on_new_pdu report false] else [] in
  out e' = out e ++ status ++ retransmissions prims cfg e (tx_window_counts e)
  /\ st e' = set_tx_trans (st e) (tx_next_ack (st e))
  /\ tx_window e' = tx_window e
  /\ num_pdus (metrics e')
     = num_pdus (metrics e) + Z.of_nat (length status)
       + Z.of_nat (length (retransmissions prims cfg e (tx_window_counts e))).
Proof.
  intros Htimer Ham e' status. unfold e', data_recovery, send_status_report.
  set (e1 := if status_report_required cfg then _ else e).
  assert (out e1 = out e ++ status /\ st e1 = st e /\ tx_window e1 = tx_window e
          /\ sec e1 = sec e
          /\ num_pdus (metrics e1) = num_pdus (metrics e) + Z.of_nat (length status))
    as (H1 & H2 & H3 & H4 & H5).
  { unfold e1, status. destruct (status_report_required cfg); cbn;
      rewrite ?app_nil_r, ?Z.add_0_r; repeat split; reflexivity. }
  destruct (retransmit_all_pdus_ok prims cfg e1 Htimer Ham) as (R1 & R2 & R3 & _ & _ & _ & R7 & _).
  assert (tx_window_counts e1 = tx_window_counts e) as Hc
      by (unfold tx_window_counts; rewrite H2; reflexivity).
  rewrite Hc, (retransmissions_frame prims cfg e1 e) in R1, R7 by assumption.
  rewrite R1, R2, R3, R7, H1, H2, H3, H5, <- app_assoc. repeat split; reflexivity.
Qed.

End tx_reestablish.

Section tx_status_header.
Import pdcp_entity_tx.
Variable cfg : pdcp_tx_config.

Lemma byte_bits_zero (b : Z) :
  0 <= b < 256 -> bits_of 8 b = replicate 8 false -> b = 0.
Proof.
  intros Hb Hbits. cbn in Hbits.
  injection Hbits as H7 H6 H5 H4 H3 H2 H1 H0.
  apply Z.bits_inj'. intros n Hn. rewrite Z.bits_0.
  destruct (Z.lt_ge_cases n 8) as [Hlt|Hge]; [|apply (testbit_small b n 8); lia].
  assert (n = 0 \/ n = 1 \/ n = 2 \/ n = 3 \/ n = 4 \/ n = 5 \/ n = 6 \/ n = 7) as Hcase by lia.
  destruct Hcase as [->|[->|[->|[->|[->|[->|[->| ->]]]]]]]; assumption.
Qed.

Lemma handle_status_report_bad_header (ok : bool) (e : entity) (b : Z) (rest : byte_buffer) :
  0 < b < 256 -> handle_status_report cfg ok e (b :: rest) = e.
Proof.
  intros Hb. unfold handle_status_report. destruct ok; [|reflexivity]. cbn [negb].
  unfold bytes_to_bits. cbn [flat_map]. unfold byte_to_bits at 1.
  destruct (bits_of 8 b) as [|t7 [|t6 [|t5 [|t4 [|t3 [|t2 [|t1 [|t0 [|]]]]]]]]] eqn:Hbits;
    try (apply (f_equal length) in Hbits; rewrite length_bits_of in Hbits; discriminate).
  destruct t7; [reflexivity|].
  destruct t6, t5, t4; try reflexivity.
  destruct t3, t2, t1, t0; try reflexivity.
  apply byte_bits_zero in Hbits; lia.
Qed.

End tx_status_header.

(** ** Transmitter and receiver: SDUs sent and delivered *)

(** X3: an SDU that passes the guards of [handle_sdu] below the hard COUNT
    limit, with the slot of TX_NEXT free and every buffer operation
    succeeding, is sent exactly once: one PDU built for the COUNT TX_NEXT,
    not marked as a retransmission, after the one-shot warning if that is
    due.  TX_NEXT advances by one, the SDU is stored under its COUNT when a
    discard timer is configured, and the SDU and the PDU are counted. *)
Theorem accepted_sdu_is_sent_under_tx_next
        (prims : security_primitives) (cfg : pdcp_entity_tx.pdcp_tx_config)
        (e : pdcp_entity_tx.entity) (buf : byte_buffer) :
  tx_config_ok cfg ->
  0 <= pdcp_entity_tx.tx_next (pdcp_entity_tx.st e) ->
  tx_admits cfg (pdcp_entity_tx.st e) = true ->
  pdcp_entity_tx.tx_next (pdcp_entity_tx.st e)
    < hard (pdcp_entity_tx.max_count (pdcp_entity_tx.custom cfg)) ->
  has_sn (pdcp_entity_tx.window_size cfg) (pdcp_entity_tx.tx_window e)
    (pdcp_entity_tx.tx_next (pdcp_entity_tx.st e)) = false ->
  let e' := pdcp_entity_tx.handle_sdu prims cfg buffers_ok e buf in
  pdcp_entity_tx.out e'
  = pdcp_entity_tx.out e
    ++ (if (notify (pdcp_entity_tx.max_count (pdcp_entity_tx.custom cfg))
              <=? pdcp_entity_tx.tx_next (pdcp_entity_tx.st e))
           && negb (pdcp_entity_tx.max_count_notified e)
        then [pdcp_entity_tx.on_max_count_reached] else [])
    ++ [pdcp_entity_tx.on_new_pdu
          (data_pdu_for prims cfg e (pdcp_entity_tx.tx_next (pdcp_entity_tx.st e)) buf) false]
  /\ pdcp_entity_tx.st e'
     = pdcp_entity_tx.set_tx_next (pdcp_entity_tx.st e)
         (pdcp_entity_tx.tx_next (pdcp_entity_tx.st e) + 1)
  /\ pdcp_entity_tx.tx_window e' = tx_stored cfg e buf
  /\ pdcp_entity_tx.sec e' = pdcp_entity_tx.sec e
  /\ pdcp_entity_tx.num_sdus (pdcp_entity_tx.metrics e')
     = pdcp_entity_tx.num_sdus (pdcp_entity_tx.metrics e) + 1
  /\ pdcp_entity_tx.num_pdus (pdcp_entity_tx.metrics e')
     = pdcp_entity_tx.num_pdus (pdcp_entity_tx.metrics e) + 1.
Proof. exact (handle_sdu_sends prims cfg e buf). Qed.

Lemma accepted_sdu_is_sent_under_tx_next_witness :
  let cfg := tx_config_example size12bits am (Some (discard_ms 100)) 4096
               {| notify := 2; hard := 1000 |} in
  let e := handle_sdus null_primitives cfg (tx_entity_init null_security)
             (with_buffers_ok [[10]; [11]]) in
  let e' := pdcp_entity_tx.handle_sdu null_primitives cfg buffers_ok e [12] in
  pdcp_entity_tx.tx_next (pdcp_entity_tx.st e) = 2
  /\ pdcp_entity_tx.out e'
     = pdcp_entity_tx.out e
       ++ [pdcp_entity_tx.on_max_count_reached; pdcp_entity_tx.on_new_pdu [128; 2; 12] false]
  /\ pdcp_entity_tx.tx_next (pdcp_entity_tx.st e') = 3
  /\ tx_entry cfg e' 2
     = Some {| pdcp_entity_tx.count := 2; pdcp_entity_tx.sdu := [12];
               pdcp_entity_tx.sdu_discard_timer := Some 100 |}.
Proof.
  intros cfg e e'.
  destruct (accepted_sdu_is_sent_under_tx_next null_primitives cfg e [12])
    as (Hout & Hst & Hw & _).
  - unfold tx_config_ok, is_u32. cbn. lia.
  - vm_compute. discriminate.
  - vm_compute. reflexivity.
  - vm_compute. reflexivity.
  - vm_compute. reflexivity.
  - split; [reflexivity|]. split; [exact Hout|].
    split; [fold e' in Hst; rewrite Hst; reflexivity|].
    unfold tx_entry. fold e' in Hw. rewrite Hw. vm_compute. reflexivity.
Defined.

(** X4: when a buffer operation that [handle_sdu] needs fails (the deep
    copy of the SDU on an AM bearer with discard timer, the room for the
    header, or the room for the MAC-I), the SDU is dropped with
    [on_protocol_failure]: no PDU is sent, nothing is stored, TX_NEXT is
    not consumed, and the overflow flag stays as it is.  The SDU is
    still counted, and the one-shot warning is still raised if due. *)
Theorem buffer_failure_drops_sdu
        (prims : security_primitives) (cfg : pdcp_entity_tx.pdcp_tx_config)
        (env : buffer_env) (e : pdcp_entity_tx.entity) (buf : byte_buffer) :
  tx_admits cfg (pdcp_entity_tx.st e) = true ->
  pdcp_entity_tx.tx_next (pdcp_entity_tx.st e)
    < hard (pdcp_entity_tx.max_count (pdcp_entity_tx.custom cfg)) ->
  tx_buffers_fail cfg e (pdcp_entity_tx.has_discard_timer cfg && pdcp_entity_tx.is_am cfg) env
  = true ->
  let e' := pdcp_entity_tx.handle_sdu prims cfg env e buf in
  pdcp_entity_tx.out e'
  = pdcp_entity_tx.out e
    ++ (if (notify (pdcp_entity_tx.max_count (pdcp_entity_tx.custom cfg))
              <=? pdcp_entity_tx.tx_next (pdcp_entity_tx.st e))
           && negb (pdcp_entity_tx.max_count_notified e)
        then [pdcp_entity_tx.on_max_count_reached] else [])
    ++ [pdcp_entity_tx.on_protocol_failure]
  /\ pdcp_entity_tx.st e' = pdcp_entity_tx.st e
  /\ pdcp_entity_tx.tx_window e' = pdcp_entity_tx.tx_window e
  /\ pdcp_entity_tx.sec e' = pdcp_entity_tx.sec e
  /\ pdcp_entity_tx.max_count_overflow e' = pdcp_entity_tx.max_count_overflow e
  /\ pdcp_entity_tx.num_sdus (pdcp_entity_tx.metrics e')
     = pdcp_entity_tx.num_sdus (pdcp_entity_tx.metrics e) + 1
  /\ pdcp_entity_tx.num_pdus (pdcp_entity_tx.metrics e')
     = pdcp_entity_tx.num_pdus (pdcp_entity_tx.metrics e).
Proof. exact (handle_sdu_buffer_failure prims cfg env e buf). Qed.

Lemma buffer_failure_drops_sdu_witness :
  let cfg := tx_config_example size12bits am (Some (discard_ms 100)) 4096
               {| notify := 1000; hard := 2000 |} in
  let e := tx_entity_init (integrity_security nia2) in
  let env := {| deep_copy_ok := true; prepend_ok := true; append_ok := false |} in
  let e' := pdcp_entity_tx.handle_sdu (constant_mac_primitives [1; 2; 3; 4]) cfg env e [12] in
  pdcp_entity_tx.out e' = [pdcp_entity_tx.on_protocol_failure]
  /\ pdcp_entity_tx.st e' = pdcp_entity_tx.st e
  /\ pdcp_entity_tx.tx_window e' = ∅.
Proof.
  intros cfg e env e'.
  destruct (buffer_failure_drops_sdu (constant_mac_primitives [1; 2; 3; 4]) cfg env e [12])
    as (Hout & Hst & Hw & _); [reflexivity|reflexivity|reflexivity|].
  split; [exact Hout|]. split; [exact Hst|exact Hw].
Defined.

(** X5: one hop.  A receiver that is in sequence at the COUNT [c]
    (RX_DELIV = RX_NEXT = [c], the slot of [c] free, the reordering timer
    stopped, [c] below the hard limit) and gets, through [handle_pdu], the
    data PDU that the transmitter of the same bearer built for a non-empty
    SDU under [c] with the same security context, delivers exactly that
    SDU, counts it, and moves RX_DELIV and RX_NEXT to [c] + 1 with nothing
    left in the window. *)
Theorem pdu_in_sequence_is_delivered
        (prims : security_primitives)
        (cfg_tx : pdcp_entity_tx.pdcp_tx_config) (cfg_rx : pdcp_entity_rx.pdcp_rx_config)
        (e_tx : pdcp_entity_tx.entity) (e_rx : pdcp_entity_rx.entity)
        (c : Z) (sdu : byte_buffer) :
  bearer_match cfg_tx cfg_rx ->
  mac_primitives_ok prims -> cipher_primitives_ok prims ->
  pdcp_entity_tx.sec e_tx = pdcp_entity_rx.sec e_rx ->
  sdu <> [] ->
  pdcp_entity_rx.rx_deliv (pdcp_entity_rx.st e_rx) = c ->
  pdcp_entity_rx.rx_next (pdcp_entity_rx.st e_rx) = c ->
  has_sn (pdcp_entity_rx.window_size cfg_rx) (pdcp_entity_rx.rx_window e_rx) c = false ->
  pdcp_entity_rx.reordering_timer_running e_rx = false ->
  0 <= c -> c + 1 < 2 ^ 32 ->
  c < hard (pdcp_entity_rx.max_count cfg_rx) ->
  let e' := pdcp_entity_rx.handle_pdu prims cfg_rx e_rx
              (data_pdu_for prims cfg_tx e_tx c sdu) in
  rx_sdus (pdcp_entity_rx.out e') = rx_sdus (pdcp_entity_rx.out e_rx) ++ [sdu]
  /\ pdcp_entity_rx.rx_deliv (pdcp_entity_rx.st e') = c + 1
  /\ pdcp_entity_rx.rx_next (pdcp_entity_rx.st e') = c + 1
  /\ pdcp_entity_rx.rx_window e' = pdcp_entity_rx.rx_window e_rx
  /\ pdcp_entity_rx.reordering_timer_running e' = false
  /\ pdcp_entity_rx.sec e' = pdcp_entity_rx.sec e_rx
  /\ pdcp_entity_rx.num_sdus (pdcp_entity_rx.metrics e')
     = pdcp_entity_rx.num_sdus (pdcp_entity_rx.metrics e_rx) + 1
  /\ (c <= notify (pdcp_entity_rx.max_count cfg_rx) ->
      pdcp_entity_rx.out e' = pdcp_entity_rx.out e_rx ++ [pdcp_entity_rx.on_new_sdu sdu]).
Proof.
  intros Hmatch Hmac Hciph.
  exact (handle_pdu_in_sync prims cfg_tx cfg_rx Hmatch Hmac Hciph e_tx e_rx c sdu).
Qed.

Lemma pdu_in_sequence_is_delivered_witness :
  let prims := constant_mac_primitives [1; 2; 3; 4] in
  let cfg_tx := tx_config_example size12bits um None 4096 {| notify := 9000; hard := 10000 |} in
  let cfg_rx := peer_rx_config cfg_tx (reordering_ms 50) {| notify := 9000; hard := 10000 |} in
  let e_tx := tx_entity_at 5000 5000 5000 in
  let e_rx := rx_entity_at 5000 5000 5000 in
  let e' := pdcp_entity_rx.handle_pdu prims cfg_rx e_rx [131; 136; 7; 8] in
  data_pdu_for prims cfg_tx e_tx 5000 [7; 8] = [131; 136; 7; 8]
  /\ pdcp_entity_rx.out e' = [pdcp_entity_rx.on_new_sdu [7; 8]]
  /\ pdcp_entity_rx.rx_deliv (pdcp_entity_rx.st e') = 5001
  /\ pdcp_entity_rx.rx_next (pdcp_entity_rx.st e') = 5001.
Proof.
  intros prims cfg_tx cfg_rx e_tx e_rx e'.
  destruct (constant_mac_primitives_ok [1; 2; 3; 4] eq_refl) as [Hmac Hciph].
  destruct (pdu_in_sequence_is_delivered prims cfg_tx cfg_rx e_tx e_rx 5000 [7; 8]
              (bearer_match_peer cfg_tx _ _) Hmac Hciph)
    as (_ & Hd & Hn & _ & _ & _ & _ & Hout);
    [reflexivity|discriminate|reflexivity|reflexivity|reflexivity|reflexivity
    |lia|lia|cbn; lia|].
  split; [reflexivity|]. split; [apply Hout; cbn; lia|]. split; [exact Hd|exact Hn].
Defined.

(** X6: end to end.  A fresh transmitter that is given a sequence of
    non-empty SDUs short enough to pass its guards (fewer than the window
    size, at most the queue limit and the COUNT thresholds), and a fresh
    receiver of the same bearer with the same security context that gets
    the resulting PDUs in order through [handle_pdu], deliver exactly the
    SDUs that were submitted, in the order of submission, and leave the
    receiver in sequence with an empty window. *)
Theorem stream_is_delivered_in_order
        (prims : security_primitives)
        (cfg_tx : pdcp_entity_tx.pdcp_tx_config) (cfg_rx : pdcp_entity_rx.pdcp_rx_config)
        (sc : security_context) (sdus : list byte_buffer) :
  bearer_match cfg_tx cfg_rx ->
  mac_primitives_ok prims -> cipher_primitives_ok prims ->
  tx_config_ok cfg_tx ->
  Forall (fun sdu => sdu <> []) sdus ->
  Z.of_nat (length sdus) <= pdcp_entity_tx.window_size cfg_tx - 1 ->
  Z.of_nat (length sdus) <= pdcp_entity_tx.rlc_sdu_queue (pdcp_entity_tx.custom cfg_tx) ->
  Z.of_nat (length sdus) <= notify (pdcp_entity_tx.max_count (pdcp_entity_tx.custom cfg_tx)) ->
  Z.of_nat (length sdus) <= hard (pdcp_entity_tx.max_count (pdcp_entity_tx.custom cfg_tx)) ->
  Z.of_nat (length sdus) <= hard (pdcp_entity_rx.max_count cfg_rx) ->
  let e_tx := handle_sdus prims cfg_tx (tx_entity_init sc) (with_buffers_ok sdus) in
  let e_rx := fold_left (pdcp_entity_rx.handle_pdu prims cfg_rx)
                (tx_pdus (pdcp_entity_tx.out e_tx)) (rx_entity_init sc) in
  length (tx_pdus (pdcp_entity_tx.out e_tx)) = length sdus
  /\ rx_sdus (pdcp_entity_rx.out e_rx) = sdus
  /\ pdcp_entity_rx.rx_deliv (pdcp_entity_rx.st e_rx) = Z.of_nat (length sdus)
  /\ pdcp_entity_rx.rx_next (pdcp_entity_rx.st e_rx) = Z.of_nat (length sdus)
  /\ pdcp_entity_rx.rx_window e_rx = ∅
  /\ pdcp_entity_rx.reordering_timer_running e_rx = false.
Proof.
  intros Hmatch Hmac Hciph Hcfg Hne HW Hq Hn Hh Hh' e_tx e_rx.
  assert (burst_state prims cfg_tx (tx_entity_init sc) [] (tx_entity_init sc)) as H0.
  { split; [reflexivity|]. split; [|split; reflexivity].
    intros j x Hj. cbn in Hj. rewrite lookup_empty in Hj. discriminate. }
  destruct (handle_sdus_stream prims cfg_tx Hcfg (tx_entity_init sc) sdus []
              (tx_entity_init sc) H0) as (_ & _ & _ & Hout); [assumption..|].
  change (pdcp_entity_tx.out e_tx = pdus_from prims cfg_tx (tx_entity_init sc) 0 sdus) in Hout.
  pose proof (window_size_u32 (pdcp_entity_tx.sn_size cfg_tx)) as HWu.
  fold (pdcp_entity_tx.window_size cfg_tx) in HWu.
  destruct (handle_pdus_in_sync prims cfg_tx cfg_rx Hmatch Hmac Hciph (tx_entity_init sc)
              sdus 0 (rx_entity_init sc))
    as (R1 & R2 & R3 & R4 & R5); try reflexivity; try assumption; try lia.
  subst e_rx. rewrite Hout.
  split; [|split; [exact R1|split; [exact R2|split; [exact R3|split; [exact R4|exact R5]]]]].
  rewrite tx_pdus_pdus_from. apply length_imap.
Qed.

Lemma stream_is_delivered_in_order_witness :
  let prims := constant_mac_primitives [1; 2; 3; 4] in
  let cfg_tx := tx_config_example size12bits am (Some (discard_ms 100)) 4096
                  {| notify := 1000; hard := 2000 |} in
  let cfg_rx := peer_rx_config cfg_tx (reordering_ms 50) {| notify := 1000; hard := 2000 |} in
  let sc := integrity_security nia2 in
  let sdus := [[10]; [11; 12]; [13]] in
  let e_tx := handle_sdus prims cfg_tx (tx_entity_init sc) (with_buffers_ok sdus) in
  let e_rx := fold_left (pdcp_entity_rx.handle_pdu prims cfg_rx)
                (tx_pdus (pdcp_entity_tx.out e_tx)) (rx_entity_init sc) in
  tx_pdus (pdcp_entity_tx.out e_tx)
  = [[128; 0; 10; 1; 2; 3; 4]; [128; 1; 11; 12; 1; 2; 3; 4]; [128; 2; 13; 1; 2; 3; 4]]
  /\ rx_sdus (pdcp_entity_rx.out e_rx) = sdus
  /\ pdcp_entity_rx.rx_deliv (pdcp_entity_rx.st e_rx) = 3.
Proof.
  intros prims cfg_tx cfg_rx sc sdus e_tx e_rx.
  destruct (constant_mac_primitives_ok [1; 2; 3; 4] eq_refl) as [Hmac Hciph].
  destruct (stream_is_delivered_in_order prims cfg_tx cfg_rx sc sdus
              (bearer_match_peer cfg_tx _ _) Hmac Hciph)
    as (_ & Hsdus & Hd & _).
  - unfold tx_config_ok, is_u32. cbn. lia.
  - repeat constructor; discriminate.
  - vm_compute. discriminate.
  - vm_compute. discriminate.
  - vm_compute. discriminate.
  - vm_compute. discriminate.
  - vm_compute. discriminate.
  - split; [vm_compute; reflexivity|]. split; [exact Hsdus|exact Hd].
Defined.

(** ** Transmitter: notifications and discard timers *)

Section tx_stored_entries.
Import pdcp_entity_tx.
Variable cfg : pdcp_tx_config.

Lemma tx_entry_in_span (e : entity) (c : Z) (info : pdcp_tx_sdu_info) :
  tx_window_consistent cfg e -> tx_entry cfg e c = Some info ->
  tx_next_ack (st e) <= c < tx_next (st e)
  /\ has_sn (window_size cfg) (tx_window e) c = true
  /\ has_discard_timer cfg = true.
Proof.
  intros Hcons Hent.
  assert (tx_next_ack (st e) <= c < tx_next (st e)) as Hc.
  { destruct (Z.le_gt_cases (tx_next_ack (st e)) c);
      [destruct (Z.lt_ge_cases c (tx_next (st e))); [lia|]|];
      rewrite tx_entry_None_outside in Hent by (assumption || lia); discriminate. }
  split; [exact Hc|]. unfold tx_entry in Hent. unfold has_sn.
  destruct (tx_window e !! slot_of (window_size cfg) c) as [x|] eqn:Hlk; [|discriminate].
  split; [reflexivity|].
  destruct (has_discard_timer cfg) eqn:Ht; [reflexivity|].
  destruct Hcons as (_ & _ & _ & Hnone). rewrite (Hnone Ht), lookup_empty in Hlk.
  discriminate.
Qed.

Lemma discard_pdu_metrics (e : entity) (c : Z) : metrics (discard_pdu cfg e c) = metrics e.
Proof.
  unfold discard_pdu. destruct (negb _); [reflexivity|].
  destruct (_ || _); [reflexivity|]. destruct (negb _); reflexivity.
Qed.

Lemma has_sn_tx_entry (e : entity) (c : Z) :
  tx_window_consistent cfg e ->
  tx_next_ack (st e) <= c < tx_next (st e) ->
  has_sn (window_size cfg) (tx_window e) c = true ->
  tx_entry cfg e c <> None.
Proof.
  intros Hcons Hc Hhas.
  destruct (consistent_entry cfg e c Hcons Hc Hhas) as (info & Hlk & Hcount).
  unfold tx_entry. rewrite Hlk, Hcount, Z.eqb_refl. discriminate.
Qed.

End tx_stored_entries.

(** X7: a transmit notification for the SN of a COUNT [c] that is in
    flight (TX_TRANS <= [c] < TX_NEXT) moves TX_TRANS to [c] + 1 and tells
    the lower layers nothing.  On a UM bearer with a discard timer it also
    releases every stored SDU up to [c] and moves TX_NEXT_ACK to [c] + 1;
    otherwise TX_NEXT_ACK and the window stay as they are. *)
Theorem transmit_notification_advances_tx_trans
        (cfg : pdcp_entity_tx.pdcp_tx_config) (e : pdcp_entity_tx.entity) (c : Z) :
  tx_window_consistent cfg e ->
  pdcp_entity_tx.tx_trans (pdcp_entity_tx.st e) <= c
    < pdcp_entity_tx.tx_next (pdcp_entity_tx.st e) ->
  let e' := pdcp_entity_tx.handle_transmit_notification cfg e
              (SN (pdcp_entity_tx.sn_size cfg) c) in
  pdcp_entity_tx.tx_trans (pdcp_entity_tx.st e') = c + 1
  /\ pdcp_entity_tx.tx_next (pdcp_entity_tx.st e') = pdcp_entity_tx.tx_next (pdcp_entity_tx.st e)
  /\ pdcp_entity_tx.out e' = pdcp_entity_tx.out e
  /\ (pdcp_entity_tx.has_discard_timer cfg && pdcp_entity_tx.is_um cfg = true ->
      pdcp_entity_tx.tx_next_ack (pdcp_entity_tx.st e') = c + 1
      /\ forall c', tx_entry cfg e' c' = if decide (c' <= c) then None else tx_entry cfg e c')
  /\ (pdcp_entity_tx.has_discard_timer cfg && pdcp_entity_tx.is_um cfg = false ->
      pdcp_entity_tx.tx_next_ack (pdcp_entity_tx.st e')
      = pdcp_entity_tx.tx_next_ack (pdcp_entity_tx.st e)
      /\ pdcp_entity_tx.tx_window e' = pdcp_entity_tx.tx_window e)
  /\ tx_window_consistent cfg e'.
Proof.
  intros Hcons Hc e'. pose proof Hcons as (Hord & Hspan & Hall & Hnone).
  pose proof Hord as (H0 & H1 & H2 & H3).
  subst e'. rewrite (handle_transmit_notification_in_window cfg e c Hord); [|
    destruct (pdcp_entity_tx.has_discard_timer cfg); lia|exact Hc].
  cbv zeta.
  set (e1 := pdcp_entity_tx.set_st e
               (pdcp_entity_tx.set_tx_trans (pdcp_entity_tx.st e) (c + 1))).
  assert (tx_window_consistent cfg e1) as Hcons1.
  { split; [|split; [exact Hspan|split; [exact Hall|exact Hnone]]].
    unfold tx_ordered. cbn. lia. }
  destruct (pdcp_entity_tx.has_discard_timer cfg && pdcp_entity_tx.is_um cfg) eqn:Hum.
  - apply andb_prop in Hum as [Htimer _].
    destruct (stop_discard_timer_consistent cfg e1 c Hcons1 Htimer)
      as (S1 & S2 & S3 & S4 & S5 & S6 & _); [cbn; lia|].
    split; [rewrite S3; cbn; lia|]. split; [rewrite S4; reflexivity|].
    split; [rewrite S6; reflexivity|]. split; [|split; [discriminate|exact S1]].
    intros _. split; [exact S2|exact S5].
  - split; [reflexivity|]. split; [reflexivity|]. split; [reflexivity|].
    split; [discriminate|]. split; [|exact Hcons1]. intros _. split; reflexivity.
Qed.

Lemma transmit_notification_advances_tx_trans_witness :
  let cfg := tx_config_example size12bits um (Some (discard_ms 100)) 4096
               {| notify := 4294967295; hard := 4294967295 |} in
  let e := handle_sdus null_primitives cfg (tx_entity_init null_security)
             (with_buffers_ok [[10]; [11]; [12]; [13]]) in
  let e' := pdcp_entity_tx.handle_transmit_notification cfg e 2 in
  tx_window_consistent cfg e
  /\ pdcp_entity_tx.st e'
     = {| pdcp_entity_tx.tx_next := 4; pdcp_entity_tx.tx_trans := 3;
          pdcp_entity_tx.tx_next_ack := 3 |}
  /\ tx_entry cfg e 1 <> None
  /\ tx_entry cfg e' 1 = None
  /\ tx_entry cfg e' 3 = tx_entry cfg e 3
  /\ pdcp_entity_tx.out e' = pdcp_entity_tx.out e.
Proof.
  intros cfg e e'.
  assert (tx_window_consistent cfg e) as Hcons.
  { split; [|split; [|split]].
    - vm_compute. repeat split; discriminate.
    - vm_compute. discriminate.
    - apply (bool_decide_unpack _). vm_compute. exact I.
    - discriminate. }
  destruct (transmit_notification_advances_tx_trans cfg e 2 Hcons)
    as (_ & _ & Hout & Hum & _); [vm_compute; split; [discriminate|reflexivity]|].
  destruct (Hum eq_refl) as [_ Hent].
  split; [exact Hcons|]. split; [vm_compute; reflexivity|].
  split; [vm_compute; discriminate|].
  split; [rewrite Hent; apply decide_True; lia|].
  split; [rewrite Hent; apply decide_False; lia|exact Hout].
Defined.

(** X8: on an AM bearer with a discard timer, for a consistent transmitter (the counters ordered,
    TX_NEXT - TX_NEXT_ACK at most the window size, every stored SDU in the
    slot of its COUNT with its COUNT from TX_NEXT_ACK up to TX_NEXT),
    a delivery notification for the SN of a COUNT [c] between TX_NEXT_ACK
    and TX_NEXT releases every stored SDU up to [c] without telling the
    lower layers to discard anything, moves TX_NEXT_ACK to [c] + 1 and
    drags TX_TRANS along if it was behind; the SDUs above [c], TX_NEXT and
    the metrics stay, and the transmitter stays consistent. *)
Theorem delivery_notification_releases_acknowledged
        (cfg : pdcp_entity_tx.pdcp_tx_config) (e : pdcp_entity_tx.entity) (c : Z) :
  tx_window_consistent cfg e ->
  pdcp_entity_tx.has_discard_timer cfg = true -> pdcp_entity_tx.is_am cfg = true ->
  pdcp_entity_tx.tx_next_ack (pdcp_entity_tx.st e) <= c
    < pdcp_entity_tx.tx_next (pdcp_entity_tx.st e) ->
  let e' := pdcp_entity_tx.handle_delivery_notification cfg e
              (SN (pdcp_entity_tx.sn_size cfg) c) in
  pdcp_entity_tx.tx_next_ack (pdcp_entity_tx.st e') = c + 1
  /\ pdcp_entity_tx.tx_trans (pdcp_entity_tx.st e')
     = Z.max (pdcp_entity_tx.tx_trans (pdcp_entity_tx.st e)) (c + 1)
  /\ pdcp_entity_tx.tx_next (pdcp_entity_tx.st e') = pdcp_entity_tx.tx_next (pdcp_entity_tx.st e)
  /\ (forall c', tx_entry cfg e' c' = if decide (c' <= c) then None else tx_entry cfg e c')
  /\ pdcp_entity_tx.out e' = pdcp_entity_tx.out e
  /\ pdcp_entity_tx.metrics e' = pdcp_entity_tx.metrics e
  /\ tx_window_consistent cfg e'.
Proof.
  intros Hcons Htimer Ham Hc e'. subst e'.
  rewrite (handle_delivery_notification_am cfg e c Hcons Htimer Ham Hc).
  destruct (stop_discard_timer_consistent cfg e c Hcons Htimer Hc)
    as (S1 & S2 & S3 & S4 & S5 & S6 & S7).
  split_and!; assumption.
Qed.

Lemma delivery_notification_releases_acknowledged_witness :
  let cfg := tx_config_example size12bits am (Some (discard_ms 100)) 4096
               {| notify := 4294967295; hard := 4294967295 |} in
  let e := handle_sdus null_primitives cfg (tx_entity_init null_security)
             (with_buffers_ok [[10]; [11]; [12]; [13]]) in
  let e' := pdcp_entity_tx.handle_delivery_notification cfg e 1 in
  tx_window_consistent cfg e
  /\ pdcp_entity_tx.st e'
     = {| pdcp_entity_tx.tx_next := 4; pdcp_entity_tx.tx_trans := 2;
          pdcp_entity_tx.tx_next_ack := 2 |}
  /\ tx_entry cfg e 1 <> None
  /\ tx_entry cfg e' 0 = None
  /\ tx_entry cfg e' 1 = None
  /\ tx_entry cfg e' 2 = tx_entry cfg e 2
  /\ pdcp_entity_tx.out e' = pdcp_entity_tx.out e.
Proof.
  intros cfg e e'.
  assert (tx_window_consistent cfg e) as Hcons.
  { split; [|split; [|split]].
    - vm_compute. repeat split; discriminate.
    - vm_compute. discriminate.
    - apply (bool_decide_unpack _). vm_compute. exact I.
    - discriminate. }
  destruct (delivery_notification_releases_acknowledged cfg e 1 Hcons eq_refl eq_refl)
    as (_ & _ & _ & Hent & Hout & _); [vm_compute; split; [discriminate|reflexivity]|].
  split; [exact Hcons|]. split; [vm_compute; reflexivity|].
  split; [vm_compute; discriminate|].
  split; [rewrite Hent; apply decide_True; lia|].
  split; [rewrite Hent; apply decide_True; lia|].
  split; [rewrite Hent; apply decide_False; lia|exact Hout].
Defined.

(** X9: discarding a COUNT twice is the same as discarding it once: the
    second [discard_pdu] finds the slot empty and changes nothing, so the
    lower layers are told to discard an SN at most once per stored SDU. *)
Theorem discard_pdu_is_idempotent
        (cfg : pdcp_entity_tx.pdcp_tx_config) (e : pdcp_entity_tx.entity) (c : Z) :
  pdcp_entity_tx.discard_pdu cfg (pdcp_entity_tx.discard_pdu cfg e c) c
  = pdcp_entity_tx.discard_pdu cfg e c.
Proof. exact (discard_pdu_idempotent cfg e c). Qed.

(** X10: for a consistent transmitter (the counters ordered,
    TX_NEXT - TX_NEXT_ACK at most the window size, every stored SDU in the
    slot of its COUNT with its COUNT from TX_NEXT_ACK up to TX_NEXT):
    when the discard timer of a stored SDU expires, [discard_callback]
    counts the timeout, tells the lower layers to discard the SN of its
    COUNT, and removes this SDU and no other.  TX_NEXT_ACK moves up to the
    oldest COUNT that is still stored, or to TX_NEXT when nothing is
    left, TX_NEXT stays, and the transmitter stays consistent. *)
Theorem discard_timer_expiry_discards_sdu
        (cfg : pdcp_entity_tx.pdcp_tx_config) (e : pdcp_entity_tx.entity) (c : Z)
        (info : pdcp_entity_tx.pdcp_tx_sdu_info) :
  tx_window_consistent cfg e ->
  tx_entry cfg e c = Some info ->
  let e' := pdcp_entity_tx.discard_callback cfg e c in
  pdcp_entity_tx.out e'
  = pdcp_entity_tx.out e ++ [pdcp_entity_tx.on_discard_pdu (SN (pdcp_entity_tx.sn_size cfg) c)]
  /\ (forall c', tx_entry cfg e' c' = if decide (c' = c) then None else tx_entry cfg e c')
  /\ pdcp_entity_tx.num_discard_timeouts (pdcp_entity_tx.metrics e')
     = pdcp_entity_tx.num_discard_timeouts (pdcp_entity_tx.metrics e) + 1
  /\ pdcp_entity_tx.tx_next (pdcp_entity_tx.st e') = pdcp_entity_tx.tx_next (pdcp_entity_tx.st e)
  /\ pdcp_entity_tx.tx_next_ack (pdcp_entity_tx.st e)
     <= pdcp_entity_tx.tx_next_ack (pdcp_entity_tx.st e')
  /\ (pdcp_entity_tx.tx_next_ack (pdcp_entity_tx.st e')
      = pdcp_entity_tx.tx_next (pdcp_entity_tx.st e')
      \/ tx_entry cfg e' (pdcp_entity_tx.tx_next_ack (pdcp_entity_tx.st e')) <> None)
  /\ tx_window_consistent cfg e'.
Proof.
  intros Hcons Hent e'. subst e'. unfold pdcp_entity_tx.discard_callback.
  set (e1 := pdcp_entity_tx.metrics_add_discard_timouts e 1).
  assert (tx_window_consistent cfg e1) as Hcons1 by exact Hcons.
  assert (tx_entry cfg e1 c = Some info) as Hent1 by exact Hent.
  destruct (tx_entry_in_span cfg e1 c info Hcons1 Hent1) as (Hc & Hhas & Htimer).
  destruct (discard_pdu_consistent cfg e1 c Hcons1) as (D1 & D2 & D3 & D4 & D5).
  rewrite Hent1 in D5.
  pose proof (discard_pdu_lower_edge cfg e1 c (proj1 Hcons1) Htimer Hc Hhas) as Hedge.
  cbv zeta in Hedge.
  split; [exact D5|]. split; [exact D4|].
  split; [rewrite discard_pdu_metrics; reflexivity|].
  split; [exact D2|]. split; [exact D3|]. split; [|exact D1].
  destruct Hedge as [Heq|Hhas']; [left; exact Heq|].
  destruct (Z.eq_dec (pdcp_entity_tx.tx_next_ack (pdcp_entity_tx.st (pdcp_entity_tx.discard_pdu cfg e1 c)))
              (pdcp_entity_tx.tx_next (pdcp_entity_tx.st (pdcp_entity_tx.discard_pdu cfg e1 c))))
    as [Heq|Hne]; [left; exact Heq|].
  right. apply has_sn_tx_entry; [exact D1| |exact Hhas'].
  destruct D1 as ((? & ? & ? & ?) & _). lia.
Qed.

Lemma discard_timer_expiry_discards_sdu_witness :
  let cfg := tx_config_example size12bits am (Some (discard_ms 100)) 4096
               {| notify := 4294967295; hard := 4294967295 |} in
  let e0 := handle_sdus null_primitives cfg (tx_entity_init null_security)
              (with_buffers_ok [[10]; [11]; [12]; [13]]) in
  let e := pdcp_entity_tx.discard_callback cfg e0 1 in
  let e' := pdcp_entity_tx.discard_callback cfg e 0 in
  tx_window_consistent cfg e
  /\ tx_entry cfg e 0 <> None
  /\ pdcp_entity_tx.out e' = pdcp_entity_tx.out e ++ [pdcp_entity_tx.on_discard_pdu 0]
  /\ tx_entry cfg e' 0 = None
  /\ tx_entry cfg e' 2 = tx_entry cfg e 2
  /\ pdcp_entity_tx.tx_next_ack (pdcp_entity_tx.st e') = 2.
Proof.
  intros cfg e0 e e'.
  assert (tx_window_consistent cfg e) as Hcons.
  { split; [|split; [|split]].
    - vm_compute. repeat split; discriminate.
    - vm_compute. discriminate.
    - apply (bool_decide_unpack _). vm_compute. exact I.
    - discriminate. }
  destruct (discard_timer_expiry_discards_sdu cfg e 0
              {| pdcp_entity_tx.count := 0; pdcp_entity_tx.sdu := [10];
                 pdcp_entity_tx.sdu_discard_timer := Some 100 |} Hcons)
    as (Hout & Hent & _); [vm_compute; reflexivity|].
  split; [exact Hcons|]. split; [vm_compute; discriminate|].
  split; [exact Hout|]. split; [rewrite Hent; apply decide_True; lia|].
  split; [rewrite Hent; apply decide_False; lia|].
  vm_compute. reflexivity.
Defined.

(** ** Transmitter: retransmission, re-establishment and recovery *)

(** X11: on an AM bearer with a discard timer and working buffers, for
    a consistent transmitter (the counters ordered,
    TX_NEXT - TX_NEXT_ACK at most the window size, every stored SDU in the
    slot of its COUNT with its COUNT from TX_NEXT_ACK up to TX_NEXT),
    [retransmit_all_pdus] rewinds TX_TRANS to TX_NEXT_ACK and hands to the
    lower layers, marked as retransmissions and in ascending order of the
    COUNTs from TX_NEXT_ACK up to TX_NEXT, one PDU for every occupied slot,
    built from the stored SDU under its stored COUNT, so that the PDU of
    every stored SDU is sent.  The window, TX_NEXT, TX_NEXT_ACK and the
    SDU counter stay as they are, and every PDU is counted. *)
Theorem retransmission_resends_every_stored_sdu
        (prims : security_primitives) (cfg : pdcp_entity_tx.pdcp_tx_config)
        (e : pdcp_entity_tx.entity) :
  pdcp_entity_tx.has_discard_timer cfg = true -> pdcp_entity_tx.is_am cfg = true ->
  tx_window_consistent cfg e ->
  let e' := pdcp_entity_tx.retransmit_all_pdus prims cfg all_buffers_ok e in
  pdcp_entity_tx.out e'
  = pdcp_entity_tx.out e ++ retransmissions prims cfg e (tx_window_counts e)
  /\ (forall c info, tx_entry cfg e c = Some info ->
        pdcp_entity_tx.on_new_pdu (data_pdu_for prims cfg e c (pdcp_entity_tx.sdu info)) true
          ∈ retransmissions prims cfg e (tx_window_counts e))
  /\ pdcp_entity_tx.st e'
     = pdcp_entity_tx.set_tx_trans (pdcp_entity_tx.st e)
         (pdcp_entity_tx.tx_next_ack (pdcp_entity_tx.st e))
  /\ pdcp_entity_tx.tx_window e' = pdcp_entity_tx.tx_window e
  /\ pdcp_entity_tx.sec e' = pdcp_entity_tx.sec e
  /\ pdcp_entity_tx.num_pdus (pdcp_entity_tx.metrics e')
     = pdcp_entity_tx.num_pdus (pdcp_entity_tx.metrics e)
       + Z.of_nat (length (retransmissions prims cfg e (tx_window_counts e)))
  /\ pdcp_entity_tx.num_sdus (pdcp_entity_tx.metrics e')
     = pdcp_entity_tx.num_sdus (pdcp_entity_tx.metrics e).
Proof.
  intros Htimer Ham Hcons e'.
  destruct (retransmit_all_pdus_ok prims cfg e Htimer Ham)
    as (R1 & R2 & R3 & R4 & _ & _ & R7 & R8).
  split; [exact R1|]. split; [|repeat split; assumption].
  intros c info Hent. exact (retransmissions_cover prims cfg e c info Hcons Hent).
Qed.

Lemma retransmission_resends_every_stored_sdu_witness :
  let cfg := tx_config_example size12bits am (Some (discard_ms 100)) 4096
               {| notify := 4294967295; hard := 4294967295 |} in
  let e0 := handle_sdus null_primitives cfg (tx_entity_init null_security)
              (with_buffers_ok [[10]; [11]; [12]]) in
  let e := pdcp_entity_tx.handle_transmit_notification cfg
             (pdcp_entity_tx.discard_callback cfg e0 1) 2 in
  let e' := pdcp_entity_tx.retransmit_all_pdus null_primitives cfg all_buffers_ok e in
  tx_window_consistent cfg e
  /\ pdcp_entity_tx.tx_trans (pdcp_entity_tx.st e) = 3
  /\ pdcp_entity_tx.out e'
     = pdcp_entity_tx.out e
       ++ [pdcp_entity_tx.on_new_pdu [128; 0; 10] true;
           pdcp_entity_tx.on_new_pdu [128; 2; 12] true]
  /\ pdcp_entity_tx.tx_trans (pdcp_entity_tx.st e') = 0.
Proof.
  intros cfg e0 e e'.
  assert (tx_window_consistent cfg e) as Hcons.
  { split; [|split; [|split]].
    - vm_compute. repeat split; discriminate.
    - vm_compute. discriminate.
    - apply (bool_decide_unpack _). vm_compute. exact I.
    - discriminate. }
  destruct (retransmission_resends_every_stored_sdu null_primitives cfg e eq_refl eq_refl Hcons)
    as (Hout & _ & Hst & _).
  split; [exact Hcons|]. split; [vm_compute; reflexivity|].
  split; [exact Hout|]. fold e' in Hst. rewrite Hst. vm_compute. reflexivity.
Defined.

(** X12: [retransmit_all_pdus] stops at the first stored SDU for which a
    buffer operation fails: the SDUs before it are retransmitted, then
    [on_protocol_failure] is raised, and the SDUs behind it are not sent.
    TX_TRANS is rewound all the same and the window keeps every SDU. *)
Theorem retransmission_stops_at_first_failure
        (prims : security_primitives) (cfg : pdcp_entity_tx.pdcp_tx_config)
        (env : Z -> buffer_env) (e : pdcp_entity_tx.entity)
        (before : list Z) (c : Z) (rest : list Z) (info : pdcp_entity_tx.pdcp_tx_sdu_info) :
  pdcp_entity_tx.has_discard_timer cfg = true -> pdcp_entity_tx.is_am cfg = true ->
  tx_window_counts e = before ++ c :: rest ->
  (forall c', c' ∈ before -> env c' = buffers_ok) ->
  window_at (pdcp_entity_tx.window_size cfg) (pdcp_entity_tx.tx_window e) c = Some info ->
  tx_buffers_fail cfg e true (env c) = true ->
  let e' := pdcp_entity_tx.retransmit_all_pdus prims cfg env e in
  pdcp_entity_tx.out e'
  = pdcp_entity_tx.out e ++ retransmissions prims cfg e before
    ++ [pdcp_entity_tx.on_protocol_failure]
  /\ pdcp_entity_tx.st e'
     = pdcp_entity_tx.set_tx_trans (pdcp_entity_tx.st e)
         (pdcp_entity_tx.tx_next_ack (pdcp_entity_tx.st e))
  /\ pdcp_entity_tx.tx_window e' = pdcp_entity_tx.tx_window e.
Proof. exact (retransmit_all_pdus_failure prims cfg env e before c rest info). Qed.

Lemma retransmission_stops_at_first_failure_witness :
  let cfg := tx_config_example size12bits am (Some (discard_ms 100)) 4096
               {| notify := 4294967295; hard := 4294967295 |} in
  let e := handle_sdus null_primitives cfg (tx_entity_init null_security)
             (with_buffers_ok [[10]; [11]; [12]]) in
  let env := fun c : Z =>
               if c =? 1
               then {| deep_copy_ok := false; prepend_ok := true; append_ok := true |}
               else buffers_ok in
  let e' := pdcp_entity_tx.retransmit_all_pdus null_primitives cfg env e in
  pdcp_entity_tx.out e'
  = pdcp_entity_tx.out e
    ++ [pdcp_entity_tx.on_new_pdu [128; 0; 10] true; pdcp_entity_tx.on_protocol_failure]
  /\ tx_entry cfg e' 2 = tx_entry cfg e 2.
Proof.
  intros cfg e env e'.
  destruct (retransmission_stops_at_first_failure null_primitives cfg env e [0] 1 [2]
              {| pdcp_entity_tx.count := 1; pdcp_entity_tx.sdu := [11];
                 pdcp_entity_tx.sdu_discard_timer := Some 100 |})
    as (Hout & _ & Hw); try reflexivity.
  - intros c' Hc'. apply list_elem_of_singleton in Hc'. subst c'. reflexivity.
  - split; [exact Hout|]. unfold tx_entry. fold e' in Hw. rewrite Hw. reflexivity.
Defined.

(** X13: re-establishment of the transmitter.  On an SRB or a UM bearer the
    entity is reset: the three counters return to zero and the window is
    emptied, nothing is sent, and the one-shot flags of the COUNT limits
    are not re-armed.  On an AM DRB with a discard timer and working
    buffers the window, TX_NEXT and TX_NEXT_ACK are kept, TX_TRANS is
    rewound to TX_NEXT_ACK, and the lower layers get, as retransmissions
    and in ascending order of the COUNTs from TX_NEXT_ACK up to TX_NEXT,
    one PDU for every COUNT whose slot is occupied, built from the stored
    SDU under the stored COUNT and protected with the new keys; when the
    transmitter is consistent (the counters ordered, TX_NEXT - TX_NEXT_ACK
    at most the window size, every stored SDU in the slot of its COUNT
    with its COUNT from TX_NEXT_ACK up to TX_NEXT), the PDU of every
    stored SDU is among them.  In both cases the new security
    configuration is in place afterwards. *)
Theorem tx_reestablish_resets_or_retransmits
        (prims : security_primitives) (cfg : pdcp_entity_tx.pdcp_tx_config)
        (e : pdcp_entity_tx.entity) (sec_cfg_ : sec_128_as_config) :
  (pdcp_entity_tx.is_srb cfg || pdcp_entity_tx.is_um cfg = true ->
   forall env,
     let e' := pdcp_entity_tx.reestablish prims cfg env e sec_cfg_ in
     pdcp_entity_tx.st e'
     = {| pdcp_entity_tx.tx_next := 0; pdcp_entity_tx.tx_trans := 0;
          pdcp_entity_tx.tx_next_ack := 0 |}
     /\ pdcp_entity_tx.tx_window e' = ∅
     /\ pdcp_entity_tx.out e' = pdcp_entity_tx.out e
     /\ sec_cfg (pdcp_entity_tx.sec e') = sec_cfg_
     /\ pdcp_entity_tx.max_count_notified e' = pdcp_entity_tx.max_count_notified e
     /\ pdcp_entity_tx.max_count_overflow e' = pdcp_entity_tx.max_count_overflow e)
  /\ (pdcp_entity_tx.is_srb cfg || pdcp_entity_tx.is_um cfg = false ->
      pdcp_entity_tx.has_discard_timer cfg = true ->
      let e' := pdcp_entity_tx.reestablish prims cfg all_buffers_ok e sec_cfg_ in
      pdcp_entity_tx.out e'
      = pdcp_entity_tx.out e
        ++ retransmissions prims cfg (pdcp_entity_tx.configure_security e sec_cfg_)
             (tx_window_counts e)
      /\ pdcp_entity_tx.st e'
         = pdcp_entity_tx.set_tx_trans (pdcp_entity_tx.st e)
             (pdcp_entity_tx.tx_next_ack (pdcp_entity_tx.st e))
      /\ pdcp_entity_tx.tx_window e' = pdcp_entity_tx.tx_window e
      /\ sec_cfg (pdcp_entity_tx.sec e') = sec_cfg_
      /\ (tx_window_consistent cfg e ->
          forall c info, tx_entry cfg e c = Some info ->
            pdcp_entity_tx.on_new_pdu
              (data_pdu_for prims cfg (pdcp_entity_tx.configure_security e sec_cfg_) c
                 (pdcp_entity_tx.sdu info)) true
              ∈ pdcp_entity_tx.out e')).
Proof.
  split.
  - intros Hreset env e'. subst e'.
    rewrite (reestablish_resets prims cfg env e sec_cfg_ Hreset).
    repeat split.
  - intros Hkeep Htimer e'. subst e'.
    rewrite (reestablish_keeps prims cfg all_buffers_ok e sec_cfg_ Hkeep).
    assert (pdcp_entity_tx.is_am cfg = true) as Ham.
    { apply orb_false_elim in Hkeep as [_ Hum].
      unfold pdcp_entity_tx.is_um in Hum. unfold pdcp_entity_tx.is_am.
      destruct (pdcp_entity_tx.rlc_mode cfg); [discriminate|reflexivity]. }
    destruct (retransmit_all_pdus_ok prims cfg
                (pdcp_entity_tx.configure_security e sec_cfg_) Htimer Ham)
      as (R1 & R2 & R3 & R4 & _).
    split; [exact R1|]. split; [exact R2|]. split; [exact R3|].
    split; [rewrite R4; reflexivity|].
    intros Hcons c info Hent. rewrite R1. apply elem_of_app. right.
    exact (retransmissions_cover prims cfg (pdcp_entity_tx.configure_security e sec_cfg_)
             c info Hcons Hent).
Qed.

(** A UM bearer with two SDUs sent is reset.  An AM bearer that stores the
    SDUs of the COUNTs 0 and 2, protected under the old key, retransmits
    both with the MAC-I of the new key and keeps them stored. *)
Lemma tx_reestablish_resets_or_retransmits_witness :
  let prims := {| security_nia1 := fun k _ _ _ _ => k;
                  security_nia2 := fun k _ _ _ _ => k;
                  security_nia3 := fun k _ _ _ _ => k;
                  security_nea1 := fun _ _ _ _ buf => buf;
                  security_nea2 := fun _ _ _ _ buf => buf;
                  security_nea3 := fun _ _ _ _ buf => buf |} in
  let new_keys := {| k_128_int := [9; 9; 9; 9]; k_128_enc := [];
                     integ_algo := nia2; cipher_algo := nea0 |} in
  let limits := {| notify := 4294967295; hard := 4294967295 |} in
  let cfg_um := tx_config_example size12bits um (Some (discard_ms 100)) 4096 limits in
  let cfg_am := tx_config_example size12bits am (Some (discard_ms 100)) 4096 limits in
  let e_um := handle_sdus prims cfg_um (tx_entity_init (integrity_security nia2))
                (with_buffers_ok [[10]; [11]]) in
  let e_am := pdcp_entity_tx.discard_callback cfg_am
                (handle_sdus prims cfg_am (tx_entity_init (integrity_security nia2))
                   (with_buffers_ok [[10]; [11]; [12]])) 1 in
  let e_um' := pdcp_entity_tx.reestablish prims cfg_um all_buffers_ok e_um new_keys in
  let e_am' := pdcp_entity_tx.reestablish prims cfg_am all_buffers_ok e_am new_keys in
  pdcp_entity_tx.tx_next (pdcp_entity_tx.st e_um) = 2
  /\ pdcp_entity_tx.st e_um'
     = {| pdcp_entity_tx.tx_next := 0; pdcp_entity_tx.tx_trans := 0;
          pdcp_entity_tx.tx_next_ack := 0 |}
  /\ pdcp_entity_tx.tx_window e_um' = ∅
  /\ pdcp_entity_tx.out e_um' = pdcp_entity_tx.out e_um
  /\ tx_window_consistent cfg_am e_am
  /\ pdcp_entity_tx.out e_am
     = [pdcp_entity_tx.on_new_pdu [128; 0; 10; 1] false;
        pdcp_entity_tx.on_new_pdu [128; 1; 11; 1] false;
        pdcp_entity_tx.on_new_pdu [128; 2; 12; 1] false;
        pdcp_entity_tx.on_discard_pdu 1]
  /\ pdcp_entity_tx.out e_am'
     = pdcp_entity_tx.out e_am
       ++ [pdcp_entity_tx.on_new_pdu [128; 0; 10; 9; 9; 9; 9] true;
           pdcp_entity_tx.on_new_pdu [128; 2; 12; 9; 9; 9; 9] true]
  /\ pdcp_entity_tx.st e_am'
     = {| pdcp_entity_tx.tx_next := 3; pdcp_entity_tx.tx_trans := 0;
          pdcp_entity_tx.tx_next_ack := 0 |}
  /\ pdcp_entity_tx.tx_window e_am' = pdcp_entity_tx.tx_window e_am
  /\ tx_entry cfg_am e_am 2 <> None
  /\ pdcp_entity_tx.on_new_pdu [128; 2; 12; 9; 9; 9; 9] true ∈ pdcp_entity_tx.out e_am'.
Proof.
  intros prims new_keys limits cfg_um cfg_am e_um e_am e_um' e_am'.
  destruct (tx_reestablish_resets_or_retransmits prims cfg_um e_um new_keys) as [Hum _].
  destruct (Hum eq_refl all_buffers_ok) as (U1 & U2 & U3 & _).
  destruct (tx_reestablish_resets_or_retransmits prims cfg_am e_am new_keys) as [_ Ham].
  destruct (Ham eq_refl eq_refl) as (A1 & A2 & A3 & _ & A5).
  assert (tx_window_consistent cfg_am e_am) as Hcons.
  { split; [|split; [|split]].
    - vm_compute. repeat split; discriminate.
    - vm_compute. discriminate.
    - apply (bool_decide_unpack _). vm_compute. exact I.
    - discriminate. }
  split; [vm_compute; reflexivity|].
  split; [exact U1|]. split; [exact U2|]. split; [exact U3|].
  split; [exact Hcons|]. split; [vm_compute; reflexivity|].
  split; [fold e_am' in A1; rewrite A1; vm_compute; reflexivity|].
  split; [fold e_am' in A2; rewrite A2; vm_compute; reflexivity|].
  split; [exact A3|]. split; [vm_compute; discriminate|].
  assert (tx_entry cfg_am e_am 2
          = Some {| pdcp_entity_tx.count := 2; pdcp_entity_tx.sdu := [12];
                    pdcp_entity_tx.sdu_discard_timer := Some 100 |}) as Hent
      by (vm_compute; reflexivity).
  pose proof (A5 Hcons 2 _ Hent) as Hin.
  fold e_am' in Hin. revert Hin. generalize (pdcp_entity_tx.out e_am'). intros l Hin.
  vm_compute in Hin. exact Hin.
Defined.

(** X14: data recovery on an AM bearer with a discard timer and working
    buffers: when status reports are configured, the status report of the
    receiving entity goes out first, as a PDU that is not a
    retransmission; then every stored SDU is retransmitted as by
    [retransmit_all_pdus], and every PDU is counted. *)
Theorem data_recovery_reports_then_retransmits
        (prims : security_primitives) (cfg : pdcp_entity_tx.pdcp_tx_config)
        (report : byte_buffer) (e : pdcp_entity_tx.entity) :
  pdcp_entity_tx.has_discard_timer cfg = true -> pdcp_entity_tx.is_am cfg = true ->
  let e' := pdcp_entity_tx.data_recovery prims cfg report all_buffers_ok e in
  let status := if pdcp_entity_tx.status_report_required cfg
                then [pdcp_entity_tx.on_new_pdu report false] else [] in
  pdcp_entity_tx.out e'
  = pdcp_entity_tx.out e ++ status ++ retransmissions prims cfg e (tx_window_counts e)
  /\ pdcp_entity_tx.st e'
     = pdcp_entity_tx.set_tx_trans (pdcp_entity_tx.st e)
         (pdcp_entity_tx.tx_next_ack (pdcp_entity_tx.st e))
  /\ pdcp_entity_tx.tx_window e' = pdcp_entity_tx.tx_window e
  /\ pdcp_entity_tx.num_pdus (pdcp_entity_tx.metrics e')
     = pdcp_entity_tx.num_pdus (pdcp_entity_tx.metrics e) + Z.of_nat (length status)
       + Z.of_nat (length (retransmissions prims cfg e (tx_window_counts e))).
Proof. exact (data_recovery_ok prims cfg report e). Qed.

Lemma data_recovery_reports_then_retransmits_witness :
  let cfg :=
    {| pdcp_entity_tx.rb_type := drb; pdcp_entity_tx.rlc_mode := am;
       pdcp_entity_tx.sn_size := size12bits; pdcp_entity_tx.direction := downlink;
       pdcp_entity_tx.discard_timer := Some discard_infinity;
       pdcp_entity_tx.status_report_required := true;
       pdcp_entity_tx.bearer_id := 1;
       pdcp_entity_tx.custom :=
         {| pdcp_entity_tx.rlc_sdu_queue := 4096; pdcp_entity_tx.warn_on_drop := false;
            pdcp_entity_tx.max_count := {| notify := 1000; hard := 2000 |} |} |} in
  let e := handle_sdus null_primitives cfg (tx_entity_init null_security)
             (with_buffers_ok [[10]; [11]]) in
  let e' := pdcp_entity_tx.data_recovery null_primitives cfg [0; 0; 0; 0; 0]
              all_buffers_ok e in
  pdcp_entity_tx.out e'
  = pdcp_entity_tx.out e
    ++ [pdcp_entity_tx.on_new_pdu [0; 0; 0; 0; 0] false;
        pdcp_entity_tx.on_new_pdu [128; 0; 10] true;
        pdcp_entity_tx.on_new_pdu [128; 1; 11] true]
  /\ pdcp_entity_tx.num_pdus (pdcp_entity_tx.metrics e') = 5.
Proof.
  intros cfg e e'.
  destruct (data_recovery_reports_then_retransmits null_primitives cfg [0; 0; 0; 0; 0] e
              eq_refl eq_refl) as (Hout & _ & _ & Hn).
  split; [exact Hout|]. fold e' in Hn. rewrite Hn. vm_compute. reflexivity.
Defined.

(** X15: a status report whose first byte is not zero (the D/C bit, the
    PDU type or one of the reserved bits is set) is ignored by
    [handle_status_report]: nothing is discarded and nothing changes. *)
Theorem status_report_with_bad_header_is_ignored
        (cfg : pdcp_entity_tx.pdcp_tx_config) (ok : bool) (e : pdcp_entity_tx.entity)
        (b : Z) (rest : byte_buffer) :
  0 < b < 256 ->
  pdcp_entity_tx.handle_status_report cfg ok e (b :: rest) = e.
Proof. exact (handle_status_report_bad_header cfg ok e b rest). Qed.

Lemma status_report_with_bad_header_is_ignored_witness :
  let cfg := tx_config_example size12bits am (Some (discard_ms 100)) 4096
               {| notify := 4294967295; hard := 4294967295 |} in
  let e := handle_sdus null_primitives cfg (tx_entity_init null_security)
             (with_buffers_ok [[10]; [11]; [12]]) in
  pdcp_entity_tx.handle_status_report cfg true e [1; 0; 0; 0; 3] = e
  /\ pdcp_entity_tx.handle_status_report cfg true e [0; 0; 0; 0; 3] <> e.
Proof.
  intros cfg e. split.
  - apply (status_report_with_bad_header_is_ignored cfg true e 1 [0; 0; 0; 3]). lia.
  - intros Heq. apply (f_equal (fun x => pdcp_entity_tx.tx_next_ack (pdcp_entity_tx.st x))) in Heq.
    vm_compute in Heq. discriminate.
Defined.

(** ** Receiver: deliveries *)

Section rx_shrink.
Import pdcp_entity_rx.
Variable cfg : pdcp_rx_config.

Lemma rx_delivery_refl (e : entity) : rx_delivery e e.
Proof.
  unfold rx_delivery. repeat split; auto.
  exists []. cbn. rewrite app_nil_r, !Z.add_0_r. repeat split; reflexivity.
Qed.

Lemma rx_delivery_trans (e1 e2 e3 : entity) :
  rx_delivery e1 e2 -> rx_delivery e2 e3 -> rx_delivery e1 e3.
Proof.
  intros (A1 & A2 & A3 & A4 & A5 & l1 & A6 & A7 & A8)
         (B1 & B2 & B3 & B4 & B5 & l2 & B6 & B7 & B8).
  unfold rx_delivery. repeat split; try congruence; auto.
  exists (l1 ++ l2).
  rewrite B6, A6, B7, A7, B8, A8, map_app, <- app_assoc, concat_app, !length_app.
  repeat split; try reflexivity; lia.
Qed.

(** A change of the counters RX_DELIV and RX_REORD, of the timer or of the
    metrics other than the SDU counters is a delivery of nothing. *)
Lemma rx_delivery_frame (e e' : entity) :
  rx_next (st e') = rx_next (st e) -> sec e' = sec e ->
  max_count_notified e' = max_count_notified e ->
  max_count_overflow e' = max_count_overflow e ->
  rx_window e' = rx_window e -> out e' = out e ->
  num_sdus (metrics e') = num_sdus (metrics e) ->
  num_sdu_bytes (metrics e') = num_sdu_bytes (metrics e) ->
  rx_delivery e e'.
Proof.
  intros H1 H2 H3 H4 H5 H6 H7 H8. unfold rx_delivery.
  rewrite H1, H2, H3, H4, H5, H6, H7, H8. apply rx_delivery_refl.
Qed.

Lemma deliver_step_delivery (e : entity) :
  rx_delivery e (advance_rx_deliv (deliver_at_rx_deliv cfg e)).
Proof.
  unfold rx_delivery, deliver_at_rx_deliv, window_at.
  destruct (rx_window e !! slot_of (window_size cfg) (rx_deliv (st e))) as [info|].
  - rx_simpl. repeat split; try reflexivity.
    + intros k x Hk. unfold remove_sn in Hk. apply lookup_delete_Some in Hk as [_ Hk].
      exact Hk.
    + exists [sdu info]. cbn [map length concat]. rewrite app_nil_r.
      repeat split; reflexivity.
  - apply rx_delivery_frame; reflexivity.
Qed.

Lemma deliver_consecutive_loop_delivery fuel (e : entity) :
  rx_delivery e (deliver_consecutive_loop cfg fuel e).
Proof.
  revert e. induction fuel as [|fuel IH]; intros e; cbn [deliver_consecutive_loop];
    [apply rx_delivery_refl|].
  destruct (_ && _); [|apply rx_delivery_refl].
  eapply rx_delivery_trans; [apply deliver_step_delivery|apply IH].
Qed.

Lemma deliver_below_reord_loop_delivery fuel (e : entity) :
  rx_delivery e (deliver_below_reord_loop cfg fuel e).
Proof.
  revert e. induction fuel as [|fuel IH]; intros e; cbn [deliver_below_reord_loop];
    [apply rx_delivery_refl|].
  destruct (negb _); [|apply rx_delivery_refl].
  eapply rx_delivery_trans; [apply deliver_step_delivery|apply IH].
Qed.

Lemma handle_t_reordering_expire_delivery (e : entity) :
  rx_delivery e (handle_t_reordering_expire cfg e).
Proof.
  unfold handle_t_reordering_expire.
  set (e1 := metrics_add_t_reordering_timeouts e 1).
  set (e2 := deliver_below_reord_loop cfg _ e1).
  set (e3 := deliver_all_consecutive_counts cfg e2).
  assert (rx_delivery e e3) as H3.
  { eapply rx_delivery_trans; [apply (rx_delivery_frame e e1); reflexivity|].
    eapply rx_delivery_trans; [apply deliver_below_reord_loop_delivery|].
    apply deliver_consecutive_loop_delivery. }
  destruct (_ <? _); [|exact H3].
  destruct (t_reordering cfg); [exact H3|..];
    (eapply rx_delivery_trans; [exact H3|apply rx_delivery_frame; reflexivity]).
Qed.

Lemma handle_reordering_timers_delivery (e : entity) :
  rx_delivery e (handle_reordering_timers cfg e).
Proof.
  unfold handle_reordering_timers.
  set (e1 := if reordering_timer_running e && (rx_reord (st e) <=? rx_deliv (st e))
             then set_reordering_timer e false else e).
  assert (rx_delivery e e1) as H1
      by (unfold e1; destruct (reordering_timer_running e && _);
          apply rx_delivery_frame; reflexivity).
  destruct (t_reordering cfg).
  - eapply rx_delivery_trans; [exact H1|].
    eapply rx_delivery_trans; [|apply handle_t_reordering_expire_delivery].
    apply rx_delivery_frame; reflexivity.
  - destruct (negb (reordering_timer_running e1) && _); [|exact H1].
    eapply rx_delivery_trans; [exact H1|apply rx_delivery_frame; reflexivity].
  - exact H1.
Qed.

End rx_shrink.

(** ** Receiver: what a step adds to the log *)

Lemma rx_count_app p (l1 l2 : list pdcp_entity_rx.rx_event) :
  rx_count p (l1 ++ l2) = (rx_count p l1 + rx_count p l2)%nat.
Proof. unfold rx_count. rewrite List.filter_app, length_app. reflexivity. Qed.

Lemma rx_count_sdus p (sdus : list byte_buffer) :
  (forall buf, p (pdcp_entity_rx.on_new_sdu buf) = false) ->
  rx_count p (map pdcp_entity_rx.on_new_sdu sdus) = 0%nat.
Proof.
  intros Hp. unfold rx_count. induction sdus as [|buf sdus IH]; [reflexivity|].
  cbn [map List.filter]. rewrite Hp. exact IH.
Qed.

Lemma rx_sdus_map (sdus : list byte_buffer) :
  rx_sdus (map pdcp_entity_rx.on_new_sdu sdus) = sdus.
Proof. induction sdus as [|buf sdus IH]; [reflexivity|]. cbn. f_equal. exact IH. Qed.

Section rx_log.
Import pdcp_entity_rx.

Lemma flag_raised_same (b : bool) : flag_raised b b = 0%nat.
Proof. destruct b; reflexivity. Qed.

Lemma rx_log_step_refl (e : entity) : rx_log_step e e.
Proof.
  exists []. rewrite app_nil_r, !flag_raised_same. cbn. rewrite !Z.add_0_r.
  repeat split; auto.
Qed.

Lemma rx_log_step_trans (e1 e2 e3 : entity) :
  rx_log_step e1 e2 -> rx_log_step e2 e3 -> rx_log_step e1 e3.
Proof.
  intros (l1 & A1 & A2 & A3 & A4 & A5 & A6 & A7 & A8)
         (l2 & B1 & B2 & B3 & B4 & B5 & B6 & B7 & B8).
  exists (l1 ++ l2).
  rewrite B1, A1, <- app_assoc, !rx_count_app, A2, A4, A6, B2, B4, B6, B7, A7, B8, A8.
  rewrite rx_sdus_app, concat_app, !length_app.
  unfold flag_raised in *.
  destruct (max_count_notified e1), (max_count_notified e2), (max_count_notified e3),
    (max_count_overflow e1), (max_count_overflow e2), (max_count_overflow e3);
    cbn in *; repeat split; auto; try lia;
    try (specialize (A3 eq_refl)); try (specialize (A5 eq_refl));
    try (specialize (B3 eq_refl)); try (specialize (B5 eq_refl)); try discriminate.
Qed.

Lemma rx_log_step_ok (e e' : entity) : rx_log_step e e' -> rx_log_ok e -> rx_log_ok e'.
Proof.
  intros (l & A1 & A2 & A3 & A4 & A5 & A6 & A7 & A8) (B1 & B2 & B3 & B4 & B5).
  unfold rx_log_ok. rewrite A1, !rx_count_app, A2, A4, A6, B1, B2, B3, A7, A8, B4, B5.
  rewrite rx_sdus_app, concat_app, !length_app.
  unfold flag_raised in *.
  destruct (max_count_notified e), (max_count_notified e'),
    (max_count_overflow e), (max_count_overflow e');
    cbn in *; repeat split; auto; try lia;
    try (specialize (A3 eq_refl)); try (specialize (A5 eq_refl)); try discriminate.
Qed.

Lemma rx_delivery_log_step (e e' : entity) : rx_delivery e e' -> rx_log_step e e'.
Proof.
  intros (_ & _ & Hn & Ho & _ & sdus & H1 & H2 & H3).
  exists (map on_new_sdu sdus). rewrite Hn, Ho, !flag_raised_same, rx_sdus_map.
  rewrite !rx_count_sdus by reflexivity. repeat split; auto.
Qed.

(** A change that leaves the log, the flags and the SDU counters as they
    are. *)
Lemma rx_log_step_frame (e e' : entity) :
  out e' = out e ->
  max_count_notified e' = max_count_notified e ->
  max_count_overflow e' = max_count_overflow e ->
  num_sdus (metrics e') = num_sdus (metrics e) ->
  num_sdu_bytes (metrics e') = num_sdu_bytes (metrics e) ->
  rx_log_step e e'.
Proof.
  intros H1 H2 H3 H4 H5. exists []. rewrite H1, H2, H3, H4, H5, app_nil_r, !flag_raised_same.
  cbn. rewrite !Z.add_0_r. repeat split; auto.
Qed.

End rx_log.

(** ** Receiver: the counters and the window across a PDU *)

Section rx_state.
Import pdcp_entity_rx.
Variable prims : security_primitives.
Variable cfg : pdcp_rx_config.

Lemma rx_delivery_below_next (e e' : entity) :
  rx_delivery e e' -> rx_window_below_next e -> rx_window_below_next e'.
Proof.
  intros (Hn & _ & _ & _ & Hsub & _) Hb k x Hk. cbn. rewrite Hn.
  exact (Hb k x (Hsub k x Hk)).
Qed.

(** The invariants read the counters, the window and the timer only. *)
Lemma rx_inv_frame (e e' : entity) :
  st e' = st e -> rx_window e' = rx_window e ->
  reordering_timer_running e' = reordering_timer_running e ->
  rx_inv cfg e -> rx_inv cfg e'.
Proof.
  intros H1 H2 H3. unfold rx_inv, rx_window_above_deliv, rx_timer_consistent.
  rewrite H1, H2, H3. auto.
Qed.

Lemma rx_window_below_next_frame (e e' : entity) :
  st e' = st e -> rx_window e' = rx_window e ->
  rx_window_below_next e -> rx_window_below_next e'.
Proof. intros H1 H2. unfold rx_window_below_next. rewrite H1, H2. auto. Qed.

Lemma handle_t_reordering_expire_shape (e : entity) :
  rx_window_above_deliv cfg e ->
  rx_deliv (st e) <= rx_reord (st e) <= rx_next (st e) ->
  let e' := handle_t_reordering_expire cfg e in
  rx_reord (st e) <= rx_deliv (st e') /\ rx_next (st e') = rx_next (st e).
Proof.
  intros He Hr. cbv zeta. unfold handle_t_reordering_expire.
  set (e1 := metrics_add_t_reordering_timeouts e 1).
  assert (rx_window_above_deliv cfg e1) as He1 by exact He.
  change (st e1) with (st e).
  destruct (deliver_below_reord_loop_above_deliv cfg
              (Z.to_nat (u32 (rx_reord (st e) - rx_deliv (st e)))) e1 He1 Hr)
    as (He2 & Hd2 & Hn2 & Hr2 & Ht2).
  { change (st e1) with (st e). destruct He as (H0 & H1 & H2 & _).
    rewrite u32_small by lia. lia. }
  set (e2 := deliver_below_reord_loop cfg _ e1) in *.
  unfold deliver_all_consecutive_counts.
  destruct (deliver_consecutive_loop_above_deliv cfg
              (Z.to_nat (u32 (rx_next (st e2) - rx_deliv (st e2)))) e2 He2)
    as (He3 & Hd3 & Hn3 & Hr3 & Ht3).
  set (e3 := deliver_consecutive_loop cfg _ e2) in *.
  change (st e1) with (st e) in *.
  destruct (_ <? _); [destruct (t_reordering cfg)|]; cbn; split; lia.
Qed.

Lemma handle_reordering_timers_shape (e : entity) :
  rx_window_above_deliv cfg e ->
  (reordering_timer_running e = true -> rx_reord (st e) <= rx_next (st e)) ->
  let e' := handle_reordering_timers cfg e in
  rx_deliv (st e) <= rx_deliv (st e')
  /\ rx_next (st e') = rx_next (st e)
  /\ (t_reordering cfg = ms0 -> rx_next (st e) <= rx_deliv (st e')).
Proof.
  intros He Hr. cbv zeta. unfold handle_reordering_timers.
  set (e1 := if reordering_timer_running e && (rx_reord (st e) <=? rx_deliv (st e))
             then set_reordering_timer e false else e).
  assert (rx_window_above_deliv cfg e1 /\ st e1 = st e) as [He1 Hst1]
      by (unfold e1; destruct (reordering_timer_running e && _); split; auto).
  pose proof He as (H0 & H1 & H2 & _).
  destruct (t_reordering cfg) eqn:Ht.
  - destruct (handle_t_reordering_expire_shape
                (set_st e1 (set_rx_reord (st e1) (rx_next (st e1))))) as [R1 R2].
    + exact He1.
    + cbn. rewrite Hst1. lia.
    + cbn in R1, R2. rewrite Hst1 in *. split; [lia|]. split; [exact R2|]. intros _. lia.
  - destruct (negb (reordering_timer_running e1) && _); cbn; rewrite ?Hst1;
      (split; [lia|split; [reflexivity|intros Hms; discriminate]]).
  - rewrite Hst1. split; [lia|split; [reflexivity|intros Hms; discriminate]].
Qed.

(** [store_and_deliver] either drops the PDU and changes nothing, or stores
    it and ends in the bookkeeping of the reordering timer. *)
Lemma store_and_deliver_shape (e : entity) (buf : byte_buffer) (c : Z) :
  rx_inv cfg e -> c + 1 < 2 ^ 32 ->
  store_and_deliver cfg e buf c = e
  \/ exists e3,
       store_and_deliver cfg e buf c = handle_reordering_timers cfg e3
       /\ rx_window_above_deliv cfg e3
       /\ (reordering_timer_running e3 = true -> rx_reord (st e3) <= rx_next (st e3))
       /\ rx_deliv (st e) <= rx_deliv (st e3)
       /\ rx_next (st e) <= rx_next (st e3)
       /\ reordering_timer_running e3 = reordering_timer_running e.
Proof.
  intros [He [Hrun Hms0]] Hc. unfold store_and_deliver.
  destruct (Z.ltb_spec c (rx_deliv (st e))) as [|Hge]; [left; reflexivity|].
  set (stale := match window_at _ _ _ with Some _ => _ | None => _ end).
  pose proof He as (H0 & H1 & H2 & Hall).
  assert (forall w, stale = Some w ->
            map_Forall (fun k info => rx_deliv (st e) <= count info
                                      /\ k = slot_of (window_size cfg) (count info)) w)
    as Hst.
  { subst stale. intros w. destruct (window_at _ _ _) as [info|].
    - destruct (_ =? _); [discriminate|]. intros [= <-].
      intros k x Hk. unfold remove_sn in Hk.
      apply lookup_delete_Some in Hk as [_ Hk]. exact (Hall _ _ Hk).
    - intros [= <-]. exact Hall. }
  destruct stale as [w|]; [|left; reflexivity].
  specialize (Hst w eq_refl). right.
  set (e1 := set_rx_window e _).
  set (e2 := if rx_next (st e1) <=? c then _ else _).
  assert (rx_window_above_deliv cfg e2
          /\ reordering_timer_running e2 = reordering_timer_running e
          /\ rx_deliv (st e2) = rx_deliv (st e)
          /\ rx_reord (st e2) = rx_reord (st e)
          /\ rx_next (st e) <= rx_next (st e2)) as (He2 & Ht2 & Hd2 & Hr2 & Hn2).
  { assert (map_Forall (fun k info => rx_deliv (st e) <= count info
                                      /\ k = slot_of (window_size cfg) (count info))
              (rx_window e1)) as Hall1.
    { subst e1. cbn. unfold add_sn. intros k x Hk.
      apply lookup_insert_Some in Hk as [[<- <-]|[_ Hk]].
      - cbn. split; [lia|reflexivity].
      - exact (Hst _ _ Hk). }
    subst e2. change (st e1) with (st e).
    destruct (Z.leb_spec (rx_next (st e)) c).
    - split; [|split; [reflexivity|split; [reflexivity|split; [reflexivity|]]]].
      + unfold rx_window_above_deliv. cbn. rewrite u32_small by lia.
        split; [lia|]. split; [lia|]. split; [lia|]. exact Hall1.
      + cbn. rewrite u32_small by lia. lia.
    - split; [|split; [reflexivity|split; [reflexivity|split; [reflexivity|cbn; lia]]]].
      unfold rx_window_above_deliv. cbn.
      split; [lia|]. split; [lia|]. split; [lia|]. exact Hall1. }
  clearbody e2.
  set (e3 := if c =? rx_deliv (st e2) then _ else _).
  assert (rx_window_above_deliv cfg e3
          /\ reordering_timer_running e3 = reordering_timer_running e2
          /\ rx_reord (st e3) = rx_reord (st e2)
          /\ rx_next (st e3) = rx_next (st e2)
          /\ rx_deliv (st e2) <= rx_deliv (st e3)) as (He3 & Ht3 & Hr3 & Hn3 & Hd3).
  { subst e3. destruct (c =? rx_deliv (st e2)).
    - unfold deliver_all_consecutive_counts.
      destruct (deliver_consecutive_loop_above_deliv cfg
                  (Z.to_nat (u32 (rx_next (st e2) - rx_deliv (st e2)))) e2 He2)
        as (Ha & Hb' & Hb & Hc' & Hd).
      auto.
    - split; [exact He2|]. repeat split; lia. }
  exists e3. split; [reflexivity|]. split; [exact He3|].
  split; [|split; [lia|split; [lia|congruence]]].
  rewrite Ht3, Ht2, Hr3, Hr2, Hn3. intros Hon. specialize (Hrun Hon). lia.
Qed.

Lemma store_and_deliver_counters (e : entity) (buf : byte_buffer) (c : Z) :
  rx_inv cfg e -> c + 1 < 2 ^ 32 ->
  let e' := store_and_deliver cfg e buf c in
  rx_deliv (st e) <= rx_deliv (st e')
  /\ rx_next (st e) <= rx_next (st e')
  /\ (t_reordering cfg = ms0 -> rx_deliv (st e) = rx_next (st e) ->
      rx_deliv (st e') = rx_next (st e')).
Proof.
  intros He Hc. cbv zeta.
  pose proof (store_and_deliver_inv cfg e buf c He Hc) as [(_ & Hle & _) _].
  destruct (store_and_deliver_shape e buf c He Hc)
    as [->|(e3 & Heq & He3 & Hr3 & Hd3 & Hn3 & _)].
  - split; [lia|]. split; [lia|]. auto.
  - rewrite Heq in *.
    destruct (handle_reordering_timers_shape e3 He3 Hr3) as (S1 & S2 & S3).
    split; [lia|]. split; [lia|]. intros Hms _. specialize (S3 Hms). lia.
Qed.

Lemma store_and_deliver_below_next (e : entity) (buf : byte_buffer) (c : Z) :
  0 <= rx_deliv (st e) -> c + 1 < 2 ^ 32 ->
  rx_window_below_next e -> rx_window_below_next (store_and_deliver cfg e buf c).
Proof.
  intros Hn Hc Hb. unfold store_and_deliver.
  destruct (Z.ltb_spec c (rx_deliv (st e))); [exact Hb|].
  set (stale := match window_at _ _ _ with Some _ => _ | None => _ end).
  assert (forall w, stale = Some w ->
            forall k x, w !! k = Some x -> rx_window e !! k = Some x) as Hst.
  { subst stale. intros w. destruct (window_at _ _ _) as [info|].
    - destruct (_ =? _); [discriminate|]. intros [= <-].
      intros k x Hk. unfold remove_sn in Hk.
      apply lookup_delete_Some in Hk as [_ Hk]. exact Hk.
    - intros [= <-]. auto. }
  destruct stale as [w|]; [|exact Hb].
  specialize (Hst w eq_refl).
  set (e1 := set_rx_window e _).
  set (e2 := if rx_next (st e1) <=? c then _ else _).
  assert (rx_window_below_next e2) as Hb2.
  { assert (rx_window e2 = rx_window e1 /\ rx_next (st e) <= rx_next (st e2)
            /\ c < rx_next (st e2)) as (Hw & Hle & Hlt).
    { subst e2. change (st e1) with (st e).
      destruct (Z.leb_spec (rx_next (st e)) c); unfold e1; rx_simpl;
        rewrite ?u32_small by lia; repeat split; try reflexivity; lia. }
    intros k x Hk. cbn. rewrite Hw in Hk. subst e1. cbn in Hk. unfold add_sn in Hk.
    apply lookup_insert_Some in Hk as [[_ <-]|[_ Hk]]; [exact Hlt|].
    pose proof (Hb k x (Hst k x Hk)) as Hx. cbn in Hx. lia. }
  clearbody e2.
  apply (rx_delivery_below_next
           (if c =? rx_deliv (st e2) then deliver_all_consecutive_counts cfg e2 else e2)).
  - apply handle_reordering_timers_delivery.
  - destruct (_ =? _); [|exact Hb2].
    exact (rx_delivery_below_next _ _ (deliver_consecutive_loop_delivery cfg _ e2) Hb2).
Qed.

Lemma store_and_deliver_log (e : entity) (buf : byte_buffer) (c : Z) :
  rx_log_step e (store_and_deliver cfg e buf c).
Proof.
  unfold store_and_deliver.
  destruct (_ <? _); [apply rx_log_step_refl|].
  destruct (match window_at _ _ _ with Some _ => _ | None => _ end) as [w|];
    [|apply rx_log_step_refl].
  set (e1 := set_rx_window e _).
  set (e2 := if rx_next (st e1) <=? c then _ else _).
  assert (rx_log_step e e2) as H2
      by (subst e2; destruct (_ <=? _); apply rx_log_step_frame; reflexivity).
  clearbody e2.
  eapply rx_log_step_trans; [exact H2|].
  eapply rx_log_step_trans;
    [|apply rx_delivery_log_step, handle_reordering_timers_delivery].
  destruct (_ =? _); [|apply rx_log_step_refl].
  apply rx_delivery_log_step, deliver_consecutive_loop_delivery.
Qed.


Lemma handle_data_pdu_below_next (e : entity) (pdu : byte_buffer) :
  rx_config_ok cfg -> 0 <= rx_deliv (st e) ->
  rx_window_below_next e -> rx_window_below_next (handle_data_pdu prims cfg e pdu).
Proof.
  intros [_ [_ Hhard]] H0 Hb. unfold handle_data_pdu.
  destruct (_ <=? _); [exact Hb|].
  destruct (read_data_pdu_header _ _) as [hdr_sn|]; [|exact Hb].
  set (e1 := if (_ <? _) && negb _ then _ else _).
  assert (rx_window_below_next e1 /\ st e1 = st e) as [H1 Hst1]
      by (subst e1; destruct ((_ <? _) && negb _); split; auto).
  clearbody e1.
  destruct (Z.leb_spec (hard (max_count cfg)) (calc_rcvd_count cfg e hdr_sn)) as [|Hlt];
    [destruct (negb _); exact H1|].
  destruct (decipher_and_extract_mac _ _ _ _ _) as [sdu_buf mac].
  destruct (integrity_enabled _).
  - destruct (negb _); [exact H1|].
    apply store_and_deliver_below_next; [cbn; rewrite Hst1; exact H0|lia|exact H1].
  - apply store_and_deliver_below_next; [rewrite Hst1; exact H0|lia|exact H1].
Qed.

Lemma handle_data_pdu_counters (e : entity) (pdu : byte_buffer) :
  rx_config_ok cfg -> rx_inv cfg e ->
  let e' := handle_data_pdu prims cfg e pdu in
  rx_deliv (st e) <= rx_deliv (st e')
  /\ rx_next (st e) <= rx_next (st e')
  /\ (t_reordering cfg = ms0 -> rx_deliv (st e) = rx_next (st e) ->
      rx_deliv (st e') = rx_next (st e')).
Proof.
  intros [_ [_ Hhard]] He. cbv zeta. unfold handle_data_pdu.
  assert (forall e0 : entity, st e0 = st e ->
            rx_deliv (st e) <= rx_deliv (st e0)
            /\ rx_next (st e) <= rx_next (st e0)
            /\ (t_reordering cfg = ms0 -> rx_deliv (st e) = rx_next (st e) ->
                rx_deliv (st e0) = rx_next (st e0))) as Hsame
      by (intros e0 ->; split; [lia|split; [lia|auto]]).
  destruct (_ <=? _); [apply Hsame; reflexivity|].
  destruct (read_data_pdu_header _ _) as [hdr_sn|]; [|apply Hsame; reflexivity].
  set (e1 := if (_ <? _) && negb _ then _ else _).
  assert (rx_inv cfg e1 /\ st e1 = st e) as [H1 Hst1]
      by (subst e1; destruct ((_ <? _) && negb _); split; auto).
  clearbody e1.
  destruct (Z.leb_spec (hard (max_count cfg)) (calc_rcvd_count cfg e hdr_sn)) as [|Hlt];
    [destruct (negb _); apply Hsame; auto|].
  destruct (decipher_and_extract_mac _ _ _ _ _) as [sdu_buf mac].
  assert (forall e0 : entity, st e0 = st e -> rx_inv cfg e0 ->
            let e' := store_and_deliver cfg e0 sdu_buf (calc_rcvd_count cfg e hdr_sn) in
            rx_deliv (st e) <= rx_deliv (st e')
            /\ rx_next (st e) <= rx_next (st e')
            /\ (t_reordering cfg = ms0 -> rx_deliv (st e) = rx_next (st e) ->
                rx_deliv (st e') = rx_next (st e'))) as Hstore.
  { intros e0 Hst0 He0. rewrite <- Hst0.
    apply store_and_deliver_counters; [exact He0|lia]. }
  destruct (integrity_enabled _).
  - destruct (negb _); [apply Hsame; auto|].
    apply Hstore; [exact Hst1|]. revert H1. apply rx_inv_frame; reflexivity.
  - apply Hstore; assumption.
Qed.

Lemma handle_data_pdu_log (e : entity) (pdu : byte_buffer) :
  rx_log_step e (handle_data_pdu prims cfg e pdu).
Proof.
  unfold handle_data_pdu.
  destruct (_ <=? _); [apply rx_log_step_frame; reflexivity|].
  destruct (read_data_pdu_header _ _) as [hdr_sn|]; [|apply rx_log_step_frame; reflexivity].
  set (e1 := if (_ <? _) && negb _ then _ else _).
  assert (rx_log_step e e1) as H1.
  { subst e1. destruct (_ <? _); cbn [andb]; [|apply rx_log_step_refl].
    destruct (max_count_notified e) eqn:Hn; cbn [negb]; [apply rx_log_step_refl|].
    exists [on_max_count_reached]. cbn. rewrite Hn, !Z.add_0_r, flag_raised_same.
    repeat split; auto; discriminate. }
  clearbody e1. eapply rx_log_step_trans; [exact H1|].
  destruct (_ <=? _).
  { destruct (max_count_overflow e1) eqn:Ho; cbn [negb]; [apply rx_log_step_refl|].
    exists [on_protocol_failure]. cbn. rewrite Ho, !Z.add_0_r, flag_raised_same.
    repeat split; auto; discriminate. }
  destruct (decipher_and_extract_mac _ _ _ _ _) as [sdu_buf mac].
  destruct (integrity_enabled _).
  - destruct (negb _); [apply rx_log_step_frame; reflexivity|].
    eapply rx_log_step_trans; [|apply store_and_deliver_log].
    apply rx_log_step_frame; reflexivity.
  - apply store_and_deliver_log.
Qed.

Lemma handle_reordering_timers_infinity (e : entity) :
  t_reordering cfg = infinity -> reordering_timer_running e = false ->
  reordering_timer_running (handle_reordering_timers cfg e) = false.
Proof.
  intros Hinf Hoff. unfold handle_reordering_timers. rewrite Hinf, Hoff. exact Hoff.
Qed.

Lemma handle_data_pdu_infinity (e : entity) (pdu : byte_buffer) :
  rx_config_ok cfg -> rx_inv cfg e ->
  t_reordering cfg = infinity -> reordering_timer_running e = false ->
  reordering_timer_running (handle_data_pdu prims cfg e pdu) = false.
Proof.
  intros [_ [_ Hhard]] He Hinf Hoff. unfold handle_data_pdu.
  destruct (_ <=? _); [exact Hoff|].
  destruct (read_data_pdu_header _ _) as [hdr_sn|]; [|exact Hoff].
  set (e1 := if (_ <? _) && negb _ then _ else _).
  assert (rx_inv cfg e1 /\ reordering_timer_running e1 = false) as [H1 Hoff1]
      by (subst e1; destruct ((_ <? _) && negb _); split; auto).
  clearbody e1.
  destruct (Z.leb_spec (hard (max_count cfg)) (calc_rcvd_count cfg e hdr_sn)) as [|Hlt];
    [destruct (negb _); exact Hoff1|].
  destruct (decipher_and_extract_mac _ _ _ _ _) as [sdu_buf mac].
  assert (forall e0 : entity, reordering_timer_running e0 = false -> rx_inv cfg e0 ->
            reordering_timer_running
              (store_and_deliver cfg e0 sdu_buf (calc_rcvd_count cfg e hdr_sn)) = false)
    as Hstore.
  { intros e0 Hoff0 He0.
    destruct (store_and_deliver_shape e0 sdu_buf (calc_rcvd_count cfg e hdr_sn) He0)
      as [->|(e3 & -> & _ & _ & _ & _ & Ht3)]; [lia|exact Hoff0|].
    apply handle_reordering_timers_infinity; congruence. }
  destruct (integrity_enabled _).
  - destruct (negb _); [exact Hoff1|].
    apply Hstore; [exact Hoff1|]. revert H1. apply rx_inv_frame; reflexivity.
  - apply Hstore; assumption.
Qed.

End rx_state.

(** ** Receiver: emptying the window *)

Lemma flat_map_ext_elem {A B : Type} (f g : A -> list B) (l : list A) :
  (forall x, x ∈ l -> f x = g x) -> flat_map f l = flat_map g l.
Proof.
  induction l as [|a l IH]; intros Hext; [reflexivity|].
  cbn [flat_map]. rewrite (Hext a) by (left; reflexivity).
  rewrite IH; [reflexivity|]. intros x Hx. apply Hext. right. exact Hx.
Qed.

Section rx_reestablish.
Import pdcp_entity_rx.
Variable prims : security_primitives.
Variable cfg : pdcp_rx_config.

Lemma discard_all_sdus_loop_spec fuel (e : entity) :
  0 <= rx_deliv (st e) <= rx_next (st e) -> rx_next (st e) < 2 ^ 32 ->
  Z.of_nat fuel = rx_next (st e) - rx_deliv (st e) ->
  let e' := discard_all_sdus_loop cfg fuel e in
  st e' = set_rx_deliv (st e) (rx_next (st e))
  /\ out e' = out e /\ metrics e' = metrics e
  /\ reordering_timer_running e' = reordering_timer_running e
  /\ sec e' = sec e
  /\ max_count_notified e' = max_count_notified e
  /\ max_count_overflow e' = max_count_overflow e
  /\ (forall c, rx_deliv (st e) <= c < rx_next (st e) ->
                rx_window e' !! slot_of (window_size cfg) c = None)
  /\ (forall k x, rx_window e' !! k = Some x -> rx_window e !! k = Some x).
Proof.
  revert e. induction fuel as [|fuel IH]; intros e Hd Hn Hfuel; cbv zeta.
  - cbn [discard_all_sdus_loop].
    assert (rx_deliv (st e) = rx_next (st e)) as Heq by lia.
    repeat split; auto; try (intros; lia).
    destruct (st e) as [n d r]. cbn in *. subst. reflexivity.
  - cbn [discard_all_sdus_loop].
    destruct (Z.eqb_spec (rx_deliv (st e)) (rx_next (st e))); [lia|]. cbn [negb].
    set (e1 := if has_sn (window_size cfg) (rx_window e) (rx_deliv (st e))
               then set_rx_window e (remove_sn (window_size cfg) (rx_window e)
                                       (rx_deliv (st e)))
               else e).
    assert (st e1 = st e /\ out e1 = out e /\ metrics e1 = metrics e
            /\ reordering_timer_running e1 = reordering_timer_running e
            /\ sec e1 = sec e /\ max_count_notified e1 = max_count_notified e
            /\ max_count_overflow e1 = max_count_overflow e
            /\ forall k, rx_window e1 !! k
                         = if decide (k = slot_of (window_size cfg) (rx_deliv (st e)))
                           then None else rx_window e !! k)
      as (S1 & S2 & S3 & S4 & S5 & S6 & S7 & S8).
    { unfold e1, has_sn.
      destruct (rx_window e !! slot_of (window_size cfg) (rx_deliv (st e))) eqn:Hlk;
        rx_simpl; repeat split; try reflexivity; intros k; unfold remove_sn;
        destruct (decide (k = _)) as [->|Hne];
        rewrite ?lookup_delete_eq, ?lookup_delete_ne by congruence; auto. }
    clearbody e1.
    destruct (IH (advance_rx_deliv e1)) as (I1 & I2 & I3 & I4 & I5 & I6 & I7 & I8 & I9).
    { unfold advance_rx_deliv. rx_simpl. rewrite S1, u32_small by lia. lia. }
    { unfold advance_rx_deliv. rx_simpl. rewrite S1. lia. }
    { unfold advance_rx_deliv. rx_simpl. rewrite S1, u32_small by lia. lia. }
    unfold advance_rx_deliv in *. revert I1 I2 I3 I4 I5 I6 I7 I8 I9. rx_simpl.
    rewrite S1, S2, S3, S4, S5, S6, S7, u32_small by lia.
    intros I1 I2 I3 I4 I5 I6 I7 I8 I9.
    split; [exact I1|]. repeat split; auto.
    + intros c Hc. destruct (Z.eq_dec c (rx_deliv (st e))) as [->|Hne]; [|apply I8; lia].
      destruct (rx_window _ !! _) as [x|] eqn:Hx; [|reflexivity].
      apply I9 in Hx. rewrite S8 in Hx. destruct (decide _); [discriminate|congruence].
    + intros k x Hx. apply I9 in Hx. rewrite S8 in Hx.
      destruct (decide _); [discriminate|exact Hx].
Qed.


Lemma deliver_all_sdus_loop_spec (counts : list Z) (e : entity) :
  let e' := deliver_all_sdus_loop cfg counts e in
  rx_delivery e e'
  /\ st e' = st e
  /\ reordering_timer_running e' = reordering_timer_running e
  /\ (forall c, c ∈ counts -> rx_window e' !! slot_of (window_size cfg) c = None)
  /\ (NoDup (map (slot_of (window_size cfg)) counts) ->
      out e' = out e
               ++ map on_new_sdu
                    (flat_map (fun c => match rx_window e !! slot_of (window_size cfg) c with
                                        | Some x => [sdu x]
                                        | None => []
                                        end) counts)).
Proof.
  revert e. induction counts as [|c counts IH]; intros e; cbv zeta.
  - cbn. rewrite app_nil_r. split; [apply rx_delivery_refl|]. repeat split; auto.
    intros c Hc. inversion Hc.
  - cbn [deliver_all_sdus_loop flat_map map]. unfold window_at.
    destruct (rx_window e !! slot_of (window_size cfg) c) as [x|] eqn:Hlk.
    + set (e1 := set_rx_window _ _).
      assert (rx_delivery e e1) as Hd1.
      { unfold rx_delivery, e1. rx_simpl. repeat split; try reflexivity.
        - intros k y Hk. unfold remove_sn in Hk. apply lookup_delete_Some in Hk as [_ Hk].
          exact Hk.
        - exists [sdu x]. cbn [map length concat]. rewrite app_nil_r.
          repeat split; reflexivity. }
      destruct (IH e1) as (I1 & I2 & I3 & I4 & I5).
      split; [eapply rx_delivery_trans; eassumption|].
      split; [rewrite I2; reflexivity|]. split; [rewrite I3; reflexivity|]. split.
      * intros c' Hc'. apply elem_of_cons in Hc' as [->|Hc']; [|apply I4; exact Hc'].
        destruct (rx_window (deliver_all_sdus_loop cfg counts e1)
                    !! slot_of (window_size cfg) c) as [y|] eqn:Hy; [|reflexivity].
        destruct I1 as (_ & _ & _ & _ & Hsub & _). apply Hsub in Hy.
        unfold e1 in Hy. cbn [rx_window set_rx_window] in Hy. unfold remove_sn in Hy.
        rewrite lookup_delete_eq in Hy.
        discriminate.
      * intros Hnd. apply NoDup_cons in Hnd as [Hnotin Hnd].
        rewrite (I5 Hnd). unfold e1 at 1. rx_simpl. rewrite <- app_assoc. f_equal.
        cbn [app map]. f_equal. f_equal.
        apply flat_map_ext_elem. intros c' Hc'.
        unfold e1, remove_sn. rx_simpl. rewrite lookup_delete_ne; [reflexivity|].
        intros Heq. apply Hnotin. rewrite Heq.
        apply (list_elem_of_fmap_2 (slot_of (window_size cfg))). exact Hc'.
    + destruct (IH e) as (I1 & I2 & I3 & I4 & I5).
      split; [exact I1|]. split; [exact I2|]. split; [exact I3|]. split.
      * intros c' Hc'. apply elem_of_cons in Hc' as [->|Hc']; [|apply I4; exact Hc'].
        destruct (rx_window (deliver_all_sdus_loop cfg counts e)
                    !! slot_of (window_size cfg) c) as [y|] eqn:Hy; [|reflexivity].
        destruct I1 as (_ & _ & _ & _ & Hsub & _). apply Hsub in Hy. congruence.
      * intros Hnd. apply NoDup_cons in Hnd as [_ Hnd]. cbn [app]. exact (I5 Hnd).
Qed.

(** A window whose entries all have a COUNT from [lo] up to [hi] is empty
    once the slots of these COUNTs are. *)
Lemma window_emptied (w w' : gmap Z pdcp_rx_sdu_info) (lo hi : Z) :
  (forall k x, w !! k = Some x ->
               lo <= count x < hi /\ k = slot_of (window_size cfg) (count x)) ->
  (forall k x, w' !! k = Some x -> w !! k = Some x) ->
  (forall c, lo <= c < hi -> w' !! slot_of (window_size cfg) c = None) ->
  w' = ∅.
Proof.
  intros Hall Hsub Hnone. apply map_empty. intros k.
  destruct (w' !! k) as [x|] eqn:Hx; [|reflexivity].
  destruct (Hall k x (Hsub k x Hx)) as [Hc ->]. rewrite Hnone in Hx by exact Hc.
  discriminate.
Qed.

Lemma rx_state_ok_entries (e : entity) :
  rx_state_ok cfg e ->
  forall k x, rx_window e !! k = Some x ->
              rx_deliv (st e) <= count x < rx_next (st e)
              /\ k = slot_of (window_size cfg) (count x).
Proof.
  intros [[(_ & _ & _ & Hall) _] Hb] k x Hk.
  destruct (Hall k x Hk) as [Hlo Hslot]. pose proof (Hb k x Hk) as Hhi. cbn in Hhi.
  split; [lia|exact Hslot].
Qed.


Lemma NoDup_slots (lo n : Z) :
  n <= window_size cfg -> NoDup (map (slot_of (window_size cfg)) (seqZ lo n)).
Proof.
  intros Hn. pose proof (rx_window_size_pos cfg) as Hpos.
  apply (NoDup_fmap_2_strong (slot_of (window_size cfg))); [|apply NoDup_seqZ].
  intros x y Hx Hy Heq. apply elem_of_seqZ in Hx, Hy.
  apply (mod_eq_close (window_size cfg)); [exact Hpos|exact Heq|lia].
Qed.

Lemma discard_all_sdus_spec (e : entity) :
  rx_state_ok cfg e ->
  let e' := discard_all_sdus cfg e in
  st e' = set_rx_deliv (st e) (rx_next (st e))
  /\ rx_window e' = ∅
  /\ out e' = out e /\ metrics e' = metrics e
  /\ reordering_timer_running e' = reordering_timer_running e
  /\ sec e' = sec e
  /\ max_count_notified e' = max_count_notified e
  /\ max_count_overflow e' = max_count_overflow e.
Proof.
  intros Hok. pose proof Hok as [[(H0 & H1 & H2 & _) _] _]. cbv zeta.
  unfold discard_all_sdus.
  destruct (discard_all_sdus_loop_spec
              (Z.to_nat (u32 (rx_next (st e) - rx_deliv (st e)))) e)
    as (R1 & R2 & R3 & R4 & R5 & R6 & R7 & R8 & R9); [lia|lia|rewrite u32_small; lia|].
  repeat split; auto.
  exact (window_emptied _ _ _ _ (rx_state_ok_entries e Hok) R9 R8).
Qed.

Lemma deliver_all_sdus_spec (e : entity) :
  rx_state_ok cfg e ->
  let e' := deliver_all_sdus cfg e in
  rx_delivery e e'
  /\ st e' = st e
  /\ rx_window e' = ∅
  /\ reordering_timer_running e' = reordering_timer_running e
  /\ (rx_next (st e) - rx_deliv (st e) <= window_size cfg ->
      out e' = out e ++ map on_new_sdu (rx_stored_sdus cfg e (rx_window_counts e))).
Proof.
  intros Hok. cbv zeta. unfold deliver_all_sdus. fold (rx_window_counts e).
  destruct (deliver_all_sdus_loop_spec (rx_window_counts e) e) as (R1 & R2 & R3 & R4 & R5).
  pose proof (rx_state_ok_entries e Hok) as Hall.
  pose proof (rx_window_size_pos cfg) as Hpos.
  split; [exact R1|]. split; [exact R2|]. split; [|split; [exact R3|]].
  - destruct R1 as (_ & _ & _ & _ & Hsub & _).
    apply (window_emptied _ _ _ _ Hall Hsub).
    intros c Hc. apply R4. unfold rx_window_counts. apply elem_of_seqZ. lia.
  - intros Hspan. rewrite R5 by (apply NoDup_slots; exact Hspan).
    f_equal. f_equal. unfold rx_stored_sdus. apply flat_map_ext_elem.
    intros c Hc. unfold rx_window_counts in Hc. apply elem_of_seqZ in Hc.
    unfold rx_entry.
    destruct (rx_window e !! slot_of (window_size cfg) c) as [x|] eqn:Hlk; [|reflexivity].
    destruct (Hall _ _ Hlk) as [Hx Hslot].
    assert (count x = c) as ->; [|rewrite Z.eqb_refl; reflexivity].
    apply (mod_eq_close (window_size cfg)); [exact Hpos|symmetry; exact Hslot|lia].
Qed.

Lemma rx_state_ok_init_like (e : entity) :
  st e = {| rx_next := 0; rx_deliv := 0; rx_reord := 0 |} ->
  rx_window e = ∅ -> reordering_timer_running e = false ->
  rx_state_ok cfg e.
Proof.
  intros Hst Hw Ht. unfold rx_state_ok, rx_inv, rx_window_above_deliv, rx_timer_consistent,
    rx_window_below_next.
  rewrite Hst, Hw, Ht. cbn.
  repeat split; try lia; try discriminate; intros k x Hk; rewrite lookup_empty in Hk;
    discriminate.
Qed.

Lemma reestablish_spec (e : entity) (sec_cfg_ : sec_128_as_config) :
  rx_state_ok cfg e ->
  let e' := reestablish cfg e sec_cfg_ in
  sec_cfg (sec e') = sec_cfg_
  /\ integrity_enabled (sec e') = integrity_enabled (sec e)
  /\ ciphering_enabled (sec e') = ciphering_enabled (sec e)
  /\ max_count_notified e' = max_count_notified e
  /\ max_count_overflow e' = max_count_overflow e
  /\ (is_srb cfg || is_um cfg = true ->
      st e' = {| rx_next := 0; rx_deliv := 0; rx_reord := 0 |}
      /\ rx_window e' = ∅ /\ reordering_timer_running e' = false)
  /\ (is_srb cfg = true -> out e' = out e)
  /\ (is_srb cfg = false -> is_um cfg = true ->
      rx_next (st e) - rx_deliv (st e) <= window_size cfg ->
      out e' = out e ++ map on_new_sdu (rx_stored_sdus cfg e (rx_window_counts e)))
  /\ (is_srb cfg || is_um cfg = false -> e' = configure_security e sec_cfg_)
  /\ rx_state_ok cfg e'
  /\ rx_log_step e e'.
Proof.
  intros Hok. cbv zeta. unfold reestablish.
  destruct (is_srb cfg) eqn:Hsrb; cbn [orb].
  - destruct (discard_all_sdus_spec e Hok) as (D1 & D2 & D3 & D4 & D5 & D6 & D7 & D8).
    set (e1 := discard_all_sdus cfg e) in *.
    set (e2 := if reordering_timer_running e1 then set_reordering_timer e1 false else e1).
    assert (st e2 = st e1 /\ rx_window e2 = ∅ /\ out e2 = out e /\ metrics e2 = metrics e
            /\ reordering_timer_running e2 = false /\ sec e2 = sec e
            /\ max_count_notified e2 = max_count_notified e
            /\ max_count_overflow e2 = max_count_overflow e)
      as (E1 & E2 & E3 & E4 & E5 & E6 & E7 & E8).
    { unfold e2. destruct (reordering_timer_running e1) eqn:Ht; rx_simpl;
        repeat split; auto. }
    clearbody e2.
    set (e3 := if is_um cfg then deliver_all_sdus cfg e2 else e2).
    assert (rx_window e3 = ∅ /\ out e3 = out e /\ reordering_timer_running e3 = false
            /\ sec e3 = sec e /\ max_count_notified e3 = max_count_notified e
            /\ max_count_overflow e3 = max_count_overflow e
            /\ num_sdus (metrics e3) = num_sdus (metrics e)
            /\ num_sdu_bytes (metrics e3) = num_sdu_bytes (metrics e))
      as (F1 & F2 & F3 & F4 & F5 & F6 & F7 & F8).
    { unfold e3. destruct (is_um cfg); [|rewrite E4; repeat split; auto].
      unfold deliver_all_sdus. rewrite E1, D1. rx_simpl. rewrite Z.sub_diag.
      change (seqZ (rx_next (st e)) 0) with (@nil Z). cbn [deliver_all_sdus_loop].
      rewrite E4. repeat split; auto. }
    clearbody e3. unfold configure_security. rx_simpl.
    cbn [integrity_enabled ciphering_enabled sec_cfg].
    rewrite F1, F2, F3, F4, F5, F6.
    split_and!; auto; try discriminate.
    + apply rx_state_ok_init_like; reflexivity || assumption.
    + apply rx_log_step_frame; rx_simpl; auto.
  - destruct (is_um cfg) eqn:Hum.
    + set (e2 := if reordering_timer_running e then set_reordering_timer e false else e).
      assert (st e2 = st e /\ rx_window e2 = rx_window e /\ out e2 = out e
              /\ metrics e2 = metrics e
              /\ reordering_timer_running e2 = false /\ sec e2 = sec e
              /\ max_count_notified e2 = max_count_notified e
              /\ max_count_overflow e2 = max_count_overflow e)
        as (E1 & E2 & E3 & E4 & E5 & E6 & E7 & E8).
      { unfold e2. destruct (reordering_timer_running e) eqn:Ht; rx_simpl;
          repeat split; auto. }
      assert (rx_state_ok cfg e2) as Hok2.
      { destruct Hok as [[Ha [Hb Hc]] Hd]. split; [split; [|split]|].
        - unfold rx_window_above_deliv. rewrite E1, E2. exact Ha.
        - rewrite E5. discriminate.
        - auto.
        - unfold rx_window_below_next. rewrite E1, E2. exact Hd. }
      destruct (deliver_all_sdus_spec e2 Hok2) as (G1 & G2 & G3 & G4 & G5).
      pose proof G1 as (_ & G6 & G7 & G8 & _ & _).
      set (e3 := deliver_all_sdus cfg e2) in *.
      unfold configure_security. rx_simpl.
      cbn [integrity_enabled ciphering_enabled sec_cfg].
      rewrite G3, G4, G6, G7, G8, E5, E6, E7, E8.
      split_and!; auto; try discriminate.
      * intros _ _ Hspan. rewrite G5 by (rewrite E1; exact Hspan). rewrite E3.
        f_equal. f_equal. unfold rx_stored_sdus, rx_window_counts, rx_entry.
        rewrite E1, E2. reflexivity.
      * apply rx_state_ok_init_like; rx_simpl; congruence.
      * eapply rx_log_step_trans; [apply (rx_log_step_frame e e2); congruence|].
        eapply rx_log_step_trans; [apply rx_delivery_log_step; exact G1|].
        apply rx_log_step_frame; reflexivity.
    + unfold configure_security. rx_simpl.
      cbn [integrity_enabled ciphering_enabled sec_cfg].
      split_and!; auto; try discriminate.
      apply rx_log_step_frame; reflexivity.
Qed.

End rx_reestablish.

(** ** Receiver: the public operations *)

Section rx_operations.
Import pdcp_entity_rx.
Variable prims : security_primitives.
Variable cfg : pdcp_rx_config.

Lemma rx_state_ok_frame (e e' : entity) :
  st e' = st e -> rx_window e' = rx_window e ->
  reordering_timer_running e' = reordering_timer_running e ->
  rx_state_ok cfg e -> rx_state_ok cfg e'.
Proof.
  intros H1 H2 H3 [Ha Hb]. split.
  - exact (rx_inv_frame cfg e e' H1 H2 H3 Ha).
  - exact (rx_window_below_next_frame e e' H1 H2 Hb).
Qed.

Lemma handle_control_pdu_spec (e : entity) (pdu : byte_buffer) :
  let e' := handle_control_pdu e pdu in
  st e' = st e /\ rx_window e' = rx_window e
  /\ reordering_timer_running e' = reordering_timer_running e
  /\ sec e' = sec e /\ metrics e' = metrics e
  /\ max_count_notified e' = max_count_notified e
  /\ max_count_overflow e' = max_count_overflow e
  /\ out e' = out e ++ match pdu with
                       | [] => []
                       | b :: _ => if pdcp_control_pdu_get_cpt b =? 0
                                   then [on_status_report pdu] else []
                       end.
Proof.
  cbv zeta. unfold handle_control_pdu. destruct pdu as [|b rest].
  - rewrite app_nil_r. repeat split.
  - destruct (pdcp_control_pdu_get_cpt b =? 0).
    + repeat split.
    + rewrite app_nil_r. repeat split.
Qed.

Lemma rx_log_step_status_report (e e' : entity) (new : list rx_event) :
  out e' = out e ++ new ->
  (forall ev, ev ∈ new -> exists b, ev = on_status_report b) ->
  metrics e' = metrics e ->
  max_count_notified e' = max_count_notified e ->
  max_count_overflow e' = max_count_overflow e ->
  rx_log_step e e'.
Proof.
  intros H1 Hnew H2 H3 H4. exists new. rewrite H1, H2, H3, H4, !flag_raised_same.
  assert (rx_count is_rx_max_count_reached new = 0%nat
          /\ rx_count is_rx_protocol_failure new = 0%nat
          /\ rx_count is_rx_integrity_failure new = 0%nat
          /\ rx_sdus new = []) as (C1 & C2 & C3 & C4).
  { clear H1. induction new as [|ev new IH]; [repeat split|].
    destruct (Hnew ev) as [b ->]; [left|].
    destruct IH as (C1 & C2 & C3 & C4); [intros ev' Hev'; apply Hnew; right; exact Hev'|].
    unfold rx_count in *. cbn. repeat split; auto. }
  rewrite C1, C2, C3, C4. cbn. rewrite !Z.add_0_r. repeat split; auto.
Qed.

Lemma handle_control_pdu_log (e : entity) (pdu : byte_buffer) :
  rx_log_step e (handle_control_pdu e pdu).
Proof.
  destruct (handle_control_pdu_spec e pdu) as (_ & _ & _ & _ & Hm & Hn & Ho & Hout).
  eapply rx_log_step_status_report; eauto.
  intros ev Hev. destruct pdu as [|b rest]; [inversion Hev|].
  destruct (pdcp_control_pdu_get_cpt b =? 0); [|inversion Hev].
  apply list_elem_of_singleton in Hev. eauto.
Qed.

Lemma handle_pdu_state_ok (e : entity) (buf : byte_buffer) :
  rx_config_ok cfg -> rx_state_ok cfg e -> rx_state_ok cfg (handle_pdu prims cfg e buf).
Proof.
  intros Hcfg Hok. unfold handle_pdu.
  set (e1 := metrics_add_pdus e 1 (Z.of_nat (length buf))).
  assert (rx_state_ok cfg e1) as Hok1
      by (apply (rx_state_ok_frame e); [reflexivity..|exact Hok]).
  clearbody e1. destruct buf as [|b rest].
  - apply (rx_state_ok_frame e1); [reflexivity..|exact Hok1].
  - destruct (is_srb cfg || (pdcp_pdu_get_dc b =? 1)).
    + destruct Hok1 as [Ha Hb]. split.
      * apply handle_data_pdu_inv; assumption.
      * apply handle_data_pdu_below_next; [assumption| |assumption].
        destruct Ha as [[H0 _] _]. exact H0.
    + destruct (handle_control_pdu_spec e1 (b :: rest)) as (H1 & H2 & H3 & _).
      apply (rx_state_ok_frame e1); assumption.
Qed.

Lemma handle_pdu_counters (e : entity) (buf : byte_buffer) :
  rx_config_ok cfg -> rx_inv cfg e ->
  let e' := handle_pdu prims cfg e buf in
  rx_deliv (st e) <= rx_deliv (st e')
  /\ rx_next (st e) <= rx_next (st e')
  /\ (t_reordering cfg = ms0 -> rx_deliv (st e) = rx_next (st e) ->
      rx_deliv (st e') = rx_next (st e')).
Proof.
  intros Hcfg Hinv. cbv zeta. unfold handle_pdu.
  set (e1 := metrics_add_pdus e 1 (Z.of_nat (length buf))).
  assert (rx_inv cfg e1) as Hinv1
      by (apply (rx_inv_frame cfg e); [reflexivity..|exact Hinv]).
  change (st e) with (st e1). clearbody e1. destruct buf as [|b rest].
  - rx_simpl. split; [lia|]. split; [lia|]. auto.
  - destruct (is_srb cfg || (pdcp_pdu_get_dc b =? 1)).
    + apply handle_data_pdu_counters; assumption.
    + destruct (handle_control_pdu_spec e1 (b :: rest)) as (H1 & _).
      rewrite H1. split; [lia|]. split; [lia|]. auto.
Qed.

Lemma handle_pdu_log (e : entity) (buf : byte_buffer) :
  rx_log_step e (handle_pdu prims cfg e buf).
Proof.
  unfold handle_pdu.
  set (e1 := metrics_add_pdus e 1 (Z.of_nat (length buf))).
  assert (rx_log_step e e1) as H1 by (apply rx_log_step_frame; reflexivity).
  clearbody e1. eapply rx_log_step_trans; [exact H1|].
  destruct buf as [|b rest].
  - apply rx_log_step_frame; reflexivity.
  - destruct (is_srb cfg || (pdcp_pdu_get_dc b =? 1)).
    + apply handle_data_pdu_log.
    + apply handle_control_pdu_log.
Qed.

Lemma reordering_callback_delivery (e : entity) :
  rx_inv cfg e -> reordering_timer_running e = true ->
  rx_delivery e (reordering_callback cfg e).
Proof.
  intros [Ha [Ht _]] Hrun. destruct (Ht Hrun) as [Hd Hr].
  unfold reordering_callback.
  apply (rx_delivery_trans e (set_reordering_timer e false)).
  - apply rx_delivery_frame; reflexivity.
  - apply handle_t_reordering_expire_delivery.
Qed.

End rx_operations.

Section rx_runs.
Import pdcp_entity_rx.
Variable prims : security_primitives.
Variable cfg : pdcp_rx_config.

Lemma rx_entity_init_state_ok (sc : security_context) : rx_state_ok cfg (rx_entity_init sc).
Proof. apply rx_state_ok_init_like; reflexivity. Qed.

Lemma rx_operation_state_ok (e e' : entity) :
  rx_config_ok cfg -> rx_state_ok cfg e -> rx_operation prims cfg e e' -> rx_state_ok cfg e'.
Proof.
  intros Hcfg Hok Hop. destruct Hop as [e buf|e Hrun|e sec_cfg_].
  - apply handle_pdu_state_ok; assumption.
  - destruct Hok as [Hinv Hb]. split.
    + apply (rx_step_inv prims cfg e); [assumption..|]. constructor. exact Hrun.
    + apply (rx_delivery_below_next e); [|exact Hb].
      apply reordering_callback_delivery; assumption.
  - apply (reestablish_spec cfg e sec_cfg_ Hok).
Qed.

Lemma rx_run_state_ok_aux (e : entity) :
  rx_config_ok cfg -> rx_run prims cfg e -> rx_state_ok cfg e.
Proof.
  intros Hcfg. induction 1 as [sc|e e' _ IH Hop].
  - apply rx_entity_init_state_ok.
  - exact (rx_operation_state_ok e e' Hcfg IH Hop).
Qed.

Lemma rx_operation_log (e e' : entity) :
  rx_state_ok cfg e -> rx_operation prims cfg e e' -> rx_log_step e e'.
Proof.
  intros Hok Hop. destruct Hop as [e buf|e Hrun|e sec_cfg_].
  - apply handle_pdu_log.
  - apply rx_delivery_log_step. apply (reordering_callback_delivery cfg); [apply Hok|exact Hrun].
  - apply (reestablish_spec cfg e sec_cfg_ Hok).
Qed.

Lemma rx_entity_init_log_ok (sc : security_context) : rx_log_ok (rx_entity_init sc).
Proof. repeat split. Qed.

Lemma rx_run_log_ok_aux (e : entity) :
  rx_config_ok cfg -> rx_run prims cfg e -> rx_log_ok e.
Proof.
  intros Hcfg. induction 1 as [sc|e e' Hrun IH Hop].
  - apply rx_entity_init_log_ok.
  - apply (rx_log_step_ok e e'); [|exact IH].
    apply rx_operation_log; [|exact Hop]. apply rx_run_state_ok_aux; assumption.
Qed.

(** No two stored entries outside [RX_DELIV, RX_NEXT): with RX_DELIV =
    RX_NEXT the window is empty. *)
Lemma rx_state_ok_empty (e : entity) :
  rx_state_ok cfg e -> rx_deliv (st e) = rx_next (st e) -> rx_window e = ∅.
Proof.
  intros Hok Heq. apply map_empty. intros k.
  destruct (rx_window e !! k) as [x|] eqn:Hk; [|reflexivity].
  destruct (rx_state_ok_entries cfg e Hok k x Hk) as [Hx _]. lia.
Qed.

Lemma rx_operation_ms0 (e e' : entity) :
  rx_config_ok cfg -> t_reordering cfg = ms0 -> rx_state_ok cfg e ->
  rx_operation prims cfg e e' ->
  rx_deliv (st e) = rx_next (st e) -> rx_deliv (st e') = rx_next (st e').
Proof.
  intros Hcfg Hms0 Hok Hop Heq. destruct Hop as [e buf|e Hrun|e sec_cfg_].
  - apply (handle_pdu_counters prims cfg e buf Hcfg); [apply Hok|exact Hms0|exact Heq].
  - destruct Hok as [[_ [_ Hoff]] _]. rewrite (Hoff Hms0) in Hrun. discriminate.
  - destruct (reestablish_spec cfg e sec_cfg_ Hok)
      as (_ & _ & _ & _ & _ & Hreset & _ & _ & Hkeep & _).
    destruct (is_srb cfg || is_um cfg).
    + destruct (Hreset eq_refl) as [-> _]. reflexivity.
    + rewrite (Hkeep eq_refl). exact Heq.
Qed.

Lemma rx_run_ms0_aux (e : entity) :
  rx_config_ok cfg -> t_reordering cfg = ms0 -> rx_run prims cfg e ->
  rx_deliv (st e) = rx_next (st e).
Proof.
  intros Hcfg Hms0. induction 1 as [sc|e e' Hrun IH Hop]; [reflexivity|].
  apply (rx_operation_ms0 e e'); auto. apply rx_run_state_ok_aux; assumption.
Qed.

Lemma rx_operation_infinity (e e' : entity) :
  rx_config_ok cfg -> t_reordering cfg = infinity -> rx_state_ok cfg e ->
  rx_operation prims cfg e e' ->
  reordering_timer_running e = false -> reordering_timer_running e' = false.
Proof.
  intros Hcfg Hinf Hok Hop Hoff. destruct Hop as [e buf|e Hrun|e sec_cfg_].
  - unfold handle_pdu.
    set (e1 := metrics_add_pdus e 1 (Z.of_nat (length buf))).
    assert (reordering_timer_running e1 = false) as Hoff1 by exact Hoff.
    assert (rx_inv cfg e1) as Hinv1 by apply Hok.
    clearbody e1. destruct buf as [|b rest]; [exact Hoff1|].
    destruct (is_srb cfg || (pdcp_pdu_get_dc b =? 1)).
    + apply handle_data_pdu_infinity; assumption.
    + destruct (handle_control_pdu_spec e1 (b :: rest)) as (_ & _ & -> & _). exact Hoff1.
  - congruence.
  - destruct (reestablish_spec cfg e sec_cfg_ Hok)
      as (_ & _ & _ & _ & _ & Hreset & _ & _ & Hkeep & _).
    destruct (is_srb cfg || is_um cfg).
    + apply (Hreset eq_refl).
    + rewrite (Hkeep eq_refl). exact Hoff.
Qed.

Lemma rx_run_infinity_aux (e : entity) :
  rx_config_ok cfg -> t_reordering cfg = infinity -> rx_run prims cfg e ->
  reordering_timer_running e = false.
Proof.
  intros Hcfg Hinf. induction 1 as [sc|e e' Hrun IH Hop]; [reflexivity|].
  apply (rx_operation_infinity e e'); auto. apply rx_run_state_ok_aux; assumption.
Qed.

End rx_runs.

(** ** Receiver: reachable states *)

(** X16: in every state that the receiver reaches from its creation by
    PDUs, expiries of the reordering timer and re-establishments, every
    stored SDU sits in the slot of its COUNT and its COUNT lies between
    RX_DELIV and RX_NEXT: nothing below RX_DELIV is kept, and nothing at
    or above RX_NEXT is stored. *)
Theorem rx_window_holds_counts_from_rx_deliv_to_rx_next
        (prims : security_primitives) (cfg : pdcp_entity_rx.pdcp_rx_config)
        (e : pdcp_entity_rx.entity) :
  rx_config_ok cfg -> rx_run prims cfg e ->
  forall k info,
    pdcp_entity_rx.rx_window e !! k = Some info ->
    pdcp_entity_rx.rx_deliv (pdcp_entity_rx.st e) <= pdcp_entity_rx.count info
      < pdcp_entity_rx.rx_next (pdcp_entity_rx.st e)
    /\ k = slot_of (pdcp_entity_rx.window_size cfg) (pdcp_entity_rx.count info).
Proof.
  intros Hcfg Hrun.
  exact (rx_state_ok_entries cfg e (rx_run_state_ok_aux prims cfg e Hcfg Hrun)).
Qed.

Lemma rx_window_holds_counts_from_rx_deliv_to_rx_next_witness :
  let cfg := rx_config_example size12bits um (reordering_ms 50)
               {| notify := 4294967295; hard := 4294967295 |} in
  let e1 := pdcp_entity_rx.handle_pdu null_primitives cfg
              (rx_entity_init null_security) [128; 2; 12] in
  let e2 := pdcp_entity_rx.handle_pdu null_primitives cfg e1 [128; 5; 15] in
  let e3 := pdcp_entity_rx.reordering_callback cfg e2 in
  rx_run null_primitives cfg e2
  /\ pdcp_entity_rx.rx_window e2 !! 5 <> None
  /\ pdcp_entity_rx.st e2
     = {| pdcp_entity_rx.rx_next := 6; pdcp_entity_rx.rx_deliv := 0;
          pdcp_entity_rx.rx_reord := 3 |}
  /\ (forall k info,
        pdcp_entity_rx.rx_window e3 !! k = Some info ->
        3 <= pdcp_entity_rx.count info < 6 /\ k = pdcp_entity_rx.count info mod 2048).
Proof.
  intros cfg e1 e2 e3.
  assert (rx_config_ok cfg) as Hcfg by (unfold rx_config_ok, is_u32; cbn; lia).
  assert (rx_run null_primitives cfg e2) as Hrun2.
  { eapply rx_run_step; [eapply rx_run_step; [apply rx_run_init|]|];
      apply rx_operation_pdu. }
  assert (rx_run null_primitives cfg e3) as Hrun3.
  { eapply rx_run_step; [exact Hrun2|]. apply rx_operation_reordering_expiry.
    vm_compute. reflexivity. }
  split; [exact Hrun2|]. split; [vm_compute; discriminate|].
  split; [vm_compute; reflexivity|].
  exact (rx_window_holds_counts_from_rx_deliv_to_rx_next null_primitives cfg e3 Hcfg Hrun3).
Defined.

(** X17: with t-Reordering of 0 ms the receiver never holds anything back:
    in every reachable state RX_DELIV equals RX_NEXT, the window is empty
    and the reordering timer is stopped. *)
Theorem rx_without_reordering_never_buffers
        (prims : security_primitives) (cfg : pdcp_entity_rx.pdcp_rx_config)
        (e : pdcp_entity_rx.entity) :
  rx_config_ok cfg -> pdcp_entity_rx.t_reordering cfg = ms0 -> rx_run prims cfg e ->
  pdcp_entity_rx.rx_deliv (pdcp_entity_rx.st e) = pdcp_entity_rx.rx_next (pdcp_entity_rx.st e)
  /\ pdcp_entity_rx.rx_window e = ∅
  /\ pdcp_entity_rx.reordering_timer_running e = false.
Proof.
  intros Hcfg Hms0 Hrun.
  pose proof (rx_run_state_ok_aux prims cfg e Hcfg Hrun) as Hok.
  pose proof (rx_run_ms0_aux prims cfg e Hcfg Hms0 Hrun) as Heq.
  split; [exact Heq|]. split; [exact (rx_state_ok_empty cfg e Hok Heq)|].
  destruct Hok as [[_ [_ Hoff]] _]. exact (Hoff Hms0).
Qed.

Lemma rx_without_reordering_never_buffers_witness :
  let cfg := rx_config_example size12bits um ms0
               {| notify := 4294967295; hard := 4294967295 |} in
  let e1 := pdcp_entity_rx.handle_pdu null_primitives cfg
              (rx_entity_init null_security) [128; 2; 12] in
  let e2 := pdcp_entity_rx.handle_pdu null_primitives cfg e1 [128; 1; 11] in
  pdcp_entity_rx.out e2 = [pdcp_entity_rx.on_new_sdu [12]]
  /\ pdcp_entity_rx.rx_deliv (pdcp_entity_rx.st e2) = 3
  /\ pdcp_entity_rx.rx_deliv (pdcp_entity_rx.st e2)
     = pdcp_entity_rx.rx_next (pdcp_entity_rx.st e2)
  /\ pdcp_entity_rx.rx_window e2 = ∅.
Proof.
  intros cfg e1 e2.
  assert (rx_config_ok cfg) as Hcfg by (unfold rx_config_ok, is_u32; cbn; lia).
  assert (rx_run null_primitives cfg e2) as Hrun2.
  { eapply rx_run_step; [eapply rx_run_step; [apply rx_run_init|]|];
      apply rx_operation_pdu. }
  destruct (rx_without_reordering_never_buffers null_primitives cfg e2 Hcfg eq_refl Hrun2)
    as (Heq & Hw & _).
  split; [vm_compute; reflexivity|]. split; [vm_compute; reflexivity|].
  split; [exact Heq|exact Hw].
Defined.

(** X18: with t-Reordering of infinity the reordering timer never runs, in
    any reachable state: a gap in the received COUNTs is never skipped by
    a timeout. *)
Theorem rx_infinite_reordering_never_starts_timer
        (prims : security_primitives) (cfg : pdcp_entity_rx.pdcp_rx_config)
        (e : pdcp_entity_rx.entity) :
  rx_config_ok cfg -> pdcp_entity_rx.t_reordering cfg = infinity -> rx_run prims cfg e ->
  pdcp_entity_rx.reordering_timer_running e = false.
Proof. exact (rx_run_infinity_aux prims cfg e). Qed.

Lemma rx_infinite_reordering_never_starts_timer_witness :
  let cfg := rx_config_example size12bits am infinity
               {| notify := 4294967295; hard := 4294967295 |} in
  let e1 := pdcp_entity_rx.handle_pdu null_primitives cfg
              (rx_entity_init null_security) [128; 2; 12] in
  pdcp_entity_rx.rx_window e1 !! 2 <> None
  /\ pdcp_entity_rx.rx_deliv (pdcp_entity_rx.st e1) = 0
  /\ pdcp_entity_rx.reordering_timer_running e1 = false.
Proof.
  intros cfg e1.
  assert (rx_config_ok cfg) as Hcfg by (unfold rx_config_ok, is_u32; cbn; lia).
  split; [vm_compute; discriminate|]. split; [vm_compute; reflexivity|].
  apply (rx_infinite_reordering_never_starts_timer null_primitives cfg e1 Hcfg eq_refl).
  eapply rx_run_step; [apply rx_run_init|apply rx_operation_pdu].
Defined.

(** X19: in every reachable state of the receiver the notifications of its
    log agree with its flags and its metrics: [on_max_count_reached] and
    [on_protocol_failure] were each raised exactly once if the flag of the
    one-shot is set and never otherwise, [on_integrity_failure] was never
    raised, and the SDU counter and the SDU byte counter of the metrics
    are the number and the total length of the SDUs passed to the upper
    layers. *)
Theorem rx_log_agrees_with_flags_and_metrics
        (prims : security_primitives) (cfg : pdcp_entity_rx.pdcp_rx_config)
        (e : pdcp_entity_rx.entity) :
  rx_config_ok cfg -> rx_run prims cfg e -> rx_log_ok e.
Proof. exact (rx_run_log_ok_aux prims cfg e). Qed.

Lemma rx_log_agrees_with_flags_and_metrics_witness :
  let cfg := rx_config_example size12bits um (reordering_ms 50) {| notify := 1; hard := 3 |} in
  let e1 := pdcp_entity_rx.handle_pdu null_primitives cfg
              (rx_entity_init null_security) [128; 2; 12; 13] in
  let e2 := pdcp_entity_rx.handle_pdu null_primitives cfg e1 [128; 3; 14] in
  let e3 := pdcp_entity_rx.handle_pdu null_primitives cfg e2 [128; 4; 15] in
  let e4 := pdcp_entity_rx.reordering_callback cfg e3 in
  pdcp_entity_rx.out e4
  = [pdcp_entity_rx.on_max_count_reached; pdcp_entity_rx.on_protocol_failure;
     pdcp_entity_rx.on_new_sdu [12; 13]]
  /\ pdcp_entity_rx.num_sdus (pdcp_entity_rx.metrics e4) = 1
  /\ pdcp_entity_rx.num_sdu_bytes (pdcp_entity_rx.metrics e4) = 2
  /\ rx_log_ok e4.
Proof.
  intros cfg e1 e2 e3 e4.
  assert (rx_config_ok cfg) as Hcfg by (unfold rx_config_ok, is_u32; cbn; lia).
  split; [vm_compute; reflexivity|]. split; [vm_compute; reflexivity|].
  split; [vm_compute; reflexivity|].
  apply (rx_log_agrees_with_flags_and_metrics null_primitives cfg e4 Hcfg).
  assert (rx_run null_primitives cfg e3) as Hrun3.
  { eapply rx_run_step; [eapply rx_run_step; [eapply rx_run_step; [apply rx_run_init|]|]|];
      apply rx_operation_pdu. }
  eapply rx_run_step; [exact Hrun3|].
  apply rx_operation_reordering_expiry. vm_compute. reflexivity.
Defined.

(** X20: RX_DELIV and RX_NEXT never move backwards while PDUs are handled,
    whatever the PDU; and an expiry of the reordering timer always makes
    progress: RX_DELIV moves past its old value, up to RX_REORD at least,
    while RX_NEXT stays. *)
Theorem rx_counters_never_decrease
        (prims : security_primitives) (cfg : pdcp_entity_rx.pdcp_rx_config)
        (e : pdcp_entity_rx.entity) :
  rx_config_ok cfg -> rx_run prims cfg e ->
  (forall buf,
     let e' := pdcp_entity_rx.handle_pdu prims cfg e buf in
     pdcp_entity_rx.rx_deliv (pdcp_entity_rx.st e)
       <= pdcp_entity_rx.rx_deliv (pdcp_entity_rx.st e')
     /\ pdcp_entity_rx.rx_next (pdcp_entity_rx.st e)
        <= pdcp_entity_rx.rx_next (pdcp_entity_rx.st e'))
  /\ (pdcp_entity_rx.reordering_timer_running e = true ->
      let e' := pdcp_entity_rx.reordering_callback cfg e in
      pdcp_entity_rx.rx_deliv (pdcp_entity_rx.st e)
        < pdcp_entity_rx.rx_deliv (pdcp_entity_rx.st e')
      /\ pdcp_entity_rx.rx_reord (pdcp_entity_rx.st e)
         <= pdcp_entity_rx.rx_deliv (pdcp_entity_rx.st e')
      /\ pdcp_entity_rx.rx_next (pdcp_entity_rx.st e')
         = pdcp_entity_rx.rx_next (pdcp_entity_rx.st e)).
Proof.
  intros Hcfg Hrun.
  pose proof (rx_run_state_ok_aux prims cfg e Hcfg Hrun) as [Hinv _].
  split.
  - intros buf e'.
    destruct (handle_pdu_counters prims cfg e buf Hcfg Hinv) as (H1 & H2 & _).
    split; assumption.
  - intros Hon e'. destruct Hinv as [Hw [Ht _]]. destruct (Ht Hon) as [Hd Hr].
    destruct (handle_t_reordering_expire_shape cfg
                (pdcp_entity_rx.set_reordering_timer e false)) as [S1 S2].
    + exact Hw.
    + cbn. lia.
    + subst e'. unfold pdcp_entity_rx.reordering_callback.
      cbn [pdcp_entity_rx.st pdcp_entity_rx.set_reordering_timer] in S1, S2.
      split; [lia|]. split; [exact S1|exact S2].
Qed.

Lemma rx_counters_never_decrease_witness :
  let cfg := rx_config_example size12bits um (reordering_ms 50)
               {| notify := 4294967295; hard := 4294967295 |} in
  let e1 := pdcp_entity_rx.handle_pdu null_primitives cfg
              (rx_entity_init null_security) [128; 2; 12] in
  let e2 := pdcp_entity_rx.reordering_callback cfg e1 in
  pdcp_entity_rx.reordering_timer_running e1 = true
  /\ pdcp_entity_rx.rx_deliv (pdcp_entity_rx.st e1) = 0
  /\ pdcp_entity_rx.rx_deliv (pdcp_entity_rx.st e1)
     < pdcp_entity_rx.rx_deliv (pdcp_entity_rx.st e2)
  /\ pdcp_entity_rx.rx_deliv (pdcp_entity_rx.st e2) = 3.
Proof.
  intros cfg e1 e2.
  assert (rx_config_ok cfg) as Hcfg by (unfold rx_config_ok, is_u32; cbn; lia).
  assert (rx_run null_primitives cfg e1) as Hrun
      by (eapply rx_run_step; [apply rx_run_init|apply rx_operation_pdu]).
  assert (pdcp_entity_rx.reordering_timer_running e1 = true) as Hon
      by (vm_compute; reflexivity).
  destruct (rx_counters_never_decrease null_primitives cfg e1 Hcfg Hrun) as [_ Hexp].
  destruct (Hexp Hon) as (Hlt & _).
  split; [exact Hon|]. split; [vm_compute; reflexivity|].
  split; [exact Hlt|vm_compute; reflexivity].
Defined.

(** X21: on a DRB, a PDU whose first byte has the D/C bit cleared is a
    control PDU.  [handle_pdu] counts it as a PDU and passes it to the
    status handler when its PDU type is 0, a status report; any other type
    is only logged.  In neither case does the receiver change its
    counters, its window, its timer, its security context or its flags,
    deliver an SDU, or count a dropped PDU. *)
Theorem control_pdu_leaves_receiver_state
        (prims : security_primitives) (cfg : pdcp_entity_rx.pdcp_rx_config)
        (e : pdcp_entity_rx.entity) (b : Z) (rest : byte_buffer) :
  pdcp_entity_rx.is_srb cfg = false ->
  pdcp_entity_rx.pdcp_pdu_get_dc b <> 1 ->
  let e' := pdcp_entity_rx.handle_pdu prims cfg e (b :: rest) in
  pdcp_entity_rx.st e' = pdcp_entity_rx.st e
  /\ pdcp_entity_rx.rx_window e' = pdcp_entity_rx.rx_window e
  /\ pdcp_entity_rx.reordering_timer_running e' = pdcp_entity_rx.reordering_timer_running e
  /\ pdcp_entity_rx.sec e' = pdcp_entity_rx.sec e
  /\ pdcp_entity_rx.max_count_notified e' = pdcp_entity_rx.max_count_notified e
  /\ pdcp_entity_rx.max_count_overflow e' = pdcp_entity_rx.max_count_overflow e
  /\ pdcp_entity_rx.out e'
     = pdcp_entity_rx.out e
       ++ (if pdcp_entity_rx.pdcp_control_pdu_get_cpt b =? 0
           then [pdcp_entity_rx.on_status_report (b :: rest)] else [])
  /\ pdcp_entity_rx.num_pdus (pdcp_entity_rx.metrics e')
     = pdcp_entity_rx.num_pdus (pdcp_entity_rx.metrics e) + 1
  /\ pdcp_entity_rx.num_dropped_pdus (pdcp_entity_rx.metrics e')
     = pdcp_entity_rx.num_dropped_pdus (pdcp_entity_rx.metrics e)
  /\ pdcp_entity_rx.num_sdus (pdcp_entity_rx.metrics e')
     = pdcp_entity_rx.num_sdus (pdcp_entity_rx.metrics e).
Proof.
  intros Hdrb Hdc e'. subst e'. unfold pdcp_entity_rx.handle_pdu. rewrite Hdrb.
  destruct (Z.eqb_spec (pdcp_entity_rx.pdcp_pdu_get_dc b) 1) as [Heq|_]; [contradiction|].
  cbn [orb].
  destruct (handle_control_pdu_spec
              (pdcp_entity_rx.metrics_add_pdus e 1 (Z.of_nat (length (b :: rest))))
              (b :: rest)) as (H1 & H2 & H3 & H4 & H5 & H6 & H7 & H8).
  cbv zeta in *. rewrite H1, H2, H3, H4, H5, H6, H7, H8. repeat split.
Qed.

Lemma control_pdu_leaves_receiver_state_witness :
  let cfg := rx_config_example size12bits am (reordering_ms 50)
               {| notify := 4294967295; hard := 4294967295 |} in
  let e := pdcp_entity_rx.handle_pdu null_primitives cfg
             (rx_entity_init null_security) [128; 2; 12] in
  let e1 := pdcp_entity_rx.handle_pdu null_primitives cfg e [0; 0; 0; 0; 3] in
  let e2 := pdcp_entity_rx.handle_pdu null_primitives cfg e [16; 0; 0] in
  pdcp_entity_rx.out e1 = pdcp_entity_rx.out e ++ [pdcp_entity_rx.on_status_report [0; 0; 0; 0; 3]]
  /\ pdcp_entity_rx.st e1 = pdcp_entity_rx.st e
  /\ pdcp_entity_rx.out e2 = pdcp_entity_rx.out e
  /\ pdcp_entity_rx.rx_window e2 = pdcp_entity_rx.rx_window e.
Proof.
  intros cfg e e1 e2.
  destruct (control_pdu_leaves_receiver_state null_primitives cfg e 0 [0; 0; 0; 3])
    as (Hst1 & _ & _ & _ & _ & _ & Hout1 & _); [reflexivity|discriminate|].
  destruct (control_pdu_leaves_receiver_state null_primitives cfg e 16 [0; 0])
    as (_ & Hw2 & _ & _ & _ & _ & Hout2 & _); [reflexivity|discriminate|].
  split; [exact Hout1|]. split; [exact Hst1|].
  split; [|exact Hw2]. fold e2 in Hout2. rewrite Hout2. apply app_nil_r.
Defined.

Lemma cipher_encrypt_nil (prims : security_primitives) (cfg : pdcp_entity_tx.pdcp_tx_config)
      (e : pdcp_entity_tx.entity) (c : Z) :
  cipher_primitives_ok prims -> pdcp_entity_tx.cipher_encrypt prims cfg e [] c = [].
Proof.
  intros Hciph. unfold pdcp_entity_tx.cipher_encrypt.
  destruct (Hciph (k_128_enc (sec_cfg (pdcp_entity_tx.sec e))) c
              (pdcp_entity_tx.bearer_id cfg) (pdcp_entity_tx.direction cfg) [])
    as ((_ & L1) & (_ & L2) & (_ & L3)).
  destruct (cipher_algo (sec_cfg (pdcp_entity_tx.sec e))); [reflexivity|..];
    apply length_zero_iff_nil; assumption.
Qed.

(** X22: an empty SDU on a DRB without integrity protection does not reach
    the peer.  The transmitter builds a PDU that consists of the header
    alone, and [handle_pdu] of the receiver of the same bearer drops it as
    too short: the PDU is counted as received and as dropped, and nothing
    else changes. *)
Theorem empty_sdu_without_mac_is_dropped_by_peer
        (prims : security_primitives)
        (cfg_tx : pdcp_entity_tx.pdcp_tx_config) (cfg_rx : pdcp_entity_rx.pdcp_rx_config)
        (e_tx : pdcp_entity_tx.entity) (e_rx : pdcp_entity_rx.entity) (c : Z) :
  bearer_match cfg_tx cfg_rx ->
  cipher_primitives_ok prims ->
  pdcp_entity_tx.is_drb cfg_tx = true ->
  integrity_enabled (pdcp_entity_tx.sec e_tx) = false ->
  let pdu := data_pdu_for prims cfg_tx e_tx c [] in
  Z.of_nat (length pdu) = pdcp_entity_rx.hdr_len_bytes cfg_rx
  /\ pdcp_entity_rx.handle_pdu prims cfg_rx e_rx pdu
     = pdcp_entity_rx.metrics_add_dropped_pdus
         (pdcp_entity_rx.metrics_add_pdus e_rx 1 (pdcp_entity_rx.hdr_len_bytes cfg_rx)) 1.
Proof.
  intros Hmatch Hciph Hdrb Hint pdu.
  assert (pdcp_entity_tx.is_srb cfg_tx = false) as Hsrb.
  { unfold pdcp_entity_tx.is_drb in Hdrb. unfold pdcp_entity_tx.is_srb.
    destruct (pdcp_entity_tx.rb_type cfg_tx); [discriminate|reflexivity]. }
  destruct (write_data_pdu_header_app cfg_tx cfg_rx Hmatch []
              (SN (pdcp_entity_tx.sn_size cfg_tx) c)) as (hdr & Hw & Hlen & _ & _ & _).
  rewrite app_nil_r in Hw.
  pose proof (hdr_len_match cfg_tx cfg_rx Hmatch) as Hhl.
  assert (pdu = hdr) as Hpdu.
  { unfold pdu, data_pdu_for. rewrite Hw.
    unfold pdcp_entity_tx.apply_ciphering_and_integrity_protection.
    rewrite Hsrb, Hdrb, Hint. cbn [orb andb].
    replace (Z.to_nat (pdcp_entity_tx.hdr_len cfg_tx)) with (length hdr) by lia.
    rewrite firstn_all, drop_all, cipher_encrypt_nil, app_nil_r by exact Hciph.
    destruct (ciphering_enabled _ && _); reflexivity. }
  split; [rewrite Hpdu; lia|].
  destruct (data_pdu_for_dc prims cfg_tx e_tx c [] Hdrb) as (b & rest & Hb & Hdc).
  fold pdu in Hb. unfold pdcp_entity_rx.handle_pdu. rewrite Hb, Hdc.
  rewrite orb_true_r. rewrite <- Hb.
  unfold pdcp_entity_rx.handle_data_pdu.
  cbn [pdcp_entity_rx.st pdcp_entity_rx.metrics_add_pdus pdcp_entity_rx.set_metrics].
  rewrite Hpdu, Hlen, Hhl. rewrite Z.leb_refl. reflexivity.
Qed.

Lemma empty_sdu_without_mac_is_dropped_by_peer_witness :
  let cfg_tx := tx_config_example size12bits um None 4096 {| notify := 1000; hard := 2000 |} in
  let cfg_rx := peer_rx_config cfg_tx (reordering_ms 50) {| notify := 1000; hard := 2000 |} in
  let e_tx := pdcp_entity_tx.handle_sdu null_primitives cfg_tx buffers_ok
                (tx_entity_init null_security) [] in
  let e_rx := fold_left (pdcp_entity_rx.handle_pdu null_primitives cfg_rx)
                (tx_pdus (pdcp_entity_tx.out e_tx)) (rx_entity_init null_security) in
  pdcp_entity_tx.out e_tx = [pdcp_entity_tx.on_new_pdu [128; 0] false]
  /\ pdcp_entity_tx.tx_next (pdcp_entity_tx.st e_tx) = 1
  /\ pdcp_entity_rx.out e_rx = []
  /\ pdcp_entity_rx.rx_next (pdcp_entity_rx.st e_rx) = 0
  /\ pdcp_entity_rx.num_dropped_pdus (pdcp_entity_rx.metrics e_rx) = 1.
Proof.
  intros cfg_tx cfg_rx e_tx e_rx.
  destruct (constant_mac_primitives_ok [0; 0; 0; 0] eq_refl) as [_ Hciph].
  destruct (empty_sdu_without_mac_is_dropped_by_peer null_primitives cfg_tx cfg_rx
              (tx_entity_init null_security) (rx_entity_init null_security) 0
              (bearer_match_peer cfg_tx _ _) Hciph eq_refl eq_refl) as [_ Hdrop].
  change (e_rx = pdcp_entity_rx.metrics_add_dropped_pdus
                   (pdcp_entity_rx.metrics_add_pdus (rx_entity_init null_security) 1
                      (pdcp_entity_rx.hdr_len_bytes cfg_rx)) 1) in Hdrop.
  split; [reflexivity|]. split; [reflexivity|]. rewrite Hdrop. repeat split.
Defined.

(** ** Receiver: re-establishment *)

Lemma map_on_new_sdu_inj (l1 l2 : list byte_buffer) :
  map pdcp_entity_rx.on_new_sdu l1 = map pdcp_entity_rx.on_new_sdu l2 -> l1 = l2.
Proof.
  revert l2. induction l1 as [|x l1 IH]; intros [|y l2] Heq; try discriminate; [reflexivity|].
  cbn in Heq. injection Heq as -> Heq. f_equal. exact (IH l2 Heq).
Qed.

(** X23: re-establishment of the receiver, from any reachable state.  The
    new security configuration is in place afterwards and the one-shot
    flags are kept.  On an SRB the stored SDUs are dropped without being
    delivered; on a UM DRB they are all delivered, in ascending order of
    their COUNTs when RX_DELIV and RX_NEXT are at most a window apart; in
    both cases the counters return to zero, the window is empty and the
    reordering timer is stopped.  On an AM DRB nothing but the security
    configuration changes. *)
Theorem rx_reestablish_by_bearer_type
        (prims : security_primitives) (cfg : pdcp_entity_rx.pdcp_rx_config)
        (e : pdcp_entity_rx.entity) (sec_cfg_ : sec_128_as_config) :
  rx_config_ok cfg -> rx_run prims cfg e ->
  let e' := pdcp_entity_rx.reestablish cfg e sec_cfg_ in
  sec_cfg (pdcp_entity_rx.sec e') = sec_cfg_
  /\ pdcp_entity_rx.max_count_notified e' = pdcp_entity_rx.max_count_notified e
  /\ pdcp_entity_rx.max_count_overflow e' = pdcp_entity_rx.max_count_overflow e
  /\ (pdcp_entity_rx.is_srb cfg || pdcp_entity_rx.is_um cfg = true ->
      pdcp_entity_rx.st e'
      = {| pdcp_entity_rx.rx_next := 0; pdcp_entity_rx.rx_deliv := 0;
           pdcp_entity_rx.rx_reord := 0 |}
      /\ pdcp_entity_rx.rx_window e' = ∅
      /\ pdcp_entity_rx.reordering_timer_running e' = false)
  /\ (pdcp_entity_rx.is_srb cfg = true -> pdcp_entity_rx.out e' = pdcp_entity_rx.out e)
  /\ (pdcp_entity_rx.is_srb cfg = false -> pdcp_entity_rx.is_um cfg = true ->
      pdcp_entity_rx.rx_next (pdcp_entity_rx.st e) - pdcp_entity_rx.rx_deliv (pdcp_entity_rx.st e)
        <= pdcp_entity_rx.window_size cfg ->
      pdcp_entity_rx.out e'
      = pdcp_entity_rx.out e
        ++ map pdcp_entity_rx.on_new_sdu (rx_stored_sdus cfg e (rx_window_counts e)))
  /\ (pdcp_entity_rx.is_srb cfg || pdcp_entity_rx.is_um cfg = false ->
      e' = pdcp_entity_rx.configure_security e sec_cfg_).
Proof.
  intros Hcfg Hrun e'.
  destruct (reestablish_spec cfg e sec_cfg_ (rx_run_state_ok_aux prims cfg e Hcfg Hrun))
    as (R1 & _ & _ & R4 & R5 & R6 & R7 & R8 & R9 & _).
  split_and!; assumption.
Qed.

Lemma rx_reestablish_by_bearer_type_witness :
  let cfg := rx_config_example size12bits um (reordering_ms 50)
               {| notify := 4294967295; hard := 4294967295 |} in
  let e1 := pdcp_entity_rx.handle_pdu null_primitives cfg
              (rx_entity_init null_security) [128; 5; 15] in
  let e2 := pdcp_entity_rx.handle_pdu null_primitives cfg e1 [128; 2; 12] in
  let keys := {| k_128_int := [1]; k_128_enc := [2]; integ_algo := nia2; cipher_algo := nea2 |} in
  let e' := pdcp_entity_rx.reestablish cfg e2 keys in
  pdcp_entity_rx.out e2 = []
  /\ pdcp_entity_rx.out e' = [pdcp_entity_rx.on_new_sdu [12]; pdcp_entity_rx.on_new_sdu [15]]
  /\ pdcp_entity_rx.rx_next (pdcp_entity_rx.st e') = 0
  /\ pdcp_entity_rx.rx_window e' = ∅
  /\ sec_cfg (pdcp_entity_rx.sec e') = keys.
Proof.
  intros cfg e1 e2 keys e'.
  assert (rx_config_ok cfg) as Hcfg by (unfold rx_config_ok, is_u32; cbn; lia).
  assert (rx_run null_primitives cfg e2) as Hrun.
  { eapply rx_run_step; [eapply rx_run_step; [apply rx_run_init|]|];
      apply rx_operation_pdu. }
  destruct (rx_reestablish_by_bearer_type null_primitives cfg e2 keys Hcfg Hrun)
    as (Hsec & _ & _ & Hreset & _ & Hout & _).
  destruct (Hreset eq_refl) as (Hst & Hw & _).
  split; [vm_compute; reflexivity|]. split; [|split; [|split; [exact Hw|exact Hsec]]].
  - fold e' in Hout. rewrite Hout; [vm_compute; reflexivity|reflexivity|reflexivity|].
    vm_compute. discriminate.
  - fold e' in Hst. rewrite Hst. reflexivity.
Defined.

(** X24: from any reachable state, [deliver_all_sdus] passes stored SDUs
    to the upper layers, counts each of them, and leaves the window empty,
    without touching RX_DELIV, RX_NEXT, RX_REORD or the timer.  When
    RX_DELIV and RX_NEXT are at most a window apart, the SDUs delivered
    are exactly the stored ones, in ascending order of their COUNTs. *)
Theorem deliver_all_sdus_empties_window
        (prims : security_primitives) (cfg : pdcp_entity_rx.pdcp_rx_config)
        (e : pdcp_entity_rx.entity) :
  rx_config_ok cfg -> rx_run prims cfg e ->
  let e' := pdcp_entity_rx.deliver_all_sdus cfg e in
  pdcp_entity_rx.st e' = pdcp_entity_rx.st e
  /\ pdcp_entity_rx.rx_window e' = ∅
  /\ pdcp_entity_rx.reordering_timer_running e' = pdcp_entity_rx.reordering_timer_running e
  /\ exists sdus,
       pdcp_entity_rx.out e' = pdcp_entity_rx.out e ++ map pdcp_entity_rx.on_new_sdu sdus
       /\ pdcp_entity_rx.num_sdus (pdcp_entity_rx.metrics e')
          = pdcp_entity_rx.num_sdus (pdcp_entity_rx.metrics e) + Z.of_nat (length sdus)
       /\ (pdcp_entity_rx.rx_next (pdcp_entity_rx.st e)
             - pdcp_entity_rx.rx_deliv (pdcp_entity_rx.st e)
           <= pdcp_entity_rx.window_size cfg ->
           sdus = rx_stored_sdus cfg e (rx_window_counts e)).
Proof.
  intros Hcfg Hrun e'.
  destruct (deliver_all_sdus_spec cfg e (rx_run_state_ok_aux prims cfg e Hcfg Hrun))
    as (R1 & R2 & R3 & R4 & R5).
  split; [exact R2|]. split; [exact R3|]. split; [exact R4|].
  destruct R1 as (_ & _ & _ & _ & _ & sdus & Hout & Hnum & _).
  exists sdus. split; [exact Hout|]. split; [exact Hnum|].
  intros Hspan. specialize (R5 Hspan). fold e' in R5, Hout.
  rewrite R5 in Hout. apply app_inv_head in Hout.
  symmetry. exact (map_on_new_sdu_inj _ _ Hout).
Qed.

Lemma deliver_all_sdus_empties_window_witness :
  let cfg := rx_config_example size12bits um (reordering_ms 50)
               {| notify := 4294967295; hard := 4294967295 |} in
  let e1 := pdcp_entity_rx.handle_pdu null_primitives cfg
              (rx_entity_init null_security) [128; 5; 15] in
  let e2 := pdcp_entity_rx.handle_pdu null_primitives cfg e1 [128; 2; 12] in
  let e' := pdcp_entity_rx.deliver_all_sdus cfg e2 in
  rx_stored_sdus cfg e2 (rx_window_counts e2) = [[12]; [15]]
  /\ pdcp_entity_rx.out e' = [pdcp_entity_rx.on_new_sdu [12]; pdcp_entity_rx.on_new_sdu [15]]
  /\ pdcp_entity_rx.st e' = pdcp_entity_rx.st e2
  /\ pdcp_entity_rx.rx_window e' = ∅.
Proof.
  intros cfg e1 e2 e'.
  assert (rx_config_ok cfg) as Hcfg by (unfold rx_config_ok, is_u32; cbn; lia).
  assert (rx_run null_primitives cfg e2) as Hrun.
  { eapply rx_run_step; [eapply rx_run_step; [apply rx_run_init|]|];
      apply rx_operation_pdu. }
  destruct (deliver_all_sdus_empties_window null_primitives cfg e2 Hcfg Hrun)
    as (Hst & Hw & _ & sdus & Hout & _ & Hsdus).
  assert (rx_stored_sdus cfg e2 (rx_window_counts e2) = [[12]; [15]]) as Hstored
      by (vm_compute; reflexivity).
  split; [exact Hstored|]. split; [|split; [exact Hst|exact Hw]].
  fold e' in Hout. rewrite Hout, Hsdus, Hstored; [vm_compute; reflexivity|].
  vm_compute. discriminate.
Defined.

(** X25: from any reachable state, [discard_all_sdus] empties the window
    and moves RX_DELIV up to RX_NEXT without delivering anything: the
    log, the metrics, the timer and the security context stay as they
    are. *)
Theorem discard_all_sdus_drops_silently
        (prims : security_primitives) (cfg : pdcp_entity_rx.pdcp_rx_config)
        (e : pdcp_entity_rx.entity) :
  rx_config_ok cfg -> rx_run prims cfg e ->
  let e' := pdcp_entity_rx.discard_all_sdus cfg e in
  pdcp_entity_rx.st e'
  = pdcp_entity_rx.set_rx_deliv (pdcp_entity_rx.st e)
      (pdcp_entity_rx.rx_next (pdcp_entity_rx.st e))
  /\ pdcp_entity_rx.rx_window e' = ∅
  /\ pdcp_entity_rx.out e' = pdcp_entity_rx.out e
  /\ pdcp_entity_rx.metrics e' = pdcp_entity_rx.metrics e
  /\ pdcp_entity_rx.reordering_timer_running e' = pdcp_entity_rx.reordering_timer_running e
  /\ pdcp_entity_rx.sec e' = pdcp_entity_rx.sec e.
Proof.
  intros Hcfg Hrun e'.
  destruct (discard_all_sdus_spec cfg e (rx_run_state_ok_aux prims cfg e Hcfg Hrun))
    as (R1 & R2 & R3 & R4 & R5 & R6 & _).
  split_and!; assumption.
Qed.

Lemma discard_all_sdus_drops_silently_witness :
  let cfg := rx_config_example size12bits um (reordering_ms 50)
               {| notify := 4294967295; hard := 4294967295 |} in
  let e1 := pdcp_entity_rx.handle_pdu null_primitives cfg
              (rx_entity_init null_security) [128; 5; 15] in
  let e2 := pdcp_entity_rx.handle_pdu null_primitives cfg e1 [128; 2; 12] in
  let e' := pdcp_entity_rx.discard_all_sdus cfg e2 in
  pdcp_entity_rx.rx_window e2 !! 2 <> None
  /\ pdcp_entity_rx.rx_deliv (pdcp_entity_rx.st e') = 6
  /\ pdcp_entity_rx.rx_window e' = ∅
  /\ pdcp_entity_rx.out e' = [].
Proof.
  intros cfg e1 e2 e'.
  assert (rx_config_ok cfg) as Hcfg by (unfold rx_config_ok, is_u32; cbn; lia).
  assert (rx_run null_primitives cfg e2) as Hrun.
  { eapply rx_run_step; [eapply rx_run_step; [apply rx_run_init|]|];
      apply rx_operation_pdu. }
  destruct (discard_all_sdus_drops_silently null_primitives cfg e2 Hcfg Hrun)
    as (Hst & Hw & Hout & _).
  split; [vm_compute; discriminate|]. split; [|split; [exact Hw|]].
  - fold e' in Hst. rewrite Hst. vm_compute. reflexivity.
  - fold e' in Hout. rewrite Hout. vm_compute. reflexivity.
Defined.

(** ** Receiver: stale and replayed PDUs *)

Section rx_duplicates.
Import pdcp_entity_rx.
Variable prims : security_primitives.
Variable cfg : pdcp_rx_config.

Lemma store_and_deliver_stale (e : entity) (buf : byte_buffer) (c : Z) :
  c < rx_deliv (st e) \/ rx_entry cfg e c <> None ->
  store_and_deliver cfg e buf c = e.
Proof.
  intros Hstale. unfold store_and_deliver.
  destruct (Z.ltb_spec c (rx_deliv (st e))) as [|Hge]; [reflexivity|].
  destruct Hstale as [Hlt|Hent]; [lia|].
  unfold rx_entry in Hent. unfold window_at.
  destruct (rx_window e !! slot_of (window_size cfg) c) as [info|]; [|contradiction].
  destruct (count info =? c); [reflexivity|contradiction].
Qed.

Lemma handle_data_pdu_stale (e : entity) (pdu : byte_buffer) :
  (forall sn, read_data_pdu_header cfg pdu = Some sn ->
              calc_rcvd_count cfg e sn < rx_deliv (st e)
              \/ rx_entry cfg e (calc_rcvd_count cfg e sn) <> None) ->
  let e' := handle_data_pdu prims cfg e pdu in
  st e' = st e /\ rx_window e' = rx_window e
  /\ reordering_timer_running e' = reordering_timer_running e
  /\ sec e' = sec e
  /\ rx_sdus (out e') = rx_sdus (out e)
  /\ num_sdus (metrics e') = num_sdus (metrics e).
Proof.
  intros Hstale. cbv zeta. unfold handle_data_pdu.
  destruct (_ <=? _); [repeat split|].
  destruct (read_data_pdu_header cfg pdu) as [hdr_sn|]; [|repeat split].
  specialize (Hstale hdr_sn eq_refl).
  set (c := calc_rcvd_count cfg e hdr_sn) in *.
  set (e1 := if (_ <? _) && negb _ then _ else _).
  assert (st e1 = st e /\ rx_window e1 = rx_window e
          /\ reordering_timer_running e1 = reordering_timer_running e
          /\ sec e1 = sec e
          /\ rx_sdus (out e1) = rx_sdus (out e)
          /\ num_sdus (metrics e1) = num_sdus (metrics e))
    as (H1 & H2 & H3 & H4 & H5 & H6).
  { subst e1. destruct ((_ <? _) && negb _); [|repeat split].
    rx_simpl. rewrite rx_sdus_app, app_nil_r. repeat split. }
  clearbody e1.
  destruct (hard (max_count cfg) <=? c).
  { destruct (negb _); [|repeat split; assumption].
    rx_simpl. rewrite rx_sdus_app, app_nil_r. repeat split; assumption. }
  destruct (decipher_and_extract_mac _ _ _ _ _) as [sdu_buf mac].
  assert (forall e0 : entity, st e0 = st e1 -> rx_window e0 = rx_window e1 ->
            store_and_deliver cfg e0 sdu_buf c = e0) as Hstore.
  { intros e0 Hs Hw. apply store_and_deliver_stale.
    unfold rx_entry in *. rewrite Hs, Hw, H1, H2. exact Hstale. }
  destruct (integrity_enabled _).
  - destruct (negb _); [repeat split; assumption|].
    rewrite Hstore by reflexivity. repeat split; assumption.
  - rewrite Hstore by reflexivity. repeat split; assumption.
Qed.

End rx_duplicates.

(** X26: a data PDU whose COUNT, as the receiver resolves it, lies below
    RX_DELIV or is already stored in the window is discarded, whatever it
    carries: the counters, the window, the timer and the security context
    stay as they are, and no SDU is delivered or counted. *)
Theorem stale_or_duplicate_pdu_is_discarded
        (prims : security_primitives) (cfg : pdcp_entity_rx.pdcp_rx_config)
        (e : pdcp_entity_rx.entity) (pdu : byte_buffer) :
  (forall sn, pdcp_entity_rx.read_data_pdu_header cfg pdu = Some sn ->
              pdcp_entity_rx.calc_rcvd_count cfg e sn
                < pdcp_entity_rx.rx_deliv (pdcp_entity_rx.st e)
              \/ rx_entry cfg e (pdcp_entity_rx.calc_rcvd_count cfg e sn) <> None) ->
  let e' := pdcp_entity_rx.handle_data_pdu prims cfg e pdu in
  pdcp_entity_rx.st e' = pdcp_entity_rx.st e
  /\ pdcp_entity_rx.rx_window e' = pdcp_entity_rx.rx_window e
  /\ pdcp_entity_rx.reordering_timer_running e' = pdcp_entity_rx.reordering_timer_running e
  /\ pdcp_entity_rx.sec e' = pdcp_entity_rx.sec e
  /\ rx_sdus (pdcp_entity_rx.out e') = rx_sdus (pdcp_entity_rx.out e)
  /\ pdcp_entity_rx.num_sdus (pdcp_entity_rx.metrics e')
     = pdcp_entity_rx.num_sdus (pdcp_entity_rx.metrics e).
Proof. exact (handle_data_pdu_stale prims cfg e pdu). Qed.

Lemma stale_or_duplicate_pdu_is_discarded_witness :
  let cfg := rx_config_example size12bits um (reordering_ms 50)
               {| notify := 4294967295; hard := 4294967295 |} in
  let e := pdcp_entity_rx.handle_data_pdu null_primitives cfg
             (rx_entity_init null_security) [128; 2; 12] in
  let e' := pdcp_entity_rx.handle_data_pdu null_primitives cfg e [128; 2; 99] in
  rx_entry cfg e 2 = Some {| pdcp_entity_rx.sdu := [12]; pdcp_entity_rx.count := 2 |}
  /\ pdcp_entity_rx.rx_window e' = pdcp_entity_rx.rx_window e
  /\ pdcp_entity_rx.st e' = pdcp_entity_rx.st e
  /\ rx_sdus (pdcp_entity_rx.out e') = rx_sdus (pdcp_entity_rx.out e).
Proof.
  intros cfg e e'.
  destruct (stale_or_duplicate_pdu_is_discarded null_primitives cfg e [128; 2; 99])
    as (Hst & Hw & _ & _ & Hout & _).
  - intros sn Hsn. vm_compute in Hsn. injection Hsn as <-. right.
    vm_compute. discriminate.
  - split; [vm_compute; reflexivity|]. split; [exact Hw|]. split; [exact Hst|exact Hout].
Defined.

(** X27: a replayed PDU is not delivered again.  After the receiver has
    delivered, in sequence, the SDU of a data PDU of its bearer, the same
    PDU handed to [handle_pdu] a second time resolves to the same COUNT,
    now below RX_DELIV, and is discarded: the SDU has been delivered once,
    and the state after the replay is the state before it. *)
Theorem replayed_pdu_is_discarded
        (prims : security_primitives)
        (cfg_tx : pdcp_entity_tx.pdcp_tx_config) (cfg_rx : pdcp_entity_rx.pdcp_rx_config)
        (e_tx : pdcp_entity_tx.entity) (e_rx : pdcp_entity_rx.entity)
        (c : Z) (sdu : byte_buffer) :
  bearer_match cfg_tx cfg_rx ->
  mac_primitives_ok prims -> cipher_primitives_ok prims ->
  pdcp_entity_tx.sec e_tx = pdcp_entity_rx.sec e_rx ->
  sdu <> [] ->
  pdcp_entity_rx.rx_deliv (pdcp_entity_rx.st e_rx) = c ->
  pdcp_entity_rx.rx_next (pdcp_entity_rx.st e_rx) = c ->
  has_sn (pdcp_entity_rx.window_size cfg_rx) (pdcp_entity_rx.rx_window e_rx) c = false ->
  pdcp_entity_rx.reordering_timer_running e_rx = false ->
  0 <= c -> c + 1 < 2 ^ 32 ->
  c < hard (pdcp_entity_rx.max_count cfg_rx) ->
  let pdu := data_pdu_for prims cfg_tx e_tx c sdu in
  let e1 := pdcp_entity_rx.handle_pdu prims cfg_rx e_rx pdu in
  let e2 := pdcp_entity_rx.handle_pdu prims cfg_rx e1 pdu in
  rx_sdus (pdcp_entity_rx.out e2) = rx_sdus (pdcp_entity_rx.out e_rx) ++ [sdu]
  /\ pdcp_entity_rx.st e2 = pdcp_entity_rx.st e1
  /\ pdcp_entity_rx.rx_window e2 = pdcp_entity_rx.rx_window e1
  /\ pdcp_entity_rx.reordering_timer_running e2 = pdcp_entity_rx.reordering_timer_running e1
  /\ pdcp_entity_rx.num_sdus (pdcp_entity_rx.metrics e2)
     = pdcp_entity_rx.num_sdus (pdcp_entity_rx.metrics e1).
Proof.
  intros Hmatch Hmac Hciph Hsec Hsdu Hd Hn Hfree Ht H0 H1 Hh pdu e1 e2.
  destruct (handle_pdu_in_sync prims cfg_tx cfg_rx Hmatch Hmac Hciph e_tx e_rx c sdu
              Hsec Hsdu Hd Hn Hfree Ht H0 H1 Hh)
    as (R1 & R2 & R3 & R4 & R5 & R6 & _).
  fold pdu in R1, R2, R3, R4, R5, R6. fold e1 in R1, R2, R3, R4, R5, R6.
  destruct (data_pdu_for_unprotect prims cfg_tx cfg_rx Hmatch Hmac Hciph e_tx e_rx c sdu
              Hsec Hsdu) as (Hlen & Hread & _).
  fold pdu in Hlen, Hread.
  assert (pdu <> []) as Hne.
  { intros Hnil. rewrite Hnil in Hlen. cbn in Hlen.
    unfold pdcp_entity_rx.hdr_len_bytes in Hlen.
    destruct (pdcp_entity_rx.sn_size cfg_rx); cbn in Hlen; lia. }
  set (e1' := pdcp_entity_rx.metrics_add_pdus e1 1 (Z.of_nat (length pdu))).
  assert (e2 = pdcp_entity_rx.handle_data_pdu prims cfg_rx e1' pdu) as He2
      by exact (handle_pdu_data_pdu_for prims cfg_tx cfg_rx Hmatch e_tx e1 c sdu Hne).
  rewrite He2.
  destruct (handle_data_pdu_stale prims cfg_rx e1' pdu) as (S1 & S2 & S3 & S4 & S5 & S6).
  - intros sn Hsn. rewrite Hread in Hsn. injection Hsn as <-. left.
    unfold pdcp_entity_rx.calc_rcvd_count.
    change (pdcp_entity_rx.st e1') with (pdcp_entity_rx.st e1). rewrite R2.
    rewrite count_from_sn_window; [lia|unfold is_u32; lia|unfold is_u32; lia|].
    unfold in_count_window.
    pose proof (window_size_pos (pdcp_entity_rx.sn_size cfg_rx)). lia.
  - rewrite S1, S2, S3, S5, S6. repeat split. exact R1.
Qed.

Lemma replayed_pdu_is_discarded_witness :
  let prims := constant_mac_primitives [1; 2; 3; 4] in
  let cfg_tx := tx_config_example size12bits um None 4096 {| notify := 9000; hard := 10000 |} in
  let cfg_rx := peer_rx_config cfg_tx (reordering_ms 50) {| notify := 9000; hard := 10000 |} in
  let e_tx := tx_entity_at 5000 5000 5000 in
  let e_rx := rx_entity_at 5000 5000 5000 in
  let e1 := pdcp_entity_rx.handle_pdu prims cfg_rx e_rx [131; 136; 7; 8] in
  let e2 := pdcp_entity_rx.handle_pdu prims cfg_rx e1 [131; 136; 7; 8] in
  data_pdu_for prims cfg_tx e_tx 5000 [7; 8] = [131; 136; 7; 8]
  /\ rx_sdus (pdcp_entity_rx.out e2) = [[7; 8]]
  /\ pdcp_entity_rx.st e2 = pdcp_entity_rx.st e1
  /\ pdcp_entity_rx.num_dropped_pdus (pdcp_entity_rx.metrics e2) = 0.
Proof.
  intros prims cfg_tx cfg_rx e_tx e_rx e1 e2.
  destruct (constant_mac_primitives_ok [1; 2; 3; 4] eq_refl) as [Hmac Hciph].
  destruct (replayed_pdu_is_discarded prims cfg_tx cfg_rx e_tx e_rx 5000 [7; 8]
              (bearer_match_peer cfg_tx _ _) Hmac Hciph)
    as (Hsdus & Hst & _);
    [reflexivity|discriminate|reflexivity|reflexivity|reflexivity|reflexivity
    |lia|lia|cbn; lia|].
  split; [reflexivity|]. split; [exact Hsdus|]. split; [exact Hst|].
  vm_compute. reflexivity.
Defined.

(** ** A status report from the receiver to the transmitter *)

Section status_round_trip.
Variable cfg_tx : pdcp_entity_tx.pdcp_tx_config.
Variable cfg_rx : pdcp_entity_rx.pdcp_rx_config.

Lemma compile_status_report_fields (e : pdcp_entity_rx.entity) :
  is_u32 (pdcp_entity_rx.rx_deliv (pdcp_entity_rx.st e)) ->
  is_u32 (pdcp_entity_rx.rx_next (pdcp_entity_rx.st e)) ->
  let fmc := pdcp_entity_rx.rx_deliv (pdcp_entity_rx.st e) in
  let nbits := status_bitmap_length fmc (pdcp_entity_rx.rx_next (pdcp_entity_rx.st e)) in
  let bitmap :=
    map (fun i => has_sn (pdcp_entity_rx.window_size cfg_rx) (pdcp_entity_rx.rx_window e)
                    (u32 (fmc + 1 + i)))
      (seqZ 0 nbits) in
  let padding := replicate ((8 - length bitmap mod 8) mod 8) false in
  status_report_fields (pdcp_entity_rx.compile_status_report cfg_rx e) fmc (bitmap ++ padding).
Proof.
  intros Hd Hn fmc nbits bitmap padding. split; [exact Hd|].
  unfold pdcp_entity_rx.compile_status_report.
  rewrite (status_bitmap_counts cfg_rx e Hd Hn). fold fmc nbits bitmap.
  rewrite bytes_to_bits_to_bytes.
  rewrite !length_app, !length_bits_of.
  replace (1 + (3 + (4 + (32 + length bitmap))))%nat with (length bitmap + 5 * 8)%nat by lia.
  rewrite Nat.Div0.mod_add. fold padding.
  rewrite <- !app_assoc. reflexivity.
Qed.

(** The COUNTs that the bitmap of a compiled status report acknowledges. *)
Lemma compiled_bitmap_lookup (e : pdcp_entity_rx.entity) (i : nat) :
  is_u32 (pdcp_entity_rx.rx_deliv (pdcp_entity_rx.st e) + 1) ->
  is_u32 (pdcp_entity_rx.rx_next (pdcp_entity_rx.st e)) ->
  let fmc := pdcp_entity_rx.rx_deliv (pdcp_entity_rx.st e) in
  let nbits := status_bitmap_length fmc (pdcp_entity_rx.rx_next (pdcp_entity_rx.st e)) in
  let bitmap :=
    map (fun i => has_sn (pdcp_entity_rx.window_size cfg_rx) (pdcp_entity_rx.rx_window e)
                    (u32 (fmc + 1 + i)))
      (seqZ 0 nbits) in
  let padding := replicate ((8 - length bitmap mod 8) mod 8) false in
  (bitmap ++ padding) !! i = Some true
  <-> Z.of_nat i < nbits
      /\ has_sn (pdcp_entity_rx.window_size cfg_rx) (pdcp_entity_rx.rx_window e)
           (fmc + 1 + Z.of_nat i) = true.
Proof.
  intros Hd Hn fmc nbits bitmap padding.
  assert (0 <= nbits /\ fmc + 1 + nbits <= 2 ^ 32) as [Hnb Hend].
  { subst nbits. unfold status_bitmap_length.
    destruct (Z.ltb_spec (u32 (fmc + 1)) (pdcp_entity_rx.rx_next (pdcp_entity_rx.st e)))
      as [Hlt|Hge]; [|unfold is_u32 in *; lia].
    change ((pdcp_control_pdu_max_size - 5) * 8) with 71960.
    unfold is_u32 in *.
    assert (u32 (fmc + 1) = fmc + 1) as Hu by (apply u32_small; lia).
    rewrite Hu in *. lia. }
  assert (length bitmap = Z.to_nat nbits) as Hlen
      by (subst bitmap; rewrite length_map, length_seqZ; reflexivity).
  destruct (Nat.lt_ge_cases i (length bitmap)) as [Hin|Hout].
  - rewrite lookup_app_l by exact Hin. subst bitmap.
    change (map ?f ?l) with (f <$> l). rewrite list_lookup_fmap.
    rewrite lookup_seqZ_lt by lia. cbn [fmap option_fmap option_map].
    rewrite Z.add_0_l, (u32_small (fmc + 1 + Z.of_nat i)) by (unfold is_u32 in *; lia).
    split.
    + intros [= Hb]. split; [lia|exact Hb].
    + intros [_ Hb]. rewrite Hb. reflexivity.
  - rewrite lookup_app_r by exact Hout. split.
    + intros Hp. apply lookup_replicate in Hp as [Hp _]. discriminate.
    + intros [Hi _]. lia.
Qed.

End status_round_trip.

(** ** The bits of a compiled status report and the stored COUNTs *)

Section rx_status_bits.
Import pdcp_entity_rx.
Variable cfg : pdcp_rx_config.





End rx_status_bits.





(** X28: the status report that [compile_status_report] of a receiver
    builds, handled by [handle_status_report] of a transmitter, releases
    what the receiver has and keeps what it misses.  Every SDU with a
    COUNT below the RX_DELIV of the receiver is gone from the TX window;
    so is every SDU above RX_DELIV, within the reach of the bitmap, whose
    slot the receiver has occupied; the SDU at RX_DELIV itself, the SDUs
    whose slot the receiver has free, and the SDUs beyond the bitmap stay
    stored for retransmission.  RX_DELIV is below the last [uint32_t]
    value, so that the first COUNT of the bitmap does not wrap. *)
Theorem compiled_status_report_releases_received
        (cfg_tx : pdcp_entity_tx.pdcp_tx_config) (cfg_rx : pdcp_entity_rx.pdcp_rx_config)
        (e_tx : pdcp_entity_tx.entity) (e_rx : pdcp_entity_rx.entity) :
  tx_window_consistent cfg_tx e_tx ->
  0 <= pdcp_entity_rx.rx_deliv (pdcp_entity_rx.st e_rx) ->
  pdcp_entity_rx.rx_deliv (pdcp_entity_rx.st e_rx) + 1 < 2 ^ 32 ->
  is_u32 (pdcp_entity_rx.rx_next (pdcp_entity_rx.st e_rx)) ->
  let fmc := pdcp_entity_rx.rx_deliv (pdcp_entity_rx.st e_rx) in
  let nbits := status_bitmap_length fmc (pdcp_entity_rx.rx_next (pdcp_entity_rx.st e_rx)) in
  let received :=
    has_sn (pdcp_entity_rx.window_size cfg_rx) (pdcp_entity_rx.rx_window e_rx) in
  let e' := pdcp_entity_tx.handle_status_report cfg_tx true e_tx
              (pdcp_entity_rx.compile_status_report cfg_rx e_rx) in
  (forall c, c < fmc -> tx_entry cfg_tx e' c = None)
  /\ (forall c, fmc < c <= fmc + nbits -> received c = true -> tx_entry cfg_tx e' c = None)
  /\ (forall c, fmc <= c -> c = fmc \/ received c = false \/ fmc + nbits < c ->
                tx_entry cfg_tx e' c = tx_entry cfg_tx e_tx c)
  /\ pdcp_entity_tx.tx_next (pdcp_entity_tx.st e')
     = pdcp_entity_tx.tx_next (pdcp_entity_tx.st e_tx)
  /\ tx_window_consistent cfg_tx e'.
Proof.
  intros Hcons H0 H1 Hn fmc nbits received e'.
  assert (is_u32 fmc) as Hd by (unfold is_u32; subst fmc; lia).
  assert (is_u32 (fmc + 1)) as Hd1 by (unfold is_u32; subst fmc; lia).
  pose proof (compile_status_report_fields cfg_rx e_rx Hd Hn) as Hfields.
  cbv zeta in Hfields. fold fmc nbits in Hfields.
  set (bits := _ ++ _) in Hfields.
  assert (forall i : nat, bits !! i = Some true
                          <-> Z.of_nat i < nbits /\ received (fmc + 1 + Z.of_nat i) = true)
    as Hbits by (intros i; exact (compiled_bitmap_lookup cfg_rx e_rx i Hd1 Hn)).
  clearbody bits.
  assert (0 <= nbits /\ fmc + 1 + nbits <= 2 ^ 32) as [Hnb Hend].
  { subst nbits. unfold status_bitmap_length.
    assert (u32 (fmc + 1) = fmc + 1) as Hu by (apply u32_small; exact Hd1).
    rewrite Hu. unfold is_u32 in *.
    change ((pdcp_control_pdu_max_size - 5) * 8) with 71960.
    destruct (Z.ltb_spec (fmc + 1) (pdcp_entity_rx.rx_next (pdcp_entity_rx.st e_rx))); lia. }
  subst e'. rewrite (handle_status_report_fold cfg_tx e_tx _ fmc bits Hfields).
  set (ack := pdcp_entity_tx.tx_next_ack (pdcp_entity_tx.st e_tx)).
  destruct (fold_discard_pdu_consistent cfg_tx
              (seqZ ack (fmc - ack) ++ bitmap_counts fmc bits) e_tx Hcons)
    as (Hcons' & Hnext & Hent & _ & _).
  split; [|split; [|split; [|split; [exact Hnext|exact Hcons']]]].
  - intros c Hc. rewrite Hent.
    destruct (decide (c ∈ seqZ ack (fmc - ack) ++ bitmap_counts fmc bits)) as [|Hnot];
      [reflexivity|].
    apply (tx_entry_None_outside cfg_tx e_tx c Hcons). fold ack. intros Hin.
    apply Hnot, elem_of_app. left. apply elem_of_seqZ. lia.
  - intros c Hc Hrec. rewrite Hent, decide_True; [reflexivity|].
    apply elem_of_app. right. apply elem_of_bitmap_counts.
    exists (Z.to_nat (c - fmc - 1)). rewrite Hbits.
    replace (fmc + 1 + Z.of_nat (Z.to_nat (c - fmc - 1))) with c by lia.
    split; [split; [lia|exact Hrec]|]. symmetry. apply u32_small. unfold is_u32 in *. lia.
  - intros c Hc Hkeep. rewrite Hent, decide_False; [reflexivity|].
    intros Hin. apply elem_of_app in Hin as [Hin|Hin].
    + apply elem_of_seqZ in Hin. lia.
    + apply elem_of_bitmap_counts in Hin as (i & Hi & Hci).
      apply Hbits in Hi as [Hi Hrec].
      rewrite u32_small in Hci by (unfold is_u32 in *; lia). subst c.
      destruct Hkeep as [Heq|[Hfree|Hfar]]; [lia| |lia].
      rewrite Hrec in Hfree. discriminate.
Qed.

Lemma compiled_status_report_releases_received_witness :
  let cfg_tx := tx_config_example size12bits am (Some (discard_ms 100)) 4096
                  {| notify := 4294967295; hard := 4294967295 |} in
  let cfg_rx := peer_rx_config cfg_tx (reordering_ms 50)
                  {| notify := 4294967295; hard := 4294967295 |} in
  let e_tx := handle_sdus null_primitives cfg_tx (tx_entity_init null_security)
                (with_buffers_ok [[10]; [11]; [12]; [13]; [14]]) in
  let pdus := tx_pdus (pdcp_entity_tx.out e_tx) in
  let e_rx := fold_left (pdcp_entity_rx.handle_pdu null_primitives cfg_rx)
                (omap (fun i => pdus !! i) [0; 1; 3]%nat) (rx_entity_init null_security) in
  let report := pdcp_entity_rx.compile_status_report cfg_rx e_rx in
  let e' := pdcp_entity_tx.handle_status_report cfg_tx true e_tx report in
  tx_window_consistent cfg_tx e_tx
  /\ report = [0; 0; 0; 0; 2; 128]
  /\ tx_entry cfg_tx e' 0 = None
  /\ tx_entry cfg_tx e' 1 = None
  /\ tx_entry cfg_tx e' 2 = tx_entry cfg_tx e_tx 2
  /\ tx_entry cfg_tx e_tx 2 <> None
  /\ tx_entry cfg_tx e' 3 = None
  /\ tx_entry cfg_tx e' 4 = tx_entry cfg_tx e_tx 4.
Proof.
  intros cfg_tx cfg_rx e_tx pdus e_rx report e'.
  assert (tx_window_consistent cfg_tx e_tx) as Hcons.
  { split; [|split; [|split]].
    - vm_compute. repeat split; discriminate.
    - vm_compute. discriminate.
    - apply (bool_decide_unpack _). vm_compute. exact I.
    - discriminate. }
  assert (pdcp_entity_rx.rx_deliv (pdcp_entity_rx.st e_rx) = 2) as Hd
      by (vm_compute; reflexivity).
  assert (pdcp_entity_rx.rx_next (pdcp_entity_rx.st e_rx) = 4) as Hn
      by (vm_compute; reflexivity).
  destruct (compiled_status_report_releases_received cfg_tx cfg_rx e_tx e_rx Hcons)
    as (Hlow & Hrec & Hkeep & _).
  - rewrite Hd. lia.
  - rewrite Hd. lia.
  - rewrite Hn. unfold is_u32. lia.
  - rewrite Hd, Hn in Hrec, Hkeep. rewrite Hd in Hlow.
    change (status_bitmap_length 2 4) with 1 in Hrec, Hkeep.
    split; [exact Hcons|]. split; [vm_compute; reflexivity|].
    split; [apply Hlow; lia|]. split; [apply Hlow; lia|].
    split; [apply Hkeep; [lia|left; reflexivity]|].
    split; [vm_compute; discriminate|].
    split; [apply Hrec; [lia|vm_compute; reflexivity]|].
    apply Hkeep; [lia|right; right; lia].
Defined.

(** ** Transmitter: the log and the metrics *)

Section tx_log.
Import pdcp_entity_tx.
Variable prims : security_primitives.
Variable cfg : pdcp_tx_config.

Lemma tx_count_app p (l1 l2 : list tx_event) :
  tx_count p (l1 ++ l2) = (tx_count p l1 + tx_count p l2)%nat.
Proof. unfold tx_count. rewrite List.filter_app, length_app. reflexivity. Qed.

Lemma tx_log_step_refl (e : entity) : tx_log_step e e.
Proof.
  exists []. rewrite app_nil_r, flag_raised_same. cbn. rewrite !Z.add_0_r.
  repeat split; auto.
Qed.

Lemma tx_log_step_trans (e1 e2 e3 : entity) :
  tx_log_step e1 e2 -> tx_log_step e2 e3 -> tx_log_step e1 e3.
Proof.
  intros (n1 & A1 & A2 & A3 & A4 & A5 & A6) (n2 & B1 & B2 & B3 & B4 & B5 & B6).
  exists (n1 ++ n2). rewrite B1, A1, app_assoc, tx_count_app, A2, B2, B5, B6, A5, A6.
  rewrite tx_pdus_app, concat_app, !length_app.
  split; [reflexivity|]. split.
  { unfold flag_raised.
    destruct (max_count_notified e1), (max_count_notified e2), (max_count_notified e3);
      cbn; try reflexivity; try (specialize (A3 eq_refl); discriminate);
      try (specialize (B3 eq_refl); discriminate). }
  split; [auto|]. split; [auto|]. split; lia.
Qed.

Lemma tx_log_step_ok (e e' : entity) : tx_log_step e e' -> tx_log_ok e -> tx_log_ok e'.
Proof.
  intros (new & A1 & A2 & A3 & _ & A5 & A6) (B1 & B2 & B3).
  unfold tx_log_ok.
  rewrite A1, tx_count_app, A2, B1, A5, A6, B2, B3, tx_pdus_app, concat_app, !length_app.
  split; [|split; lia].
  unfold flag_raised. destruct (max_count_notified e), (max_count_notified e');
    cbn; try reflexivity. specialize (A3 eq_refl). discriminate.
Qed.

(** A step that tells the lower layers to discard, or the upper layers of a
    protocol failure, and leaves the flags and the PDU counters alone. *)
Lemma tx_log_step_events (e e' : entity) (new : list tx_event) :
  out e' = out e ++ new ->
  (forall ev, ev ∈ new -> ev = on_protocol_failure \/ exists sn, ev = on_discard_pdu sn) ->
  max_count_notified e' = max_count_notified e ->
  (max_count_overflow e = true -> max_count_overflow e' = true) ->
  num_pdus (metrics e') = num_pdus (metrics e) ->
  num_pdu_bytes (metrics e') = num_pdu_bytes (metrics e) ->
  tx_log_step e e'.
Proof.
  intros H1 Hnew H2 H3 H4 H5. exists new. rewrite H1, H2, H4, H5, flag_raised_same.
  assert (tx_count is_tx_max_count_reached new = 0%nat /\ tx_pdus new = []) as [C1 C2].
  { clear H1. induction new as [|ev new IH]; [split; reflexivity|].
    destruct IH as [C1 C2]; [intros ev' Hev'; apply Hnew; right; exact Hev'|].
    unfold tx_count in *.
    destruct (Hnew ev) as [->|[sn ->]]; [left| |]; cbn; auto. }
  rewrite C1, C2. cbn. rewrite !Z.add_0_r. repeat split; auto.
Qed.

Lemma tx_log_step_frame (e e' : entity) :
  out e' = out e ->
  max_count_notified e' = max_count_notified e ->
  (max_count_overflow e = true -> max_count_overflow e' = true) ->
  num_pdus (metrics e') = num_pdus (metrics e) ->
  num_pdu_bytes (metrics e') = num_pdu_bytes (metrics e) ->
  tx_log_step e e'.
Proof.
  intros H1 H2 H3 H4 H5. apply (tx_log_step_events e e' []); auto.
  - rewrite app_nil_r. exact H1.
  - intros ev Hev. inversion Hev.
Qed.

Lemma tx_log_step_emit (e : entity) (ev : tx_event) :
  ev = on_protocol_failure \/ (exists sn, ev = on_discard_pdu sn) ->
  tx_log_step e (emit e ev).
Proof.
  intros Hev. apply (tx_log_step_events e (emit e ev) [ev]); auto.
  intros ev' Hev'. apply list_elem_of_singleton in Hev'. subst ev'. exact Hev.
Qed.

Lemma tx_log_step_pdu (e e' : entity) (buf : byte_buffer) (is_retx : bool) :
  out e' = out e ++ [on_new_pdu buf is_retx] ->
  max_count_notified e' = max_count_notified e ->
  max_count_overflow e' = max_count_overflow e ->
  num_pdus (metrics e') = num_pdus (metrics e) + 1 ->
  num_pdu_bytes (metrics e') = num_pdu_bytes (metrics e) + Z.of_nat (length buf) ->
  tx_log_step e e'.
Proof.
  intros H1 H2 H3 H4 H5. exists [on_new_pdu buf is_retx].
  rewrite H1, H2, H3, H4, H5, flag_raised_same. cbn. rewrite app_nil_r.
  repeat split; auto; lia.
Qed.

Lemma write_data_pdu_to_lower_layers_log (e : entity) (c : Z) (buf : byte_buffer)
      (is_retx : bool) :
  tx_log_step e (write_data_pdu_to_lower_layers e c buf is_retx).
Proof. apply (tx_log_step_pdu _ _ buf is_retx); reflexivity. Qed.

Lemma write_control_pdu_to_lower_layers_log (e : entity) (buf : byte_buffer) :
  tx_log_step e (write_control_pdu_to_lower_layers e buf).
Proof. apply (tx_log_step_pdu _ _ buf false); reflexivity. Qed.

Lemma discard_pdu_log (e : entity) (c : Z) : tx_log_step e (discard_pdu cfg e c).
Proof.
  unfold discard_pdu. destruct (negb _); [apply tx_log_step_refl|].
  destruct (_ || _); [apply tx_log_step_refl|].
  destruct (negb _); [apply tx_log_step_refl|].
  apply (tx_log_step_events _ _ [on_discard_pdu (SN (sn_size cfg) c)]); auto.
  intros ev Hev. apply list_elem_of_singleton in Hev. right. eauto.
Qed.

Lemma fold_discard_pdu_log (l : list Z) (e : entity) :
  tx_log_step e (fold_left (discard_pdu cfg) l e).
Proof.
  revert e. induction l as [|c l IH]; intros e; [apply tx_log_step_refl|].
  cbn [fold_left]. eapply tx_log_step_trans; [apply discard_pdu_log|apply IH].
Qed.

Lemma status_bitmap_loop_log (bits : list bool) (e : entity) (fmc : Z) :
  tx_log_step e (status_bitmap_loop cfg e fmc bits).
Proof.
  revert e fmc. induction bits as [|b bits IH]; intros e fmc; [apply tx_log_step_refl|].
  cbn [status_bitmap_loop]. eapply tx_log_step_trans; [|apply IH].
  destruct b; [apply discard_pdu_log|apply tx_log_step_refl].
Qed.

Lemma handle_status_report_log (ok : bool) (e : entity) (status : byte_buffer) :
  tx_log_step e (handle_status_report cfg ok e status).
Proof.
  unfold handle_status_report. destruct (negb ok); [apply tx_log_step_refl|].
  destruct (unpack 1 _) as [dc dec1]. destruct (negb _); [apply tx_log_step_refl|].
  destruct (unpack 3 _) as [cpt dec2]. destruct (negb _); [apply tx_log_step_refl|].
  destruct (unpack 4 _) as [res dec3]. destruct (negb _); [apply tx_log_step_refl|].
  destruct (unpack 32 _) as [fmc dec4].
  eapply tx_log_step_trans; [apply fold_discard_pdu_log|apply status_bitmap_loop_log].
Qed.

Lemma stop_discard_timer_log (e : entity) (highest : Z) :
  tx_log_step e (stop_discard_timer cfg e highest).
Proof.
  unfold stop_discard_timer. destruct (negb _); [apply tx_log_step_refl|].
  destruct (_ || _); [apply tx_log_step_refl|].
  destruct (stop_timers_loop _ _ _ _ _) as [w ack].
  apply tx_log_step_frame; auto.
Qed.

Lemma handle_transmit_notification_log (e : entity) (sn : Z) :
  tx_log_step e (handle_transmit_notification cfg e sn).
Proof.
  unfold handle_transmit_notification. destruct (_ <=? _); [apply tx_log_step_refl|].
  destruct (_ <? _); [apply tx_log_step_refl|].
  destruct (_ <=? _); [apply tx_log_step_refl|].
  destruct (negb _); [apply tx_log_step_frame; auto|].
  destruct (is_um cfg); [|apply tx_log_step_frame; auto].
  eapply tx_log_step_trans; [|apply stop_discard_timer_log].
  apply tx_log_step_frame; auto.
Qed.

Lemma handle_delivery_notification_log (e : entity) (sn : Z) :
  tx_log_step e (handle_delivery_notification cfg e sn).
Proof.
  unfold handle_delivery_notification. destruct (_ <=? _); [apply tx_log_step_refl|].
  destruct (_ <=? _); [apply tx_log_step_refl|].
  destruct (negb _); [apply tx_log_step_refl|].
  destruct (is_am cfg); [apply stop_discard_timer_log|apply tx_log_step_refl].
Qed.

Lemma discard_callback_log (e : entity) (c : Z) : tx_log_step e (discard_callback cfg e c).
Proof.
  unfold discard_callback. eapply tx_log_step_trans; [|apply discard_pdu_log].
  apply tx_log_step_frame; auto.
Qed.

Lemma retransmit_loop_log (env : Z -> buffer_env) (counts : list Z) (e : entity) :
  tx_log_step e (retransmit_loop prims cfg env counts e).
Proof.
  revert e. induction counts as [|c counts IH]; intros e; [apply tx_log_step_refl|].
  cbn [retransmit_loop]. destruct (window_at _ _ _) as [info|]; [|apply IH].
  destruct (negb _); [apply tx_log_step_emit; left; reflexivity|].
  destruct (write_data_pdu_header _ _ _ _) as [buf|];
    [|apply tx_log_step_emit; left; reflexivity].
  destruct (apply_ciphering_and_integrity_protection _ _ _ _ _ _) as [pdu|];
    [|apply tx_log_step_emit; left; reflexivity].
  eapply tx_log_step_trans; [apply write_data_pdu_to_lower_layers_log|apply IH].
Qed.

Lemma retransmit_all_pdus_log (env : Z -> buffer_env) (e : entity) :
  tx_log_step e (retransmit_all_pdus prims cfg env e).
Proof.
  unfold retransmit_all_pdus. destruct (negb _); [apply tx_log_step_refl|].
  destruct (negb _); [apply tx_log_step_refl|].
  eapply tx_log_step_trans; [|apply retransmit_loop_log].
  apply tx_log_step_frame; auto.
Qed.

Lemma notify_max_count_log (e : entity) : tx_log_step e (notify_max_count cfg e).
Proof.
  unfold notify_max_count.
  destruct (_ <=? _); cbn [andb]; [|apply tx_log_step_refl].
  destruct (max_count_notified e) eqn:Hn; cbn [negb]; [apply tx_log_step_refl|].
  exists [on_max_count_reached]. cbn. rewrite Hn. cbn. rewrite !Z.add_0_r.
  repeat split; auto.
Qed.

Lemma store_in_tx_window_log (e : entity) (sdu_copy : byte_buffer) :
  tx_log_step e (store_in_tx_window cfg e sdu_copy).
Proof.
  unfold store_in_tx_window. destruct (discard_timer cfg) as [d|]; [|apply tx_log_step_refl].
  set (e1 := match window_at _ _ _ with Some old => _ | None => e end).
  assert (tx_log_step e e1) as H1
      by (subst e1; destruct (window_at _ _ _); [apply discard_pdu_log|apply tx_log_step_refl]).
  clearbody e1. eapply tx_log_step_trans; [exact H1|]. apply tx_log_step_frame; auto.
Qed.

Lemma transmit_sdu_log (env : buffer_env) (e : entity) (buf : byte_buffer) :
  tx_log_step e (transmit_sdu prims cfg env e buf).
Proof.
  unfold transmit_sdu.
  destruct (_ && _ && negb _); [apply tx_log_step_emit; left; reflexivity|].
  destruct (write_data_pdu_header _ _ _ _) as [hdr|];
    [|apply tx_log_step_emit; left; reflexivity].
  destruct (apply_ciphering_and_integrity_protection _ _ _ _ _ _) as [pdu|];
    [|apply tx_log_step_emit; left; reflexivity].
  eapply tx_log_step_trans; [apply store_in_tx_window_log|].
  eapply tx_log_step_trans; [apply write_data_pdu_to_lower_layers_log|].
  apply tx_log_step_frame; auto.
Qed.

Lemma handle_sdu_log (env : buffer_env) (e : entity) (buf : byte_buffer) :
  tx_log_step e (handle_sdu prims cfg env e buf).
Proof.
  unfold handle_sdu. destruct (_ <? _); [apply tx_log_step_refl|].
  destruct (_ <=? _); [apply tx_log_step_refl|].
  destruct (_ <=? _); [apply tx_log_step_refl|].
  set (e1 := metrics_add_sdus e 1 _).
  assert (tx_log_step e e1) as H1 by (apply tx_log_step_frame; auto).
  clearbody e1. eapply tx_log_step_trans; [exact H1|].
  destruct (_ <=? _).
  - destruct (negb _); [|apply tx_log_step_refl].
    apply (tx_log_step_events _ _ [on_protocol_failure]); auto.
    intros ev Hev. apply list_elem_of_singleton in Hev. left. exact Hev.
  - eapply tx_log_step_trans; [apply notify_max_count_log|apply transmit_sdu_log].
Qed.

Lemma reset_log (e : entity) : tx_log_step e (reset e).
Proof. apply tx_log_step_frame; auto. Qed.

Lemma configure_security_log (e : entity) (sec_cfg_ : sec_128_as_config) :
  tx_log_step e (configure_security e sec_cfg_).
Proof. apply tx_log_step_frame; auto. Qed.

Lemma reestablish_log (env : Z -> buffer_env) (e : entity) (sec_cfg_ : sec_128_as_config) :
  tx_log_step e (reestablish prims cfg env e sec_cfg_).
Proof.
  unfold reestablish.
  set (e1 := if is_srb cfg || is_um cfg then reset e else e).
  assert (tx_log_step e e1) as H1
      by (subst e1; destruct (_ || _); [apply reset_log|apply tx_log_step_refl]).
  clearbody e1. eapply tx_log_step_trans; [exact H1|].
  eapply tx_log_step_trans; [apply configure_security_log|].
  destruct (is_am cfg); [apply retransmit_all_pdus_log|apply tx_log_step_refl].
Qed.

Lemma send_status_report_log (report : byte_buffer) (e : entity) :
  tx_log_step e (send_status_report cfg report e).
Proof.
  unfold send_status_report.
  destruct (status_report_required cfg);
    [apply write_control_pdu_to_lower_layers_log|apply tx_log_step_refl].
Qed.

Lemma data_recovery_log (report : byte_buffer) (env : Z -> buffer_env) (e : entity) :
  tx_log_step e (data_recovery prims cfg report env e).
Proof.
  unfold data_recovery.
  eapply tx_log_step_trans; [|apply retransmit_all_pdus_log].
  destruct (status_report_required cfg);
    [apply send_status_report_log|apply tx_log_step_refl].
Qed.

Lemma tx_operation_log (e e' : entity) : tx_operation prims cfg e e' -> tx_log_step e e'.
Proof.
  intros [e0 e0' Hstep|env e0 sec_cfg_|report e0|report env e0].
  - destruct Hstep.
    + apply handle_sdu_log.
    + apply handle_transmit_notification_log.
    + apply handle_delivery_notification_log.
    + apply handle_status_report_log.
    + apply discard_callback_log.
    + apply retransmit_all_pdus_log.
    + apply reset_log.
  - apply reestablish_log.
  - apply send_status_report_log.
  - apply data_recovery_log.
Qed.

Lemma tx_run_log_ok_aux (e : entity) : tx_run prims cfg e -> tx_log_ok e.
Proof.
  induction 1 as [sc|e e' _ IH Hop]; [repeat split|].
  exact (tx_log_step_ok e e' (tx_operation_log e e' Hop) IH).
Qed.

End tx_log.

(** X29: in every state that the transmitter reaches from its creation by
    its public operations, whatever the outcome of the buffer operations,
    the log agrees with the flag and the metrics.  [on_max_count_reached]
    was raised exactly once if the flag of the one-shot is set and never
    otherwise, also across resets and re-establishments, which do not
    re-arm it; and the PDU counter and the PDU byte counter are the number
    and the total length of the PDUs handed to the lower layers: first
    transmissions, retransmissions and status reports alike. *)
Theorem tx_log_agrees_with_flag_and_metrics
        (prims : security_primitives) (cfg : pdcp_entity_tx.pdcp_tx_config)
        (e : pdcp_entity_tx.entity) :
  tx_run prims cfg e -> tx_log_ok e.
Proof. exact (tx_run_log_ok_aux prims cfg e). Qed.

Lemma tx_log_agrees_with_flag_and_metrics_witness :
  let cfg := tx_config_example size12bits am (Some (discard_ms 100)) 4096
               {| notify := 1; hard := 1000 |} in
  let e1 := pdcp_entity_tx.handle_sdu null_primitives cfg buffers_ok
              (tx_entity_init null_security) [10] in
  let e2 := pdcp_entity_tx.handle_sdu null_primitives cfg buffers_ok e1 [11; 12] in
  let e3 := pdcp_entity_tx.data_recovery null_primitives cfg [0; 0; 0; 0; 0]
              all_buffers_ok e2 in
  let e4 := pdcp_entity_tx.reset e3 in
  let e5 := pdcp_entity_tx.handle_sdu null_primitives cfg buffers_ok e4 [13] in
  pdcp_entity_tx.out e5
  = [pdcp_entity_tx.on_new_pdu [128; 0; 10] false;
     pdcp_entity_tx.on_max_count_reached;
     pdcp_entity_tx.on_new_pdu [128; 1; 11; 12] false;
     pdcp_entity_tx.on_new_pdu [128; 0; 10] true;
     pdcp_entity_tx.on_new_pdu [128; 1; 11; 12] true;
     pdcp_entity_tx.on_new_pdu [128; 0; 13] false]
  /\ pdcp_entity_tx.num_pdus (pdcp_entity_tx.metrics e5) = 5
  /\ pdcp_entity_tx.num_pdu_bytes (pdcp_entity_tx.metrics e5) = 17
  /\ tx_log_ok e5.
Proof.
  intros cfg e1 e2 e3 e4 e5.
  split; [vm_compute; reflexivity|]. split; [vm_compute; reflexivity|].
  split; [vm_compute; reflexivity|].
  apply (tx_log_agrees_with_flag_and_metrics null_primitives cfg e5).
  assert (tx_run null_primitives cfg e2) as Hrun2.
  { eapply tx_run_step; [eapply tx_run_step; [apply tx_run_init|]|];
      apply tx_operation_step, tx_step_sdu. }
  assert (tx_run null_primitives cfg e3) as Hrun3
      by (eapply tx_run_step; [exact Hrun2|apply tx_operation_data_recovery]).
  assert (tx_run null_primitives cfg e4) as Hrun4
      by (eapply tx_run_step; [exact Hrun3|apply tx_operation_step, tx_step_reset]).
  eapply tx_run_step; [exact Hrun4|apply tx_operation_step, tx_step_sdu].
Defined.

(** ** Receiver: the hard COUNT limit *)

(** X30: the receiver refuses every data PDU whose COUNT, as it resolves
    it, has reached the hard limit.  The PDU is neither deciphered nor
    stored nor delivered, and it is not counted as dropped: the counters,
    the window, the timer and the metrics stay as they are.  The upper
    layers get [on_protocol_failure] the first time only, after the
    one-shot [on_max_count_reached] if that is still due, which it is
    only for a COUNT strictly above the notification threshold. *)
Theorem rx_refuses_pdu_at_hard_limit
        (prims : security_primitives) (cfg : pdcp_entity_rx.pdcp_rx_config)
        (e : pdcp_entity_rx.entity) (pdu : byte_buffer) (sn : Z) :
  pdcp_entity_rx.hdr_len_bytes cfg < Z.of_nat (length pdu) ->
  pdcp_entity_rx.read_data_pdu_header cfg pdu = Some sn ->
  hard (pdcp_entity_rx.max_count cfg) <= pdcp_entity_rx.calc_rcvd_count cfg e sn ->
  let c := pdcp_entity_rx.calc_rcvd_count cfg e sn in
  let e' := pdcp_entity_rx.handle_data_pdu prims cfg e pdu in
  pdcp_entity_rx.out e'
  = pdcp_entity_rx.out e
    ++ (if (notify (pdcp_entity_rx.max_count cfg) <? c)
           && negb (pdcp_entity_rx.max_count_notified e)
        then [pdcp_entity_rx.on_max_count_reached] else [])
    ++ (if pdcp_entity_rx.max_count_overflow e then []
        else [pdcp_entity_rx.on_protocol_failure])
  /\ pdcp_entity_rx.max_count_overflow e' = true
  /\ pdcp_entity_rx.max_count_notified e'
     = pdcp_entity_rx.max_count_notified e
       || (notify (pdcp_entity_rx.max_count cfg) <? c)
  /\ pdcp_entity_rx.st e' = pdcp_entity_rx.st e
  /\ pdcp_entity_rx.rx_window e' = pdcp_entity_rx.rx_window e
  /\ pdcp_entity_rx.reordering_timer_running e' = pdcp_entity_rx.reordering_timer_running e
  /\ pdcp_entity_rx.metrics e' = pdcp_entity_rx.metrics e.
Proof.
  intros Hlen Hread Hhard c e'. subst e'. unfold pdcp_entity_rx.handle_data_pdu.
  destruct (Z.leb_spec (Z.of_nat (length pdu)) (pdcp_entity_rx.hdr_len_bytes cfg)); [lia|].
  rewrite Hread. fold c.
  destruct (Z.leb_spec (hard (pdcp_entity_rx.max_count cfg)) c); [|lia].
  destruct (notify (pdcp_entity_rx.max_count cfg) <? c);
    destruct (pdcp_entity_rx.max_count_notified e) eqn:Hn;
    destruct (pdcp_entity_rx.max_count_overflow e) eqn:Ho;
    cbn [andb negb orb pdcp_entity_rx.max_count_overflow pdcp_entity_rx.set_max_count_notified
         pdcp_entity_rx.set_max_count_overflow pdcp_entity_rx.emit pdcp_entity_rx.out
         pdcp_entity_rx.max_count_notified pdcp_entity_rx.st pdcp_entity_rx.rx_window
         pdcp_entity_rx.reordering_timer_running pdcp_entity_rx.metrics];
    rewrite ?Ho, ?Hn; cbn [negb app];
    cbn [pdcp_entity_rx.max_count_overflow pdcp_entity_rx.set_max_count_notified
         pdcp_entity_rx.set_max_count_overflow pdcp_entity_rx.emit pdcp_entity_rx.out
         pdcp_entity_rx.max_count_notified pdcp_entity_rx.st pdcp_entity_rx.rx_window
         pdcp_entity_rx.reordering_timer_running pdcp_entity_rx.metrics];
    rewrite <- ?app_assoc, ?app_nil_r; cbn [app]; repeat split; auto.
Qed.

Lemma rx_refuses_pdu_at_hard_limit_witness :
  let cfg := rx_config_example size12bits um (reordering_ms 50) {| notify := 3; hard := 3 |} in
  let e := rx_entity_init null_security in
  let e1 := pdcp_entity_rx.handle_data_pdu null_primitives cfg e [128; 3; 13] in
  let e2 := pdcp_entity_rx.handle_data_pdu null_primitives cfg e1 [128; 4; 14] in
  pdcp_entity_rx.out e1 = [pdcp_entity_rx.on_protocol_failure]
  /\ pdcp_entity_rx.max_count_notified e1 = false
  /\ pdcp_entity_rx.rx_window e1 = ∅
  /\ pdcp_entity_rx.num_dropped_pdus (pdcp_entity_rx.metrics e1) = 0
  /\ pdcp_entity_rx.out e2
     = [pdcp_entity_rx.on_protocol_failure; pdcp_entity_rx.on_max_count_reached].
Proof.
  intros cfg e e1 e2.
  destruct (rx_refuses_pdu_at_hard_limit null_primitives cfg e [128; 3; 13] 3)
    as (Hout & _ & Hn & _ & Hw & _ & Hm); [cbn; lia|reflexivity|vm_compute; discriminate|].
  fold e1 in Hout, Hn, Hw, Hm.
  assert (pdcp_entity_rx.out e1 = [pdcp_entity_rx.on_protocol_failure]) as Hout1
      by (rewrite Hout; reflexivity).
  split; [exact Hout1|]. split; [rewrite Hn; reflexivity|]. split; [exact Hw|].
  split; [rewrite Hm; reflexivity|].
  destruct (rx_refuses_pdu_at_hard_limit null_primitives cfg e1 [128; 4; 14] 4)
    as (Hout2 & _); [cbn; lia|reflexivity|vm_compute; discriminate|].
  fold e2 in Hout2. rewrite Hout2, Hout1. vm_compute. reflexivity.
Defined.
